(* ===== verification/_CoqProject ===== *)
-Q . S2P
Prelude.v
PyString.v
PyOs.v
PyFloat.v
PySet.v
Relation.v
PyCsv.v
CsvFormat.v
PyStr.v
Algebra.v
Fileread.v
Rows.v
Newonetest.v
Bounds.v
Typing.v
Script.v
Listing.v
Stdout.v
Cells.v
Files.v
Disk.v
Words.v
Syntax.v
Expr.v
Scenario.v
