(* ===== verification/Prelude.v ===== *)
(** * A verification development for the relational-algebra query engine

    The repository holds two versions of one small program, a Python class
    [SimpleDB] that loads CSV files as named relations, reads a file of
    relational-algebra queries (one per line), evaluates each line and
    writes the query text and the result rows to a CSV report.

    - [src/Project 1/Fileread.py]   the fuller version: selection with
      AND/OR condition lists, projection (also over a cross product),
      cross product, union with set de-duplication, difference over two
      recursively evaluated sub-queries, a dispatcher on the line's prefix.
    - [src/Project 1/newonetest.py] the other version: a dispatcher that
      looks for [U] and [-] anywhere in the line first, recursive union of
      sub-queries, selection and projection that return rows without the
      header, and a difference method the dispatcher cannot call.

    ** How the program is modelled

    Everything is a shallow embedding: each Python method is one Rocq
    function of the same name, its body translated statement by statement;
    a loop body or a branch that the theorems need by itself is a function
    of its own, named after the method it is part of.

    - Text.  A Python [str] is a [string]; characters are code points below
      256.  The string methods the sources call ([split] with a separator,
      with [maxsplit=1] and with no argument, [strip], [strip(chars)],
      [startswith], [endswith], [in], slicing) are defined in PyString.v
      by structural recursion, with the theory the methods need.
    - Exceptions.  A function that can raise returns [res A]: [Ok a] or
      [Raise e] with [e : exn] the exception.  [res] is a monad (stdpp's
      [MBind]/[MRet], so [x ← m; k] is sequencing); [try ... except
      Exception] is a match on the result.  ValueErrors raised by the
      source carry their exact message; exceptions raised by the
      interpreter keep their kind ([IndexError], [TypeError],
      [AttributeError] with the name of the missing method, [CsvError]
      with the message of the csv module; two ValueErrors of the
      interpreter have constructors of their own, [UnpackError] for a
      failed tuple unpacking and [FloatError] for [float] on a text that
      is no number: every handler of the sources is [except Exception]
      and treats them as any other exception;
      [OSError] with the number and text of the error and the path of
      the call); CPython's wording of them is part of the interface of
      PyStr.v.
    - Output.  A method that prints is a computation in the monad [out] of
      Stdout.v: the texts given to [print] so far, with the result.  An
      exception keeps the texts printed before it.  The f-strings are
      written out; [str] of an exception, of a result and of a list of
      tuples is an interface ([PyStr.StrOps]), and witnesses run on an
      instance that prints as CPython 3.11 does.
    - Recursion on query text.  [evaluate_query]/[difference] (Fileread)
      and [execute_query]/[union], [difference]/[process_single_query]
      (newonetest) call each other on sub-strings.  They are defined with
      a fuel argument and return [fueled A]: [Done r] or [OutOfFuel].  The
      termination theorems give the fuel that is enough and show that more
      fuel changes nothing: 2 for Fileread's [evaluate_query] and 1 for
      its [difference] (a sub-query of a difference is never evaluated
      further), more than the length of the query for newonetest's
      [execute_query] (each operand of a union is shorter than the
      query), and more precisely one more than the query has [U], which
      is the depth the calls reach; 1 for newonetest's [difference].
      Fuel is no limit of the program: the model has none, where
      CPython ends a recursion that is deeper than its recursion limit
      with RecursionError (see Not modelled).
    - Floats.  [float(s)] and the comparison of floats are an interface
      ([PyFloat.FloatOps]); every theorem is proved for an arbitrary
      implementation.  Witnesses run on a reference instance that reads
      plain decimal numerals exactly, as rationals.
    - Sets.  [list(set(xs))] and [list(set(xs) - set(ys))] return the
      elements in an unspecified order.  The order is an interface
      ([PySet.SetOrder]: some duplicate-free enumeration of the right
      elements); theorems hold for every order, witnesses run on the
      first-occurrence order.  An instance is the order of one process:
      CPython chooses the hashes of strings anew for every process, so
      two runs of a program are two instances (Rows.v, and the second
      run of Disk.v).
    - The store.  [self.relations] is a Python dict; the code iterates over
      its values ([get_attribute_index]), so insertion order is observable
      and the store is an association list with unique keys (Relation.v).
    - Files.  A file is its text, a directory the list of its files in
      the order of the listing.  Reading in text mode is the translation
      of CR and CR LF to LF; [csv.reader] is the state machine of the csv
      module of CPython 3.11 in its default dialect, one step per
      character and one at the end of each line, with the field limit of
      131072 characters; [csv.writer] quotes a field that has a comma, a
      quote or a line end and doubles its quotes (PyCsv.v).  The programs
      on text (Files.v) are the methods as they are written, with the
      reader, [readlines] and the writer where the code calls them; the
      other files work on the rows read and written, and Files.v proves
      that this loses nothing.  The reader is run on the whole text
      before the loader takes its first row, where the code reads the
      rows one by one: the rows and the exceptions are the same.  The
      report is the text of all its rows, written at once when the
      last line is processed, where the code opens the file then and
      writes row by row.
    - The operating system.  [os.listdir], [os.path.join] and [open]
      are an interface ([PyOs.OsOps]) on an abstract state, the file
      system: a listing, the text read from a file, the state after a
      file is written, and when two paths name one file.  What a run
      needs of the system is stated as laws ([PyOs.OsLaws]): a file
      reads back as written, the other files keep their text, writing a
      file that exists changes no listing, writing the same text again
      changes nothing.  The programs on a file system (Disk.v) are
      proved for every instance; witnesses run on a reference instance,
      a tree of directories and files with the errors of the system
      calls, which satisfies the laws.  The order of a listing is part
      of the state.

    ** Files

    - Prelude.v     this header; exceptions, the [res] and [fueled] monads,
                    list comprehensions that may raise, agreement of two
                    results up to the kind of error ([ok_of]), shared
                    tactics and the hint databases [py] and [pyrw].
    - PyString.v    the string methods and their theory.
    - PyOs.v        the interface of the operating system, its laws and
                    the reference file system.
    - PyFloat.v     the float interface and the decimal instance.
    - PySet.v       the set-order interface and the first-occurrence
                    instance.
    - Relation.v    rows, relations, the store, well-formedness, lookups,
                    the loader [load_relations] of both files, and the
                    small databases the witnesses run on.
    - PyCsv.v       text mode, the lines of a file, [csv.writer] and
                    [csv.reader]; the reader on a file opened in text
                    mode.
    - CsvFormat.v   the CSV format as three relations (the text of a
                    field, of a record, of a file); the reader reads
                    every text of the format, the writer writes one:
                    what is written is read back.
    - PyStr.v       [str] of exceptions, results and tuples as an
                    interface, and the CPython instance.
    - Algebra.v     the operators the specification promises (Select,
                    Project, CrossProduct, Union, Difference, the
                    condition parser), on relation values, with their
                    laws.  Modelled from the specification.
    - Fileread.v    [Module Fileread]: every method of Fileread.py and its
                    theorems.
    - Rows.v        relations up to the order of their rows: the
                    equivalence, the operators as morphisms, and the
                    results of Fileread.py under any two set orders.
    - Newonetest.v  [Module Newonetest]: every method of newonetest.py and
                    its theorems, the comparison with Fileread.py
                    included.
    - Bounds.v      the size of results and reports, and the indices into
                    rows that stay within the row.
    - Typing.v      the results of the two evaluators as relations of the
                    data model.
    - Script.v      the statements at the end of each file: the two
                    programs [fileread_main] and [newonetest_main] from
                    the directory and the query file to the report.
    - Listing.v     what the methods see of a store (the relation under
                    a name, the column of an attribute), the methods as
                    morphisms, and the programs on two listings of one
                    directory.
    - Stdout.v      [Module Stdout]: the methods of Fileread.py that
                    print, in an output monad, with the [print] calls in
                    their places; erasure to Fileread.v and Script.v.
    - Cells.v       the cells of a result are cells of the store: an
                    invariant of every operator, over any predicate on
                    cells.
    - Files.v       [Module Text]: the loader, the batch and the two
                    programs on the text of their files; refinement to
                    Script.v, the exceptions of the loader, the report
                    read back.
    - Disk.v        [Module Disk]: the loader, the batch and the two
                    programs on a file system, with the paths of the
                    sources; refinement to Files.v, how a run fails,
                    the report on the file system, a second run.
    - Words.v       the theory of [split()] and of [split] on joined
                    lists: the round trips of the parsers.
    - Syntax.v      the texts the methods are written for
                    ([SELE (R) {c}], [PROJ (R) {a, b}], [X (A * B)],
                    [U (A U B)]) as functions of their parts, the cutting
                    of operands and payloads, the dispatch on the prefix.
    - Expr.v        the query expressions of the specification, their
                    evaluator [eval] and their text; Fileread.py and
                    newonetest.py against [eval] on the expressions each
                    is written for.  Modelled from the specification.
    - Scenario.v    the end-to-end scenario of the specification, run on
                    both programs.

    ** What is proved

    - Loader (Relation.v): the relation a name maps to after loading, the
      preservation of well-formedness, the one way the loader fails.
    - Operators of Fileread.py: the cross product has the concatenated
      header and |A| * |B| rows, row [i * |B| + j] being row [i] of the
      left operand followed by row [j] of the right one; selection is a
      filter that keeps exactly the rows on which all conditions hold, OR
      included; projection has the requested header, one row per source
      row and the cells of the first column of each name; union has the
      rows of both operands without duplicates.
    - Refinement of the operators: projection is [project_op] (on a
      stored relation and on a cross product) and selection is
      [select_op], up to the kind of error ([ok_of]); for selection under
      the hypothesis that attributes resolve in the store as in the
      relation, which the code does not ensure: [get_attribute_index]
      gives the column of the attribute in the first relation of the
      store that has it, and [selection] compares that column in the
      rows of its own relation ([selection_foreign_column], with
      [selection_wrong_column] for an example); the body of
      [difference] is [diff_op] over any evaluator that returns the
      tables of the operands.
    - Refinement of the evaluator (Expr.v): on a flat expression (one
      operator over stored relations, or a projection over a product)
      the line with the text of the expression is recorded by Fileread.py
      with the table of the relation [eval] gives, and with no table when
      [eval] fails.  The texts of conditions and attribute lists come
      back from [parse_conditions], [split()], [strip("'")] and
      [split(',')] (Words.v, Expr.v).  newonetest.py returns the rows of
      the relation [eval] gives, without the header, on a selection by
      one predicate or a projection over a stored relation whose text has
      neither [U] nor [-].
    - The order of sets (Rows.v): relations with one header and the same
      rows form an equivalence that the operators respect; union is
      commutative, associative and idempotent up to it; selection and
      projection commute (Algebra.v).  Under any two orders of set
      iteration Fileread.py records the same entries, the table of a
      union up to a permutation of its rows; the batch of newonetest.py
      takes no set order.
    - The order of the listing (Listing.v): the methods of newonetest.py
      see a store through the relation under each name, those of
      Fileread.py also through the column [get_attribute_index] gives
      for each attribute, and are morphisms for these relations.  On
      two listings of one directory newonetest.py ends with the same
      report; Fileread.py does when every attribute has one column in
      the files that have it, and otherwise its answer can depend on
      the order in which the system lists the directory.  With two
      orders of the sets as well, as in two processes, the reports of
      Fileread.py have the same rows, those of unions in two orders.
    - Termination and error isolation: [evaluate_query] and
      [execute_query] are total with the fuel above, and a query of
      newonetest.py that returns rows nests one call of [execute_query]
      more than it has [U]; the batch loops give one entry per line, in
      order, whatever the lines are.
    - The programs (Script.v): when every CSV file has a first row, each
      program ends with a report that has the entry of every line of the
      query file, in order; they fail exactly when a CSV file is empty,
      before any query is read; from files whose rows are as long as
      their first row the loaded store and every table of the results are
      well formed.
    - The files (PyCsv.v, CsvFormat.v, Cells.v, Files.v): the reader on
      a file opened in text mode fails only on a field longer than the
      field limit and yields cells without CR; it reads every text of
      the CSV format as the rows it is the text of, so the loader stores
      under a name the table that the last file of that name is the text
      of; rows of cells without CR written by the writer are read back
      as they were.  No operator builds a cell: every cell
      of a report is a cell of a file or the stripped text of a query
      line.  Hence the programs on text end as the programs on rows do,
      the loader raises only StopIteration or the error of the field
      limit, and the report of either program, read again, gives the rows
      that were written, without any hypothesis on the cells.
    - The file system (PyOs.v, Disk.v): when the directory is listed and
      the files are read, a program on the file system is the program
      on text followed by one write; a run that fails has printed
      nothing and failed in the loader or on the query file, or has
      processed every query and failed to write the report; a run that
      ends leaves the report in the output file, where [csv.reader]
      reads the rows of the program on rows, and every other file as it
      was.  A second run is another process, with another order of
      its sets: when the output file exists and is neither the query
      file nor a CSV file of the directory, the second run of
      Fileread.py loads and reads what the first did and prints and
      writes the same entries, the rows of the table of every union in
      some order ([second_run_reorders] has two reports that differ);
      the second run of newonetest.py writes the report of the first.
    - The output (Stdout.v): the methods with their [print] calls return
      what the methods without return, with any fuel; the program prints,
      for the entries it records in turn, the lines of a difference (the
      message of the failed left operand, the operands with the result
      [None], the notice that a sub-query returned no results), then the
      query with its result or the query with the message of its
      exception.  The message of a failed query is printed and not
      written to the report.
    - Types (Typing.v): [evaluate_query] returns [None] or the table of a
      well-formed relation; the rows [execute_query] returns for a query
      without [U] have one length, and its union can mix lengths.
    - Bounds (Bounds.v): a table has at most [(m + 1)^2] rows, [m] the
      rows of the largest stored relation, and the report at most two
      more per line; on a well-formed store no [row[i]] of a projection
      (both versions) or of newonetest's selection leaves its row.
    - Operators of newonetest.py: selection and projection are the rows
      of [select_op] and [project_op] without the header; union appends
      the new rows of the right operand to the left one, and is the
      Union of the specification up to the order of rows exactly when
      that leaves no row twice; the two versions agree on projections
      and on single-condition selections up to the header.
    - What the code cannot do, each a theorem: Fileread's difference never
      returns a table; the methods [join], [naturaljoin], [AND] and [OR]
      do not exist; the text of an exception is not written to the
      report; a selection can read a column of another relation, or
      beyond the row; newonetest raises TypeError on every line with [-],
      AttributeError on every cross product, treats a [U] anywhere as a
      union and compares no headers in it; its [difference] takes a data
      row for a header; nested expressions fail in both (Scenario.v).

    ** Not modelled

    The operating system beyond the interface of PyOs.v: the bytes of
    a file and their decoding into text, links, permissions, limits on
    the length of names, other processes, and the path conventions of
    Windows, for which the paths of the sources are written (the
    reference file system resolves paths as POSIX does, without [..]).
    The traceback that the interpreter prints for an exception that
    ends a run.  The limits of the interpreter: memory, and the
    recursion limit.  [execute_query] of newonetest.py calls itself
    through [union] once for every [U] of a line
    ([execute_query_depth]), two frames each; with the limit of 1000
    frames that CPython starts with, a line with 497 or more [U] ends
    in RecursionError (CPython 3.11), which the loop of the batch
    records as the error of the line, where the model evaluates the
    union.  The theorems on newonetest.py describe the program on
    lines below that.  Fileread.py never nests more than two calls of
    [evaluate_query].  The csv module is modelled in the
    dialect the code uses (the default one); the field limit is the
    default of the module.  The standard output is the list of the texts
    given to [print], not the bytes written: the conversion of values to
    text is the interface of PyStr.v.  A parser from query text to
    expression tree: the sources have none, and the tree of Expr.v is
    related to the code through the text of an expression only.  Text
    outside Latin-1 and floats beyond plain decimal numerals are outside
    the reference instances (the theorems do not depend on them). *)

From stdpp Require Export base tactics option list sets strings.
From Stdlib Require Export Ascii.

Declare Scope py_scope.
Delimit Scope py_scope with py.

(** ** Exceptions *)

(** The exceptions the two sources can raise.  [ValueError] is the one the
    sources raise themselves, with its message; the others are raised by
    the interpreter. *)
Inductive exn : Type :=
| ValueError (msg : string)
| UnpackError (expected got : nat)
| FloatError (s : string)
| IndexError
| AttributeError (name : string)
| TypeError
| StopIteration
| CsvError (msg : string)
| OSError (errno : nat) (strerror filename : string).

#[export] Instance exn_eq_dec : EqDecision exn.
Proof. solve_decision. Defined.

(** ** The exception monad *)

(** A computation that returns a value or raises an error of type [E].
    [res] is the instance for Python's exceptions; the specification's
    operators use the same monad with their own error kinds. *)
Inductive result (E A : Type) : Type :=
| Ok (a : A)
| Raise (e : E).
Arguments Ok {E A} a.
Arguments Raise {E A} e.

Abbreviation res := (result exn).

#[export] Instance result_eq_dec `{EqDecision E, EqDecision A} :
  EqDecision (result E A).
Proof. solve_decision. Defined.

#[export] Instance result_ret {E} : MRet (result E) := λ A, Ok.
#[export] Instance result_bind {E} : MBind (result E) := λ A B f m,
  match m with Ok a => f a | Raise e => Raise e end.
#[export] Instance result_fmap {E} : FMap (result E) := λ A B f m,
  match m with Ok a => Ok (f a) | Raise e => Raise e end.

(** [o ?! e]: the value of [o], or raise [e]. *)
Definition or_raise {E A} (o : option A) (e : E) : result E A :=
  match o with Some a => Ok a | None => Raise e end.
Notation "o ?! e" := (or_raise o e) (at level 50, no associativity) : py_scope.

(** [is_ok m]: the computation returns. *)
Definition is_ok {E A} (m : result E A) : bool :=
  match m with Ok _ => true | Raise _ => false end.

(** The value of a computation, whatever error it may raise otherwise.
    Two computations with different error types agree on success when
    their [ok_of] are equal. *)
Definition ok_of {E A} (m : result E A) : option A :=
  match m with Ok a => Some a | Raise _ => None end.

(** ** Recursion with fuel *)

Inductive fueled (A : Type) : Type :=
| Done (r : res A)
| OutOfFuel.
Arguments Done {A} r.
Arguments OutOfFuel {A}.

#[export] Instance fueled_ret : MRet fueled := λ A a, Done (Ok a).
#[export] Instance fueled_bind : MBind fueled := λ A B f m,
  match m with
  | Done (Ok a) => f a
  | Done (Raise e) => Done (Raise e)
  | OutOfFuel => OutOfFuel
  end.

(** [try: m except Exception: return v]. *)
Definition try_except {A} (m : fueled A) (v : A) : fueled A :=
  match m with
  | Done (Raise _) => Done (Ok v)
  | _ => m
  end.

Definition is_done {A} (m : fueled A) : bool :=
  match m with Done _ => true | OutOfFuel => false end.

(** ** List comprehensions whose body may raise *)

(** [[x for x in l if p(x)]]: [p] runs on the elements in order, the first
    exception ends the comprehension. *)
Fixpoint filter_res {E A} (p : A → result E bool) (l : list A)
    : result E (list A) :=
  match l with
  | [] => Ok []
  | x :: l' =>
      b ← p x; r ← filter_res p l'; Ok (if b : bool then x :: r else r)
  end.

(** [[f(x) for x in l]]. *)
Fixpoint map_res {E A B} (f : A → result E B) (l : list A)
    : result E (list B) :=
  match l with
  | [] => Ok []
  | x :: l' => y ← f x; r ← map_res f l'; Ok (y :: r)
  end.

(** [xs[i]] for a non-negative index. *)
Definition getitem {A} (l : list A) (i : nat) : res A :=
  (l !! i ?! IndexError)%py.

(** [xs.index(x)]: the position of the first [x]. *)
Fixpoint index_of `{EqDecision A} (x : A) (l : list A) : option nat :=
  match l with
  | [] => None
  | y :: l' => if decide (x = y) then Some 0 else S <$> index_of x l'
  end.

(** [x in xs]. *)
Definition contains_elem `{EqDecision A} (x : A) (l : list A) : bool :=
  bool_decide (x ∈ l).

(** ** Automation *)

Create HintDb py discriminated.
Create Rewrite HintDb pyrw.

(** Case analysis on the first bind of a hypothesis or of the goal. *)
Ltac res_case :=
  match goal with
  | H : context [mbind _ ?m] |- _ =>
      let E := fresh "E" in destruct m eqn:E; simpl in H
  | |- context [mbind _ ?m] =>
      let E := fresh "E" in destruct m eqn:E; simpl
  end.

Ltac res_inv := simpl in *; repeat (res_case; simplify_eq/=); simplify_eq/=.

(** ** Laws of the monads *)

Lemma res_bind_Ok {E A B} (m : result E A) (f : A → result E B) b :
  m ≫= f = Ok b ↔ ∃ a, m = Ok a ∧ f a = Ok b.
Proof. destruct m; simpl; naive_solver. Qed.

Lemma res_bind_Raise {E A B} (m : result E A) (f : A → result E B) e :
  m ≫= f = Raise e ↔ m = Raise e ∨ ∃ a, m = Ok a ∧ f a = Raise e.
Proof. destruct m; simpl; naive_solver. Qed.

Lemma or_raise_Ok {E A} (o : option A) (e : E) a :
  (o ?! e)%py = Ok a ↔ o = Some a.
Proof. destruct o; simpl; naive_solver. Qed.

Lemma or_raise_Raise {E A} (o : option A) (e e' : E) :
  (o ?! e)%py = Raise e' ↔ o = None ∧ e' = e.
Proof. destruct o; simpl; naive_solver. Qed.

Lemma try_except_done {A} (m : fueled A) v :
  is_done (try_except m v) = is_done m.
Proof. by destruct m as [[]|]. Qed.

Lemma try_except_never_raises {A} (m : fueled A) v e :
  try_except m v ≠ Done (Raise e).
Proof. by destruct m as [[]|]. Qed.

Lemma try_except_Ok {A} (m : fueled A) v :
  is_done m = true → ∃ v', try_except m v = Done (Ok v').
Proof. destruct m as [[]|]; naive_solver. Qed.

Lemma try_except_Done_inv {A} (m : fueled A) v v' :
  try_except m v = Done (Ok v') →
  m = Done (Ok v') ∨ (v' = v ∧ ∃ e, m = Done (Raise e)).
Proof. destruct m as [[]|]; naive_solver. Qed.

(** ** Comprehensions *)

Section comprehensions.
Context {E A B : Type}.
Implicit Types (l : list A).

(** A comprehension whose condition never raises is [filter]. *)
Lemma filter_res_ext (p q : A → result E bool) l :
  (∀ x, x ∈ l → p x = q x) → filter_res p l = filter_res q l.
Proof.
  induction l as [|x l IH]; intros Hp; [done|]. simpl.
  rewrite (Hp x), IH by set_solver. done.
Qed.

Lemma filter_res_pure (p : A → result E bool) (q : A → bool) l :
  (∀ x, x ∈ l → p x = Ok (q x)) →
  filter_res p l = Ok (filter q l).
Proof.
  induction l as [|x l IH]; intros Hp; [done|]. simpl.
  rewrite (Hp x), IH by set_solver. simpl.
  rewrite filter_cons. unfold Is_true. by destruct (q x); case_decide.
Qed.

(** The condition evaluated on every element of a successful run. *)
Lemma filter_res_Ok_total (p : A → result E bool) l r :
  filter_res p l = Ok r → ∀ x, x ∈ l → ∃ b, p x = Ok b.
Proof.
  revert r. induction l as [|x l IH]; intros r Hr y Hy; [by inversion Hy|].
  res_inv. apply elem_of_cons in Hy as [->|Hy]; eauto.
Qed.

(** A successful comprehension is the [filter] by the condition's value. *)
Lemma filter_res_Ok `{EqDecision E} (p : A → result E bool) l r :
  filter_res p l = Ok r →
  r = filter (λ x, p x = Ok true) l.
Proof.
  revert r. induction l as [|x l IH]; intros r Hr; [by simplify_eq/=|].
  res_inv. rewrite filter_cons. erewrite <-IH by done.
  destruct a; case_decide; congruence.
Qed.

(** The first element on which the condition raises decides the error. *)
Lemma filter_res_Raise (p : A → result E bool) l e :
  filter_res p l = Raise e ↔
  ∃ l1 x l2, l = l1 ++ x :: l2 ∧ p x = Raise e ∧
             ∀ y, y ∈ l1 → ∃ b, p y = Ok b.
Proof.
  induction l as [|x l IH]; simpl.
  { split; [done|]. intros (l1&?&?&Hl&_). by destruct l1. }
  destruct (p x) as [b|e'] eqn:Hx; simpl.
  - trans (filter_res p l = Raise e); [by destruct (filter_res p l)|].
    rewrite IH. split.
    + intros (l1&y&l2&->&Hy&Hl1). exists (x :: l1), y, l2.
      split_and!; [done..|]. intros z [->|?]%elem_of_cons; eauto.
    + intros ([|z l1]&y&l2&?&Hy&Hl1); simplify_eq/=; [congruence|].
      exists l1, y, l2. split_and!; [done..|].
      intros; apply Hl1; by right.
  - split.
    + intros [= ->]. exists [], x, l.
      split_and!; [done..|]. by intros ? ?%elem_of_nil.
    + intros ([|z l1]&y&l2&?&Hy&Hl1); simplify_eq/=; [congruence|].
      destruct (Hl1 z) as [? ?]; [by left|congruence].
Qed.

Lemma map_res_Ok (f : A → result E B) l k :
  map_res f l = Ok k ↔ Forall2 (λ x y, f x = Ok y) l k.
Proof.
  revert k. induction l as [|x l IH]; intros k; simpl.
  - split; [intros [= <-]; constructor|by inversion 1].
  - split.
    + intros H. res_inv. constructor; [done|]. by apply IH.
    + inversion 1 as [|???? Hx Hl]; simplify_eq. rewrite Hx. simpl.
      apply IH in Hl. by rewrite Hl.
Qed.

Lemma map_res_length (f : A → result E B) l k :
  map_res f l = Ok k → length k = length l.
Proof. intros H%map_res_Ok. symmetry. by eapply Forall2_length. Qed.

Lemma map_res_elem (f : A → result E B) l k y :
  map_res f l = Ok k → y ∈ k → ∃ x, x ∈ l ∧ f x = Ok y.
Proof.
  intros Hk%map_res_Ok. induction Hk as [|x y' l k Hx _ IH].
  - by intros ?%elem_of_nil.
  - intros [->|Hy]%elem_of_cons.
    + exists x. split; [left|done].
    + destruct (IH Hy) as (x'&?&?). exists x'. split; [by right|done].
Qed.

Lemma map_res_lookup (f : A → result E B) l k i x :
  map_res f l = Ok k → l !! i = Some x → ∃ y, k !! i = Some y ∧ f x = Ok y.
Proof. intros Hk%map_res_Ok Hi. by eapply Forall2_lookup_l in Hk. Qed.

(** The first element on which the body raises decides the error. *)
Lemma map_res_Raise (f : A → result E B) l1 x l2 e :
  Forall (λ y, ∃ z, f y = Ok z) l1 → f x = Raise e →
  map_res f (l1 ++ x :: l2) = Raise e.
Proof.
  intros Hl1 Hx. induction Hl1 as [|y l1 [z Hz] _ IH]; simpl.
  - by rewrite Hx.
  - by rewrite Hz, IH.
Qed.

Lemma map_res_Raise_elem (f : A → result E B) l e :
  map_res f l = Raise e → ∃ x, x ∈ l ∧ f x = Raise e.
Proof.
  induction l as [|x l IH]; [done|]. simpl.
  destruct (f x) as [y|e'] eqn:Hx; simpl.
  - destruct (map_res f l); [done|]. intros [= ->].
    destruct IH as (z&?&?); [done|]. exists z. split; [by right|done].
  - intros [= ->]. exists x. split; [by left|done].
Qed.

(** An element on which the body raises makes the comprehension raise,
    with its error or an earlier one. *)
Lemma map_res_elem_Raise (f : A → result E B) l x e :
  x ∈ l → f x = Raise e → ∃ e', map_res f l = Raise e'.
Proof.
  intros Hx Hf. destruct (map_res f l) as [k|e'] eqn:Hk; [|by eauto].
  apply map_res_Ok in Hk. apply list_elem_of_lookup in Hx as [i Hi].
  destruct (Forall2_lookup_l _ _ _ _ _ Hk Hi) as (y&_&?). congruence.
Qed.

Lemma map_res_total (f : A → result E B) l :
  Forall (λ x, ∃ y, f x = Ok y) l → ∃ k, map_res f l = Ok k.
Proof.
  induction 1 as [|x l [y Hy] _ [k Hk]]; [by exists []|].
  exists (y :: k). simpl. by rewrite Hy, Hk.
Qed.

Lemma map_res_Forall (P : B → Prop) (f : A → result E B) l k :
  map_res f l = Ok k → (∀ x y, x ∈ l → f x = Ok y → P y) → Forall P k.
Proof.
  intros Hk HP. apply Forall_forall. intros y Hy.
  destruct (map_res_elem _ _ _ _ Hk Hy) as (x&?&?). eauto.
Qed.

Lemma map_res_pure (f : A → result E B) (g : A → B) l :
  (∀ x, x ∈ l → f x = Ok (g x)) → map_res f l = Ok (g <$> l).
Proof.
  induction l as [|x l IH]; intros Hf; [done|]. simpl.
  by rewrite (Hf x), IH by set_solver.
Qed.

(** The elements of a successful comprehension. *)
Lemma map_res_elem_of (f : A → result E B) l k y :
  map_res f l = Ok k → y ∈ k ↔ ∃ x, x ∈ l ∧ f x = Ok y.
Proof.
  intros Hk. split; [by apply map_res_elem|].
  intros (x&[i Hi]%list_elem_of_lookup_1&Hx).
  destruct (map_res_lookup _ _ _ _ _ Hk Hi) as (y'&Hy'&?).
  apply list_elem_of_lookup. exists i. congruence.
Qed.

Lemma filter_res_elem_of (p : A → result E bool) l r x :
  filter_res p l = Ok r → x ∈ r ↔ x ∈ l ∧ p x = Ok true.
Proof.
  revert r. induction l as [|y l IH]; intros r Hr; simplify_eq/=.
  { set_solver. }
  destruct (p y) as [b|] eqn:Hy; [|done]. simpl in Hr.
  destruct (filter_res p l) as [r'|]; [|done]. simplify_eq/=.
  specialize (IH r' eq_refl).
  destruct b; rewrite ?elem_of_cons, IH; intuition (simplify_eq; auto; congruence).
Qed.

Lemma filter_res_elem_Raise (p : A → result E bool) l x e :
  x ∈ l → p x = Raise e → ∃ e', filter_res p l = Raise e'.
Proof.
  intros Hx Hp. destruct (filter_res p l) as [r|e'] eqn:Hr; [|by eauto].
  destruct (filter_res_Ok_total _ _ _ Hr x Hx). congruence.
Qed.

Lemma filter_res_Raise_elem (p : A → result E bool) l e :
  filter_res p l = Raise e → ∃ x, x ∈ l ∧ p x = Raise e.
Proof.
  intros (l1&x&l2&->&Hx&_)%filter_res_Raise. exists x. split; [|done].
  apply elem_of_app. right. left.
Qed.

(** Comprehensions over lists with the same elements: both raise, or
    their results have the same elements. *)
Lemma map_res_same_elems (f : A → result E B) l l' :
  (∀ x, x ∈ l ↔ x ∈ l') →
  match map_res f l, map_res f l' with
  | Ok k, Ok k' => ∀ y, y ∈ k ↔ y ∈ k'
  | Raise e, Raise e' => (∃ x, x ∈ l ∧ f x = Raise e) ∧ ∃ x, x ∈ l' ∧ f x = Raise e'
  | _, _ => False
  end.
Proof.
  intros Hl.
  destruct (map_res f l) as [k|e] eqn:Hk, (map_res f l') as [k'|e'] eqn:Hk'.
  - intros y. rewrite (map_res_elem_of _ _ _ _ Hk), (map_res_elem_of _ _ _ _ Hk').
    by setoid_rewrite Hl.
  - destruct (map_res_Raise_elem _ _ _ Hk') as (x&Hx%Hl&Hf).
    destruct (map_res_elem_Raise _ _ _ _ Hx Hf). congruence.
  - destruct (map_res_Raise_elem _ _ _ Hk) as (x&Hx%Hl&Hf).
    destruct (map_res_elem_Raise _ _ _ _ Hx Hf). congruence.
  - eauto using map_res_Raise_elem.
Qed.

Lemma filter_res_same_elems (p : A → result E bool) l l' :
  (∀ x, x ∈ l ↔ x ∈ l') →
  match filter_res p l, filter_res p l' with
  | Ok r, Ok r' => ∀ x, x ∈ r ↔ x ∈ r'
  | Raise _, Raise _ => True
  | _, _ => False
  end.
Proof.
  intros Hl.
  destruct (filter_res p l) as [r|e] eqn:Hr, (filter_res p l') as [r'|e'] eqn:Hr';
    [|..|done].
  - intros x. rewrite (filter_res_elem_of _ _ _ _ Hr), (filter_res_elem_of _ _ _ _ Hr').
    by rewrite Hl.
  - destruct (filter_res_Raise_elem _ _ _ Hr') as (x&Hx%Hl&Hp).
    destruct (filter_res_elem_Raise _ _ _ _ Hx Hp). congruence.
  - destruct (filter_res_Raise_elem _ _ _ Hr) as (x&Hx%Hl&Hp).
    destruct (filter_res_elem_Raise _ _ _ _ Hx Hp). congruence.
Qed.

End comprehensions.

Lemma getitem_Ok {A} (l : list A) i x : getitem l i = Ok x ↔ l !! i = Some x.
Proof. apply or_raise_Ok. Qed.

Lemma getitem_Raise {A} (l : list A) i e :
  getitem l i = Raise e ↔ length l ≤ i ∧ e = IndexError.
Proof. unfold getitem. by rewrite or_raise_Raise, lookup_ge_None. Qed.

Lemma getitem_lt {A} (l : list A) i : i < length l → ∃ x, getitem l i = Ok x.
Proof. intros [x Hx]%lookup_lt_is_Some. exists x. by apply getitem_Ok. Qed.

Lemma concat_singletons {A} (l : list A) : concat ((λ x, [x]) <$> l) = l.
Proof. induction l; by f_equal/=. Qed.

Lemma Forall2_strengthen_l {A B} (P R : A → B → Prop) (Q : A → Prop) l k :
  Forall2 P l k → Forall Q l → (∀ x y, P x y → Q x → R x y) → Forall2 R l k.
Proof.
  intros HP HQ HR. induction HP; inversion HQ; simplify_eq; constructor; eauto.
Qed.

Lemma Forall2_compose {A B C} (P : A → B → Prop) (Q : B → C → Prop) l k m :
  Forall2 P l k → Forall2 Q k m → Forall2 (λ a c, ∃ b, P a b ∧ Q b c) l m.
Proof.
  intros Hlk. revert m. induction Hlk; inversion 1; simplify_eq;
    constructor; eauto.
Qed.

(** ** Agreement up to the kind of error *)

(** Bind is compatible with agreement. *)
Lemma ok_of_bind_ext {E1 E2 A B} (m1 : result E1 A) (m2 : result E2 A)
    (f1 : A → result E1 B) (f2 : A → result E2 B) :
  ok_of m1 = ok_of m2 →
  (∀ a, m1 = Ok a → ok_of (f1 a) = ok_of (f2 a)) →
  ok_of (m1 ≫= f1) = ok_of (m2 ≫= f2).
Proof. destruct m1, m2; simpl; intros; simplify_eq; auto. Qed.

Lemma result_fmap_bind {E A B C} (m : result E A) (g : A → result E B)
    (f : B → C) :
  f <$> (m ≫= g) = m ≫= λ a, f <$> g a.
Proof. by destruct m. Qed.

Section ok_of.
Context {E1 E2 A B : Type}.

Lemma ok_of_Some {E} (m : result E A) a : ok_of m = Some a ↔ m = Ok a.
Proof. destruct m; simpl; naive_solver. Qed.

Lemma ok_of_None {E} (m : result E A) : ok_of m = None ↔ ∃ e, m = Raise e.
Proof. destruct m; simpl; naive_solver. Qed.

Lemma ok_of_or_raise {E} (o : option A) (e : E) : ok_of (o ?! e)%py = o.
Proof. by destruct o. Qed.

Lemma ok_of_bind {E} (m : result E A) (f : A → result E B) :
  ok_of (m ≫= f) = ok_of m ≫= λ a, ok_of (f a).
Proof. by destruct m. Qed.

Lemma ok_of_fmap {E} (m : result E A) (f : A → B) :
  ok_of (f <$> m) = f <$> ok_of m.
Proof. by destruct m. Qed.

Lemma ok_of_map_res_ext (f1 : A → result E1 B) (f2 : A → result E2 B) l :
  (∀ x, x ∈ l → ok_of (f1 x) = ok_of (f2 x)) →
  ok_of (map_res f1 l) = ok_of (map_res f2 l).
Proof.
  induction l as [|x l IH]; intros Hf; [done|]. simpl.
  apply ok_of_bind_ext; [apply Hf; left|]. intros y _.
  apply ok_of_bind_ext; [apply IH; intros; apply Hf; by right|done].
Qed.

Lemma ok_of_filter_res_ext (p1 : A → result E1 bool) (p2 : A → result E2 bool) l :
  (∀ x, x ∈ l → ok_of (p1 x) = ok_of (p2 x)) →
  ok_of (filter_res p1 l) = ok_of (filter_res p2 l).
Proof.
  induction l as [|x l IH]; intros Hp; [done|]. simpl.
  apply ok_of_bind_ext; [apply Hp; left|]. intros b _.
  apply ok_of_bind_ext; [apply IH; intros; apply Hp; by right|done].
Qed.

End ok_of.

(** Filtering and then mapping is mapping and then filtering, when the
    condition on an image agrees with the condition on its source. *)
Lemma ok_of_filter_map_res {E A B} (f : A → result E B)
    (p : A → result E bool) (q : B → result E bool) l k :
  map_res f l = Ok k →
  (∀ x y, x ∈ l → f x = Ok y → ok_of (q y) = ok_of (p x)) →
  ok_of (filter_res p l ≫= map_res f) = ok_of (filter_res q k).
Proof.
  revert k. induction l as [|x l IH]; intros k Hk Hpq; [by simplify_eq/=|].
  simpl in Hk. destruct (f x) as [y|] eqn:Hx; [|done]. simpl in Hk.
  destruct (map_res f l) as [k'|] eqn:Hl; [|done]. simplify_eq/=.
  pose proof (Hpq x y ltac:(left) Hx) as Hxy.
  pose proof (IH k' eq_refl (λ x' y' Hx', Hpq x' y' ltac:(by right))) as IH'.
  destruct (p x) as [b|], (q y) as [b'|]; simplify_eq/=; [|done].
  destruct (filter_res p l) as [r|], (filter_res q k') as [r'|]; simpl in *;
    [| |done..];
    destruct b; simpl; rewrite ?Hx; simpl;
    by destruct (map_res f r); simplify_eq/=.
Qed.

(** ** [index] and [in] on lists *)

Section index.
Context `{EqDecision A}.
Implicit Types (x : A) (l : list A).

Lemma index_of_Some x l i :
  index_of x l = Some i ↔ l !! i = Some x ∧ x ∉ take i l.
Proof.
  revert i. induction l as [|y l IH]; intros i; simpl.
  { split; [done|]. by intros [? _]. }
  case_decide as Hxy.
  - subst y. split.
    + intros [= <-]. split; [done|]. simpl. by apply not_elem_of_nil.
    + intros [Hi Hn]. destruct i; [done|]. simpl in Hn. set_solver.
  - destruct i as [|i]; simpl.
    + split; [by destruct (index_of x l)|]. naive_solver.
    + rewrite not_elem_of_cons. specialize (IH i).
      destruct (index_of x l); simpl in *; naive_solver.
Qed.

Lemma index_of_None x l : index_of x l = None ↔ x ∉ l.
Proof.
  induction l as [|y l IH]; simpl; [split; [intros _; apply not_elem_of_nil|done]|].
  rewrite not_elem_of_cons. case_decide; [naive_solver|].
  destruct (index_of x l); simpl; naive_solver.
Qed.

(** A list followed by the elements of another that it lacks, as Python
    writes [l + [x for x in k if x not in l]]. *)
Lemma elem_of_app_filter `{EqDecision A} (l k : list A) x :
  x ∈ l ++ filter (λ y, y ∉ l) k ↔ x ∈ l ∨ x ∈ k.
Proof.
  rewrite elem_of_app, list_elem_of_filter. destruct (decide (x ∈ l)); tauto.
Qed.

Lemma NoDup_app_filter `{EqDecision A} (l k : list A) :
  NoDup (l ++ filter (λ y, y ∉ l) k) ↔ NoDup l ∧ NoDup (filter (λ y, y ∉ l) k).
Proof.
  rewrite NoDup_app. split; [tauto|]. intros [? ?]. split_and!; [done| |done].
  by intros x Hx [? _]%list_elem_of_filter.
Qed.

Lemma index_of_Some_elem x l i : index_of x l = Some i → x ∈ l.
Proof.
  intros Hi. destruct (decide (x ∈ l)) as [|Hx]; [done|].
  apply index_of_None in Hx. congruence.
Qed.

Lemma index_of_elem x l : x ∈ l → ∃ i, index_of x l = Some i ∧ i < length l.
Proof.
  intros Hx. destruct (index_of x l) as [i|] eqn:Hi.
  - exists i. split; [done|]. apply index_of_Some in Hi as [Hi _].
    by eapply lookup_lt_Some.
  - by apply index_of_None in Hi.
Qed.

Lemma contains_elem_true x l : contains_elem x l = true ↔ x ∈ l.
Proof. unfold contains_elem. by rewrite bool_decide_eq_true. Qed.

Lemma contains_elem_false x l : contains_elem x l = false ↔ x ∉ l.
Proof. unfold contains_elem. by rewrite bool_decide_eq_false. Qed.

End index.

(** The rewrite database [pyrw] pushes [ok_of] through a computation. *)
#[export] Hint Rewrite @ok_of_or_raise @ok_of_fmap : pyrw.
