(* ===== verification/PyString.v ===== *)
(** * PyString: the string methods the two sources call

    A Python [str] is modelled as a [string] whose characters are code
    points below 256.  Each method used by Fileread.py and newonetest.py is
    a structurally recursive function here:

    - [strip], [strip_chars]      [s.strip()], [s.strip(chars)]
    - [startswith], [endswith]    [s.startswith(p)], [s.endswith(p)]
    - [contains]                  [sub in s]
    - [slice]                     [s[a:-b]] for [b > 0]
    - [split]                     [s.split(sep)] for a non-empty [sep]
    - [split_once]                [s.split(sep, 1)]
    - [split_ws]                  [s.split()]
    - [last_piece], [first_piece] [pieces[-1]], [pieces[0]]
    - [join]                      [sep.join(pieces)]

    [split] iterates [cut], which finds the leftmost occurrence of the
    separator; its fuel is the length of the text, which is always enough
    ([split_unfold], [split_fuel_enough]).  Python raises ValueError on an
    empty separator; every separator in the sources is a non-empty
    literal, and the lemmas carry [sep ≠ ""]. *)

From S2P Require Import Prelude.

(** ** Characters *)

(** [c.isspace()] for a code point below 256: the ASCII white space of
    CPython's table, NEL and the no-break space. *)
Definition isspace (c : ascii) : bool :=
  match c with
  | "009" | "010" | "011" | "012" | "013"
  | "028" | "029" | "030" | "031" | " "
  | "133" | "160" => true
  | _ => false
  end%char.

(** [c in chars]. *)
Fixpoint mem_char (c : ascii) (chars : string) : bool :=
  match chars with
  | "" => false
  | String d chars' => bool_decide (c = d) || mem_char c chars'
  end.

(** ** Prefixes, suffixes, slices *)

Fixpoint sdrop (n : nat) (s : string) : string :=
  match n, s with
  | 0, _ => s
  | S n', String _ s' => sdrop n' s'
  | S _, "" => ""
  end.

Fixpoint stake (n : nat) (s : string) : string :=
  match n, s with
  | 0, _ => ""
  | S n', String c s' => String c (stake n' s')
  | S _, "" => ""
  end.

(** [starts p s]: [p] is a prefix of [s]. *)
Fixpoint starts (p s : string) : bool :=
  match p, s with
  | "", _ => true
  | String a p', String b s' => bool_decide (a = b) && starts p' s'
  | String _ _, "" => false
  end.

Definition startswith (s p : string) : bool := starts p s.

Definition endswith (s p : string) : bool :=
  bool_decide (sdrop (String.length s - String.length p) s = p).

(** [s[a:-b]] with [b > 0]. *)
Definition slice (a b : nat) (s : string) : string :=
  stake (String.length s - b - a) (sdrop a s).

(** [sub in s]. *)
Fixpoint contains (sub s : string) : bool :=
  starts sub s ||
  match s with
  | "" => false
  | String _ s' => contains sub s'
  end.

(** ** strip *)

Fixpoint lstrip_with (p : ascii → bool) (s : string) : string :=
  match s with
  | "" => ""
  | String c s' => if p c then lstrip_with p s' else s
  end.

Fixpoint rstrip_with (p : ascii → bool) (s : string) : string :=
  match s with
  | "" => ""
  | String c s' =>
      match rstrip_with p s' with
      | "" => if p c then "" else String c ""
      | r => String c r
      end
  end.

Definition strip_with (p : ascii → bool) (s : string) : string :=
  rstrip_with p (lstrip_with p s).

Definition strip : string → string := strip_with isspace.

Definition strip_chars (chars : string) : string → string :=
  strip_with (λ c, mem_char c chars).

(** ** split *)

(** [cut sep s]: the text before the leftmost occurrence of [sep] in [s],
    and the text after it when there is one. *)
Fixpoint cut (sep s : string) {struct s} : string * option string :=
  if starts sep s then ("", Some (sdrop (String.length sep) s))
  else match s with
       | "" => ("", None)
       | String c s' => let '(p, r) := cut sep s' in (String c p, r)
       end.

Fixpoint split_fuel (n : nat) (sep s : string) : list string :=
  match cut sep s with
  | (p, None) => [p]
  | (p, Some r) =>
      p :: match n with 0 => [] | S n' => split_fuel n' sep r end
  end.

Definition split (sep s : string) : list string :=
  split_fuel (String.length s) sep s.

Definition split_once (sep s : string) : list string :=
  match cut sep s with
  | (p, None) => [p]
  | (p, Some r) => [p; r]
  end.

Definition starts_space (s : string) : bool :=
  match s with "" => true | String c _ => isspace c end.

(** [s.split()]: the maximal runs of characters that are not white space. *)
Fixpoint split_ws (s : string) : list string :=
  match s with
  | "" => []
  | String c s' =>
      if isspace c then split_ws s'
      else if starts_space s' then String c "" :: split_ws s'
      else match split_ws s' with
           | w :: ws => String c w :: ws
           | [] => [String c ""]
           end
  end.

(** ** Indexing lists of pieces *)

(** [pieces[-1]] of a non-empty list; [split] never returns an empty one. *)
Definition last_piece (pieces : list string) : string :=
  List.last pieces "".

(** [pieces[0]] of a non-empty list. *)
Definition first_piece (pieces : list string) : string :=
  List.hd "" pieces.

(** [sep.join(pieces)]. *)
Fixpoint join (sep : string) (pieces : list string) : string :=
  match pieces with
  | [] => ""
  | [p] => p
  | p :: ps => p +:+ sep +:+ join sep ps
  end.

(** ** Theory *)

#[local] Arguments String.append !_ _ / : simpl nomatch.

(** *** Concatenation, length, [sdrop] and [stake] *)

Lemma str_app_nil_r s : s +:+ "" = s.
Proof. induction s; simpl; congruence. Qed.

Lemma str_app_assoc s t u : (s +:+ t) +:+ u = s +:+ t +:+ u.
Proof. induction s; simpl; congruence. Qed.

Lemma str_length_app s t :
  String.length (s +:+ t) = String.length s + String.length t.
Proof. induction s; simpl; congruence. Qed.

Lemma str_length_0 s : String.length s = 0 ↔ s = "".
Proof. by destruct s. Qed.

Lemma str_app_eq_nil s t : s +:+ t = "" ↔ s = "" ∧ t = "".
Proof. destruct s; simpl; naive_solver. Qed.

Lemma sdrop_nil n : sdrop n "" = "".
Proof. by destruct n. Qed.

Lemma stake_nil n : stake n "" = "".
Proof. by destruct n. Qed.

Lemma sdrop_length n s : String.length (sdrop n s) = String.length s - n.
Proof. revert n; induction s; intros [|n]; simpl; auto. Qed.

Lemma stake_length n s : String.length (stake n s) = n `min` String.length s.
Proof. revert n; induction s; intros [|n]; simpl; auto. Qed.

Lemma stake_sdrop n s : stake n s +:+ sdrop n s = s.
Proof. revert n; induction s; intros [|n]; simpl; f_equal; auto. Qed.

Lemma sdrop_app_length s t : sdrop (String.length s) (s +:+ t) = t.
Proof. induction s; simpl; auto. Qed.

Lemma stake_app_length s t : stake (String.length s) (s +:+ t) = s.
Proof. induction s; simpl; [by destruct t|congruence]. Qed.

Lemma sdrop_all s : sdrop (String.length s) s = "".
Proof. induction s; simpl; auto. Qed.

Lemma stake_all n s : String.length s ≤ n → stake n s = s.
Proof.
  revert n; induction s; intros [|n] ?; simpl in *; f_equal; auto with lia.
Qed.

(** *** Prefixes *)

Lemma starts_spec p s : starts p s = true ↔ ∃ t, s = p +:+ t.
Proof.
  revert s. induction p as [|a p IH]; intros s; simpl.
  { split; eauto. }
  destruct s as [|b s]; [naive_solver|].
  rewrite andb_true_iff, bool_decide_eq_true, IH. naive_solver.
Qed.

Lemma starts_app p t : starts p (p +:+ t) = true.
Proof. apply starts_spec; eauto. Qed.

Lemma starts_nil s : starts "" s = true.
Proof. done. Qed.

Lemma starts_length p s : starts p s = true → String.length p ≤ String.length s.
Proof. intros [t ->]%starts_spec. rewrite str_length_app. lia. Qed.

Lemma starts_sdrop p s :
  starts p s = true → s = p +:+ sdrop (String.length p) s.
Proof. intros [t ->]%starts_spec. by rewrite sdrop_app_length. Qed.

Lemma starts_trans p q s : starts p q = true → starts q s = true → starts p s = true.
Proof.
  intros [t ->]%starts_spec [u ->]%starts_spec.
  rewrite str_app_assoc. apply starts_app.
Qed.

Lemma startswith_spec s p : startswith s p = true ↔ ∃ t, s = p +:+ t.
Proof. apply starts_spec. Qed.

Lemma endswith_spec s p : endswith s p = true ↔ ∃ t, s = t +:+ p.
Proof.
  unfold endswith. rewrite bool_decide_eq_true. split.
  - intros H. exists (stake (String.length s - String.length p) s).
    pose proof (stake_sdrop (String.length s - String.length p) s) as E.
    by rewrite H in E.
  - intros [t ->]. rewrite str_length_app.
    replace (_ + _ - _) with (String.length t) by lia.
    apply sdrop_app_length.
Qed.

(** *** Substrings *)

Lemma contains_spec sub s :
  contains sub s = true ↔ ∃ a b, s = a +:+ sub +:+ b.
Proof.
  induction s as [|c s IH]; simpl.
  - rewrite orb_false_r, starts_spec. split.
    + intros [t Ht]. by exists "", t.
    + intros (a&b&H). symmetry in H.
      apply str_app_eq_nil in H as [-> [-> ->]%str_app_eq_nil]. by exists "".
  - rewrite orb_true_iff, starts_spec, IH. split.
    + intros [[t Ht]|(a&b&->)]; [by exists "", t|by exists (String c a), b].
    + intros ([|c' a]&b&H); simpl in H; [left; eauto|right].
      injection H as -> ->. eauto.
Qed.

Lemma contains_app sub a b : contains sub (a +:+ sub +:+ b) = true.
Proof. apply contains_spec; eauto. Qed.

Lemma contains_false_app sub a b :
  contains sub (a +:+ b) = false → contains sub a = false ∧ contains sub b = false.
Proof.
  intros H. split; apply not_true_is_false; intros (x&y&->)%contains_spec;
    apply not_true_iff_false in H; apply H, contains_spec.
  - exists x, (y +:+ b). by rewrite !str_app_assoc.
  - exists (a +:+ x), y. by rewrite !str_app_assoc.
Qed.

(** *** [cut]: the leftmost occurrence *)

Lemma cut_nil sep :
  cut sep "" = if starts sep "" then ("", Some "") else ("", None).
Proof. by destruct sep. Qed.

Lemma cut_cons sep c s :
  cut sep (String c s) =
  if starts sep (String c s)
  then ("", Some (sdrop (String.length sep) (String c s)))
  else let '(p, r) := cut sep s in (String c p, r).
Proof. done. Qed.

Lemma contains_cons sub c s :
  contains sub (String c s) = starts sub (String c s) || contains sub s.
Proof. done. Qed.

Lemma contains_nil sub : contains sub "" = starts sub "".
Proof. simpl. apply orb_false_r. Qed.

Lemma starts_nil_r sep : starts sep "" = true ↔ sep = "".
Proof. by destruct sep. Qed.

Lemma cut_None sep s p :
  cut sep s = (p, None) → p = s ∧ contains sep s = false.
Proof.
  revert p. induction s as [|c s IH]; intros p.
  - rewrite cut_nil, contains_nil. destruct (starts sep ""); naive_solver.
  - rewrite cut_cons, contains_cons.
    destruct (starts sep (String c s)); [done|].
    destruct (cut sep s) as [p' r']. intros [= <- ->].
    by destruct (IH p' eq_refl) as [-> ->].
Qed.

Lemma cut_Some sep s p r : cut sep s = (p, Some r) → s = p +:+ sep +:+ r.
Proof.
  revert p. induction s as [|c s IH]; intros p.
  - rewrite cut_nil. destruct (starts sep "") eqn:Hst; [|done].
    apply starts_nil_r in Hst as ->. by intros [= <- <-].
  - rewrite cut_cons. destruct (starts sep (String c s)) eqn:Hst.
    + intros [= <- <-]. by apply starts_sdrop.
    + destruct (cut sep s) as [p' r']. intros [= <- ->].
      simpl. f_equal. by apply IH.
Qed.

(** The piece before the cut holds no occurrence of the separator. *)
Lemma cut_Some_first sep s p r :
  sep ≠ "" → cut sep s = (p, Some r) → contains sep p = false.
Proof.
  intros Hsep. assert (contains sep "" = false) as Hnil.
  { rewrite contains_nil. apply not_true_is_false. by intros ?%starts_nil_r. }
  revert p. induction s as [|c s IH]; intros p.
  - rewrite cut_nil. destruct (starts sep ""); naive_solver.
  - rewrite cut_cons. destruct (starts sep (String c s)) eqn:Hst.
    { by intros [= <- <-]. }
    destruct (cut sep s) as [p' r'] eqn:Hcut. intros [= <- ->].
    rewrite contains_cons, (IH p' eq_refl), orb_false_r.
    apply not_true_is_false. intros Hp.
    apply cut_Some in Hcut as ->. apply not_true_iff_false in Hst.
    apply Hst. eapply starts_trans; [done|].
    apply (starts_app (String c p')).
Qed.

Lemma cut_length sep s p r :
  cut sep s = (p, Some r) →
  String.length s = String.length p + String.length sep + String.length r.
Proof. intros ->%cut_Some. rewrite !str_length_app. lia. Qed.

Lemma cut_no_sep sep s : contains sep s = false → cut sep s = (s, None).
Proof.
  induction s as [|c s IH].
  - rewrite contains_nil, cut_nil. by intros ->.
  - rewrite contains_cons, cut_cons. intros [-> Hc]%orb_false_iff.
    by rewrite IH.
Qed.

Lemma cut_contains sep s :
  contains sep s = true → ∃ p r, cut sep s = (p, Some r).
Proof.
  intros Hc. destruct (cut sep s) as [p [r|]] eqn:Hcut; [by eauto|].
  apply cut_None in Hcut as [_ ?]. congruence.
Qed.

Lemma cut_starts sep s :
  starts sep s = true → cut sep s = ("", Some (sdrop (String.length sep) s)).
Proof.
  destruct s; [rewrite cut_nil|rewrite cut_cons]; intros Hst; rewrite Hst; [|done].
  apply starts_nil_r in Hst as ->. done.
Qed.

(** The cut of a text built around its first separator: no occurrence of
    the separator starts inside [a]. *)
Lemma cut_app sep a b :
  (∀ a1 a2, a = a1 +:+ a2 → a2 ≠ "" → starts sep (a2 +:+ sep +:+ b) = false) →
  cut sep (a +:+ sep +:+ b) = (a, Some b).
Proof.
  induction a as [|c a IH]; intros Ha.
  - simpl String.append at 1.
    by rewrite cut_starts, sdrop_app_length by apply starts_app.
  - pose proof (Ha "" (String c a) eq_refl ltac:(done)) as Hst.
    change (String c a +:+ sep +:+ b) with (String c (a +:+ sep +:+ b)) in *.
    rewrite cut_cons, Hst, IH; [done|].
    intros a1 a2 -> ?. by apply (Ha (String c a1)).
Qed.

Lemma starts_mem_char c sep s :
  starts (String c sep) s = true → mem_char c s = true.
Proof. destruct s as [|d s]; [done|]. simpl. by intros [-> _]%andb_true_iff. Qed.

Lemma mem_char_app c s t : mem_char c (s +:+ t) = mem_char c s || mem_char c t.
Proof. induction s as [|d s IH]; simpl; [done|]. by rewrite IH, orb_assoc. Qed.

(** A sufficient condition: the first character of the separator does not
    occur in [a]. *)
Lemma cut_app_fresh c sep a b :
  mem_char c a = false →
  cut (String c sep) (a +:+ String c sep +:+ b) = (a, Some b).
Proof.
  intros Ha. apply cut_app. intros a1 [|d a2] -> ?; [done|].
  rewrite mem_char_app in Ha. apply orb_false_iff in Ha as [_ Ha].
  simpl in *. apply orb_false_iff in Ha as [Hd _].
  by rewrite bool_decide_eq_false_2 by (by apply bool_decide_eq_false in Hd).
Qed.

(** *** [split] *)

Section split.
Context (sep : string) (Hsep : sep ≠ "").

Lemma cut_shorter s p r :
  cut sep s = (p, Some r) → String.length r < String.length s.
Proof using Hsep.
  intros ->%cut_Some. rewrite !str_length_app.
  destruct sep; [done|simpl; lia].
Qed.

(** Any fuel of at least the length of the text gives the same pieces. *)
Lemma split_fuel_indep s n m :
  String.length s ≤ n → String.length s ≤ m →
  split_fuel n sep s = split_fuel m sep s.
Proof using Hsep.
  revert s m. induction n as [|n IH]; intros s [|m] Hn Hm; simpl;
    destruct (cut sep s) as [p [r|]] eqn:Hcut; try done;
    apply cut_shorter in Hcut; try lia.
  f_equal. apply IH; lia.
Qed.

Lemma split_fuel_enough s n :
  String.length s ≤ n → split_fuel n sep s = split sep s.
Proof using Hsep. intros. by apply split_fuel_indep. Qed.

(** The equation [split] satisfies: cut, then split the rest. *)
Lemma split_unfold s :
  split sep s =
  match cut sep s with
  | (p, None) => [p]
  | (p, Some r) => p :: split sep r
  end.
Proof using Hsep.
  unfold split at 1. destruct (String.length s) as [|n] eqn:Hn; simpl;
    destruct (cut sep s) as [p [r|]] eqn:Hcut; try done;
    apply cut_shorter in Hcut; [lia|].
  f_equal. apply split_fuel_enough. lia.
Qed.

(** Induction along the cuts of [split]. *)
Lemma split_ind (P : string → list string → Prop) :
  (∀ s, cut sep s = (s, None) → P s [s]) →
  (∀ s p r, cut sep s = (p, Some r) →
            P r (split sep r) → P s (p :: split sep r)) →
  ∀ s, P s (split sep s).
Proof using Hsep.
  intros Hnone Hsome s.
  remember (String.length s) as n eqn:Hn. revert s Hn.
  induction (lt_wf n) as [n _ IH]; intros s ->.
  rewrite split_unfold. destruct (cut sep s) as [p [r|]] eqn:Hcut.
  - apply Hsome; [done|]. eapply IH; [|done]. by eapply cut_shorter.
  - destruct (cut_None _ _ _ Hcut) as [-> _]. by apply Hnone.
Qed.

Lemma split_no_sep s : contains sep s = false → split sep s = [s].
Proof using Hsep. intros H. by rewrite split_unfold, cut_no_sep. Qed.

Lemma split_nonempty s : split sep s ≠ [].
Proof using Hsep. rewrite split_unfold. by destruct (cut sep s) as [? []]. Qed.

Lemma split_length_pos s : 0 < length (split sep s).
Proof using Hsep. pose proof (split_nonempty s). destruct (split sep s); simpl; [done|lia]. Qed.

(** Round trip: joining the pieces with the separator gives the text. *)
Lemma join_split s : join sep (split sep s) = s.
Proof using Hsep.
  apply (split_ind (λ s l, join sep l = s)); [done|].
  intros s' p r Hcut IH. apply cut_Some in Hcut as ->. simpl.
  pose proof (split_nonempty r). destruct (split sep r); [done|].
  by rewrite IH.
Qed.

(** No piece holds an occurrence of the separator. *)
Lemma split_pieces_no_sep s p : p ∈ split sep s → contains sep p = false.
Proof using Hsep.
  revert p. apply (split_ind (λ s l, ∀ p, p ∈ l → contains sep p = false)).
  - intros s' Hcut p ->%list_elem_of_singleton. by apply cut_None in Hcut as [_ ?].
  - intros s' q r Hcut IH p [->|?]%elem_of_cons; [|by apply IH].
    by eapply cut_Some_first.
Qed.

(** Every piece is at most as long as the text. *)
Lemma split_pieces_length s p :
  p ∈ split sep s → String.length p ≤ String.length s.
Proof using Hsep.
  revert p. apply (split_ind (λ s l, ∀ p, p ∈ l → String.length p ≤ String.length s)).
  - by intros s' _ p ->%list_elem_of_singleton.
  - intros s' q r Hcut IH p Hp. apply cut_length in Hcut.
    apply elem_of_cons in Hp as [->|?%IH]; lia.
Qed.

(** The number of pieces is one more than the number of cuts; with a
    separator there are at least two. *)
Lemma split_contains_length s :
  contains sep s = true ↔ 2 ≤ length (split sep s).
Proof using Hsep.
  rewrite split_unfold. destruct (cut sep s) as [p [r|]] eqn:Hcut; simpl.
  - pose proof (split_length_pos r). apply cut_Some in Hcut as ->.
    rewrite contains_app. split; [lia|done].
  - apply cut_None in Hcut as [_ ->]. split; [done|lia].
Qed.

Lemma split_app_fresh a b :
  contains sep a = false →
  (∀ a1 a2, a = a1 +:+ a2 → a2 ≠ "" → starts sep (a2 +:+ sep +:+ b) = false) →
  split sep (a +:+ sep +:+ b) = a :: split sep b.
Proof using Hsep. intros _ Ha. by rewrite split_unfold, cut_app. Qed.

End split.

Lemma split_once_pieces sep s :
  split_once sep s = [s] ∧ contains sep s = false ∨
  ∃ p r, split_once sep s = [p; r] ∧ s = p +:+ sep +:+ r.
Proof.
  unfold split_once. destruct (cut sep s) as [p [r|]] eqn:Hcut.
  - right. exists p, r. split; [done|]. by apply cut_Some.
  - left. by apply cut_None in Hcut as [-> ?].
Qed.

Lemma split_once_contains sep s :
  contains sep s = true →
  ∃ p r, split_once sep s = [p; r] ∧ s = p +:+ sep +:+ r.
Proof.
  intros Hc. destruct (split_once_pieces sep s) as [[_ ?]|?]; [congruence|done].
Qed.

(** *** [strip] *)

(** [all_chars p s]: every character of [s] satisfies [p]. *)
Fixpoint all_chars (p : ascii → bool) (s : string) : bool :=
  match s with
  | "" => true
  | String c s' => p c && all_chars p s'
  end.

Section strip.
Context (p : ascii → bool).

Lemma lstrip_with_spec s :
  ∃ a, s = a +:+ lstrip_with p s ∧ all_chars p a = true.
Proof.
  induction s as [|c s (a&Ha&Hp)]; [by exists ""|]. simpl.
  destruct (p c) eqn:Hc; [|by exists ""].
  exists (String c a). simpl. by rewrite Hc, Hp, <-Ha.
Qed.

Lemma rstrip_with_spec s :
  ∃ b, s = rstrip_with p s +:+ b ∧ all_chars p b = true.
Proof.
  induction s as [|c s (b&Hb&Hp)]; [by exists ""|]. simpl.
  destruct (rstrip_with p s) as [|d r] eqn:Hr.
  - simpl in Hb. subst b. destruct (p c) eqn:Hc.
    + exists (String c s). simpl. by rewrite Hc, Hp.
    + by exists s.
  - exists b. by rewrite Hb at 1.
Qed.

(** The stripped text sits inside the text, between two runs of stripped
    characters. *)
Lemma strip_with_spec s :
  ∃ a b, s = a +:+ strip_with p s +:+ b ∧
         all_chars p a = true ∧ all_chars p b = true.
Proof.
  destruct (lstrip_with_spec s) as (a&Ha&?).
  destruct (rstrip_with_spec (lstrip_with p s)) as (b&Hb&?).
  exists a, b. unfold strip_with. by rewrite <-Hb.
Qed.

Lemma strip_with_length s : String.length (strip_with p s) ≤ String.length s.
Proof.
  destruct (strip_with_spec s) as (a&b&Hs&_). rewrite Hs at 2.
  rewrite !str_length_app. lia.
Qed.

Lemma lstrip_with_head s c t : lstrip_with p s = String c t → p c = false.
Proof.
  induction s as [|d s IH]; [done|]. simpl.
  destruct (p d) eqn:Hd; [done|]. by intros [= <- _].
Qed.

Lemma rstrip_with_cons c s :
  p c = false → ∃ t, rstrip_with p (String c s) = String c t.
Proof. intros Hc. simpl. rewrite Hc. destruct (rstrip_with p s); eauto. Qed.

Lemma rstrip_with_head s c t :
  rstrip_with p s = String c t → ∃ t', s = String c t'.
Proof. destruct s as [|d s]; [done|]. simpl. destruct (rstrip_with p s), (p d); naive_solver. Qed.

(** A text that starts with a character that is not stripped keeps it. *)
Lemma strip_with_cons c s :
  p c = false → ∃ t, strip_with p (String c s) = String c t.
Proof.
  intros Hc. unfold strip_with. simpl. rewrite Hc. by apply rstrip_with_cons.
Qed.

(** The stripped text does not start with a stripped character. *)
Lemma strip_with_head s c t : strip_with p s = String c t → p c = false.
Proof.
  unfold strip_with. intros H.
  destruct (rstrip_with_head _ _ _ H) as [t' Ht'].
  by eapply lstrip_with_head.
Qed.

Lemma rstrip_with_last s t c :
  rstrip_with p s = t +:+ String c "" → p c = false.
Proof.
  revert t. induction s as [|d s IH]; intros t; [by destruct t|]. simpl.
  destruct (rstrip_with p s) as [|e r] eqn:Hr.
  - destruct (p d) eqn:Hd; [by destruct t|].
    destruct t as [|? [|]]; simpl; naive_solver.
  - destruct t as [|? t]; simpl; [done|]. intros [= -> Ht]. by eapply IH.
Qed.

(** The stripped text does not end with a stripped character. *)
Lemma strip_with_last s t c : strip_with p s = t +:+ String c "" → p c = false.
Proof. apply rstrip_with_last. Qed.

Lemma lstrip_with_id s : (∀ c t, s = String c t → p c = false) → lstrip_with p s = s.
Proof. destruct s as [|c s]; [done|]. intros H. simpl. by rewrite (H c s). Qed.

Lemma rstrip_with_id s :
  (∀ t c, s = t +:+ String c "" → p c = false) → rstrip_with p s = s.
Proof.
  induction s as [|c s IH]; [done|]. intros H. simpl. rewrite IH.
  - destruct s; [|done]. by rewrite (H "" c).
  - intros t d ->. by apply (H (String c t) d).
Qed.

(** Stripping is idempotent. *)
Lemma strip_with_idemp s : strip_with p (strip_with p s) = strip_with p s.
Proof.
  unfold strip_with at 1. rewrite lstrip_with_id.
  - apply rstrip_with_id. intros t c. apply strip_with_last.
  - intros c t. apply strip_with_head.
Qed.

Lemma strip_with_nil : strip_with p "" = "".
Proof. done. Qed.

End strip.

Lemma strip_length s : String.length (strip s) ≤ String.length s.
Proof. apply strip_with_length. Qed.

Lemma strip_idemp s : strip (strip s) = strip s.
Proof. apply strip_with_idemp. Qed.

Lemma slice_length a b s : String.length (slice a b s) ≤ String.length s - a - b.
Proof. unfold slice. rewrite stake_length, sdrop_length. lia. Qed.

(** Occurrences survive in the text a stripped text comes from. *)
Lemma contains_strip_with p sub s :
  contains sub (strip_with p s) = true → contains sub s = true.
Proof.
  destruct (strip_with_spec p s) as (a&b&Hs&_). rewrite Hs at 2.
  intros (x&y&->)%contains_spec. apply contains_spec.
  exists (a +:+ x), (y +:+ b). by rewrite !str_app_assoc.
Qed.

(** *** The last character *)

Lemma str_snoc_inj s t c d :
  s +:+ String c "" = t +:+ String d "" → s = t ∧ c = d.
Proof.
  revert t. induction s as [|a s IH]; intros [|b t]; simpl; intros Heq;
    simplify_eq; try done.
  - by destruct t.
  - by destruct s.
  - destruct (IH t) as [-> ->]; done.
Qed.

Lemma str_snoc_cases s : s = "" ∨ ∃ s' c, s = s' +:+ String c "".
Proof.
  induction s as [|a s [->|(s'&c&->)]]; [by left|right..].
  - by exists "", a.
  - by exists (String a s'), c.
Qed.

(** Appending a character that is not the last one of [sub] creates no
    occurrence of [sub]. *)
Lemma contains_snoc sub t c :
  sub ≠ "" → (∀ sub', sub ≠ sub' +:+ String c "") →
  contains sub (t +:+ String c "") = contains sub t.
Proof.
  intros Hne Hlast. apply eq_true_iff_eq. rewrite !contains_spec. split.
  - intros (a&b&Heq). destruct (str_snoc_cases b) as [->|(b'&d&->)].
    + rewrite str_app_nil_r in Heq.
      destruct (str_snoc_cases sub) as [->|(sub'&d&->)]; [done|].
      rewrite <-str_app_assoc in Heq. apply str_snoc_inj in Heq as [_ <-].
      by destruct (Hlast sub').
    + rewrite <-!str_app_assoc in Heq. apply str_snoc_inj in Heq as [-> _].
      exists a, b'. by rewrite str_app_assoc.
  - intros (a&b&->). exists a, (b +:+ String c ""). by rewrite !str_app_assoc.
Qed.

(** The first piece of a split keeps the first character of the text,
    unless the text starts with the separator. *)
Lemma cut_head sep c s p r :
  cut sep (String c s) = (p, Some r) → starts sep (String c s) = false →
  ∃ p', p = String c p'.
Proof.
  rewrite cut_cons. intros Hcut Hst. rewrite Hst in Hcut.
  destruct (cut sep s) as [p' r']. simplify_eq. eauto.
Qed.

Lemma split_two sep s l r :
  sep ≠ "" → split sep s = [l; r] →
  cut sep s = (l, Some r) ∧ contains sep l = false ∧ contains sep r = false.
Proof.
  intros Hsep Hs. rewrite split_unfold in Hs by done.
  destruct (cut sep s) as [p [q|]] eqn:Hcut; simplify_eq.
  assert (contains sep r = false) as Hr.
  { apply (split_pieces_no_sep sep Hsep q). rewrite H0. left. }
  rewrite split_unfold in H0 by done.
  destruct (cut sep q) as [p' [q'|]] eqn:Hcut'; simplify_eq.
  { pose proof (split_nonempty sep Hsep q'). by destruct (split sep q'). }
  apply cut_None in Hcut' as [-> _].
  split_and!; [done| |done]. by eapply cut_Some_first.
Qed.

(** A text and a prefix with different first characters. *)
Lemma startswith_head_ne c t d p : c ≠ d → startswith (String c t) (String d p) = false.
Proof. intros. unfold startswith. simpl. by rewrite bool_decide_eq_false_2. Qed.

Lemma startswith_head_eq c t : startswith (String c t) (String c "") = true.
Proof. unfold startswith. simpl. by rewrite bool_decide_eq_true_2. Qed.

Lemma startswith_head s c :
  startswith s (String c "") = true ↔ ∃ t, s = String c t.
Proof. rewrite startswith_spec. naive_solver. Qed.

(** *** The pieces the queries are cut into *)

Section pieces.
Context (sep : string) (Hsep : sep ≠ "").

Lemma first_piece_prefix s : ∃ r, s = first_piece (split sep s) +:+ r.
Proof using Hsep.
  rewrite split_unfold by done. destruct (cut sep s) as [p [r|]] eqn:Hcut.
  - apply cut_Some in Hcut. by exists (sep +:+ r).
  - apply cut_None in Hcut as [-> _]. exists "". by rewrite str_app_nil_r.
Qed.

Lemma first_piece_no_sep s : contains sep (first_piece (split sep s)) = false.
Proof using Hsep.
  apply split_pieces_no_sep with (s:=s); [done|].
  pose proof (split_nonempty sep Hsep s). destruct (split sep s); [done|left].
Qed.

Lemma last_piece_no_sep s : contains sep (last_piece (split sep s)) = false.
Proof using Hsep.
  apply split_pieces_no_sep with (s:=s); [done|].
  pose proof (split_nonempty sep Hsep s) as Hne. unfold last_piece.
  destruct (split sep s) as [|x l] using rev_ind; [done|].
  rewrite last_last. set_solver.
Qed.

(** A text without the separator is its own only piece. *)
Lemma first_piece_id s : contains sep s = false → first_piece (split sep s) = s.
Proof using Hsep. intros Hs. by rewrite split_no_sep. Qed.

Lemma last_piece_id s : contains sep s = false → last_piece (split sep s) = s.
Proof using Hsep. intros Hs. by rewrite split_no_sep. Qed.

End pieces.

Lemma contains_false_first_piece sub sep s :
  sep ≠ "" → contains sub s = false →
  contains sub (first_piece (split sep s)) = false.
Proof.
  intros Hsep Hs. destruct (first_piece_prefix sep Hsep s) as [r Hr].
  rewrite Hr in Hs. by apply contains_false_app in Hs as [? _].
Qed.

Lemma contains_false_strip_with p sub s :
  contains sub s = false → contains sub (strip_with p s) = false.
Proof.
  intros Hs. apply not_true_is_false. intros Hc%contains_strip_with. congruence.
Qed.

Lemma startswith_contains s p : startswith s p = true → contains p s = true.
Proof.
  intros [t ->]%startswith_spec. apply contains_spec. by exists "", t.
Qed.

(** *** Separators of one character

    The queries are cut at parentheses, braces, [*], [U] and [,]: with a
    separator of one character an occurrence cannot straddle two texts,
    so [split] distributes over concatenation. *)

Section split_char.
Context (c : ascii).
Abbreviation sep := (String c "").

Lemma contains_char s : contains sep s = mem_char c s.
Proof.
  induction s as [|d s IH]; [done|]. rewrite contains_cons, IH. simpl.
  by rewrite andb_true_r.
Qed.

Lemma cut_char_app a b :
  mem_char c a = false → cut sep (a +:+ String c b) = (a, Some b).
Proof. intros Ha. by apply (cut_app_fresh c "" a b). Qed.

Lemma split_char_fresh a b :
  mem_char c a = false → split sep (a +:+ String c b) = a :: split sep b.
Proof. intros Ha. by rewrite split_unfold, cut_char_app. Qed.

Lemma split_char_id a : mem_char c a = false → split sep a = [a].
Proof. intros Ha. apply split_no_sep; [done|]. by rewrite contains_char. Qed.

Lemma split_char_app a b :
  split sep (a +:+ String c b) = split sep a ++ split sep b.
Proof.
  revert a. apply (split_ind sep ltac:(done)
    (λ a l, split sep (a +:+ String c b) = l ++ split sep b)).
  - intros a [_ Ha]%cut_None. rewrite contains_char in Ha.
    by apply split_char_fresh.
  - intros a p r Hcut IH. pose proof (cut_Some_first sep a p r ltac:(done) Hcut) as Hp.
    rewrite contains_char in Hp. apply cut_Some in Hcut as ->.
    rewrite str_app_assoc. simpl. rewrite split_char_fresh by done.
    simpl in IH. by rewrite IH.
Qed.

End split_char.

Lemma last_piece_app l1 l2 : l2 ≠ [] → last_piece (l1 ++ l2) = last_piece l2.
Proof.
  intros Hl2. unfold last_piece. destruct l2 as [|x l2] using rev_ind; [done|].
  by rewrite app_assoc, !last_last.
Qed.

Lemma first_piece_app l1 l2 : l1 ≠ [] → first_piece (l1 ++ l2) = first_piece l1.
Proof. by destruct l1. Qed.

(** A text that neither starts nor ends with white space is its own
    [strip]. *)
Lemma strip_fixed c s d :
  isspace c = false → isspace d = false →
  strip (String c (s +:+ String d "")) = String c (s +:+ String d "").
Proof.
  intros Hc Hd. unfold strip, strip_with.
  rewrite lstrip_with_id by (by intros ?? [= <- _]).
  apply rstrip_with_id. intros t e Heq.
  change (String c (s +:+ String d "")) with (String c s +:+ String d "") in Heq.
  by apply str_snoc_inj in Heq as [_ <-].
Qed.

(** *** Padding and texts without white space *)

Section padding.
Context (p : ascii → bool).

Lemma all_chars_app q s t : all_chars q (s +:+ t) = all_chars q s && all_chars q t.
Proof. induction s as [|c s IH]; simpl; [done|]. by rewrite IH, andb_assoc. Qed.

Lemma all_chars_mem q s c : all_chars q s = true → q c = false → mem_char c s = false.
Proof.
  intros Hs Hc. induction s as [|d s IH]; [done|]. simpl in *.
  apply andb_true_iff in Hs as [Hd Hs]. rewrite IH by done.
  rewrite bool_decide_eq_false_2; [done|]. intros ->. congruence.
Qed.

Lemma lstrip_with_blank a : all_chars p a = true → lstrip_with p a = "".
Proof.
  induction a as [|c a IH]; [done|]. simpl. intros [-> ?]%andb_true_iff. auto.
Qed.

Lemma lstrip_with_app s b :
  lstrip_with p (s +:+ b) =
  if all_chars p s then lstrip_with p b else lstrip_with p s +:+ b.
Proof.
  induction s as [|c s IH]; [done|]. simpl. by destruct (p c).
Qed.

Lemma rstrip_with_snoc_blank s c :
  p c = true → rstrip_with p (s +:+ String c "") = rstrip_with p s.
Proof.
  intros Hc. induction s as [|d s IH]; simpl; [by rewrite Hc|]. by rewrite IH.
Qed.

Lemma rstrip_with_app_blank s b :
  all_chars p b = true → rstrip_with p (s +:+ b) = rstrip_with p s.
Proof.
  revert s. induction b as [|c b IH]; intros s; [by rewrite str_app_nil_r|].
  simpl. intros [Hc Hb]%andb_true_iff.
  change (s +:+ String c b) with (s +:+ String c "" +:+ b).
  by rewrite <-str_app_assoc, IH, rstrip_with_snoc_blank.
Qed.

(** White space around a text does not change its [strip]. *)
Lemma strip_with_pad a s b :
  all_chars p a = true → all_chars p b = true →
  strip_with p (a +:+ s +:+ b) = strip_with p s.
Proof.
  intros Ha Hb. unfold strip_with. rewrite lstrip_with_app, Ha, lstrip_with_app.
  destruct (all_chars p s) eqn:Hs.
  - by rewrite (lstrip_with_blank b), (lstrip_with_blank s).
  - by apply rstrip_with_app_blank.
Qed.

(** A text that starts and ends with a text free of the stripped
    characters is its own [strip]. *)
Lemma strip_with_between l m r :
  l ≠ "" → r ≠ "" →
  all_chars (λ c, negb (p c)) l = true → all_chars (λ c, negb (p c)) r = true →
  strip_with p (l +:+ m +:+ r) = l +:+ m +:+ r.
Proof.
  intros Hl Hr Hpl Hpr. unfold strip_with.
  destruct l as [|c l]; [done|]. simpl in Hpl.
  apply andb_true_iff in Hpl as [Hc%negb_true_iff _].
  rewrite lstrip_with_id by (by intros ?? [= <- _]).
  apply rstrip_with_id. intros t d Heq.
  destruct (str_snoc_cases r) as [->|(r'&e&->)]; [done|].
  rewrite all_chars_app in Hpr. apply andb_true_iff in Hpr as [_ He].
  simpl in He. rewrite andb_true_r in He. apply negb_true_iff in He.
  rewrite <-!str_app_assoc in Heq. by apply str_snoc_inj in Heq as [_ <-].
Qed.

Lemma strip_with_nonblank s :
  all_chars (λ c, negb (p c)) s = true → strip_with p s = s.
Proof.
  intros Hs. unfold strip_with. rewrite lstrip_with_id.
  - apply rstrip_with_id. intros t d ->. rewrite all_chars_app in Hs.
    apply andb_true_iff in Hs as [_ Hd]. simpl in Hd.
    by rewrite andb_true_r in Hd; apply negb_true_iff in Hd.
  - intros c t ->. simpl in Hs.
    by apply andb_true_iff in Hs as [?%negb_true_iff _].
Qed.

End padding.

(** ** The occurrences of a character *)

(** [s.count(c)] for a character [c]. *)
Fixpoint count_char (c : ascii) (s : string) : nat :=
  match s with
  | "" => 0
  | String d s' => (if bool_decide (c = d) then 1 else 0) + count_char c s'
  end.

Lemma count_char_app c s t :
  count_char c (s +:+ t) = count_char c s + count_char c t.
Proof. induction s as [|d s IH]; [done|]. simpl. rewrite IH. lia. Qed.

Lemma count_char_0 c s : count_char c s = 0 ↔ mem_char c s = false.
Proof.
  induction s as [|d s IH]; [done|]. simpl.
  rewrite orb_false_iff, <-IH. case_bool_decide; naive_solver lia.
Qed.

(** Stripping characters other than [c] loses no [c]. *)
Lemma count_char_strip_with p c s :
  p c = false → count_char c (strip_with p s) = count_char c s.
Proof.
  intros Hc. destruct (strip_with_spec p s) as (a&b&Hs&Ha&Hb).
  rewrite Hs at 2. rewrite !count_char_app.
  rewrite (proj2 (count_char_0 c a)), (proj2 (count_char_0 c b))
    by (by eapply all_chars_mem). lia.
Qed.

Lemma count_char_strip c s :
  isspace c = false → count_char c (strip s) = count_char c s.
Proof. apply count_char_strip_with. Qed.

(** [s[1:-1]] of a text between two characters. *)
Lemma slice_between a b s :
  a ≠ b → startswith s (String a "") = true → endswith s (String b "") = true →
  ∃ m, s = String a (m +:+ String b "") ∧ slice 1 1 s = m.
Proof.
  intros Hab [t ->]%startswith_spec [t' Ht']%endswith_spec.
  destruct t' as [|a' m]; simplify_eq/=. exists m. split; [done|].
  unfold slice. simpl. rewrite str_length_app. simpl.
  replace (_ + 1 - 0 - 1) with (String.length m) by lia.
  apply stake_app_length.
Qed.
