(* ===== verification/PyOs.v ===== *)
(** * PyOs: [os.listdir], [os.path.join] and [open], as an interface

    The programs reach the operating system through three calls:
    [os.listdir(directory)], [os.path.join(directory, filename)] and
    [open(path, mode)].  The model takes them as the operations of the
    class [OsOps] on an abstract state, the file system; [OsLaws] states
    what the theorems on the programs assume of them: a file that was
    written reads back as written, the other files keep their text, and
    writing a file that exists changes no listing.

    A file is its text: what [open(path, 'r')] hands to the program
    before the translation of line ends, which is also what
    [open(path, 'w', newline='')] stores.  Reading a file is one
    operation, [read_file], although the program reads it piece by
    piece between [open] and the end of the [with] block: nothing else
    touches the file system in between.  In the same way [write_file] is
    [open(path, 'w', newline='')] with everything written until the file
    is closed.

    [posix] is the reference instance the examples run on: a tree of
    directories and files whose root is also the current directory.
    A path is resolved by its components; empty components and [.] are
    skipped.  Links, [..], permissions, limits on the length of names and
    the encoding of text as bytes are outside this instance; a directory
    lists its entries in the order of their creation. *)

From S2P Require Import Prelude PyString.

(** ** The interface *)

Class OsOps : Type := {
  (** The state of the file system. *)
  filesystem : Type;
  (** [os.listdir(directory)]: the names of the entries, in the order
      the system gives them. *)
  listdir : filesystem → string → res (list string);
  (** [os.path.join(a, b)]. *)
  path_join : string → string → string;
  (** [open(path, 'r')] and the text read from the file. *)
  read_file : filesystem → string → res string;
  (** [open(path, 'w', newline='')] and the text written to the file
      when it is closed. *)
  write_file : filesystem → string → string → res filesystem;
  (** Two paths that name the same file. *)
  same_file : string → string → Prop;
}.

Class OsLaws `{OsOps} : Prop := {
  same_file_equiv :: Equivalence same_file;
  (** A file reads back as it was written. *)
  read_write_file fs path text fs' :
    write_file fs path text = Ok fs' → read_file fs' path = Ok text;
  (** The other files keep their text. *)
  read_write_other fs path text fs' path' text' :
    write_file fs path text = Ok fs' → ¬ same_file path path' →
    read_file fs path' = Ok text' → read_file fs' path' = Ok text';
  (** Writing a file that exists changes no listing. *)
  listdir_write_file fs path old text fs' directory names :
    read_file fs path = Ok old → write_file fs path text = Ok fs' →
    listdir fs directory = Ok names → listdir fs' directory = Ok names;
  (** Writing the same text again changes nothing. *)
  write_file_again fs path text fs' :
    write_file fs path text = Ok fs' → write_file fs' path text = Ok fs';
}.

(** ** The reference instance *)

(** The errors of the system calls. *)
Inductive errno : Type := ENOENT | ENOTDIR | EISDIR.

#[export] Instance errno_eq_dec : EqDecision errno.
Proof. solve_decision. Defined.

(** The exception Python raises for an error of a call on [filename]:
    [FileNotFoundError], [NotADirectoryError] or [IsADirectoryError]. *)
Definition os_error (e : errno) (filename : string) : exn :=
  match e with
  | ENOENT => OSError 2 "No such file or directory" filename
  | ENOTDIR => OSError 20 "Not a directory" filename
  | EISDIR => OSError 21 "Is a directory" filename
  end.

#[warnings="-register-all"]
Inductive node : Type :=
| File (text : string)
| Dir (entries : list (string * node)).

(** The entry [name] of a directory. *)
Fixpoint child {A} (name : string) (entries : list (string * A)) : option A :=
  match entries with
  | [] => None
  | (n, x) :: entries' =>
      if decide (n = name) then Some x else child name entries'
  end.

(** The entry [name] replaced by [x]. *)
Fixpoint set_child {A} (name : string) (x : A) (entries : list (string * A))
    : list (string * A) :=
  match entries with
  | [] => []
  | (n, y) :: entries' =>
      if decide (n = name) then (n, x) :: entries'
      else (n, y) :: set_child name x entries'
  end.

(** The node at the end of a path of names. *)
Fixpoint find (path : list string) (n : node) : result errno node :=
  match path with
  | [] => Ok n
  | name :: path' =>
      match n with
      | File _ => Raise ENOTDIR
      | Dir entries =>
          match child name entries with
          | Some n' => find path' n'
          | None => Raise ENOENT
          end
      end
  end.

(** The tree with the file at the end of the path created or
    overwritten. *)
Fixpoint store (path : list string) (text : string) (n : node)
    : result errno node :=
  match path, n with
  | [], File _ => Ok (File text)
  | [], Dir _ => Raise EISDIR
  | _ :: _, File _ => Raise ENOTDIR
  | name :: path', Dir entries =>
      match child name entries with
      | Some n' =>
          n'' ← store path' text n'; Ok (Dir (set_child name n'' entries))
      | None =>
          match path' with
          | [] => Ok (Dir (entries ++ [(name, File text)]))
          | _ :: _ => Raise ENOENT
          end
      end
  end.

(** The names a path goes through. *)
Definition resolve (path : string) : list string :=
  filter (λ c, c ≠ "" ∧ c ≠ ".") (split "/" path).

(** What Python checks before the call: the path has no null
    character and is not empty. *)
Definition checked {A} (path : string) (call : result errno A) : res A :=
  if mem_char "000" path then Raise (ValueError "embedded null byte")
  else if bool_decide (path = "") then Raise (os_error ENOENT path)
  else match call with Ok a => Ok a | Raise e => Raise (os_error e path) end.

Definition posix_listdir (fs : node) (directory : string)
    : res (list string) :=
  checked directory
    (n ← find (resolve directory) fs;
     match n with
     | Dir entries => Ok entries.*1
     | File _ => Raise ENOTDIR
     end).

(** [posixpath.join(a, b)]. *)
Definition posix_join (a b : string) : string :=
  if startswith b "/" then b
  else if bool_decide (a = "") || endswith a "/" then a +:+ b
  else a +:+ "/" +:+ b.

Definition posix_read (fs : node) (path : string) : res string :=
  checked path
    (n ← find (resolve path) fs;
     match n with
     | File text => Ok text
     | Dir _ => Raise EISDIR
     end).

Definition posix_write (fs : node) (path text : string) : res node :=
  checked path (store (resolve path) text fs).

#[export] Instance posix : OsOps := {|
  filesystem := node;
  listdir := posix_listdir;
  path_join := posix_join;
  read_file := posix_read;
  write_file := posix_write;
  same_file path path' := resolve path = resolve path';
|}.

(** A tree as a file system of the reference instance. *)
Definition disk (root : node) : filesystem := root.

(** ** Theory of the reference instance *)

Section entries.
Context {A : Type}.
Implicit Types (entries : list (string * A)) (x y : A) (name : string).

Lemma child_set_child name name' x entries :
  child name' (set_child name x entries) =
  if decide (name' = name) then const x <$> child name entries
  else child name' entries.
Proof.
  induction entries as [|[n y] entries IH]; simpl; [by case_decide|].
  repeat (case_decide; simplify_eq/=); try done; by rewrite IH; case_decide.
Qed.

Lemma child_snoc name name' x entries :
  child name' (entries ++ [(name, x)]) =
  match child name' entries with
  | Some y => Some y
  | None => if decide (name = name') then Some x else None
  end.
Proof.
  induction entries as [|[n y] entries IH]; simpl; [done|].
  by destruct (decide (n = name')).
Qed.

Lemma set_child_names name x entries : (set_child name x entries).*1 = entries.*1.
Proof.
  induction entries as [|[n y] entries IH]; csimpl; [done|].
  destruct (decide (n = name)); csimpl; by rewrite ?IH.
Qed.

Lemma set_child_again name x y entries :
  set_child name x (set_child name y entries) = set_child name x entries.
Proof.
  induction entries as [|[n z] entries IH]; simpl; [done|].
  destruct (decide (n = name)) as [->|Hn]; simpl.
  - by rewrite decide_True.
  - by rewrite decide_False, IH.
Qed.

Lemma set_child_snoc name x y entries :
  child name entries = None →
  set_child name x (entries ++ [(name, y)]) = entries ++ [(name, x)].
Proof.
  induction entries as [|[n z] entries IH]; simpl; [by rewrite decide_True|].
  destruct (decide (n = name)); [done|]. intros ?. by rewrite IH.
Qed.

End entries.

(** The file at the end of the path after [store]. *)
Lemma find_store path text n n' :
  store path text n = Ok n' → find path n' = Ok (File text).
Proof.
  revert n n'. induction path as [|name path IH]; intros [t|entries] n' Hs;
    simplify_eq/=; [done|].
  destruct (child name entries) as [m|] eqn:Hm.
  - destruct (store path text m) as [m'|] eqn:Hm'; simplify_eq/=.
    rewrite child_set_child, decide_True, Hm by done. simpl. eauto.
  - destruct path; simplify_eq/=.
    by rewrite child_snoc, Hm, decide_True.
Qed.

(** The other files keep their text. *)
Lemma find_store_other path text n n' path' t :
  store path text n = Ok n' → path ≠ path' → find path' n = Ok (File t) →
  find path' n' = Ok (File t).
Proof.
  revert n n' path'. induction path as [|name path IH];
    intros [t0|entries] n' [|name' path'] Hs Hne Hf; simplify_eq/=.
  destruct (child name' entries) as [k'|] eqn:Hk'; [|done].
  destruct (child name entries) as [k|] eqn:Hk.
  - destruct (store path text k) as [k2|] eqn:Hk2; simplify_eq/=.
    rewrite child_set_child. case_decide as Hn; [subst name'|by rewrite Hk'].
    rewrite Hk. simpl. simplify_eq. eapply IH; eauto. congruence.
  - destruct path; simplify_eq/=. by rewrite child_snoc, Hk'.
Qed.

(** Overwriting a file leaves every directory with the names it had. *)
Lemma find_store_names path old text n n' path' entries :
  find path n = Ok (File old) → store path text n = Ok n' →
  find path' n = Ok (Dir entries) →
  ∃ entries', find path' n' = Ok (Dir entries') ∧ entries'.*1 = entries.*1.
Proof.
  revert n n' path' entries. induction path as [|name path IH];
    intros [t0|es] n' [|name' path'] entries Hold Hs Hf; simplify_eq/=.
  - destruct (child name entries) as [k|] eqn:Hk; [|done].
    destruct (store path text k) as [k2|] eqn:Hk2; simplify_eq/=.
    eexists. split; [done|]. apply set_child_names.
  - destruct (child name es) as [k|] eqn:Hk; [|done].
    destruct (store path text k) as [k2|] eqn:Hk2; simplify_eq/=.
    rewrite child_set_child. case_decide as Hn; [subst name'|eauto].
    rewrite Hk in Hf |- *. simpl. eauto.
Qed.

(** Storing the same text again changes nothing. *)
Lemma store_again path text n n' :
  store path text n = Ok n' → store path text n' = Ok n'.
Proof.
  revert n n'. induction path as [|name path IH]; intros [t0|es] n' Hs;
    simplify_eq/=; [done|].
  destruct (child name es) as [k|] eqn:Hk.
  - destruct (store path text k) as [k2|] eqn:Hk2; simplify_eq/=.
    rewrite child_set_child, decide_True, Hk by done. simpl.
    rewrite (IH _ _ Hk2). simpl. by rewrite set_child_again.
  - destruct path; simplify_eq/=.
    rewrite child_snoc, Hk, decide_True by done. simpl.
    by rewrite set_child_snoc.
Qed.

(** Whether a file can be written does not depend on the text. *)
Lemma store_is_ok path text text' n :
  is_ok (store path text n) = is_ok (store path text' n).
Proof.
  revert n. induction path as [|name path IH]; intros [t0|es]; simpl;
    [done..|].
  destruct (child name es) as [k|]; [|by destruct path].
  specialize (IH k). by do 2 destruct (store path _ k).
Qed.

(** The checks of the path do not depend on the file system. *)
Lemma checked_Ok {A} path (call : result errno A) a :
  checked path call = Ok a ↔
  mem_char "000" path = false ∧ path ≠ "" ∧ call = Ok a.
Proof.
  unfold checked. destruct (mem_char _ _); [naive_solver|].
  case_bool_decide; [naive_solver|]. destruct call; naive_solver.
Qed.

Lemma posix_read_Ok fs path text :
  posix_read fs path = Ok text ↔
  mem_char "000" path = false ∧ path ≠ "" ∧
  find (resolve path) fs = Ok (File text).
Proof.
  unfold posix_read. rewrite checked_Ok.
  destruct (find _ _) as [[]|]; naive_solver.
Qed.

Lemma posix_listdir_Ok fs directory names :
  posix_listdir fs directory = Ok names ↔
  mem_char "000" directory = false ∧ directory ≠ "" ∧
  ∃ entries, find (resolve directory) fs = Ok (Dir entries) ∧
             names = entries.*1.
Proof.
  unfold posix_listdir. rewrite checked_Ok.
  destruct (find _ _) as [[]|]; naive_solver.
Qed.

Lemma posix_write_is_ok fs path text text' :
  is_ok (posix_write fs path text) = true →
  ∃ fs', posix_write fs path text' = Ok fs'.
Proof.
  unfold posix_write, checked. destruct (mem_char _ _); [done|].
  case_bool_decide; [done|]. pose proof (store_is_ok (resolve path) text text' fs).
  do 2 destruct (store _ _ fs); by eauto.
Qed.

#[export] Instance posix_laws : OsLaws.
Proof.
  split; simpl.
  - split; [by intros ?|by intros ??|by intros ??? ->].
  - intros fs path text fs' (?&?&?)%checked_Ok.
    apply posix_read_Ok; eauto using find_store.
  - intros fs path text fs' path' text' (?&?&?)%checked_Ok Hne.
    rewrite !posix_read_Ok. naive_solver eauto using find_store_other.
  - intros fs path old text fs' directory names (_&_&Hold)%posix_read_Ok
      (?&?&Hs)%checked_Ok. rewrite !posix_listdir_Ok.
    intros (?&?&entries&Hf&->).
    destruct (find_store_names _ _ _ _ _ _ _ Hold Hs Hf) as (?&?&?); eauto.
  - intros fs path text fs' (?&?&?)%checked_Ok.
    apply checked_Ok; eauto using store_again.
Qed.
