(* ===== verification/PyFloat.v ===== *)
(** * PyFloat: [float(s)] and the comparison of floats, as an interface

    [evaluate_condition] of both sources converts the column value and the
    literal with [float(...)] and compares the two floats with [>] or [<].
    The conversion and the order are interpreter primitives.  The model
    takes them as the operations of the class [FloatOps]; [FloatLaws] states
    what every IEEE order satisfies (a strict order, on which [a > b] is
    [b < a]).  All theorems of the development hold for every instance.

    [decimal_floats] is the reference instance used by the witnesses: it
    reads plain decimal numerals (optional sign, digits, optional fraction),
    surrounded by white space, as exact rationals.  It agrees with CPython
    on the numerals whose values binary64 keeps apart; numerals with an
    exponent, underscores, [inf] and [nan] are outside it. *)

From Stdlib Require Import QArith.
From S2P Require Import Prelude PyString.
Close Scope Q_scope.

(** ** The interface *)

Class FloatOps : Type := {
  pyfloat : Type;
  (** [float(s)]; [None] when Python raises ValueError. *)
  float_of_str : string → option pyfloat;
  (** [a < b]. *)
  float_lt : pyfloat → pyfloat → bool;
}.

Class FloatLaws `{FloatOps} : Prop := {
  float_lt_irrefl x : float_lt x x = false;
  float_lt_asym x y : float_lt x y = true → float_lt y x = false;
  float_lt_trans x y z :
    float_lt x y = true → float_lt y z = true → float_lt x z = true;
}.

(** [float(s)] as an operation that may raise. *)
Definition to_float `{FloatOps} (s : string) : res pyfloat :=
  (float_of_str s ?! FloatError s)%py.

(** [a > b]. *)
Definition float_gt `{FloatOps} (a b : pyfloat) : bool := float_lt b a.

(** ** The decimal instance *)

(** The value of a decimal digit: the code points 48 to 57. *)
Definition digit_val (c : ascii) : option Z :=
  let n := Z.of_N (N_of_ascii c) in
  if bool_decide (48 ≤ n ≤ 57)%Z then Some (n - 48)%Z else None.

(** The number a string of digits denotes, after [acc]. *)
Fixpoint digits_val (acc : Z) (s : string) : option Z :=
  match s with
  | "" => Some acc
  | String c s' => d ← digit_val c; digits_val (10 * acc + d) s'
  end.

(** [int_part.frac_part] without sign: at least one digit in all. *)
Definition unsigned_decimal (s : string) : option Q :=
  match split_once "." s with
  | [i] =>
      if bool_decide (i = "") then None
      else m ← digits_val 0 i; Some (inject_Z m)
  | [i; f] =>
      if bool_decide (i +:+ f = "") then None
      else m ← digits_val 0 (i +:+ f);
           Some (Qmake m (Pos.of_nat (10 ^ String.length f)))
  | _ => None
  end.

Definition decimal_of_str (s : string) : option Q :=
  match strip s with
  | String "-" s' => Qopp <$> unsigned_decimal s'
  | String "+" s' => unsigned_decimal s'
  | s' => unsigned_decimal s'
  end.

Definition Qltb (a b : Q) : bool :=
  match Qcompare a b with Lt => true | _ => false end.

#[export] Instance decimal_floats : FloatOps := {|
  pyfloat := Q;
  float_of_str := decimal_of_str;
  float_lt := Qltb;
|}.

(** ** Theory *)

Lemma Qltb_lt a b : Qltb a b = true ↔ Qlt a b.
Proof. unfold Qltb. rewrite Qlt_alt. by destruct (Qcompare a b). Qed.

#[export] Instance decimal_float_laws : FloatLaws.
Proof.
  split; simpl.
  - intros x. apply not_true_is_false. rewrite Qltb_lt. apply Qlt_irrefl.
  - intros x y Hxy%Qltb_lt. apply not_true_is_false. rewrite Qltb_lt.
    intros Hyx. exact (Qlt_irrefl x (Qlt_trans _ _ _ Hxy Hyx)).
  - intros x y z. rewrite !Qltb_lt. apply Qlt_trans.
Qed.

Section float_laws.
Context `{FloatLaws}.

Lemma to_float_Ok s x : to_float s = Ok x ↔ float_of_str s = Some x.
Proof. apply or_raise_Ok. Qed.

Lemma to_float_Raise s e :
  to_float s = Raise e ↔ float_of_str s = None ∧ e = FloatError s.
Proof. apply or_raise_Raise. Qed.

(** No float is both above and below another. *)
Lemma float_gt_lt_excl a b : float_gt a b = true → float_lt a b = false.
Proof. apply float_lt_asym. Qed.

End float_laws.

Example decimal_of_str_60 : decimal_of_str " 60.50 " = Some (Qmake 6050 100).
Proof. reflexivity. Qed.

Example decimal_of_str_neg : decimal_of_str "-.5" = Some (Qmake (-5) 10).
Proof. reflexivity. Qed.

Example decimal_of_str_bad : decimal_of_str "Bo" = None.
Proof. reflexivity. Qed.

Example decimal_of_str_dot : decimal_of_str "." = None.
Proof. reflexivity. Qed.
