(* ===== verification/PySet.v ===== *)
(** * PySet: the order in which a Python set gives its elements

    [union] of Fileread.py removes duplicates with
    [list(map(list, set(map(tuple, rows))))] and [difference] computes
    [list(set(left) - set(right))].  A set is iterated in an order the
    language does not specify.  The class [SetOrder] is that order: an
    enumeration without duplicates of exactly the elements of the set.
    Theorems about union and difference are proved for every instance;
    [first_occurrence] (elements in the order they first appear) is the
    instance the witnesses run on, [reverse_occurrence] a second order to
    compare it with.

    An instance is a function of the list: it is the order of one
    process.  The rows are tuples of [str], whose hashes CPython chooses
    anew for every process unless PYTHONHASHSEED is set, so two runs of
    a program on the same input can enumerate a set in two orders.  A
    statement that compares two runs takes two instances
    ([set_list_orders], [set_diff_list_orders]). *)

From S2P Require Import Prelude.

Class SetOrder (A : Type) `{EqDecision A} : Type := {
  (** [list(set(l))]. *)
  set_list : list A → list A;
  (** [list(set(l) - set(k))]. *)
  set_diff_list : list A → list A → list A;
  set_list_NoDup l : NoDup (set_list l);
  set_list_elem l x : x ∈ set_list l ↔ x ∈ l;
  set_diff_list_NoDup l k : NoDup (set_diff_list l k);
  set_diff_list_elem l k x : x ∈ set_diff_list l k ↔ x ∈ l ∧ x ∉ k;
}.

#[export] Program Instance first_occurrence `{EqDecision A} : SetOrder A := {|
  set_list := remove_dups;
  set_diff_list l k := list_difference (remove_dups l) k;
|}.
Next Obligation. intros. apply NoDup_remove_dups. Qed.
Next Obligation. intros. apply elem_of_remove_dups. Qed.
Next Obligation. intros. apply NoDup_list_difference, NoDup_remove_dups. Qed.
Next Obligation.
  intros. by rewrite list_elem_of_difference, elem_of_remove_dups.
Qed.

(** Another order, for comparison: the elements in the reverse of the
    order they first appear.  It is not declared as an instance. *)
Program Definition reverse_occurrence `{EqDecision A} : SetOrder A := {|
  set_list l := reverse (remove_dups l);
  set_diff_list l k := reverse (list_difference (remove_dups l) k);
|}.
Next Obligation. intros. rewrite reverse_Permutation. apply NoDup_remove_dups. Qed.
Next Obligation. intros. by rewrite elem_of_reverse, elem_of_remove_dups. Qed.
Next Obligation.
  intros. rewrite reverse_Permutation.
  apply NoDup_list_difference, NoDup_remove_dups.
Qed.
Next Obligation.
  intros. by rewrite elem_of_reverse, list_elem_of_difference, elem_of_remove_dups.
Qed.

Section set_order.
Context `{SetOrder A}.
Implicit Types (l k : list A).

(** Any two enumerations of the same elements are permutations. *)
Lemma set_list_perm l k : (∀ x, x ∈ l ↔ x ∈ k) → set_list l ≡ₚ set_list k.
Proof.
  intros Hlk. apply NoDup_Permutation; [apply set_list_NoDup..|].
  intros x. by rewrite !set_list_elem.
Qed.

(** The enumeration of a duplicate-free list is a permutation of it. *)
Lemma set_list_NoDup_perm l : NoDup l → set_list l ≡ₚ l.
Proof.
  intros Hl. apply NoDup_Permutation; [apply set_list_NoDup|done|].
  apply set_list_elem.
Qed.

Lemma set_list_length l : length (set_list l) ≤ length l.
Proof.
  apply submseteq_length, NoDup_submseteq; [apply set_list_NoDup|].
  intros x. by rewrite set_list_elem.
Qed.

Lemma set_list_idemp l : set_list (set_list l) ≡ₚ set_list l.
Proof. apply set_list_NoDup_perm, set_list_NoDup. Qed.

Lemma set_list_app_comm l k : set_list (l ++ k) ≡ₚ set_list (k ++ l).
Proof. apply set_list_perm. intros x. rewrite !elem_of_app. tauto. Qed.

Lemma set_list_app_idemp l : set_list (l ++ l) ≡ₚ set_list l.
Proof. apply set_list_perm. intros x. rewrite elem_of_app. tauto. Qed.

Lemma set_diff_list_nil l : set_diff_list l l = [].
Proof.
  destruct (set_diff_list l l) as [|x r] eqn:E; [done|].
  assert (x ∈ set_diff_list l l) as Hx%set_diff_list_elem by (rewrite E; left).
  tauto.
Qed.

Lemma set_diff_list_length l k : length (set_diff_list l k) ≤ length l.
Proof.
  apply submseteq_length, NoDup_submseteq; [apply set_diff_list_NoDup|].
  intros x. rewrite set_diff_list_elem. tauto.
Qed.

End set_order.

(** Two orders enumerate a set as permutations of each other. *)
Lemma set_list_orders `{EqDecision A} (O1 O2 : SetOrder A) (l k : list A) :
  (∀ x, x ∈ l ↔ x ∈ k) → @set_list _ _ O1 l ≡ₚ @set_list _ _ O2 k.
Proof.
  intros Hlk. apply NoDup_Permutation; [apply set_list_NoDup..|].
  intros x. by rewrite !set_list_elem.
Qed.

Lemma set_diff_list_orders `{EqDecision A} (O1 O2 : SetOrder A) (l l' k k' : list A) :
  (∀ x, x ∈ l ↔ x ∈ l') → (∀ x, x ∈ k ↔ x ∈ k') →
  @set_diff_list _ _ O1 l k ≡ₚ @set_diff_list _ _ O2 l' k'.
Proof.
  intros Hl Hk. apply NoDup_Permutation; [apply set_diff_list_NoDup..|].
  intros x. by rewrite !set_diff_list_elem, Hl, Hk.
Qed.

