(* ===== verification/Relation.v ===== *)
(** * Relation: rows, relations and the store both sources share

    [SimpleDB.__init__] and [SimpleDB.load_relations] are the same in
    Fileread.py and newonetest.py: [self.relations] maps a relation name to
    a dict with the keys ['attributes'] (the CSV header) and ['data'] (the
    remaining rows).  Here a relation is the record [relation]; the dict
    [self.relations] is the association list [store], in insertion order,
    because [get_attribute_index] of Fileread.py iterates over its values.

    [load_relations] is modelled from the directory listing on: its input
    is the list of file names with the rows [csv.reader] gives for each. *)

From S2P Require Import Prelude PyString.

(** ** Data *)

Abbreviation row := (list string).

(** A list of rows as the methods return it ([[header] + rows] in
    Fileread.py, the bare rows in newonetest.py). *)
Abbreviation table := (list row).

Record relation : Type := Relation {
  attributes : list string;
  data : list row;
}.

#[export] Instance relation_eq_dec : EqDecision relation.
Proof. solve_decision. Defined.

(** What a method returns where Python allows [None] beside a list. *)
Inductive pyval : Type :=
| PyList (t : table)
| PyNone.

#[export] Instance pyval_eq_dec : EqDecision pyval.
Proof. solve_decision. Defined.

(** [not v] for a list or [None]. *)
Definition falsy (v : pyval) : bool :=
  match v with
  | PyNone | PyList [] => true
  | PyList (_ :: _) => false
  end.

(** ** The store *)

Abbreviation store := (list (string * relation)).

(** [SimpleDB.__init__]: [self.relations = {}]. *)
Definition init : store := [].

(** [self.relations[name]] when the key is present. *)
Fixpoint lookup (st : store) (name : string) : option relation :=
  match st with
  | [] => None
  | (k, r) :: st' => if decide (k = name) then Some r else lookup st' name
  end.

(** [self.relations[name] = r]: a present key keeps its position. *)
Fixpoint store_set (st : store) (name : string) (r : relation) : store :=
  match st with
  | [] => [(name, r)]
  | (k, r') :: st' =>
      if decide (k = name) then (k, r) :: st'
      else (k, r') :: store_set st' name r
  end.

(** [self.relations.values()]. *)
Definition values (st : store) : list relation := st.*2.

(** One iteration of the loop of [load_relations]: [rows] is what
    [csv.reader] yields for the file. *)
Definition load_file (st : store) (filename : string) (rows : list row)
    : res store :=
  if endswith filename ".csv" then
    let relation_name := slice 0 4 filename in
    match rows with
    | [] => Raise StopIteration
    | attributes :: data =>
        Ok (store_set st relation_name (Relation attributes data))
    end
  else Ok st.

(** [load_relations]: [dir] is the listing of the directory. *)
Fixpoint load_relations (st : store) (dir : list (string * list row))
    : res store :=
  match dir with
  | [] => Ok st
  | (filename, rows) :: dir' =>
      st' ← load_file st filename rows; load_relations st' dir'
  end.

(** ** Well-formedness *)

(** Every row has as many values as the relation has attributes. *)
Definition relation_wf (r : relation) : Prop :=
  Forall (λ x : row, length x = length (attributes r)) (data r).

(** A table whose rows all have [n] values. *)
Definition table_arity (n : nat) (t : table) : Prop :=
  Forall (λ x : row, length x = n) t.

(** A result table: a header and rows as long as the header. *)
Definition table_wf (t : table) : Prop :=
  match t with
  | [] => False
  | header :: rows => table_arity (length header) rows
  end.

(** The keys of a dict are distinct. *)
Definition store_keys_wf (st : store) : Prop := NoDup st.*1.

Definition store_wf (st : store) : Prop :=
  store_keys_wf st ∧ Forall relation_wf (values st).

#[export] Instance relation_wf_dec r : Decision (relation_wf r).
Proof. unfold relation_wf. apply _. Defined.
#[export] Instance table_arity_dec n t : Decision (table_arity n t).
Proof. unfold table_arity. apply _. Defined.
#[export] Instance table_wf_dec t : Decision (table_wf t).
Proof. destruct t; apply _. Defined.
#[export] Instance store_wf_dec st : Decision (store_wf st).
Proof. unfold store_wf, store_keys_wf. apply _. Defined.

(** ** A small database

    The relations of the end-to-end scenario: [EMP(id, name, salary)] and
    [DEPT(id, dname)], as the files [EMP.csv] and [DEPT.csv] and as the
    store their loading gives. *)

Definition emp : relation :=
  Relation ["id"; "name"; "salary"] [["1"; "Al"; "50"]; ["2"; "Bo"; "90"]].

Definition dept : relation := Relation ["id"; "dname"] [["1"; "Eng"]].

Definition company : store := [("EMP", emp); ("DEPT", dept)].

(** Two relations with the same attributes in different columns. *)
Definition mirror : store :=
  [("A", Relation ["x"; "y"] [["1"; "2"]]);
   ("B", Relation ["y"; "x"] [["1"; "2"]])].

(** A relation whose attribute is the second column of an earlier,
    wider relation. *)
Definition narrow : store :=
  [("A", Relation ["p"; "x"] [["1"; "2"]]);
   ("B", Relation ["x"] [["1"]])].

Definition company_dir : list (string * list row) :=
  [("EMP.csv", attributes emp :: data emp);
   ("notes.txt", [["not"; "a"; "relation"]]);
   ("DEPT.csv", attributes dept :: data dept)].

(** ** Theory of the store *)

Lemma lookup_elem st name r : lookup st name = Some r → (name, r) ∈ st.
Proof.
  induction st as [|[k r'] st IH]; simpl; [done|].
  case_decide; [intros [= ->]; subst; left|right; auto].
Qed.

Lemma lookup_values st name r : lookup st name = Some r → r ∈ values st.
Proof.
  intros H%lookup_elem. unfold values.
  apply list_elem_of_fmap. by exists (name, r).
Qed.

Lemma lookup_None st name : lookup st name = None ↔ name ∉ st.*1.
Proof.
  induction st as [|[k r] st IH]; simpl.
  - split; [intros _; apply not_elem_of_nil|done].
  - rewrite not_elem_of_cons. case_decide; naive_solver.
Qed.

(** Insert then look up. *)
Lemma lookup_store_set st name r name' :
  lookup (store_set st name r) name' =
  if decide (name = name') then Some r else lookup st name'.
Proof.
  induction st as [|[k r'] st IH]; simpl.
  - by repeat case_decide.
  - repeat (case_decide; simplify_eq/=);
      rewrite ?IH, ?decide_True, ?decide_False by done; done.
Qed.

Lemma store_set_keys_in st name r :
  name ∈ st.*1 → (store_set st name r).*1 = st.*1.
Proof.
  induction st as [|[k r'] st IH]; csimpl; [by intros ?%elem_of_nil|].
  case_decide; [done|]. intros [?|?]%elem_of_cons; [done|].
  csimpl. by rewrite IH.
Qed.

Lemma store_set_keys_notin st name r :
  name ∉ st.*1 → (store_set st name r).*1 = st.*1 ++ [name].
Proof.
  induction st as [|[k r'] st IH]; csimpl; [done|].
  rewrite not_elem_of_cons. intros [??]. rewrite decide_False by done.
  csimpl. by rewrite IH.
Qed.

(** Assignment keeps the keys distinct. *)
Lemma store_set_keys_wf st name r :
  store_keys_wf st → store_keys_wf (store_set st name r).
Proof.
  unfold store_keys_wf. intros Hst. destruct (decide (name ∈ st.*1)).
  - by rewrite store_set_keys_in.
  - rewrite store_set_keys_notin by done.
    apply NoDup_app. split_and!; [done| |apply NoDup_singleton].
    by intros x Hx ->%list_elem_of_singleton.
Qed.

Lemma store_set_wf st name r :
  store_wf st → relation_wf r → store_wf (store_set st name r).
Proof.
  intros [Hk Hr] Hwf. split; [by apply store_set_keys_wf|].
  clear Hk. unfold values in *.
  induction st as [|[k r'] st IH]; csimpl in *.
  - by repeat constructor.
  - apply Forall_cons in Hr as [??].
    case_decide; csimpl; constructor; auto.
Qed.

Lemma lookup_wf st name r : store_wf st → lookup st name = Some r → relation_wf r.
Proof.
  intros [_ Hst] Hr%lookup_values. by eapply (proj1 (Forall_forall _ _) Hst).
Qed.

(** ** Loading *)

Lemma slice_suffix name ext :
  slice 0 (String.length ext) (name +:+ ext) = name.
Proof.
  unfold slice. rewrite str_length_app. simpl.
  replace (_ + _ - _ - 0) with (String.length name) by lia.
  apply stake_app_length.
Qed.

Lemma endswith_suffix name ext : endswith (name +:+ ext) ext = true.
Proof. apply endswith_spec. by exists name. Qed.

Lemma endswith_slice filename ext :
  endswith filename ext = true →
  filename = slice 0 (String.length ext) filename +:+ ext.
Proof. intros [name ->]%endswith_spec. by rewrite slice_suffix. Qed.

(** A file that is not a CSV file leaves the store as it is; a CSV file
    with a header sets the relation named by the file. *)
Lemma load_file_Ok st filename rows st' :
  load_file st filename rows = Ok st' ↔
  (endswith filename ".csv" = false ∧ st' = st) ∨
  (∃ name h d, filename = name +:+ ".csv" ∧ rows = h :: d ∧
               st' = store_set st name (Relation h d)).
Proof.
  unfold load_file. destruct (endswith filename ".csv") eqn:He.
  - split.
    + destruct rows as [|h d]; [done|]. intros [= <-]. right.
      exists (slice 0 4 filename), h, d. split_and!; [|done..].
      exact (endswith_slice _ ".csv" He).
    + intros [[? _]|(name&h&d&->&->&->)]; [done|].
      by rewrite (slice_suffix name ".csv" : slice 0 4 _ = _).
  - split; [intros [= <-]; by left|].
    intros [[_ ->]|(name&h&d&->&_)]; [done|].
    by rewrite endswith_suffix in He.
Qed.

(** The only exception of the loader is the one of [next(reader)] on a
    CSV file without a header. *)
Lemma load_file_Raise st filename rows e :
  load_file st filename rows = Raise e ↔
  endswith filename ".csv" = true ∧ rows = [] ∧ e = StopIteration.
Proof.
  unfold load_file. destruct (endswith filename ".csv"), rows; naive_solver.
Qed.

Lemma load_file_keys_wf st filename rows st' :
  store_keys_wf st → load_file st filename rows = Ok st' → store_keys_wf st'.
Proof.
  intros Hst [[_ ->]|(name&h&d&_&_&->)]%load_file_Ok; [done|].
  by apply store_set_keys_wf.
Qed.

Lemma load_file_wf st filename rows st' :
  store_wf st → table_arity (length (hd [] rows)) (tl rows) →
  load_file st filename rows = Ok st' → store_wf st'.
Proof.
  intros Hst Hrows [[_ ->]|(name&h&d&_&->&->)]%load_file_Ok; [done|].
  by apply store_set_wf.
Qed.

(** A file leaves the relations of other names alone. *)
Lemma load_file_lookup_ne st filename rows st' name :
  load_file st filename rows = Ok st' → filename ≠ name +:+ ".csv" →
  lookup st' name = lookup st name.
Proof.
  intros [[_ ->]|(name'&h&d&->&_&->)]%load_file_Ok Hne; [done|].
  rewrite lookup_store_set. case_decide; congruence.
Qed.

Lemma load_relations_app st dir1 dir2 :
  load_relations st (dir1 ++ dir2) =
  st' ← load_relations st dir1; load_relations st' dir2.
Proof.
  revert st. induction dir1 as [|[f rows] dir1 IH]; intros st; [done|].
  simpl. destruct (load_file st f rows); simpl; [apply IH|done].
Qed.

Lemma load_relations_lookup_ne st dir st' name :
  load_relations st dir = Ok st' →
  Forall (λ f, f.1 ≠ name +:+ ".csv") dir →
  lookup st' name = lookup st name.
Proof.
  revert st. induction dir as [|[f rows] dir IH]; intros st; [by intros [= ->]|].
  simpl. destruct (load_file st f rows) as [st1|] eqn:Hf; [|done]. simpl.
  intros Hl [Hne Hdir]%Forall_cons. rewrite (IH _ Hl Hdir).
  by eapply load_file_lookup_ne.
Qed.

(** After [load_relations], the relation stored under a name is the
    header and the rows of the last CSV file of the listing with that
    name: later files of other names do not touch it, earlier files of
    the same name are overwritten. *)
Lemma load_relations_lookup st dir1 name h d dir2 st' :
  load_relations st (dir1 ++ (name +:+ ".csv", h :: d) :: dir2) = Ok st' →
  Forall (λ f, f.1 ≠ name +:+ ".csv") dir2 →
  lookup st' name = Some (Relation h d).
Proof.
  rewrite load_relations_app. destruct (load_relations st dir1) as [st1|]; [|done].
  simpl. destruct (load_file st1 _ _) as [st2|] eqn:Hf; [|done]. simpl.
  intros Hl Hdir. rewrite (load_relations_lookup_ne _ _ _ _ Hl Hdir).
  unfold load_file in Hf. rewrite endswith_suffix in Hf.
  rewrite (slice_suffix name ".csv" : slice 0 4 _ = _) in Hf. simplify_eq.
  rewrite lookup_store_set. by rewrite decide_True.
Qed.

Example load_relations_lookup_company :
  lookup company "DEPT" = Some dept.
Proof.
  apply (load_relations_lookup init
           [("EMP.csv", attributes emp :: data emp);
            ("notes.txt", [["not"; "a"; "relation"]])]
           "DEPT" (attributes dept) (data dept) [] company);
    [reflexivity|constructor].
Qed.

(** [load_relations] keeps the store well formed, with distinct names and
    rows as long as their header, when the rows of every file are as long
    as its first row; the loader itself never checks this. *)
Lemma load_relations_wf st dir st' :
  store_wf st →
  Forall (λ f, table_arity (length (hd [] f.2)) (tl f.2)) dir →
  load_relations st dir = Ok st' → store_wf st'.
Proof.
  revert st. induction dir as [|[f rows] dir IH]; intros st Hst Hdir;
    [by intros [= <-]|].
  apply Forall_cons in Hdir as [Hrows Hdir]. simpl.
  destruct (load_file st f rows) as [st1|] eqn:Hf; [|done]. simpl.
  apply IH; [|done]. by eapply load_file_wf.
Qed.

Lemma company_wf : store_wf company.
Proof.
  apply (load_relations_wf init company_dir company);
    [apply (bool_decide_unpack _); by vm_compute..|reflexivity].
Qed.

(** [load_relations] fails exactly when some CSV file of the listing has
    no first row, and then with the StopIteration of [next(reader)]; files
    without the extension [.csv] are never opened. *)
Lemma load_relations_Raise st dir e :
  load_relations st dir = Raise e ↔
  e = StopIteration ∧ ∃ f, f ∈ dir ∧ endswith f.1 ".csv" = true ∧ f.2 = [].
Proof.
  revert st. induction dir as [|[f rows] dir IH]; intros st; simpl.
  { split; [done|]. by intros (_&?&?%elem_of_nil&_). }
  destruct (load_file st f rows) as [st1|e'] eqn:Hf; simpl.
  - rewrite IH. split; intros (->&g&Hg&He&Hr); (split; [done|]).
    + exists g. split_and!; [by right|done..].
    + apply elem_of_cons in Hg as [->|Hg]; [|by exists g].
      simpl in *. subst. unfold load_file in Hf. by rewrite He in Hf.
  - apply load_file_Raise in Hf as (He&->&->). split.
    + intros [= <-]. split; [done|]. exists (f, []). split_and!; [left|done..].
    + by intros (->&_).
Qed.

(** When every CSV file of the listing has a first row the loader
    returns. *)
Lemma load_relations_is_Ok st dir :
  Forall (λ f, endswith f.1 ".csv" = true → f.2 ≠ []) dir →
  ∃ st', load_relations st dir = Ok st'.
Proof.
  intros Hdir. destruct (load_relations st dir) as [st'|e] eqn:Hl; [by eauto|].
  apply load_relations_Raise in Hl as (_&f&Hf&He&Hr).
  by destruct (proj1 (Forall_forall _ _) Hdir f Hf He).
Qed.
