(* ===== verification/PyCsv.v ===== *)
(** * PyCsv: text files, [csv.writer] and [csv.reader]

    The loader opens each CSV file in text mode and hands it to
    [csv.reader]; the report is written through [csv.writer] to a file
    opened with [newline=''].  This file models the two ends on the text
    of a file: reading in text mode (universal newlines, the lines of a
    file), the writer and the reader of the csv module in its default
    dialect (comma, double quote, quotes doubled, minimal quoting, lines
    ended by CR LF).  The reader is the state machine of the module, one
    step per character and one at the end of each line, as it is in
    CPython 3.11, with the limit of the module on the length of a field.
    The theorems: reading line by line is reading the text character by
    character; on a file opened in text mode the reader fails only on a
    field longer than the limit and yields cells without CR and within
    the limit.  What the reader reads of a well-formed file, and of what
    the writer writes, is in CsvFormat.v. *)

From S2P Require Import Prelude PyString Relation.

Definition LF : ascii := "010".
Definition CR : ascii := "013".
Definition QUOTE : ascii := "034".
Definition COMMA : ascii := ",".

(** ** Text files *)

(** Reading in text mode with the default [newline=None]: CR LF and a
    lone CR become LF. *)
Fixpoint universal_newlines (s : string) : string :=
  match s with
  | "" => ""
  | String c s' =>
      if bool_decide (c = CR) then
        match s' with
        | String d s'' =>
            if bool_decide (d = LF) then universal_newlines s'
            else String LF (universal_newlines s')
        | "" => String LF ""
        end
      else String c (universal_newlines s')
  end.

(** The lines of a text, each with its LF: iteration over a file and
    [f.readlines()]. *)
Fixpoint lines (s : string) : list string :=
  match s with
  | "" => []
  | String c s' =>
      if bool_decide (c = LF) then String c "" :: lines s'
      else match lines s' with
           | [] => [String c ""]
           | l :: ls => String c l :: ls
           end
  end.

(** [open(path, 'r')] iterated, or [f.readlines()]. *)
Definition readlines (text : string) : list string :=
  lines (universal_newlines text).

(** ** The writer *)

(** A field is quoted when it has the delimiter, the quote or a
    character of the line terminator. *)
Definition special (c : ascii) : bool :=
  bool_decide (c = COMMA ∨ c = QUOTE ∨ c = CR ∨ c = LF).

Fixpoint needs_quotes (field : string) : bool :=
  match field with
  | "" => false
  | String c field' => special c || needs_quotes field'
  end.

(** The quotes of a field, doubled. *)
Fixpoint double_quotes (field : string) : string :=
  match field with
  | "" => ""
  | String c field' =>
      if bool_decide (c = QUOTE) then String c (String c (double_quotes field'))
      else String c (double_quotes field')
  end.

Definition write_field (field : string) : string :=
  if needs_quotes field then
    String QUOTE (double_quotes field +:+ String QUOTE "")
  else field.

(** The text of a row without its terminator; a row of one empty field
    is written as two quotes. *)
Definition row_text (r : row) : string :=
  match r with
  | [""] => String QUOTE (String QUOTE "")
  | _ => join "," (write_field <$> r)
  end.

(** [writer.writerow(r)]. *)
Definition writerow (r : row) : string :=
  row_text r +:+ String CR (String LF "").

(** [writer.writerows(rows)]. *)
Fixpoint writerows (rows : list row) : string :=
  match rows with
  | [] => ""
  | r :: rows' => writerow r +:+ writerows rows'
  end.

(** ** The reader *)

Inductive parse_state : Type :=
| START_RECORD
| START_FIELD
| IN_FIELD
| IN_QUOTED_FIELD
| QUOTE_IN_QUOTED_FIELD
| EAT_CRNL.

#[export] Instance parse_state_eq_dec : EqDecision parse_state.
Proof. solve_decision. Defined.

(** The reader between two characters: its state, the field it is
    reading and the fields of the record read so far. *)
Record reader : Type := Reader {
  state : parse_state;
  field : string;
  fields : row;
}.

(** A character of a line, or the end of the line. *)
Inductive input : Type :=
| Char (c : ascii)
| EOL.

Definition is_newline (i : input) : bool :=
  match i with
  | Char c => bool_decide (c = LF ∨ c = CR)
  | EOL => true
  end.

(** The state after a newline: the record is complete at the end of the
    line, a newline character is skipped first. *)
Definition after_newline (i : input) : parse_state :=
  match i with EOL => START_RECORD | Char _ => EAT_CRNL end.

Definition parse_reset : reader := Reader START_RECORD "" [].

Definition save_field (r : reader) (next : parse_state) : reader :=
  Reader next "" (fields r ++ [field r]).

(** [csv.field_size_limit()]. *)
Definition field_limit : N := 131072.

Definition field_limit_error : exn :=
  CsvError "field larger than field limit (131072)".

(** [parse_add_char]: a field that has reached the limit takes no more
    characters. *)
Definition add_char (r : reader) (c : ascii) (next : parse_state)
    : res reader :=
  if bool_decide (field_limit ≤ N.of_nat (String.length (field r)))%N then
    Raise field_limit_error
  else Ok (Reader next (field r +:+ String c "") (fields r)).

Definition goto (r : reader) (next : parse_state) : reader :=
  Reader next (field r) (fields r).

(** The case [START_FIELD], which [START_RECORD] falls through to. *)
Definition start_field (r : reader) (i : input) : res reader :=
  if is_newline i then Ok (save_field r (after_newline i))
  else
    match i with
    | Char c =>
        if bool_decide (c = QUOTE) then Ok (goto r IN_QUOTED_FIELD)
        else if bool_decide (c = COMMA) then Ok (save_field r START_FIELD)
        else add_char r c IN_FIELD
    | EOL => Ok r
    end.

(** [parse_process_char]. *)
Definition parse_process_char (r : reader) (i : input) : res reader :=
  match state r with
  | START_RECORD =>
      match i with
      | EOL => Ok r
      | Char c =>
          if is_newline i then Ok (goto r EAT_CRNL) else start_field r i
      end
  | START_FIELD => start_field r i
  | IN_FIELD =>
      if is_newline i then Ok (save_field r (after_newline i))
      else
        match i with
        | Char c =>
            if bool_decide (c = COMMA) then Ok (save_field r START_FIELD)
            else add_char r c IN_FIELD
        | EOL => Ok r
        end
  | IN_QUOTED_FIELD =>
      match i with
      | EOL => Ok r
      | Char c =>
          if bool_decide (c = QUOTE) then Ok (goto r QUOTE_IN_QUOTED_FIELD)
          else add_char r c IN_QUOTED_FIELD
      end
  | QUOTE_IN_QUOTED_FIELD =>
      if is_newline i then Ok (save_field r (after_newline i))
      else
        match i with
        | Char c =>
            if bool_decide (c = QUOTE) then add_char r c IN_QUOTED_FIELD
            else if bool_decide (c = COMMA) then Ok (save_field r START_FIELD)
            else add_char r c IN_FIELD
        | EOL => Ok r
        end
  | EAT_CRNL =>
      match i with
      | EOL => Ok (goto r START_RECORD)
      | Char c =>
          if is_newline i then Ok r
          else Raise (CsvError
            "new-line character seen in unquoted field - do you need to open the file in universal-newline mode?")
      end
  end.

(** The characters of a line, then its end. *)
Fixpoint parse_line (r : reader) (line : string) : res reader :=
  match line with
  | "" => parse_process_char r EOL
  | String c line' => r' ← parse_process_char r (Char c); parse_line r' line'
  end.

(** The rows the reader yields: a record ends with the line after which
    the state is [START_RECORD]; when the lines run out inside a quoted
    field the record ends there. *)
Fixpoint read_rows (r : reader) (file : list string) : res (list row) :=
  match file with
  | [] =>
      if bool_decide (field r ≠ "" ∨ state r = IN_QUOTED_FIELD) then
        Ok [fields (save_field r START_RECORD)]
      else Ok []
  | line :: file' =>
      r' ← parse_line r line;
      if bool_decide (state r' = START_RECORD) then
        rows ← read_rows parse_reset file'; Ok (fields r' :: rows)
      else read_rows r' file'
  end.

(** [list(csv.reader(file))] for a file given by its lines. *)
Definition csv_reader (file : list string) : res (list row) :=
  read_rows parse_reset file.

(** Reading the text of a file opened in text mode. *)
Definition read_csv (text : string) : res (list row) :=
  csv_reader (readlines text).

(** ** Reference definitions

    What the theorems are stated with: the reader on a text, character
    by character; the cells that are written and read back; the
    invariant of the reader on a text without CR. *)

(** What the reader yields when the lines run out. *)
Definition end_of_file (r : reader) : list row :=
  if bool_decide (field r ≠ "" ∨ state r = IN_QUOTED_FIELD) then
    [fields (save_field r START_RECORD)]
  else [].

(** The reader on a text: the end of a line is after each LF and at the
    end of the text. *)
Fixpoint read_text (r : reader) (s : string) : res (list row) :=
  match s with
  | "" => Ok (end_of_file r)
  | String c s' =>
      r1 ← parse_process_char r (Char c);
      if bool_decide (c = LF ∨ s' = "") then
        r2 ← parse_process_char r1 EOL;
        if bool_decide (state r2 = START_RECORD) then
          rows ← read_text parse_reset s'; Ok (fields r2 :: rows)
        else read_text r2 s'
      else read_text r1 s'
  end.

(** A text without CR. *)
Definition clean (s : string) : Prop := mem_char CR s = false.

(** A text within the field limit. *)
Definition short (s : string) : Prop :=
  (N.of_nat (String.length s) ≤ field_limit)%N.

(** A cell that is written and read back as it is: no CR, within the
    field limit. *)
Definition cell (s : string) : Prop := clean s ∧ short s.

(** The reader between two characters of a text without CR: what it has
    read are cells. *)
Definition reader_clean (r : reader) : Prop :=
  cell (field r) ∧ Forall cell (fields r).

(** What a step of the reader on a text without CR comes to: a reader
    whose field has grown by at most [n] characters, or the error of the
    field limit when the field has reached it. *)
Definition step_clean (r : reader) (n : nat) (v : res reader)
    (P : reader → Prop) : Prop :=
  match v with
  | Ok r1 =>
      reader_clean r1 ∧ String.length (field r1) ≤ n + String.length (field r) ∧
      P r1
  | Raise e =>
      e = field_limit_error ∧
      (field_limit ≤ N.of_nat (String.length (field r)))%N
  end.

#[global] Arguments step_clean : simpl never.

(** ** Theory of text files *)

(** After the translation a text has no CR. *)
Lemma universal_newlines_no_CR s : mem_char CR (universal_newlines s) = false.
Proof.
  induction s as [|c s IH]; [done|]. simpl. case_bool_decide as Hc.
  - destruct s as [|d s]; [done|]. by case_bool_decide.
  - simpl. rewrite IH. by rewrite bool_decide_eq_false_2 by done.
Qed.

(** A text without CR is not changed. *)
Lemma universal_newlines_id s :
  mem_char CR s = false → universal_newlines s = s.
Proof.
  induction s as [|c s IH]; [done|]. simpl.
  intros [Hc%bool_decide_eq_false Hs]%orb_false_iff.
  rewrite bool_decide_eq_false_2 by congruence. by rewrite IH.
Qed.

(** The line terminator of the writer is read as one LF. *)
Lemma universal_newlines_CRLF a b :
  mem_char CR a = false →
  universal_newlines (a +:+ String CR (String LF b)) =
  a +:+ String LF (universal_newlines b).
Proof.
  induction a as [|c a IH]; [done|]. simpl.
  intros [Hc%bool_decide_eq_false Hs]%orb_false_iff.
  rewrite bool_decide_eq_false_2 by congruence. by rewrite IH.
Qed.

(** The lines of a text are the text. *)
Lemma lines_concat s : fold_right String.append "" (lines s) = s.
Proof.
  induction s as [|c s IH]; [done|]. simpl. case_bool_decide.
  - simpl. by rewrite IH.
  - destruct (lines s) as [|l ls]; simpl in *; by rewrite <-IH.
Qed.

(** ** The reader, character by character *)

Lemma end_of_file_reset : end_of_file parse_reset = [].
Proof. reflexivity. Qed.

Lemma lines_nil s : lines s = [] ↔ s = "".
Proof.
  split; [|by intros ->]. destruct s as [|c s]; [done|]. simpl.
  case_bool_decide; [done|]. by destruct (lines s).
Qed.

(** Reading line by line is reading the text. *)
Lemma read_rows_lines r s : read_rows r (lines s) = read_text r s.
Proof.
  revert r. induction s as [|c s IH]; intros r.
  { simpl. unfold end_of_file. by case_bool_decide. }
  simpl. destruct (parse_process_char r (Char c)) as [r1|e] eqn:Hr1.
  2: { case_bool_decide; [|destruct (lines s)]; simpl; by rewrite Hr1. }
  simpl. case_bool_decide as Hc.
  - simpl. rewrite Hr1. simpl. rewrite bool_decide_eq_true_2 by by left.
    destruct (parse_process_char r1 EOL) as [r2|]; [|done]. simpl.
    by rewrite !IH.
  - destruct (lines s) as [|l ls] eqn:Hl.
    + apply lines_nil in Hl as ->. simpl. rewrite Hr1. simpl.
      rewrite (bool_decide_eq_true_2 (c = LF ∨ "" = "")) by by right.
      destruct (parse_process_char r1 EOL) as [r2|]; simpl; [|done].
      rewrite end_of_file_reset. unfold end_of_file. by repeat case_bool_decide.
    + assert (s ≠ "") as Hs by (by intros ->).
      rewrite bool_decide_eq_false_2 by naive_solver.
      rewrite <-IH. simpl. by rewrite Hr1.
Qed.

(** ** The reader on a text file *)

Lemma cell_nil : cell "".
Proof. split; [done|]. unfold short, field_limit. simpl. lia. Qed.

Lemma cell_snoc s c :
  cell s → c ≠ CR → (N.of_nat (String.length s) < field_limit)%N →
  cell (s +:+ String c "").
Proof.
  unfold cell, clean, short. intros [Hs _] Hc Hlen.
  rewrite mem_char_app, Hs, str_length_app. simpl.
  rewrite bool_decide_eq_false_2 by done. split; [done|lia].
Qed.

Lemma stay_clean r n (P : reader → Prop) :
  reader_clean r → P r → step_clean r n (Ok r) P.
Proof. intros Hr HP. split; [done|]. split; [lia|done]. Qed.

Lemma save_field_fields r next :
  reader_clean r → Forall cell (fields (save_field r next)).
Proof. intros [Hf Hfs]. simpl. apply Forall_app. by split; [|constructor]. Qed.

Lemma save_field_reader_clean r next :
  reader_clean r → reader_clean (save_field r next).
Proof. split; [apply cell_nil|by apply save_field_fields]. Qed.

Lemma save_field_clean r n next (P : reader → Prop) :
  reader_clean r → P (save_field r next) →
  step_clean r n (Ok (save_field r next)) P.
Proof.
  intros Hr HP.
  repeat split; [apply cell_nil..|by apply save_field_fields|simpl; lia|done].
Qed.

Lemma goto_clean r n next (P : reader → Prop) :
  reader_clean r → P (goto r next) → step_clean r n (Ok (goto r next)) P.
Proof. intros [Hf Hfs] HP. split; [done|]. split; [simpl; lia|done]. Qed.

Lemma add_char_clean r c next (P : reader → Prop) :
  reader_clean r → c ≠ CR → (∀ f, P (Reader next f (fields r))) →
  step_clean r 1 (add_char r c next) P.
Proof.
  intros [Hf Hfs] Hc HP. unfold add_char. case_bool_decide; [done|].
  split; [split; [apply cell_snoc; [done..|lia]|done]|]. split; [|done].
  simpl. rewrite str_length_app. simpl. lia.
Qed.

Lemma add_char_short r c next :
  (N.of_nat (String.length (field r)) < field_limit)%N →
  add_char r c next = Ok (Reader next (field r +:+ String c "") (fields r)).
Proof. intros. unfold add_char. by rewrite bool_decide_eq_false_2 by lia. Qed.

(** A character that is not CR: the reader waits for the end of the line
    only after LF. *)
Lemma parse_char_clean r c :
  reader_clean r → state r ≠ EAT_CRNL → c ≠ CR →
  step_clean r 1 (parse_process_char r (Char c))
             (λ r1, c ≠ LF → state r1 ≠ EAT_CRNL).
Proof.
  intros Hr Hst Hc. destruct r as [[] f fs]; try done;
    unfold parse_process_char, start_field; simpl;
    repeat case_bool_decide;
    first [apply save_field_clean|apply goto_clean|apply add_char_clean];
    simpl; naive_solver.
Qed.

(** The end of a line: the reader goes on, its field no longer. *)
Lemma parse_EOL_clean r :
  reader_clean r →
  ∃ r2, parse_process_char r EOL = Ok r2 ∧ reader_clean r2 ∧
        String.length (field r2) ≤ String.length (field r) ∧
        state r2 ≠ EAT_CRNL.
Proof.
  intros Hr. destruct r as [[] f fs]; unfold parse_process_char, start_field;
    simpl; eexists; (split; [done|]);
    (split; [first [done|by apply save_field_reader_clean]|]);
    split; simpl; (lia || done).
Qed.

(** The reader on a text without CR: what it reads are cells; the only
    error is the field limit, and the text is then longer than it. *)
Lemma read_text_clean r s :
  reader_clean r → state r ≠ EAT_CRNL → clean s →
  match read_text r s with
  | Ok rows => Forall (Forall cell) rows
  | Raise e =>
      e = field_limit_error ∧
      (field_limit < N.of_nat (String.length (field r) + String.length s))%N
  end.
Proof.
  revert r. induction s as [|c s IH]; intros r Hr Hst Hs; simpl.
  { unfold end_of_file. case_bool_decide; [|done].
    constructor; [|done]. by apply save_field_fields. }
  unfold clean in Hs. simpl in Hs.
  apply orb_false_iff in Hs as [Hc%bool_decide_eq_false Hs].
  pose proof (parse_char_clean r c Hr Hst ltac:(congruence)) as Hr1.
  unfold step_clean in Hr1.
  destruct (parse_process_char r (Char c)) as [r1|e];
    [destruct Hr1 as (Hr1&Hlen1&Hst1)|split; [apply Hr1|lia]]. simpl.
  case_bool_decide as Heol.
  - destruct (parse_EOL_clean r1 Hr1) as (r2&->&Hr2&Hlen2&Hst2). simpl.
    case_bool_decide.
    + specialize (IH parse_reset). destruct (read_text parse_reset s); simpl.
      * constructor; [apply Hr2|]. by apply IH.
      * destruct IH as [-> ?]; [by split|done..|]. split; [done|]. simpl in *. lia.
    + specialize (IH r2 Hr2 Hst2 Hs). destruct (read_text r2 s); [done|].
      split; [apply IH|lia].
  - specialize (IH r1 Hr1). destruct (read_text r1 s).
    + apply IH; [|done]. apply Hst1. naive_solver.
    + destruct IH as [-> ?]; [|done|]; [apply Hst1; naive_solver|].
      split; [done|lia].
Qed.

Lemma universal_newlines_length s :
  String.length (universal_newlines s) ≤ String.length s.
Proof.
  induction s as [|c s IH]; [done|]. simpl. case_bool_decide.
  - destruct s as [|d s]; [simpl; lia|]. case_bool_decide; simpl in *; lia.
  - simpl. lia.
Qed.

(** A CSV file opened in text mode: what is read has no CR and is within
    the field limit; the only error is the one of the field limit, and a
    file within the limit is read without error. *)
Lemma read_csv_clean text :
  match read_csv text with
  | Ok rows => Forall (Forall cell) rows
  | Raise e => e = field_limit_error ∧ ¬ short text
  end.
Proof.
  unfold read_csv, csv_reader, readlines. rewrite read_rows_lines.
  pose proof (read_text_clean parse_reset (universal_newlines text)) as Hr.
  destruct (read_text _ _); [apply Hr; by try apply universal_newlines_no_CR|].
  destruct Hr as [-> Hlen]; [done..|apply universal_newlines_no_CR|].
  split; [done|]. pose proof (universal_newlines_length text).
  unfold short. simpl in Hlen. lia.
Qed.

Lemma read_csv_short text :
  short text → ∃ rows, read_csv text = Ok rows ∧ Forall (Forall cell) rows.
Proof.
  intros Hs. pose proof (read_csv_clean text) as Hr.
  destruct (read_csv text) as [rows|e]; [by exists rows|]. by destruct Hr.
Qed.

(** ** The lines of a text file are cells *)

Lemma clean_app a b : clean (a +:+ b) ↔ clean a ∧ clean b.
Proof. unfold clean. rewrite mem_char_app. apply orb_false_iff. Qed.

Lemma short_app_l a b : short (a +:+ b) → short a.
Proof. unfold short. rewrite str_length_app. lia. Qed.

Lemma short_app_r a b : short (a +:+ b) → short b.
Proof. unfold short. rewrite str_length_app. lia. Qed.

Lemma clean_strip s : clean s → clean (strip s).
Proof.
  destruct (strip_with_spec isspace s) as (a&b&Hs&_). rewrite Hs at 1.
  by intros [_ [? _]%clean_app]%clean_app.
Qed.

Lemma short_strip s : short s → short (strip s).
Proof. unfold short. pose proof (strip_length s). lia. Qed.

Lemma cell_strip s : cell s → cell (strip s).
Proof. intros [??]. split; [by apply clean_strip|by apply short_strip]. Qed.

(** A text of a list is a piece of their concatenation. *)
Lemma elem_of_concat_pieces (ls : list string) l :
  l ∈ ls → ∃ a b, fold_right String.append "" ls = a +:+ l +:+ b.
Proof.
  induction ls as [|l' ls IH]; [by intros ?%elem_of_nil|].
  intros [->|(a&b&Hab)%IH]%elem_of_cons; simpl.
  - by exists "", (fold_right String.append "" ls).
  - exists (l' +:+ a), b. by rewrite Hab, str_app_assoc.
Qed.

(** A line read in text mode has no CR. *)
Lemma readlines_clean text line : line ∈ readlines text → clean line.
Proof.
  unfold readlines. intros (a&b&Hab)%elem_of_concat_pieces.
  rewrite lines_concat in Hab.
  pose proof (universal_newlines_no_CR text) as Hc. rewrite Hab in Hc.
  by apply clean_app in Hc as [_ [? _]%clean_app].
Qed.

(** The lines of a text within the field limit are cells. *)
Lemma readlines_cell text line : short text → line ∈ readlines text → cell line.
Proof.
  intros Hs Hl. split; [by eapply readlines_clean|].
  unfold readlines in Hl.
  apply elem_of_concat_pieces in Hl as (a&b&Hab). rewrite lines_concat in Hab.
  pose proof (universal_newlines_length text) as Hlen. rewrite Hab in Hlen.
  unfold short in *. rewrite !str_length_app in Hlen. lia.
Qed.

(** The concatenation of what is written is what is written for the
    concatenation. *)
Lemma writerows_app rows1 rows2 :
  writerows (rows1 ++ rows2) = writerows rows1 +:+ writerows rows2.
Proof.
  induction rows1 as [|r rows1 IH]; [done|]. simpl.
  by rewrite IH, str_app_assoc.
Qed.
