(* ===== verification/CsvFormat.v ===== *)
(** * CsvFormat: the texts that [csv.reader] reads as a table

    The CSV files of the directory are not written by the programs: what
    the loader makes of them is a fact about the reader on any file of
    the format.  The format is given here by three relations, from the
    fields up: the text of a field (as it is, or between quotes with its
    quotes doubled), the text of a record (the texts of its fields
    between commas) and the text of a file as text mode gives it
    (records ended by LF, the last line end optional).  The reader reads
    every text of the format as the rows it is the text of; the writer
    writes texts of the format; hence what is written is read back. *)

From S2P Require Import Prelude PyString Relation PyCsv.

(** ** The format *)

(** The text of a field: the field when it has no special character, or
    the field between quotes with its quotes doubled. *)
Inductive field_text : string → string → Prop :=
| field_raw f : needs_quotes f = false → field_text f f
| field_quoted f :
    field_text (String QUOTE (double_quotes f +:+ String QUOTE "")) f.

(** The text of a record without its line end.  The empty text is the
    record without field, so one empty field is written between
    quotes. *)
Inductive record_text : string → row → Prop :=
| record_empty : record_text "" []
| record_fields ts r :
    Forall2 field_text ts r → ts ≠ [] → ts ≠ [""] →
    record_text (join "," ts) r.

(** The text of a file read in text mode: records ended by LF; the last
    record may end with the text. *)
Inductive file_text : string → list row → Prop :=
| file_empty : file_text "" []
| file_last t r : record_text t r → t ≠ "" → file_text t [r]
| file_record t r s rows :
    record_text t r → file_text s rows →
    file_text (t +:+ String LF s) (r :: rows).

(** ** The reader inside a line *)

(** The reader at the end of the text, which ends the last line. *)
Definition finish (r : reader) : res (list row) :=
  r2 ← parse_process_char r EOL;
  if bool_decide (state r2 = START_RECORD) then Ok [fields r2]
  else Ok (end_of_file r2).

(** The reader after a character of a line: on the rest of the text, or
    at its end. *)
Definition read_rest (r : reader) (s : string) : res (list row) :=
  match s with
  | "" => finish r
  | _ => read_text r s
  end.

(** The states in which a field can end. *)
Definition field_end (st : parse_state) : Prop :=
  st = START_FIELD ∨ st = IN_FIELD ∨ st = QUOTE_IN_QUOTED_FIELD.

(** The state after the text of a field, read from the start of a field
    or of a record. *)
Definition field_state (st : parse_state) (t : string) : parse_state :=
  match t with
  | "" => st
  | String c _ =>
      if bool_decide (c = QUOTE) then QUOTE_IN_QUOTED_FIELD else IN_FIELD
  end.

(** What follows a record: the end of the text, or LF and a text that is
    read as [rows]. *)
Definition record_end (s : string) (rows : list row) : Prop :=
  (s = "" ∧ rows = []) ∨
  ∃ s', s = String LF s' ∧ read_text parse_reset s' = Ok rows.

(** The text of the rows as text mode reads what the writer wrote: each
    row ended by LF. *)
Fixpoint written (rows : list row) : string :=
  match rows with
  | [] => ""
  | r :: rows' => row_text r +:+ String LF (written rows')
  end.

(** A text that no writer wrote: fields quoted without need, a quote
    and a line end inside a field, no line end after the last record. *)
Definition quoted (t : string) : string := String QUOTE (t +:+ String QUOTE "").

Definition sample_text : string :=
  "id,name" +:+ String LF
    (quoted "1" +:+ "," +:+
     quoted ("A " +:+ String QUOTE (String QUOTE "l") +:+ String LF "x")).

Definition sample_rows : list row :=
  [["id"; "name"]; ["1"; "A " +:+ String QUOTE "l" +:+ String LF "x"]].

(** ** Steps of the reader *)

Lemma special_false c :
  special c = false ↔ c ≠ COMMA ∧ c ≠ QUOTE ∧ c ≠ CR ∧ c ≠ LF.
Proof. unfold special. rewrite bool_decide_eq_false. tauto. Qed.

Lemma read_text_cons r c s :
  read_text r (String c s) =
  r1 ← parse_process_char r (Char c);
  if bool_decide (c = LF ∨ s = "") then
    r2 ← parse_process_char r1 EOL;
    if bool_decide (state r2 = START_RECORD) then
      rows ← read_text parse_reset s; Ok (fields r2 :: rows)
    else read_text r2 s
  else read_text r1 s.
Proof. done. Qed.

Lemma read_rest_nonempty r s : s ≠ "" → read_rest r s = read_text r s.
Proof. by destruct s. Qed.

(** One step inside a line. *)
Lemma read_rest_cons r c s r1 :
  parse_process_char r (Char c) = Ok r1 → c ≠ LF →
  read_rest r (String c s) = read_rest r1 s.
Proof.
  intros Hr1 Hc. cbn [read_rest]. rewrite read_text_cons, Hr1. simpl.
  destruct s as [|d s].
  - rewrite bool_decide_eq_true_2 by by right. unfold read_rest, finish.
    destruct (parse_process_char r1 EOL) as [r2|]; [|done]. simpl.
    by case_bool_decide.
  - by rewrite bool_decide_eq_false_2 by naive_solver.
Qed.

(** A line end inside a quoted field: the field goes on. *)
Lemma read_rest_LF_quoted acc fs s :
  (N.of_nat (String.length acc) < field_limit)%N → s ≠ "" →
  read_rest (Reader IN_QUOTED_FIELD acc fs) (String LF s) =
  read_rest (Reader IN_QUOTED_FIELD (acc +:+ String LF "") fs) s.
Proof.
  intros Hacc Hs. rewrite (read_rest_nonempty _ s) by done.
  assert (parse_process_char (Reader IN_QUOTED_FIELD acc fs) (Char LF) =
          Ok (Reader IN_QUOTED_FIELD (acc +:+ String LF "") fs)) as Hstep
    by (unfold parse_process_char; cbn [state];
        rewrite bool_decide_eq_false_2 by done; by apply add_char_short).
  cbn [read_rest]. rewrite read_text_cons, Hstep. simpl.
  done.
Qed.

(** A character added to the field. *)
Lemma read_rest_add st st' acc fs c s :
  parse_process_char (Reader st acc fs) (Char c) =
    add_char (Reader st acc fs) c st' →
  (N.of_nat (String.length acc) < field_limit)%N → c ≠ LF →
  read_rest (Reader st acc fs) (String c s) =
  read_rest (Reader st' (acc +:+ String c "") fs) s.
Proof.
  intros Hstep Hacc Hc. apply read_rest_cons; [|done].
  by rewrite Hstep, add_char_short.
Qed.

Lemma short_app_cons acc c t :
  short (acc +:+ String c t) →
  (N.of_nat (String.length acc) < field_limit)%N ∧
  short ((acc +:+ String c "") +:+ t).
Proof. unfold short. rewrite !str_length_app. simpl. lia. Qed.

Lemma str_app_snoc acc c t : (acc +:+ String c "") +:+ t = acc +:+ String c t.
Proof. by rewrite str_app_assoc. Qed.

(** ** Fields *)

(** The rest of an unquoted field. *)
Lemma read_unquoted acc fs t s :
  needs_quotes t = false → short (acc +:+ t) →
  read_rest (Reader IN_FIELD acc fs) (t +:+ s) =
  read_rest (Reader IN_FIELD (acc +:+ t) fs) s.
Proof.
  revert acc. induction t as [|c t IH]; intros acc Ht Hlen.
  { by rewrite str_app_nil_r. }
  simpl in Ht. apply orb_false_iff in Ht as [(Hc1&Hc2&Hc3&Hc4)%special_false Ht].
  apply short_app_cons in Hlen as [Hacc Hlen].
  change (String c t +:+ s) with (String c (t +:+ s)).
  etrans; [apply (read_rest_add _ IN_FIELD); [|done..]|].
  { unfold parse_process_char, is_newline. cbn [state].
    by rewrite !bool_decide_eq_false_2 by naive_solver. }
  by rewrite IH, str_app_snoc.
Qed.

(** The inside of a quoted field, up to the closing quote. *)
Lemma read_quoted acc fs t s :
  short (acc +:+ t) →
  read_rest (Reader IN_QUOTED_FIELD acc fs)
            (double_quotes t +:+ String QUOTE s) =
  read_rest (Reader QUOTE_IN_QUOTED_FIELD (acc +:+ t) fs) s.
Proof.
  revert acc. induction t as [|c t IH]; intros acc Hlen.
  { rewrite str_app_nil_r. by apply read_rest_cons. }
  apply short_app_cons in Hlen as [Hacc Hlen].
  rewrite <-(str_app_snoc acc c t), <-(IH (acc +:+ String c "")) by done.
  cbn [double_quotes].
  case_bool_decide as Hq.
  - subst c.
    change (String QUOTE (String QUOTE ?x) +:+ ?y)
      with (String QUOTE (String QUOTE (x +:+ y))).
    rewrite (read_rest_cons _ QUOTE _ (Reader QUOTE_IN_QUOTED_FIELD acc fs))
      by done.
    by apply read_rest_add.
  - change (String c ?x +:+ ?y) with (String c (x +:+ y)).
    destruct (decide (c = LF)) as [->|Hc].
    + apply read_rest_LF_quoted; [done|]. by destruct (double_quotes t).
    + apply read_rest_add; [|done..].
      unfold parse_process_char. cbn [state].
      by rewrite bool_decide_eq_false_2.
Qed.

(** The text of a field, from the start of a field or of a record. *)
Lemma read_field st fs t f s :
  field_text t f → st = START_FIELD ∨ st = START_RECORD → short f →
  read_rest (Reader st "" fs) (t +:+ s) =
  read_rest (Reader (field_state st t) f fs) s.
Proof.
  intros Ht Hst Hlen. destruct Ht as [f Hq|f].
  - destruct f as [|c f]; [done|]. simpl in Hq.
    apply orb_false_iff in Hq as [(Hc1&Hc2&Hc3&Hc4)%special_false Hq].
    apply (short_app_cons "") in Hlen as [Hacc Hlen].
    change (String c f +:+ s) with (String c (f +:+ s)). cbn [field_state].
    rewrite bool_decide_eq_false_2 by done.
    etrans; [apply (read_rest_add _ IN_FIELD); [|done..]|].
    { destruct Hst as [->| ->];
        unfold parse_process_char, start_field, is_newline; cbn [state];
        by rewrite !bool_decide_eq_false_2 by naive_solver. }
    by apply (read_unquoted (String c "")).
  - change (String QUOTE ?x +:+ ?y) with (String QUOTE (x +:+ y)).
    rewrite str_app_assoc. change (String QUOTE "" +:+ s) with (String QUOTE s).
    rewrite (read_rest_cons _ QUOTE _ (Reader IN_QUOTED_FIELD "" fs));
      [by apply read_quoted| |done].
    by destruct Hst as [->| ->].
Qed.

Lemma field_state_end st t :
  st = START_FIELD ∨ (st = START_RECORD ∧ t ≠ "") → field_end (field_state st t).
Proof.
  unfold field_end, field_state. destruct t; [naive_solver|].
  case_bool_decide; tauto.
Qed.

Lemma field_state_end_or_start st t :
  st = START_FIELD ∨ st = START_RECORD →
  field_end (field_state st t) ∨ field_state st t = START_RECORD.
Proof.
  unfold field_end, field_state. destruct t; [tauto|]. case_bool_decide; tauto.
Qed.

(** ** Records *)

(** The delimiter ends the field. *)
Lemma read_comma st acc fs s :
  field_end st ∨ st = START_RECORD →
  read_rest (Reader st acc fs) (String COMMA s) =
  read_rest (Reader START_FIELD "" (fs ++ [acc])) s.
Proof.
  intros Hst. apply read_rest_cons; [|done].
  by destruct Hst as [[->|[->| ->]]| ->].
Qed.

(** The end of the line, or of the text, ends the field and the
    record. *)
Lemma read_record_end st acc fs s rows :
  field_end st → record_end s rows →
  read_rest (Reader st acc fs) s = Ok ((fs ++ [acc]) :: rows).
Proof.
  intros Hst [[-> ->]|(s'&->&Hrows)].
  - by destruct Hst as [->|[->| ->]].
  - cbn [read_rest]. rewrite read_text_cons.
    destruct Hst as [->|[->| ->]]; simpl; by rewrite Hrows.
Qed.

(** The fields of a record, from the start of a field or of the
    record. *)
Lemma read_fields st fs ts r s rows :
  Forall2 field_text ts r → ts ≠ [] →
  st = START_FIELD ∨ (st = START_RECORD ∧ ts ≠ [""]) →
  Forall short r → record_end s rows →
  read_rest (Reader st "" fs) (join "," ts +:+ s) = Ok ((fs ++ r) :: rows).
Proof.
  intros Hts. revert st fs.
  induction Hts as [|t f ts r Ht Hts IH]; intros st fs Hne Hst Hr Hs; [done|].
  apply Forall_cons in Hr as [Hf Hr]. destruct Hts as [|t' f' ts r Ht' Hts].
  - simpl. rewrite (read_field _ _ _ f) by tauto.
    apply read_record_end; [|done]. apply field_state_end.
    destruct Hst as [?|[? ?]]; [by left|right]. split; [done|congruence].
  - change (join "," (t :: t' :: ts))
      with (t +:+ "," +:+ join "," (t' :: ts)).
    rewrite !str_app_assoc. change ("," +:+ ?x) with (String COMMA x).
    rewrite (read_field _ _ _ f) by tauto.
    rewrite read_comma by (apply field_state_end_or_start; tauto).
    rewrite IH by (done || by left). by rewrite <-app_assoc.
Qed.

(** A record and what follows it. *)
Lemma read_record t r s rows :
  record_text t r → Forall short r → record_end s rows → t +:+ s ≠ "" →
  read_rest parse_reset (t +:+ s) = Ok (r :: rows).
Proof.
  intros Ht Hr Hs Hne. destruct Ht as [|ts r Hts Hnil Hone].
  - destruct Hs as [[-> ->]|(s'&->&Hrows)]; [done|].
    simpl. by rewrite Hrows.
  - apply (read_fields START_RECORD []); auto.
Qed.

(** ** Files *)

(** The reader reads a text of the format as the rows it is the text
    of, when no field is longer than the field limit. *)
Lemma read_file_text s rows :
  file_text s rows → Forall (Forall short) rows →
  read_text parse_reset s = Ok rows.
Proof.
  induction 1 as [|t r Ht Hne|t r s rows Ht Hs IH]; intros Hrows; [done|..];
    apply Forall_cons in Hrows as [Hr Hrows].
  - rewrite <-read_rest_nonempty, <-(str_app_nil_r t) by done.
    apply read_record; [done..|by left|by rewrite str_app_nil_r].
  - rewrite <-read_rest_nonempty by by destruct t.
    apply read_record; [done..| |by destruct t].
    right. exists s. split; [done|]. by apply IH.
Qed.

(** A CSV file whose text, with its line ends as text mode gives them,
    is in the format is read as its rows. *)
Lemma read_csv_file_text text rows :
  file_text (universal_newlines text) rows → Forall (Forall short) rows →
  read_csv text = Ok rows.
Proof.
  intros Ht Hrows. unfold read_csv, csv_reader, readlines.
  rewrite read_rows_lines. by apply read_file_text.
Qed.

(** ** The writer writes the format *)

Lemma write_field_text f : field_text (write_field f) f.
Proof.
  unfold write_field. destruct (needs_quotes f) eqn:Hq; by constructor.
Qed.

Lemma row_text_record r : record_text (row_text r) r.
Proof.
  destruct r as [|f r]; [constructor|].
  destruct (decide (f :: r = [""])) as [[= -> ->]|Hne].
  - apply (record_fields [String QUOTE (String QUOTE "")]); [|done..].
    constructor; [apply (field_quoted "")|constructor].
  - replace (row_text (f :: r)) with (join "," (write_field <$> f :: r))
      by (destruct f; [by destruct r|done]).
    constructor; [|done|].
    + apply Forall2_fmap_l, Forall_Forall2_diag, Forall_forall.
      intros ??. apply write_field_text.
    + intros [= Hf Hr]. apply fmap_nil_inv in Hr as ->.
      unfold write_field in Hf. by destruct (needs_quotes f); subst.
Qed.

Lemma written_file_text rows : file_text (written rows) rows.
Proof.
  induction rows as [|r rows IH]; [constructor|].
  simpl. constructor; [apply row_text_record|done].
Qed.

(** ** What is written is read back *)

Lemma double_quotes_clean f : clean f → clean (double_quotes f).
Proof.
  unfold clean. induction f as [|c f IH]; [done|]. simpl.
  intros [Hc Hf]%orb_false_iff.
  destruct (bool_decide (c = QUOTE)); simpl; by rewrite ?Hc, IH.
Qed.

Lemma write_field_clean f : clean f → clean (write_field f).
Proof.
  intros Hf. unfold write_field. destruct (needs_quotes f); [|done].
  apply double_quotes_clean in Hf. unfold clean in *. simpl.
  by rewrite mem_char_app, Hf.
Qed.

Lemma join_clean fs : Forall clean fs → clean (join "," fs).
Proof.
  unfold clean. induction 1 as [|f fs Hf _ IH]; [done|]. simpl.
  destruct fs as [|f' fs]; [done|]. by rewrite !mem_char_app, Hf, IH.
Qed.

Lemma row_text_clean r : Forall clean r → clean (row_text r).
Proof.
  intros Hr.
  assert (clean (join "," (write_field <$> r))).
  { apply join_clean, Forall_fmap. eapply Forall_impl; [done|].
    apply write_field_clean. }
  unfold row_text. by repeat case_match.
Qed.

(** Text mode turns the terminator of each row into LF and leaves the
    rest. *)
Lemma universal_newlines_writerows rows :
  Forall (Forall clean) rows →
  universal_newlines (writerows rows) = written rows.
Proof.
  induction 1 as [|r rows Hr _ IH]; [done|]. simpl. unfold writerow.
  rewrite str_app_assoc. change (String CR (String LF "") +:+ ?x)
    with (String CR (String LF x)).
  by rewrite universal_newlines_CRLF, IH by by apply row_text_clean.
Qed.

Lemma cells_clean_short rows :
  Forall (Forall cell) rows →
  Forall (Forall clean) rows ∧ Forall (Forall short) rows.
Proof.
  intros Hrows.
  split; (eapply Forall_impl; [done|]); intros r Hr;
    (eapply Forall_impl; [done|]); by intros f [??].
Qed.

(** Rows written by [csv.writer] to a file opened with [newline=''] and
    read by [csv.reader] from the file opened in text mode are the rows,
    when no cell has a CR or is longer than the field limit. *)
Lemma read_csv_writerows rows :
  Forall (Forall cell) rows → read_csv (writerows rows) = Ok rows.
Proof.
  intros [Hclean Hshort]%cells_clean_short.
  apply read_csv_file_text; [|done].
  rewrite universal_newlines_writerows by done. apply written_file_text.
Qed.

(** What the reader reads of a file, written again, is read as the same
    rows: reading normalises a file. *)
Lemma read_csv_normal text rows :
  read_csv text = Ok rows → read_csv (writerows rows) = Ok rows.
Proof.
  intros Hrows. apply read_csv_writerows.
  pose proof (read_csv_clean text) as Hc. by rewrite Hrows in Hc.
Qed.

(** ** A file that no writer wrote *)

(** The sample text is in the format, and the reader reads it. *)
Lemma sample_file_text : file_text sample_text sample_rows.
Proof.
  apply (file_record "id,name" ["id"; "name"]).
  { apply (record_fields ["id"; "name"]); [|done..]. by repeat constructor. }
  apply file_last; [|done].
  apply (record_fields
           [quoted "1";
            quoted ("A " +:+ String QUOTE (String QUOTE "l") +:+ String LF "x")]);
    [|done..].
  constructor; [apply (field_quoted "1")|]. constructor; [|constructor].
  apply (field_quoted ("A " +:+ String QUOTE "l" +:+ String LF "x")).
Qed.

Example sample_read : read_csv sample_text = Ok sample_rows.
Proof.
  apply read_csv_file_text; [apply sample_file_text|].
  apply (bool_decide_unpack _). reflexivity.
Qed.
