(* ===== verification/PyStr.v ===== *)
(** * PyStr: [str(x)] inside an f-string, as an interface

    The [print] calls of Fileread.py format their arguments with
    f-strings: [{query}] is the text itself, [{str(e)}] the message of an
    exception, [{result}] the [str] of [None] or of a list of lists of
    strings, [{left_data}] the [str] of a list of tuples of strings.
    These conversions are interpreter primitives.  The model takes them
    as the operations of the class [StrOps]; [StrLaws] states the two
    facts the theorems on the output use: the message of a [ValueError]
    built from one text is that text, and [None] prints as [None].

    [cpython_str] is the reference instance the witnesses run on.  It
    follows CPython 3.11 on text below code point 256: [repr] of a text
    chooses its quote, escapes the quote, the backslash and the
    characters that are not printable; lists and tuples print their
    elements with [repr], separated by a comma and a space; the messages
    of the exceptions the interpreter raises are the ones of that
    version. *)

From Stdlib Require Import DecimalString.
From S2P Require Import Prelude PyString Relation.

(** ** The interface *)

Class StrOps : Type := {
  (** [str(e)] for an exception. *)
  str_exn : exn → string;
  (** [str(v)] for what a method returns. *)
  str_pyval : pyval → string;
  (** [str(l)] for a list of tuples of strings. *)
  str_tuples : list row → string;
}.

Class StrLaws `{StrOps} : Prop := {
  str_ValueError msg : str_exn (ValueError msg) = msg;
  str_None : str_pyval PyNone = "None";
}.

(** ** The reference instance *)

(** One hexadecimal digit, in lower case. *)
Definition hex_digit (n : N) : ascii :=
  ascii_of_N (if (n <? 10)%N then 48 + n else 87 + n)%N.

(** The escape [\xhh] of a character. *)
Definition hex_escape (c : ascii) : string :=
  let n := N_of_ascii c in
  "\x" +:+ String (hex_digit (n / 16)) (String (hex_digit (n mod 16)) "").

(** [c.isprintable()] below code point 256: not a control character, not
    the no-break space, not the soft hyphen. *)
Definition isprintable (c : ascii) : bool :=
  let n := N_of_ascii c in
  ((32 <=? n) && (n <? 127) || (161 <=? n) && negb (n =? 173))%N.

Definition double_quote : ascii := "034".

(** What [repr] writes for one character between the quotes [quote]. *)
Definition repr_char (quote c : ascii) : string :=
  if bool_decide (c = quote ∨ c = "\"%char) then String "\" (String c "")
  else if bool_decide (c = "009"%char) then "\t"
  else if bool_decide (c = "010"%char) then "\n"
  else if bool_decide (c = "013"%char) then "\r"
  else if isprintable c then String c ""
  else hex_escape c.

Fixpoint repr_chars (quote : ascii) (s : string) : string :=
  match s with
  | "" => ""
  | String c s' => repr_char quote c +:+ repr_chars quote s'
  end.

(** [repr(s)]: between double quotes when [s] has a single quote and no
    double quote, between single quotes otherwise. *)
Definition repr_str (s : string) : string :=
  let quote :=
    if mem_char "'" s && negb (mem_char double_quote s) then double_quote
    else "'"%char in
  String quote (repr_chars quote s) +:+ String quote "".

(** [repr] of a list and of a tuple of strings. *)
Definition repr_list (r : row) : string :=
  "[" +:+ join ", " (repr_str <$> r) +:+ "]".

Definition repr_tuple (r : row) : string :=
  match r with
  | [x] => "(" +:+ repr_str x +:+ ",)"
  | _ => "(" +:+ join ", " (repr_str <$> r) +:+ ")"
  end.

Definition decimal (n : nat) : string := NilEmpty.string_of_uint (Nat.to_uint n).

Definition cpython_str_exn (e : exn) : string :=
  match e with
  | ValueError msg => msg
  | UnpackError expected got =>
      if got <? expected then
        "not enough values to unpack (expected " +:+ decimal expected +:+
        ", got " +:+ decimal got +:+ ")"
      else "too many values to unpack (expected " +:+ decimal expected +:+ ")"
  | FloatError s => "could not convert string to float: " +:+ repr_str s
  | IndexError => "list index out of range"
  | AttributeError name =>
      "'SimpleDB' object has no attribute '" +:+ name +:+ "'"
  | TypeError =>
      "SimpleDB.difference() takes 2 positional arguments but 3 were given"
  | StopIteration => ""
  | CsvError msg => msg
  | OSError errno strerror filename =>
      "[Errno " +:+ decimal errno +:+ "] " +:+ strerror +:+ ": " +:+
      repr_str filename
  end.

#[export] Instance cpython_str : StrOps := {|
  str_exn := cpython_str_exn;
  str_pyval v :=
    match v with
    | PyNone => "None"
    | PyList t => "[" +:+ join ", " (repr_list <$> t) +:+ "]"
    end;
  str_tuples l := "[" +:+ join ", " (repr_tuple <$> l) +:+ "]";
|}.

#[export] Instance cpython_str_laws : StrLaws.
Proof. by split. Qed.

(** ** Theory *)

(** A character [repr] copies: printable, not the backslash. *)
Definition plain_char (c : ascii) : bool :=
  isprintable c && negb (bool_decide (c = "\"%char)).

Lemma repr_char_plain quote c :
  plain_char c = true → c ≠ quote → repr_char quote c = String c "".
Proof.
  unfold plain_char, repr_char. intros [Hp Hb%negb_true_iff]%andb_true_iff Hq.
  apply bool_decide_eq_false in Hb.
  rewrite bool_decide_eq_false_2 by naive_solver.
  repeat (case_bool_decide; [subst c; by vm_compute in Hp|]).
  by rewrite Hp.
Qed.

Lemma repr_chars_plain quote s :
  all_chars plain_char s = true → mem_char quote s = false →
  repr_chars quote s = s.
Proof.
  induction s as [|c s IH]; [done|]. simpl.
  intros [Hc Hs]%andb_true_iff [Hq Hm]%orb_false_iff.
  rewrite repr_char_plain, IH; [done..|].
  intros ->. by apply bool_decide_eq_false in Hq.
Qed.

(** A text of printable characters without quote or backslash is printed
    between single quotes as it is. *)
Lemma repr_str_plain s :
  all_chars plain_char s = true → mem_char "'" s = false →
  repr_str s = "'" +:+ s +:+ "'".
Proof.
  intros Hs Hq. unfold repr_str. rewrite Hq. simpl.
  by rewrite repr_chars_plain.
Qed.

(** [repr] on small texts: the quote is chosen by the
    text, the other quote is escaped only when both occur, control
    characters are written as escapes. *)
Example repr_str_quotes :
  repr_str "it's" = String double_quote ("it's" +:+ String double_quote "") ∧
  repr_str ("a'" +:+ String double_quote "b") =
    "'a\'" +:+ String double_quote "b'" ∧
  repr_str (String "127" (String "009" "\")) = "'\x7f\t\\'" ∧
  str_tuples [["1"]; []; ["a"; "b"]] = "[('1',), (), ('a', 'b')]" ∧
  str_exn (UnpackError 3 1) = "not enough values to unpack (expected 3, got 1)".
Proof. repeat split; reflexivity. Qed.
