(* ===== verification/Algebra.v ===== *)
(** * Algebra: the relational operators the specification promises

    The specification (sections 3, 4.3 and 8) describes the evaluator by
    operators on relation values: selection by a list of predicates that
    must all hold, projection on a list of attributes, cross product,
    union and difference of row sets.  This file states them on [relation]
    values, independently of any query text, with the error kinds of the
    specification, and proves the laws section 8 lists.  Fileread.v and
    Newonetest.v prove which of them the methods compute.

    These definitions are modelled from the specification, not from code. *)

From S2P Require Import Prelude PyString PyFloat PySet Relation.

(** ** Data *)

(** The error kinds of section 7.  [RowTooShort] is not one of them: it
    marks a row with fewer values than the header, which the data model of
    section 3 excludes. *)
Inductive error : Type :=
| UnknownRelation
| UnknownAttribute
| MalformedCondition
| ArityError
| SchemaMismatch
| TypeMismatch
| NotImplemented
| RowTooShort.

#[export] Instance error_eq_dec : EqDecision error.
Proof. solve_decision. Defined.

Abbreviation spec := (result error).

Inductive comparison_op : Type := OpGt | OpLt | OpEq.

#[export] Instance comparison_op_eq_dec : EqDecision comparison_op.
Proof. solve_decision. Defined.

(** A predicate [(attribute, operator, literal)]. *)
Record predicate : Type := Predicate {
  pred_attr : string;
  pred_op : comparison_op;
  pred_lit : string;
}.

(** The operators of a condition. *)
Definition operator_of (s : string) : option comparison_op :=
  if decide (s = ">") then Some OpGt
  else if decide (s = "<") then Some OpLt
  else if decide (s = "=") then Some OpEq
  else None.

(** The condition parser on one segment: exactly three tokens separated
    by white space, the quotes stripped from the literal. *)
Definition predicate_of (segment : string) : spec predicate :=
  match split_ws segment with
  | [attr; operator; value] =>
      op ← (operator_of operator ?! MalformedCondition)%py;
      Ok (Predicate attr op (strip_chars "'" value))
  | _ => Raise MalformedCondition
  end.

(** A relation as the rows of a report: the header, then the data. *)
Definition table_of (R : relation) : table := attributes R :: data R.

(** The rows of the Cartesian product, the left row varying slowest. *)
Definition cross_rows (l r : list row) : list row :=
  a ← l; b ← r; [a ++ b].

Definition cross_op (A B : relation) : relation :=
  Relation (attributes A ++ attributes B) (cross_rows (data A) (data B)).

(** The column of an attribute in a relation's own header. *)
Definition column (R : relation) (attr : string) : spec nat :=
  (index_of attr (attributes R) ?! UnknownAttribute)%py.

(** A row reduced to the given columns. *)
Definition project_row (idxs : list nat) (x : row) : spec row :=
  map_res (λ i, x !! i ?! RowTooShort)%py idxs.

Definition project_op (R : relation) (attrs : list string) : spec relation :=
  idxs ← map_res (column R) attrs;
  rows ← map_res (project_row idxs) (data R);
  Ok (Relation attrs rows).

Section operators.
Context `{FloatOps} `{SetOrder row}.

(** A comparison of a cell with a literal: [>] and [<] on floats, [=] on
    text. *)
Definition compare_cell (op : comparison_op) (value lit : string) : spec bool :=
  match op with
  | OpGt =>
      a ← (float_of_str value ?! TypeMismatch)%py;
      b ← (float_of_str lit ?! TypeMismatch)%py;
      Ok (float_gt a b)
  | OpLt =>
      a ← (float_of_str value ?! TypeMismatch)%py;
      b ← (float_of_str lit ?! TypeMismatch)%py;
      Ok (float_lt a b)
  | OpEq => Ok (bool_decide (value = lit))
  end.

(** A predicate on a row, its column already resolved. *)
Definition holds (i : nat) (p : predicate) (x : row) : spec bool :=
  cell ← (x !! i ?! RowTooShort)%py;
  compare_cell (pred_op p) cell (pred_lit p).

(** Every predicate holds. *)
Definition holds_all (ips : list (nat * predicate)) (x : row) : spec bool :=
  bs ← map_res (λ ip, holds ip.1 ip.2 x) ips;
  Ok (forallb id bs).

Definition select_op (R : relation) (preds : list predicate) : spec relation :=
  idxs ← map_res (λ p, column R (pred_attr p)) preds;
  rows ← filter_res (holds_all (zip idxs preds)) (data R);
  Ok (Relation (attributes R) rows).

Definition union_op (A B : relation) : spec relation :=
  if bool_decide (attributes A ≠ attributes B) then Raise SchemaMismatch
  else Ok (Relation (attributes A) (set_list (data A ++ data B))).

Definition diff_op (A B : relation) : spec relation :=
  if bool_decide (length (attributes A) ≠ length (attributes B))
  then Raise SchemaMismatch
  else Ok (Relation (attributes A) (set_diff_list (data A) (data B))).

End operators.

(** ** Conditions *)

Lemma predicate_of_Ok segment p :
  predicate_of segment = Ok p ↔
  ∃ attr operator value op,
    split_ws segment = [attr; operator; value] ∧
    operator_of operator = Some op ∧
    p = Predicate attr op (strip_chars "'" value).
Proof.
  unfold predicate_of. split.
  - destruct (split_ws segment) as [|attr [|operator [|value [|]]]]; try done.
    destruct (operator_of operator) as [op|] eqn:Hop; [|done].
    intros [= <-]. by exists attr, operator, value, op.
  - intros (attr&operator&value&op&->&->&->). done.
Qed.

(** A selection by one predicate keeps the rows on which it holds. *)
Lemma holds_all_single `{FloatOps} i p (x : row) :
  holds_all [(i, p)] x = holds i p x.
Proof.
  unfold holds_all. simpl. destruct (holds i p x) as [[]|]; done.
Qed.

(** ** The cross product *)

Lemma cross_rows_nil_l r : cross_rows [] r = [].
Proof. done. Qed.

Lemma cross_rows_cons a l r :
  cross_rows (a :: l) r = ((a ++.) <$> r) ++ cross_rows l r.
Proof.
  unfold cross_rows. rewrite bind_cons. f_equal.
Qed.

Lemma cross_rows_app l1 l2 r :
  cross_rows (l1 ++ l2) r = cross_rows l1 r ++ cross_rows l2 r.
Proof. apply bind_app. Qed.

(** The product has [|l| * |r|] rows. *)
Lemma cross_rows_length l r :
  length (cross_rows l r) = length l * length r.
Proof.
  induction l as [|a l IH]; [done|].
  by rewrite cross_rows_cons, length_app, length_fmap, IH.
Qed.

(** Row [i * |r| + j] of the product is row [i] of the left operand
    followed by row [j] of the right one. *)
Lemma cross_rows_lookup l r i j a b :
  l !! i = Some a → r !! j = Some b →
  cross_rows l r !! (i * length r + j) = Some (a ++ b).
Proof.
  revert i. induction l as [|a' l IH]; intros i Hi Hj; [done|].
  rewrite cross_rows_cons. destruct i as [|i]; simplify_eq/=.
  - rewrite lookup_app_l by (rewrite length_fmap; by eapply lookup_lt_Some).
    by rewrite list_lookup_fmap, Hj.
  - rewrite lookup_app_r by (rewrite length_fmap; lia).
    rewrite length_fmap. replace (_ + _ - _) with (i * length r + j) by lia.
    by apply IH.
Qed.

Lemma cross_rows_elem l r x :
  x ∈ cross_rows l r ↔ ∃ a b, a ∈ l ∧ b ∈ r ∧ x = a ++ b.
Proof.
  unfold cross_rows. rewrite list_elem_of_bind. split.
  - intros (a&(b&->%list_elem_of_singleton&?)%list_elem_of_bind&?). eauto.
  - intros (a&b&?&?&->). exists a. split; [|done].
    apply list_elem_of_bind. exists b. split; [left|done].
Qed.

(** The product of rectangular tables is rectangular. *)
Lemma cross_rows_arity n m l r :
  table_arity n l → table_arity m r → table_arity (n + m) (cross_rows l r).
Proof.
  unfold table_arity. rewrite !Forall_forall. intros Hl Hr x.
  intros (a&b&?&?&->)%cross_rows_elem. rewrite length_app.
  by rewrite (Hl a), (Hr b).
Qed.

Lemma cross_op_wf A B : relation_wf A → relation_wf B → relation_wf (cross_op A B).
Proof.
  unfold relation_wf. simpl. rewrite length_app. apply cross_rows_arity.
Qed.

(** ** Projection *)

Lemma project_row_length idxs x y :
  project_row idxs x = Ok y → length y = length idxs.
Proof. apply map_res_length. Qed.

(** On a row that has every column the projection succeeds. *)
Lemma project_row_total idxs (x : row) :
  Forall (λ i, i < length x) idxs → ∃ y, project_row idxs x = Ok y.
Proof.
  induction 1 as [|i idxs Hi _ [y Hy]]; [by exists []|].
  destruct (lookup_lt_is_Some_2 _ _ Hi) as [c Hc].
  exists (c :: y). unfold project_row in *. simpl. by rewrite Hc, Hy.
Qed.

Lemma column_lt R attr i : column R attr = Ok i → i < length (attributes R).
Proof.
  intros [Hi _]%or_raise_Ok%index_of_Some. by eapply lookup_lt_Some.
Qed.

Lemma column_Ok R attr i :
  column R attr = Ok i ↔
  attributes R !! i = Some attr ∧ attr ∉ take i (attributes R).
Proof. unfold column. by rewrite or_raise_Ok, index_of_Some. Qed.

Lemma column_Raise R attr e :
  column R attr = Raise e ↔ (attr ∉ attributes R) ∧ e = UnknownAttribute.
Proof. unfold column. by rewrite or_raise_Raise, index_of_None. Qed.

(** A projection has the requested header and one row per row, each with
    as many values as attributes were requested. *)
Lemma project_op_Ok R attrs P :
  project_op R attrs = Ok P →
  attributes P = attrs ∧ length (data P) = length (data R) ∧ relation_wf P.
Proof.
  unfold project_op. intros HP. res_inv. split_and!; [done|..].
  - by eapply map_res_length.
  - unfold relation_wf. simpl. apply Forall_forall. intros y Hy.
    edestruct (map_res_elem (project_row a)) as (x&_&Hx); [done..|].
    apply project_row_length in Hx. rewrite Hx.
    by eapply map_res_length.
Qed.

(** On a well-formed relation projection fails only on an unknown
    attribute. *)
Lemma project_op_total R attrs :
  relation_wf R → Forall (λ a, a ∈ attributes R) attrs →
  ∃ P, project_op R attrs = Ok P.
Proof.
  intros HR Hattrs. unfold project_op.
  destruct (map_res_total (column R) attrs) as [idxs Hidxs].
  { eapply Forall_impl; [done|]. intros a (i&Hi&_)%index_of_elem.
    exists i. by apply or_raise_Ok. }
  rewrite Hidxs. simpl.
  destruct (map_res_total (project_row idxs) (data R)) as [rows ->]; [|by eexists].
  eapply Forall_impl; [exact HR|]. intros x Hx. apply project_row_total.
  rewrite Hx. eapply map_res_Forall; [done|]. intros ?? _. apply column_lt.
Qed.

(** ** Selection, union and difference *)

Section laws.
Context `{FloatOps} `{SetOrder row}.
Implicit Types (A B R : relation).

(** Selection keeps the header and a sub-list of the rows, in order. *)
Lemma select_op_Ok R preds S :
  select_op R preds = Ok S →
  attributes S = attributes R ∧ data S `sublist_of` data R.
Proof.
  unfold select_op. intros HS. res_inv. split; [done|].
  match goal with H : filter_res _ _ = _ |- _ => apply filter_res_Ok in H as -> end.
  apply sublist_filter.
Qed.

Lemma select_op_length R preds S :
  select_op R preds = Ok S → length (data S) ≤ length (data R).
Proof. intros [_ ?]%select_op_Ok. by apply sublist_length. Qed.

Lemma select_op_wf R preds S :
  relation_wf R → select_op R preds = Ok S → relation_wf S.
Proof.
  unfold relation_wf. intros HR [-> Hsub]%select_op_Ok.
  apply Forall_forall. intros x Hx.
  eapply (proj1 (Forall_forall _ _) HR), elem_of_sublist; done.
Qed.

(** Union fails on different headers and otherwise holds, without
    duplicates, the rows of both operands. *)
Lemma union_op_Ok A B U :
  union_op A B = Ok U ↔
  attributes A = attributes B ∧
  U = Relation (attributes A) (set_list (data A ++ data B)).
Proof. unfold union_op. case_bool_decide; naive_solver. Qed.

Lemma union_op_Raise A B e :
  union_op A B = Raise e ↔ attributes A ≠ attributes B ∧ e = SchemaMismatch.
Proof. unfold union_op. case_bool_decide; naive_solver. Qed.

Lemma union_op_rows A B U x :
  union_op A B = Ok U → x ∈ data U ↔ x ∈ data A ∨ x ∈ data B.
Proof. intros [_ ->]%union_op_Ok. simpl. by rewrite set_list_elem, elem_of_app. Qed.

Lemma union_op_NoDup A B U : union_op A B = Ok U → NoDup (data U).
Proof. intros [_ ->]%union_op_Ok. apply set_list_NoDup. Qed.

(** [Union(A, A)] has the rows of [A] as a set. *)
Lemma union_op_idemp A :
  ∃ U, union_op A A = Ok U ∧ attributes U = attributes A ∧
       ∀ x, x ∈ data U ↔ x ∈ data A.
Proof.
  eexists. split; [by apply union_op_Ok|]. split; [done|]. intros x. simpl.
  rewrite set_list_elem, elem_of_app. tauto.
Qed.

Lemma union_op_wf A B U :
  relation_wf A → relation_wf B → union_op A B = Ok U → relation_wf U.
Proof.
  unfold relation_wf. intros HA HB [HAB ->]%union_op_Ok. simpl.
  apply Forall_forall. intros x [?|?]%set_list_elem%elem_of_app.
  - by eapply (proj1 (Forall_forall _ _) HA).
  - rewrite HAB. by eapply (proj1 (Forall_forall _ _) HB).
Qed.

(** The difference holds the rows of the left operand that are not rows
    of the right one. *)
Lemma diff_op_Ok A B D :
  diff_op A B = Ok D ↔
  length (attributes A) = length (attributes B) ∧
  D = Relation (attributes A) (set_diff_list (data A) (data B)).
Proof. unfold diff_op. case_bool_decide; naive_solver. Qed.

Lemma diff_op_rows A B D x :
  diff_op A B = Ok D → x ∈ data D ↔ x ∈ data A ∧ x ∉ data B.
Proof. intros [_ ->]%diff_op_Ok. apply set_diff_list_elem. Qed.

(** [Difference(A, A)] keeps the header and has no row. *)
Lemma diff_op_self A : diff_op A A = Ok (Relation (attributes A) []).
Proof. apply diff_op_Ok. split; [done|]. by rewrite set_diff_list_nil. Qed.

(** *** Selection and projection commute *)

(** The cell of a projected row under an attribute is the cell of the row
    under that attribute. *)
Lemma project_row_cell R attrs idxs a i j (x y : row) :
  map_res (column R) attrs = Ok idxs →
  column R a = Ok i → index_of a attrs = Some j →
  project_row idxs x = Ok y → y !! j = x !! i.
Proof.
  intros Hidxs Hi [Hj _]%index_of_Some Hy.
  destruct (map_res_lookup _ _ _ _ _ Hidxs Hj) as (i'&Hi'&Hcol).
  assert (i' = i) as -> by congruence.
  destruct (map_res_lookup _ _ _ _ _ Hy Hi') as (c&Hc&Hx).
  apply or_raise_Ok in Hx. congruence.
Qed.

(** The predicates hold of a projected row, their columns resolved in the
    requested attributes, as they hold of the row. *)
Lemma holds_all_projected R attrs idxs preds cols cols' (x y : row) :
  map_res (column R) attrs = Ok idxs →
  map_res (λ p, column R (pred_attr p)) preds = Ok cols →
  map_res (λ p, column (Relation attrs []) (pred_attr p)) preds = Ok cols' →
  project_row idxs x = Ok y →
  holds_all (zip cols' preds) y = holds_all (zip cols preds) x.
Proof.
  intros Hidxs Hcols Hcols' Hy. unfold holds_all. f_equal.
  revert cols cols' Hcols Hcols'.
  induction preds as [|p preds IH]; intros cols cols' Hcols Hcols';
    [by simplify_eq/=|].
  simpl in Hcols, Hcols'.
  destruct (column R (pred_attr p)) as [i|] eqn:Hi; [|done].
  destruct (column (Relation attrs []) _) as [j|] eqn:Hj; [|done].
  simpl in Hcols, Hcols'.
  destruct (map_res _ preds) as [cs|] in Hcols, IH; [|done].
  destruct (map_res _ preds) as [cs'|] in Hcols', IH; [|done].
  simplify_eq/=. rewrite (IH cs cs' eq_refl eq_refl).
  unfold holds. apply or_raise_Ok in Hj.
  by rewrite (project_row_cell R attrs idxs (pred_attr p) i j x y).
Qed.

(** The first testable property of the specification: on a well-formed
    relation, selecting and then projecting agrees with projecting and
    then selecting, when the attributes of the condition are among the
    projected ones. *)
Theorem select_project_commute R preds attrs :
  relation_wf R → Forall (λ p, pred_attr p ∈ attrs) preds →
  ok_of (S ← select_op R preds; project_op S attrs) =
  ok_of (P ← project_op R attrs; select_op P preds).
Proof.
  intros HR Hpreds. rewrite !ok_of_bind.
  destruct (map_res (column R) attrs) as [idxs|e] eqn:Hidxs.
  2: { unfold project_op at 2. rewrite Hidxs. simpl.
       destruct (select_op R preds) as [S|] eqn:HS; [|done]. simpl.
       apply select_op_Ok in HS as [HS _]. unfold project_op, column.
       rewrite HS. fold (column R). by rewrite Hidxs. }
  destruct (map_res_total (project_row idxs) (data R)) as [ys Hys].
  { eapply Forall_impl; [exact HR|]. intros x Hx. apply project_row_total.
    rewrite Hx. eapply map_res_Forall; [done|]. intros ?? _. apply column_lt. }
  destruct (map_res_total (λ p, column (Relation attrs []) (pred_attr p)) preds)
    as [cols' Hcols'].
  { eapply Forall_impl; [exact Hpreds|]. intros p (j&Hj&_)%index_of_elem.
    exists j. by apply or_raise_Ok. }
  destruct (map_res_total (λ p, column R (pred_attr p)) preds) as [cols Hcols].
  { eapply Forall_impl; [exact Hpreds|].
    intros p (j&Hj)%list_elem_of_lookup_1.
    destruct (map_res_lookup _ _ _ _ _ Hidxs Hj) as (i&_&Hi). by exists i. }
  pose proof (ok_of_filter_map_res (project_row idxs)
    (holds_all (zip cols preds)) (holds_all (zip cols' preds)) _ _ Hys) as Hc.
  unfold project_op at 2. rewrite Hidxs. simpl. rewrite Hys. simpl.
  unfold select_op. rewrite Hcols. simpl.
  change (column (Relation attrs ys)) with (column (Relation attrs [])).
  rewrite Hcols'. simpl.
  rewrite (ok_of_bind (filter_res (holds_all (zip cols' preds)) ys)).
  rewrite <-Hc by (intros x y _ Hy; f_equal; by eapply holds_all_projected).
  destruct (filter_res _ (data R)) as [rows|]; simpl; [|done].
  unfold project_op. simpl.
  change (column (Relation (attributes R) rows)) with (column R).
  rewrite Hidxs. simpl. by destruct (map_res _ rows).
Qed.

End laws.
