(* ===== verification/Fileread.v ===== *)
(** * Fileread: the methods of [src/Project 1/Fileread.py]

    [Module Fileread] holds one definition per method of the class
    [SimpleDB], with the method's name.  A method that raises returns
    [res]; [evaluate_query] and [difference], which call each other on
    sub-queries, take fuel and return [fueled].  [self] is the store [st];
    [float] and the iteration order of sets are the interfaces of PyFloat.v
    and PySet.v. *)

From S2P Require Import Prelude PyString PyFloat PySet Relation Algebra.

Module Fileread.

Section methods.
Context `{FloatOps} `{SetOrder row}.
Implicit Types (st : store) (query : string).

(** The text between the last [(] and the next [)], stripped: the
    expression [query.split('(')[-1].split(')')[0].strip()] that opens
    [selection], [projection], [crossproduct] and [union]. *)
Definition paren_operand (query : string) : string :=
  strip (first_piece (split ")" (last_piece (split "(" query)))).

(** [query.split('{')[1].split('}')[0].strip()]: IndexError without [{]. *)
Definition brace_payload (query : string) : res string :=
  braces ← getitem (split "{" query) 1;
  Ok (strip (first_piece (split "}" braces))).

Definition relation_not_found (relation_name : string) : exn :=
  ValueError ("Relation '" +:+ relation_name +:+ "' not found.").

(** [get_relation_data]. *)
Definition get_relation_data st (relation_name : string) : res relation :=
  match lookup st relation_name with
  | None => Raise (relation_not_found relation_name)
  | Some r => Ok r
  end.

(** The loop of [get_attribute_index] over [self.relations.values()]. *)
Fixpoint find_attribute (rels : list relation) (attr : string) : option nat :=
  match rels with
  | [] => None
  | relation :: rels' =>
      if contains_elem attr (attributes relation)
      then index_of attr (attributes relation)
      else find_attribute rels' attr
  end.

(** [get_attribute_index]. *)
Definition get_attribute_index st (attr : string) : res nat :=
  (find_attribute (values st) attr ?!
   ValueError ("Attribute '" +:+ attr +:+ "' not found in any relation."))%py.

(** [evaluate_condition]. *)
Definition evaluate_condition (value operator condition_value : string)
    : res bool :=
  if decide (operator = ">") then
    a ← to_float value; b ← to_float condition_value; Ok (float_gt a b)
  else if decide (operator = "<") then
    a ← to_float value; b ← to_float condition_value; Ok (float_lt a b)
  else if decide (operator = "=") then
    Ok (bool_decide (value = condition_value))
  else Ok false.

(** [parse_conditions]. *)
Definition parse_conditions (condition_str : string) : list string :=
  if contains "AND" condition_str then
    strip <$> split "AND" condition_str
  else if contains "OR" condition_str then
    strip <$> split "OR" condition_str
  else [condition_str].

(** The body of the loop of [evaluate_conditions]: what it appends to
    [results], if anything. *)
Definition evaluate_conditions_step st (row : row) (condition : string)
    : res (list bool) :=
  if bool_decide (condition = "") then Ok []
  else
    match split_ws condition with
    | [attr; operator; value] =>
        let value := strip_chars "'" value in
        col_index ← get_attribute_index st attr;
        cell ← getitem row col_index;
        b ← evaluate_condition cell operator value;
        Ok [b]
    | words => Raise (UnpackError 3 (length words))
    end.

Fixpoint evaluate_conditions_loop st (row : row) (conditions : list string)
    (results : list bool) : res (list bool) :=
  match conditions with
  | [] => Ok results
  | condition :: conditions' =>
      bs ← evaluate_conditions_step st row condition;
      evaluate_conditions_loop st row conditions' (results ++ bs)
  end.

(** [evaluate_conditions]: [all(results)] of the loop. *)
Definition evaluate_conditions st (row : row) (conditions : list string)
    : res bool :=
  results ← evaluate_conditions_loop st row conditions [];
  Ok (forallb id results).

(** [selection]. *)
Definition selection st query : res table :=
  let relation_name := paren_operand query in
  condition ← brace_payload query;
  match lookup st relation_name with
  | None => Raise (relation_not_found relation_name)
  | Some r =>
      let conditions := parse_conditions condition in
      filtered_data ←
        filter_res (λ row, evaluate_conditions st row conditions) (data r);
      Ok (attributes r :: filtered_data)
  end.

(** [crossproduct]. *)
Definition crossproduct st query : res table :=
  match split "*" (paren_operand query) with
  | [l; r] =>
      left_relation ← get_relation_data st (strip l);
      right_relation ← get_relation_data st (strip r);
      let combined_data :=
        left_row ← data left_relation;
        right_row ← data right_relation;
        [left_row ++ right_row] in
      let combined_attributes :=
        attributes left_relation ++ attributes right_relation in
      Ok (combined_attributes :: combined_data)
  | _ => Raise (ValueError "Cross product requires exactly two relations.")
  end.

(** The loop of [projection] that validates the attributes and collects
    their column indices. *)
Definition col_index_of (relation_query : string) (rel_attributes : list string)
    (attr : string) : res nat :=
  (index_of attr rel_attributes ?!
   ValueError ("Attribute '" +:+ attr +:+ "' not found in relation '"
               +:+ relation_query +:+ "'."))%py.

(** The branch of [projection] that finds the header and the rows to
    project: the cross product when the operand holds [*], otherwise the
    stored relation. *)
Definition projection_source st (relation_query : string)
    : res (list string * list row) :=
  if contains "*" relation_query then
    relation_data ← crossproduct st relation_query;
    rel_attributes ← getitem relation_data 0;
    Ok (rel_attributes, drop 1 relation_data)
  else
    let relation_name := strip relation_query in
    match lookup st relation_name with
    | None => Raise (relation_not_found relation_name)
    | Some r => Ok (attributes r, data r)
    end.

(** [projection]. *)
Definition projection st query : res table :=
  let relation_query := paren_operand query in
  payload ← brace_payload query;
  let attributes := strip <$> split "," payload in
  '(rel_attributes, data) ← projection_source st relation_query;
  col_indices ← map_res (col_index_of relation_query rel_attributes) attributes;
  projected_data ←
    map_res (λ row : row, map_res (getitem row) col_indices) data;
  Ok (attributes :: projected_data).

(** [union]. *)
Definition union st query : res table :=
  match split "U" (paren_operand query) with
  | [l; r] =>
      left_relation ← get_relation_data st (strip l);
      right_relation ← get_relation_data st (strip r);
      if bool_decide (attributes left_relation ≠ attributes right_relation)
      then Raise (ValueError
             "Union requires both relations to have the same attributes.")
      else
        let combined_data := data left_relation ++ data right_relation in
        let combined_data := set_list combined_data in
        Ok (attributes left_relation :: combined_data)
  | _ => Raise (ValueError "Union requires exactly two relations.")
  end.

(** The body of [difference], over the evaluator [ev] of sub-queries
    ([self.evaluate_query]). *)
Definition difference_with (ev : string → fueled pyval) (query : string)
    : fueled pyval :=
  match split ") - (" query with
  | [l; r] =>
      let left_query := strip l +:+ ")" in
      let right_query := "(" +:+ strip r in
      left_relation ← ev left_query;
      right_relation ← ev right_query;
      if falsy left_relation || falsy right_relation then mret PyNone
      else
        match left_relation, right_relation with
        | PyList (left_header :: left_rows),
          PyList (right_header :: right_rows) =>
            if bool_decide (length left_header ≠ length right_header) then
              Done (Raise (ValueError
                "The two relations must have the same number of columns for the difference operation."))
            else
              let difference_data := set_diff_list left_rows right_rows in
              match difference_data with
              | _ :: _ => mret (PyList (left_header :: difference_data))
              | [] => mret (PyList [left_header])
              end
        | _, _ => mret PyNone
        end
  | _ => Done (Raise (ValueError "Invalid difference query format"))
  end.

(** [evaluate_query]: the dispatch on the prefix of the stripped query,
    every exception turned into [None].  [join] and [naturaljoin] are not
    methods of the class, so calling them raises AttributeError. *)
Fixpoint evaluate_query (fuel : nat) st query : fueled pyval :=
  match fuel with
  | 0 => OutOfFuel
  | S fuel' =>
      let query := strip query in
      try_except
        (if startswith query "SELE" then Done (PyList <$> selection st query)
         else if startswith query "PROJ" then
           Done (PyList <$> projection st query)
         else if startswith query "X" then
           Done (PyList <$> crossproduct st query)
         else if startswith query "JOIN" then
           Done (Raise (AttributeError "join"))
         else if startswith query "*" then
           Done (Raise (AttributeError "naturaljoin"))
         else if startswith query "U" then Done (PyList <$> union st query)
         else if startswith query "-" then
           difference_with (evaluate_query fuel' st) query
         else mret PyNone)
        PyNone
  end.

(** [difference]. *)
Definition difference (fuel : nat) st query : fueled pyval :=
  difference_with (evaluate_query fuel st) query.

(** What [process_queries_from_file] appends to [results] beside the
    query: the result, or the text [f"Error: {str(e)}"] of an exception. *)
Inductive outcome : Type :=
| Result (v : pyval)
| Error (e : exn).

(** The body of the loop of [process_queries_from_file] over the lines. *)
Definition process_query (fuel : nat) st (line : string)
    : fueled (string * outcome) :=
  let query := strip line in
  let result :=
    if startswith query "SELE" then Done (PyList <$> selection st query)
    else if startswith query "PROJ" then Done (PyList <$> projection st query)
    else if startswith query "X" then Done (PyList <$> crossproduct st query)
    else if startswith query "JOIN" then Done (Raise (AttributeError "join"))
    else if startswith query "*" then
      Done (Raise (AttributeError "naturaljoin"))
    else if startswith query "U" then Done (PyList <$> union st query)
    else if startswith query "-" then difference fuel st query
    else if startswith query "," then Done (Raise (AttributeError "AND"))
    else if startswith query "OR" then Done (Raise (AttributeError "OR"))
    else mret PyNone in
  match result with
  | Done (Ok v) => mret (query, Result v)
  | Done (Raise e) => mret (query, Error e)
  | OutOfFuel => OutOfFuel
  end.

Fixpoint process_queries (fuel : nat) st (queries : list string)
    : fueled (list (string * outcome)) :=
  match queries with
  | [] => mret []
  | line :: queries' =>
      r ← process_query fuel st line;
      rs ← process_queries fuel st queries';
      mret (r :: rs)
  end.

(** The rows handed to the CSV writer for one entry of [results]: the
    query, the rows of a list result, an empty row. *)
Definition report_entry (entry : string * outcome) : list row :=
  let '(query, result) := entry in
  [query] ::
  match result with
  | Result (PyList t) => t
  | _ => []
  end ++ [[]].

(** [process_queries_from_file], from the lines of the query file to the
    rows of the report. *)
Definition process_queries_from_file (fuel : nat) st (queries : list string)
    : fueled (list row) :=
  results ← process_queries fuel st queries;
  mret (results ≫= report_entry).

(** ** Reference definitions *)

(** The rows of [r] on which every condition of [condition] holds. *)
Definition selected st (condition : string) (r : relation) : list row :=
  filter (λ x, evaluate_conditions st x (parse_conditions condition) = Ok true)
         (data r).

End methods.

(** ** Conditions *)

Section conditions.
Context `{FloatOps} `{SetOrder row}.
Implicit Types (st : store) (query : string) (r : relation).

(** The loop of [evaluate_conditions] runs the step on every condition in
    order and appends what each gives. *)
Lemma evaluate_conditions_loop_map st (x : row) conditions results :
  evaluate_conditions_loop st x conditions results =
  bss ← map_res (evaluate_conditions_step st x) conditions;
  Ok (results ++ concat bss).
Proof.
  revert results. induction conditions as [|c cs IH]; intros results; simpl.
  { by rewrite app_nil_r. }
  destruct (evaluate_conditions_step st x c) as [bs|e]; simpl; [|done].
  rewrite IH. destruct (map_res _ cs); simpl; [|done].
  by rewrite app_assoc.
Qed.

Lemma evaluate_conditions_map st (x : row) conditions :
  evaluate_conditions st x conditions =
  bss ← map_res (evaluate_conditions_step st x) conditions;
  Ok (forallb id (concat bss)).
Proof.
  unfold evaluate_conditions. rewrite evaluate_conditions_loop_map.
  by destruct (map_res _ conditions).
Qed.

(** A step appends at most one truth value. *)
Lemma evaluate_conditions_step_Ok st (x : row) c bs :
  evaluate_conditions_step st x c = Ok bs → bs = [] ∨ ∃ b, bs = [b].
Proof.
  unfold evaluate_conditions_step. case_bool_decide; [naive_solver|].
  destruct (split_ws c) as [|? [|? [|? [|]]]]; try done.
  intros Hs. res_inv. eauto.
Qed.

(** AND semantics: the conditions hold together exactly when every
    condition ran without an exception and none gave [False]. *)
Lemma evaluate_conditions_true st (x : row) conditions :
  evaluate_conditions st x conditions = Ok true ↔
  Forall (λ c, evaluate_conditions_step st x c = Ok [] ∨
               evaluate_conditions_step st x c = Ok [true]) conditions.
Proof.
  rewrite evaluate_conditions_map.
  induction conditions as [|c cs IH]; simpl; [by split; [constructor|]|].
  rewrite Forall_cons, <-IH. clear IH.
  destruct (evaluate_conditions_step st x c) as [bs|e] eqn:Hc; simpl;
    [|split; [done|by intros [[?|?] _]]].
  apply evaluate_conditions_step_Ok in Hc as [->|[b ->]];
    destruct (map_res _ cs); simpl; try destruct b; simpl;
    intuition congruence.
Qed.

(** An exception of the conditions is the exception of a step. *)
Lemma evaluate_conditions_Raise st (x : row) conditions e :
  evaluate_conditions st x conditions = Raise e →
  ∃ c, c ∈ conditions ∧ evaluate_conditions_step st x c = Raise e.
Proof.
  rewrite evaluate_conditions_map.
  induction conditions as [|c cs IH]; simpl; [done|].
  destruct (evaluate_conditions_step st x c) as [bs|e'] eqn:Hc; simpl.
  - destruct (map_res _ cs) eqn:Hcs; simpl in *; [done|].
    intros [= ->]. destruct (IH eq_refl) as (c'&?&?).
    exists c'. split; [by right|done].
  - intros [= ->]. exists c. split; [left|done].
Qed.

(** On the three operators of the specification [evaluate_condition] is
    the comparison of the specification, up to the kind of error. *)
Lemma evaluate_condition_refines value operator condition_value op :
  operator_of operator = Some op →
  ok_of (evaluate_condition value operator condition_value) =
  ok_of (compare_cell op value condition_value).
Proof.
  unfold operator_of, evaluate_condition, compare_cell, to_float.
  repeat case_decide; intros [= <-]; try done;
    destruct (float_of_str value), (float_of_str condition_value); done.
Qed.

(** Any other operator makes the condition false. *)
Lemma evaluate_condition_unknown value operator condition_value :
  operator_of operator = None →
  evaluate_condition value operator condition_value = Ok false.
Proof.
  unfold operator_of, evaluate_condition. by repeat case_decide.
Qed.

End conditions.

(** ** Operand extraction *)

(** Without [{] the payload expression raises IndexError, with one it
    succeeds. *)
Lemma brace_payload_Raise query e :
  brace_payload query = Raise e ↔ contains "{" query = false ∧ e = IndexError.
Proof.
  unfold brace_payload.
  destruct (getitem (split "{" query) 1) as [b|e'] eqn:Hg; simpl.
  - split; [done|]. intros [Hc _].
    apply getitem_Ok, lookup_lt_Some in Hg.
    by apply (split_contains_length "{") in Hg; [congruence|].
  - apply getitem_Raise in Hg as [Hl ->]. split; [intros [= <-]|by intros [_ ->]].
    split; [|done]. apply not_true_is_false.
    intros Hc%(split_contains_length "{"); [lia|done].
Qed.

Lemma brace_payload_is_Ok query :
  contains "{" query = true → ∃ c, brace_payload query = Ok c.
Proof.
  intros Hc. destruct (brace_payload query) as [c|e] eqn:Hb; [by eauto|].
  apply brace_payload_Raise in Hb as [? _]. congruence.
Qed.

(** The operand has no parenthesis and is stripped, so extracting the
    operand of an operand changes nothing: [projection] can hand its
    operand to [crossproduct]. *)
Lemma paren_operand_no_paren query :
  contains "(" (paren_operand query) = false ∧
  contains ")" (paren_operand query) = false.
Proof.
  unfold paren_operand, strip. split; apply contains_false_strip_with.
  - apply contains_false_first_piece; [done|]. by apply last_piece_no_sep.
  - by apply first_piece_no_sep.
Qed.

Lemma paren_operand_strip query :
  strip (paren_operand query) = paren_operand query.
Proof. apply strip_idemp. Qed.

Lemma paren_operand_idemp query :
  paren_operand (paren_operand query) = paren_operand query.
Proof.
  destruct (paren_operand_no_paren query) as [Hl Hr].
  unfold paren_operand at 1.
  rewrite last_piece_id, first_piece_id by done. apply strip_idemp.
Qed.

(** ** Selection *)

Section selection.
Context `{FloatOps} `{SetOrder row}.
Implicit Types (st : store) (query : string) (r : relation).

(** A selection succeeds exactly when the query has a payload, names a
    stored relation and the conditions run on every row; the result is
    the header and the selected rows, in order. *)
Lemma selection_Ok st query t :
  selection st query = Ok t ↔
  ∃ condition r,
    brace_payload query = Ok condition ∧
    lookup st (paren_operand query) = Some r ∧
    (∀ x, x ∈ data r →
       ∃ b, evaluate_conditions st x (parse_conditions condition) = Ok b) ∧
    t = attributes r :: selected st condition r.
Proof.
  unfold selection, selected. split.
  - intros Hs. destruct (brace_payload query) as [c|] eqn:Hc; [|done].
    simpl in Hs. destruct (lookup st _) as [r|] eqn:Hr; [|done].
    destruct (filter_res _ (data r)) as [rows|] eqn:Hf; simplify_eq/=.
    exists c, r. split_and!; [done..| |].
    + by eapply filter_res_Ok_total.
    + f_equal. by apply filter_res_Ok.
  - intros (c&r&->&->&Hall&->). simpl.
    destruct (filter_res _ (data r)) as [rows|e] eqn:Hf; simpl.
    + f_equal. f_equal. by apply filter_res_Ok.
    + apply filter_res_Raise in Hf as (l1&x&l2&Hd&Hx&_).
      destruct (Hall x) as [b Hb]; [|congruence].
      rewrite Hd. apply elem_of_app. right. left.
Qed.

(** An unknown relation is reported once the payload has been read. *)
Lemma selection_unknown_relation st query condition :
  brace_payload query = Ok condition →
  lookup st (paren_operand query) = None →
  selection st query = Raise (relation_not_found (paren_operand query)).
Proof. unfold selection. by intros -> ->. Qed.

(** A query without [{] raises IndexError before the relation is looked
    up. *)
Lemma selection_no_brace st query :
  contains "{" query = false → selection st query = Raise IndexError.
Proof.
  intros Hc. unfold selection.
  by rewrite (proj2 (brace_payload_Raise query IndexError)).
Qed.

(** The conditions are not looked at when the relation has no rows. *)
Lemma selection_no_rows st query condition r :
  brace_payload query = Ok condition →
  lookup st (paren_operand query) = Some r →
  data r = [] →
  selection st query = Ok [attributes r].
Proof. unfold selection. intros -> -> ->. done. Qed.

End selection.

(** ** Cross product and union *)

Section binary.
Context `{FloatOps} `{SetOrder row}.
Implicit Types (st : store) (query : string) (A B : relation).

Lemma get_relation_data_Ok st name r :
  get_relation_data st name = Ok r ↔ lookup st name = Some r.
Proof. unfold get_relation_data. destruct (lookup st name); naive_solver. Qed.

Lemma get_relation_data_Raise st name e :
  get_relation_data st name = Raise e ↔
  lookup st name = None ∧ e = relation_not_found name.
Proof. unfold get_relation_data. destruct (lookup st name); naive_solver. Qed.

(** The cross product succeeds exactly on two stored operands, and is
    then the table of their product. *)
Lemma crossproduct_Ok st query t :
  crossproduct st query = Ok t ↔
  ∃ l r A B,
    split "*" (paren_operand query) = [l; r] ∧
    lookup st (strip l) = Some A ∧ lookup st (strip r) = Some B ∧
    t = table_of (cross_op A B).
Proof.
  unfold crossproduct. split.
  - destruct (split "*" _) as [|l [|r [|]]]; try done. intros Hc.
    destruct (get_relation_data st (strip l)) as [A|] eqn:HA; [|done].
    destruct (get_relation_data st (strip r)) as [B|] eqn:HB; [|done].
    apply get_relation_data_Ok in HA, HB. simplify_eq/=.
    by exists l, r, A, B.
  - intros (l&r&A&B&->&HA&HB&->).
    apply get_relation_data_Ok in HA, HB. by rewrite HA, HB.
Qed.

(** Any other number of operands is the source's ValueError. *)
Lemma crossproduct_arity_error st query :
  length (split "*" (paren_operand query)) ≠ 2 →
  crossproduct st query =
  Raise (ValueError "Cross product requires exactly two relations.").
Proof.
  unfold crossproduct. by destruct (split "*" _) as [|l [|r [|]]].
Qed.

(** The left operand is looked up first. *)
Lemma crossproduct_unknown_left st query l r :
  split "*" (paren_operand query) = [l; r] →
  lookup st (strip l) = None →
  crossproduct st query = Raise (relation_not_found (strip l)).
Proof.
  unfold crossproduct. intros -> Hl.
  by rewrite (proj2 (get_relation_data_Raise _ _ _) (conj Hl eq_refl)).
Qed.

Lemma crossproduct_unknown_right st query l r A :
  split "*" (paren_operand query) = [l; r] →
  lookup st (strip l) = Some A → lookup st (strip r) = None →
  crossproduct st query = Raise (relation_not_found (strip r)).
Proof.
  unfold crossproduct. intros -> Hl%get_relation_data_Ok Hr.
  rewrite Hl. simpl.
  by rewrite (proj2 (get_relation_data_Raise _ _ _) (conj Hr eq_refl)).
Qed.

(** Union succeeds exactly on two stored operands with the same header,
    and is then the table of their union. *)
Lemma union_Ok st query t :
  union st query = Ok t ↔
  ∃ l r A B U,
    split "U" (paren_operand query) = [l; r] ∧
    lookup st (strip l) = Some A ∧ lookup st (strip r) = Some B ∧
    union_op A B = Ok U ∧ t = table_of U.
Proof.
  unfold union. split.
  - destruct (split "U" _) as [|l [|r [|]]]; try done. intros Hu.
    destruct (get_relation_data st (strip l)) as [A|] eqn:HA; [|done].
    destruct (get_relation_data st (strip r)) as [B|] eqn:HB; [|done].
    apply get_relation_data_Ok in HA, HB. simpl in Hu.
    case_bool_decide as Hattr; [done|]. simplify_eq.
    exists l, r, A, B, (Relation (attributes A) (set_list (data A ++ data B))).
    split_and!; [done..|by apply union_op_Ok|done].
  - intros (l&r&A&B&U&->&HA&HB&[Hattr ->]%union_op_Ok&->).
    apply get_relation_data_Ok in HA, HB. rewrite HA, HB. simpl.
    by rewrite bool_decide_eq_false_2 by (by intros ?).
Qed.

(** Different headers are the source's ValueError. *)
Lemma union_schema_mismatch st query l r A B :
  split "U" (paren_operand query) = [l; r] →
  lookup st (strip l) = Some A → lookup st (strip r) = Some B →
  attributes A ≠ attributes B →
  union st query =
  Raise (ValueError "Union requires both relations to have the same attributes.").
Proof.
  unfold union. intros -> HA%get_relation_data_Ok HB%get_relation_data_Ok ?.
  rewrite HA, HB. simpl. by rewrite bool_decide_eq_true_2.
Qed.

Lemma union_arity_error st query :
  length (split "U" (paren_operand query)) ≠ 2 →
  union st query = Raise (ValueError "Union requires exactly two relations.").
Proof. unfold union. by destruct (split "U" _) as [|l [|r [|]]]. Qed.

End binary.

(** ** Projection *)

Section projection.
Context `{FloatOps} `{SetOrder row}.
Implicit Types (st : store) (query : string) (A B R : relation).

(** The source of a projection over a plain name is the stored relation. *)
Lemma projection_source_relation st rq R :
  contains "*" rq = false → lookup st (strip rq) = Some R →
  projection_source st rq = Ok (attributes R, data R).
Proof. unfold projection_source. by intros -> ->. Qed.

(** The source of a projection over [l * r] is the evaluated cross
    product: nothing is lost between [crossproduct] and [projection]. *)
Lemma projection_source_cross st rq :
  contains "*" rq = true →
  projection_source st rq =
  t ← crossproduct st rq; Ok (hd [] t, drop 1 t).
Proof.
  unfold projection_source. intros ->.
  destruct (crossproduct st rq) as [t|] eqn:Ht; [|done].
  by apply crossproduct_Ok in Ht as (?&?&?&?&_&_&_&->).
Qed.

Lemma projection_source_cross_Ok st rq l r A B :
  contains "*" rq = true →
  split "*" (paren_operand rq) = [l; r] →
  lookup st (strip l) = Some A → lookup st (strip r) = Some B →
  projection_source st rq =
  Ok (attributes (cross_op A B), data (cross_op A B)).
Proof.
  intros Hc Hs HA HB. rewrite projection_source_cross by done.
  by rewrite (proj2 (crossproduct_Ok st rq _) (ex_intro _ l (ex_intro _ r
    (ex_intro _ A (ex_intro _ B (conj Hs (conj HA (conj HB eq_refl)))))))).
Qed.

(** The two loops of [projection] compute the projection of the
    specification on the source; they differ in the errors only. *)
Lemma projection_ok_of st query payload ra d :
  brace_payload query = Ok payload →
  projection_source st (paren_operand query) = Ok (ra, d) →
  ok_of (projection st query) =
  ok_of (table_of <$> project_op (Relation ra d) (strip <$> split "," payload)).
Proof.
  intros Hp Hs. unfold projection, project_op. rewrite Hp, Hs. simpl.
  rewrite result_fmap_bind. apply ok_of_bind_ext.
  { apply ok_of_map_res_ext. intros a _.
    unfold col_index_of, column. by autorewrite with pyrw. }
  intros idxs _. rewrite result_fmap_bind. apply ok_of_bind_ext; [|done].
  apply ok_of_map_res_ext. intros x _. apply ok_of_map_res_ext. intros i _.
  unfold getitem. by autorewrite with pyrw.
Qed.

(** A successful projection has the requested header and one row per row
    of its source, each as long as the header. *)
Lemma projection_shape st query payload ra d t :
  brace_payload query = Ok payload →
  projection_source st (paren_operand query) = Ok (ra, d) →
  projection st query = Ok t →
  ∃ rows, t = (strip <$> split "," payload) :: rows ∧
          length rows = length d ∧
          table_arity (length (split "," payload)) rows.
Proof.
  intros Hp Hs Ht. pose proof (projection_ok_of _ _ _ _ _ Hp Hs) as Href.
  rewrite Ht in Href. symmetry in Href. simpl in Href.
  rewrite ok_of_fmap in Href.
  destruct (project_op _ _) as [P|] eqn:HP; simplify_eq/=.
  apply project_op_Ok in HP as (Hattrs&Hlen&Hwf).
  exists (data P). unfold table_of. rewrite Hattrs. split_and!; [done..|].
  unfold relation_wf in Hwf. by rewrite Hattrs, length_fmap in Hwf.
Qed.

(** The first requested attribute that the source lacks is reported. *)
Lemma projection_unknown_attribute st query payload ra d attrs1 attr attrs2 :
  brace_payload query = Ok payload →
  projection_source st (paren_operand query) = Ok (ra, d) →
  strip <$> split "," payload = attrs1 ++ attr :: attrs2 →
  Forall (λ a, a ∈ ra) attrs1 → attr ∉ ra →
  projection st query =
  Raise (ValueError ("Attribute '" +:+ attr +:+ "' not found in relation '"
                     +:+ paren_operand query +:+ "'.")).
Proof.
  intros Hp Hs Hattrs H1 Hattr. unfold projection. rewrite Hp, Hs. simpl.
  rewrite Hattrs. erewrite map_res_Raise; [done| |].
  - eapply Forall_impl; [done|]. intros a (i&Hi&_)%index_of_elem.
    exists i. by apply or_raise_Ok.
  - apply or_raise_Raise. split; [by apply index_of_None|done].
Qed.

End projection.

(** ** Selection against the specification *)

Section selection_refinement.
Context `{FloatOps} `{SetOrder row}.
Implicit Types (st : store) (query : string) (R : relation) (x : row).

(** A segment that is a predicate is evaluated as the predicate, in the
    column [get_attribute_index] finds. *)
Lemma step_resolved st x c p i :
  predicate_of c = Ok p →
  find_attribute (values st) (pred_attr p) = Some i →
  ok_of (evaluate_conditions_step st x c) = (λ b, [b]) <$> ok_of (holds i p x).
Proof.
  intros (attr&operator&value&op&Hs&Hop&->)%predicate_of_Ok Hi. simpl in Hi.
  unfold evaluate_conditions_step, get_attribute_index.
  rewrite bool_decide_eq_false_2 by (by intros ->). rewrite Hs, Hi. simpl.
  unfold holds, getitem. simpl. destruct (x !! i) as [cell|]; [|done]. simpl.
  pose proof (evaluate_condition_refines cell operator
                (strip_chars "'" value) op Hop) as Hr.
  destruct (evaluate_condition _ _ _), (compare_cell _ _ _); by simplify_eq/=.
Qed.

Lemma step_unresolved st x c p :
  predicate_of c = Ok p →
  find_attribute (values st) (pred_attr p) = None →
  ∃ e, evaluate_conditions_step st x c = Raise e.
Proof.
  intros (attr&operator&value&op&Hs&Hop&->)%predicate_of_Ok Hi. simpl in Hi.
  unfold evaluate_conditions_step, get_attribute_index.
  rewrite bool_decide_eq_false_2 by (by intros ->). rewrite Hs, Hi. by eexists.
Qed.

Lemma conditions_resolved st x conds preds idxs :
  Forall2 (λ c p, predicate_of c = Ok p) conds preds →
  Forall2 (λ p i, find_attribute (values st) (pred_attr p) = Some i) preds idxs →
  ok_of (evaluate_conditions st x conds) = ok_of (holds_all (zip idxs preds) x).
Proof.
  intros Hc Hp. rewrite evaluate_conditions_map. unfold holds_all.
  rewrite !ok_of_bind.
  assert (ok_of (map_res (evaluate_conditions_step st x) conds) =
          fmap (λ b, [b]) <$>
            ok_of (map_res (λ ip, holds ip.1 ip.2 x) (zip idxs preds))) as ->.
  { revert idxs Hp. induction Hc as [|c p conds preds Hcp _ IH];
      intros idxs; inversion 1 as [|?? ? idxs' Hi Hidxs]; simplify_eq; [done|].
    simpl. rewrite !ok_of_bind, (step_resolved _ _ _ _ _ Hcp Hi).
    destruct (ok_of (holds _ p x)); [|done]. simpl.
    rewrite !ok_of_bind, (IH _ Hidxs). by destruct (ok_of (map_res _ (zip _ _))). }
  destruct (ok_of (map_res _ (zip _ _))) as [bs|]; [|done]. simpl.
  by rewrite concat_singletons.
Qed.

Lemma conditions_unresolved st x conds preds p :
  Forall2 (λ c p, predicate_of c = Ok p) conds preds →
  p ∈ preds → find_attribute (values st) (pred_attr p) = None →
  ∃ e, evaluate_conditions st x conds = Raise e.
Proof.
  intros Hc [i Hi]%list_elem_of_lookup Hp.
  destruct (Forall2_lookup_r _ _ _ _ _ Hc Hi) as (c&Hci&Hcp).
  destruct (step_unresolved st x c p Hcp Hp) as [e He].
  destruct (map_res_elem_Raise (evaluate_conditions_step st x) conds c e)
    as [e' He']; [by eapply list_elem_of_lookup_2|done|].
  exists e'. by rewrite evaluate_conditions_map, He'.
Qed.

(** A predicate whose column is beyond the row: the index leaves the
    row before anything is compared. *)
Lemma step_short_row st x c p i :
  predicate_of c = Ok p →
  get_attribute_index st (pred_attr p) = Ok i → length x ≤ i →
  evaluate_conditions_step st x c = Raise IndexError.
Proof.
  intros (attr&operator&value&op&Hs&Hop&->)%predicate_of_Ok Hi Hx.
  simpl in Hi. unfold evaluate_conditions_step.
  rewrite bool_decide_eq_false_2 by (by intros ->). rewrite Hs, Hi. simpl.
  by rewrite (proj2 (getitem_Raise x i IndexError)).
Qed.

(** [selection] evaluates every predicate in the column that
    [get_attribute_index] finds for its attribute in the store. *)
Lemma selection_columns st query condition R preds idxs :
  brace_payload query = Ok condition →
  lookup st (paren_operand query) = Some R →
  map_res predicate_of (parse_conditions condition) = Ok preds →
  Forall2 (λ p i, find_attribute (values st) (pred_attr p) = Some i)
          preds idxs →
  ok_of (selection st query) =
  ok_of (rows ← filter_res (holds_all (zip idxs preds)) (data R);
         Ok (attributes R :: rows)).
Proof.
  intros Hp HR Hpreds%map_res_Ok Hidxs. unfold selection.
  rewrite Hp. simpl. rewrite HR.
  apply ok_of_bind_ext; [|done]. apply ok_of_filter_res_ext. intros x _.
  by apply (conditions_resolved _ _ _ preds).
Qed.

(** When the column of the first predicate is beyond the first row of
    the relation, the selection raises IndexError. *)
Lemma selection_short_row st query condition R p preds i x rows :
  brace_payload query = Ok condition →
  lookup st (paren_operand query) = Some R →
  map_res predicate_of (parse_conditions condition) = Ok (p :: preds) →
  get_attribute_index st (pred_attr p) = Ok i →
  data R = x :: rows → length x ≤ i →
  selection st query = Raise IndexError.
Proof.
  intros Hp HR Hpreds%map_res_Ok Hi Hdata Hx.
  inversion Hpreds as [|c ? conds ? Hc _ Hconds]; subst.
  unfold selection. rewrite Hp. simpl. rewrite HR, Hdata, <-Hconds.
  cbn [filter_res]. unfold evaluate_conditions.
  cbn [evaluate_conditions_loop].
  by rewrite (step_short_row _ _ _ _ _ Hc Hi Hx).
Qed.

End selection_refinement.

(** ** Well-formed results *)

Section wf.
Context `{FloatOps} `{SetOrder row}.
Implicit Types (st : store) (query : string) (t : table).

Lemma table_of_wf R : relation_wf R → table_wf (table_of R).
Proof. done. Qed.

Lemma selection_wf st query t :
  store_wf st → selection st query = Ok t → table_wf t.
Proof.
  intros Hst (condition&R&_&HR&_&->)%selection_Ok.
  apply (lookup_wf _ _ _ Hst) in HR.
  eapply Forall_forall. intros x Hx%list_elem_of_filter.
  by eapply (proj1 (Forall_forall _ _) HR), Hx.
Qed.

Lemma crossproduct_wf st query t :
  store_wf st → crossproduct st query = Ok t → table_wf t.
Proof.
  intros Hst (l&r&A&B&_&HA&HB&->)%crossproduct_Ok.
  apply table_of_wf, cross_op_wf; by eapply lookup_wf.
Qed.

Lemma union_wf st query t : store_wf st → union st query = Ok t → table_wf t.
Proof.
  intros Hst (l&r&A&B&U&_&HA&HB&HU&->)%union_Ok.
  apply table_of_wf. eapply union_op_wf; [..|done]; by eapply lookup_wf.
Qed.

Lemma projection_Ok_inv st query t :
  projection st query = Ok t →
  ∃ payload ra d, brace_payload query = Ok payload ∧
                  projection_source st (paren_operand query) = Ok (ra, d).
Proof.
  unfold projection. destruct (brace_payload query) as [payload|]; [|done].
  simpl. destruct (projection_source _ _) as [[ra d]|]; [|done]. by eauto.
Qed.

(** A projection is well formed whatever the store is: its rows are built
    from the list of columns. *)
Lemma projection_wf st query t : projection st query = Ok t → table_wf t.
Proof.
  intros Ht. destruct (projection_Ok_inv _ _ _ Ht) as (payload&ra&d&Hp&Hs).
  destruct (projection_shape _ _ _ _ _ _ Hp Hs Ht) as (rows&->&_&Hwf).
  simpl. by rewrite length_fmap.
Qed.

End wf.

(** ** Attribute resolution *)

Section resolution.
Context `{FloatOps} `{SetOrder row}.
Implicit Types (st : store) (attr : string) (R : relation).

Lemma find_attribute_Some rels attr i :
  find_attribute rels attr = Some i ↔
  ∃ rels1 R rels2, rels = rels1 ++ R :: rels2 ∧
    Forall (λ R', attr ∉ attributes R') rels1 ∧
    index_of attr (attributes R) = Some i.
Proof.
  induction rels as [|R rels IH]; simpl.
  { split; [done|]. by intros ([]&?&?&?&_). }
  destruct (contains_elem attr (attributes R)) eqn:Hc.
  - apply contains_elem_true in Hc. split.
    + intros Hi. by exists [], R, rels.
    + intros ([|R1 rels1]&R'&rels2&Heq&Hno&Hi); simplify_eq/=; [done|].
      by apply Forall_cons in Hno as [? _].
  - apply contains_elem_false in Hc. rewrite IH. split.
    + intros (rels1&R'&rels2&->&Hno&Hi). exists (R :: rels1), R', rels2.
      split_and!; [done| |done]. by constructor.
    + intros ([|R1 rels1]&R'&rels2&Heq&Hno&Hi); simplify_eq/=.
      * apply index_of_None in Hc. congruence.
      * apply Forall_cons in Hno as [_ Hno]. by exists rels1, R', rels2.
Qed.

Lemma find_attribute_None rels attr :
  find_attribute rels attr = None ↔ Forall (λ R, attr ∉ attributes R) rels.
Proof.
  induction rels as [|R rels IH]; simpl; [by split; [constructor|]|].
  rewrite Forall_cons, <-IH.
  destruct (contains_elem attr (attributes R)) eqn:Hc.
  - apply contains_elem_true in Hc.
    destruct (index_of_elem _ _ Hc) as (i&->&_). naive_solver.
  - apply contains_elem_false in Hc. naive_solver.
Qed.

(** When the first relation of the store that has the attribute is the
    relation itself, or has it in the same column, the attribute resolves
    as in the relation's own header. *)
Lemma find_attribute_own R attr :
  find_attribute [R] attr = index_of attr (attributes R).
Proof.
  simpl. destruct (contains_elem _ _) eqn:Hc; [done|].
  apply contains_elem_false in Hc. symmetry. by apply index_of_None.
Qed.

End resolution.

(** ** The properties of the operators *)

Section properties.
Context `{FloatOps} `{SetOrder row}.
Implicit Types (st : store) (query : string) (A B R : relation).

(** C30: [get_attribute_index] resolves an attribute in the first relation
    of the whole store whose header has it, whatever relation the
    selection is on: its result is the column of the attribute in that
    relation. *)
Theorem get_attribute_index_first st attr i :
  get_attribute_index st attr = Ok i ↔
  ∃ st1 name R st2, st = st1 ++ (name, R) :: st2 ∧
    Forall (λ p, attr ∉ attributes p.2) st1 ∧
    index_of attr (attributes R) = Some i.
Proof.
  unfold get_attribute_index. rewrite or_raise_Ok, find_attribute_Some.
  unfold values. split.
  - intros (rels1&R&rels2&Heq&Hno&Hi).
    apply fmap_app_inv in Heq as (st1&st2'&Hst1&Hst2&->). symmetry in Hst2.
    apply fmap_cons_inv in Hst2 as ([name R']&st2&HR&Hst2&->). simplify_eq/=.
    exists st1, name, R', st2. split_and!; [done| |done].
    exact (proj1 (Forall_fmap _ (λ R', attr ∉ attributes R') _) Hno).
  - intros (st1&name&R&st2&->&Hno&Hi). exists (st1.*2), R, (st2.*2).
    split_and!; [by rewrite fmap_app| |done].
    exact (proj2 (Forall_fmap _ (λ R', attr ∉ attributes R') _) Hno).
Qed.

(** C1: the cross product has the header of the left operand followed by
    the header of the right one, one row for every pair of rows, and row
    [i * |B| + j] is row [i] of the left operand followed by row [j] of
    the right one: the right row varies fastest. *)
Theorem crossproduct_cartesian st query l r A B :
  split "*" (paren_operand query) = [l; r] →
  lookup st (strip l) = Some A → lookup st (strip r) = Some B →
  ∃ rows,
    crossproduct st query = Ok ((attributes A ++ attributes B) :: rows) ∧
    length rows = length (data A) * length (data B) ∧
    ∀ i j a b, data A !! i = Some a → data B !! j = Some b →
               rows !! (i * length (data B) + j) = Some (a ++ b).
Proof.
  intros Hs HA HB. exists (cross_rows (data A) (data B)). split_and!.
  - apply crossproduct_Ok. by exists l, r, A, B.
  - apply cross_rows_length.
  - intros. by apply cross_rows_lookup.
Qed.

(** C2: selection is a filter: the result is the header of the relation
    followed by a subsequence of its rows, in their order, and a row is
    kept exactly when all conditions of the payload evaluate to true on
    it. *)
Theorem selection_filters st query t :
  selection st query = Ok t →
  ∃ condition R rows,
    brace_payload query = Ok condition ∧
    lookup st (paren_operand query) = Some R ∧
    t = attributes R :: rows ∧ rows `sublist_of` data R ∧
    length rows ≤ length (data R) ∧
    ∀ x, x ∈ rows ↔
         x ∈ data R ∧
         evaluate_conditions st x (parse_conditions condition) = Ok true.
Proof.
  intros (condition&R&Hp&HR&_&->)%selection_Ok.
  exists condition, R, (selected st condition R).
  split_and!; [done..|apply sublist_filter|apply length_filter|].
  intros x. unfold selected. rewrite list_elem_of_filter. tauto.
Qed.

(** C10: union has the header of the left operand and, as rows, the rows
    of both operands without duplicates, in the order the set gives. *)
Theorem union_rows st query l r A B :
  split "U" (paren_operand query) = [l; r] →
  lookup st (strip l) = Some A → lookup st (strip r) = Some B →
  attributes A = attributes B →
  ∃ rows, union st query = Ok (attributes A :: rows) ∧ NoDup rows ∧
          ∀ x, x ∈ rows ↔ x ∈ data A ∨ x ∈ data B.
Proof.
  intros Hs HA HB Hattr. exists (set_list (data A ++ data B)). split_and!.
  - apply union_Ok. exists l, r, A, B, (Relation (attributes A) (set_list (data A ++ data B))).
    split_and!; [done..|by apply union_op_Ok|done].
  - apply set_list_NoDup.
  - intros x. by rewrite set_list_elem, elem_of_app.
Qed.

(** The union of a relation with itself has the rows of the relation
    once each: a permutation of its rows when they are distinct. *)
Lemma union_idempotent st query l r A :
  split "U" (paren_operand query) = [l; r] →
  lookup st (strip l) = Some A → lookup st (strip r) = Some A →
  NoDup (data A) →
  ∃ rows, union st query = Ok (attributes A :: rows) ∧ rows ≡ₚ data A.
Proof.
  intros Hs HA HB Hnd. exists (set_list (data A ++ data A)). split.
  - apply union_Ok. exists l, r, A, A, (Relation (attributes A) (set_list (data A ++ data A))).
    split_and!; [done..|by apply union_op_Ok|done].
  - by rewrite set_list_app_idemp, set_list_NoDup_perm.
Qed.

(** C9: [projection] computes the projection of the specification, up to
    the kind of error: on a stored relation it is [project_op] of that
    relation, and on an operand [l * r] it is [project_op] of the cross
    product of the two relations, as if the product had been evaluated
    first. *)
Theorem projection_refines st query payload :
  brace_payload query = Ok payload →
  (∀ R, contains "*" (paren_operand query) = false →
        lookup st (paren_operand query) = Some R →
        ok_of (projection st query) =
        ok_of (table_of <$> project_op R (strip <$> split "," payload))) ∧
  (∀ l r A B, split "*" (paren_operand query) = [l; r] →
        lookup st (strip l) = Some A → lookup st (strip r) = Some B →
        ok_of (projection st query) =
        ok_of (table_of <$> project_op (cross_op A B)
                 (strip <$> split "," payload))).
Proof.
  intros Hp. split.
  - intros [ra d] Hc HR. apply projection_ok_of; [done|].
    apply (projection_source_relation _ _ (Relation ra d)); [done|].
    unfold paren_operand at 1. by rewrite strip_idemp.
  - intros l r A B Hs HA HB. apply (projection_ok_of _ _ _ _ _ Hp).
    apply (projection_source_cross_Ok _ _ l r); [|by rewrite paren_operand_idemp|done..].
    apply (split_contains_length "*"); [done|]. by rewrite Hs.
Qed.

(** The cells of a projection: the result has the requested
    attributes as header, one row per row of the source, in order, and
    the cell of a row under a requested attribute is the cell of the
    source row in the first column of the source with that name. *)
Lemma projection_cells st query payload ra d t :
  brace_payload query = Ok payload →
  projection_source st (paren_operand query) = Ok (ra, d) →
  projection st query = Ok t →
  ∃ rows, t = (strip <$> split "," payload) :: rows ∧
    length rows = length d ∧
    ∀ i x y, d !! i = Some x → rows !! i = Some y →
      Forall2 (λ attr cell, ∃ j, index_of attr ra = Some j ∧ x !! j = Some cell)
              (strip <$> split "," payload) y.
Proof.
  intros Hp Hs. unfold projection. rewrite Hp, Hs. simpl.
  destruct (map_res _ (strip <$> _)) as [idxs|] eqn:Hidxs; [|done]. simpl.
  destruct (map_res _ d) as [rows|] eqn:Hrows; [|done]. intros [= <-].
  exists rows. split_and!; [done|by eapply map_res_length|].
  intros i x y Hx Hy.
  destruct (map_res_lookup _ _ _ _ _ Hrows Hx) as (y'&Hy'&Hcells).
  simplify_eq. apply map_res_Ok in Hidxs, Hcells.
  eapply Forall2_impl; [by eapply Forall2_compose|]. simpl.
  intros attr cell (j&Hj%or_raise_Ok&Hc%getitem_Ok). by exists j.
Qed.

(** [selection] and the Select operator of the specification agree up to
    the kind of error, when every segment of the payload is a well-formed
    predicate, the relation has a row, and every attribute resolves in
    the store as in the header of the relation. *)
Lemma selection_ok_of st query condition R preds :
  brace_payload query = Ok condition →
  lookup st (paren_operand query) = Some R →
  map_res predicate_of (parse_conditions condition) = Ok preds →
  Forall (λ p, find_attribute (values st) (pred_attr p) =
               index_of (pred_attr p) (attributes R)) preds →
  data R ≠ [] →
  ok_of (selection st query) = ok_of (table_of <$> select_op R preds).
Proof.
  intros Hp HR Hpreds Hres Hne. unfold select_op.
  destruct (map_res (λ p, column R (pred_attr p)) preds) as [idxs|e] eqn:Hidxs.
  - apply map_res_Ok in Hidxs.
    rewrite (selection_columns _ _ _ _ _ idxs Hp HR Hpreds).
    { simpl. by rewrite result_fmap_bind. }
    apply (Forall2_strengthen_l _ _ _ _ _ Hidxs Hres).
    intros p i Hi%or_raise_Ok ->. exact Hi.
  - apply map_res_Ok in Hpreds. unfold selection. rewrite Hp. simpl.
    rewrite HR. apply map_res_Raise_elem in Hidxs as (p&Hp'&Hcol). simpl.
    apply or_raise_Raise in Hcol as [Hcol _].
    rewrite Forall_forall in Hres. rewrite <-(Hres p Hp') in Hcol.
    destruct (data R) as [|x rows]; [done|].
    destruct (conditions_unresolved st x _ preds p Hpreds Hp' Hcol) as [e' He'].
    simpl. by rewrite He'.
Qed.

(** C5: [selection] implements the Select operator of the specification,
    up to the kind of error, when every segment of the payload is a
    well-formed predicate, the relation has a row, and every attribute
    resolves in the store as in the header of the relation: both fail
    or both succeed, and then the result is the table of the selected
    relation, the header of the source and no more rows than it has. *)
Theorem selection_refines_select st query condition R preds :
  brace_payload query = Ok condition →
  lookup st (paren_operand query) = Some R →
  map_res predicate_of (parse_conditions condition) = Ok preds →
  Forall (λ p, find_attribute (values st) (pred_attr p) =
               index_of (pred_attr p) (attributes R)) preds →
  data R ≠ [] →
  ok_of (selection st query) = ok_of (table_of <$> select_op R preds) ∧
  ∀ t, selection st query = Ok t →
       ∃ S, select_op R preds = Ok S ∧ t = table_of S ∧
            attributes S = attributes R ∧ length (data S) ≤ length (data R).
Proof.
  intros Hp HR Hpreds Hres Hne.
  pose proof (selection_ok_of _ _ _ _ _ Hp HR Hpreds Hres Hne) as Href.
  split; [done|]. intros t Ht. rewrite Ht, ok_of_fmap in Href.
  destruct (select_op R preds) as [S|] eqn:HS; simplify_eq/=.
  exists S. split_and!; [done..|by eapply select_op_Ok|by eapply select_op_length].
Qed.

(** C29: the columns a selection compares.  [selection] evaluates every
    predicate of its payload in the column that [get_attribute_index]
    finds for the attribute in the whole store, whatever the header of
    the relation of the selection: up to the kind of error, its result
    is the header of the relation followed by the rows whose cells in
    those columns satisfy the predicates.  When the column of the first
    predicate is beyond the first row of the relation, the selection
    raises IndexError. *)
Theorem selection_foreign_column st query condition R preds idxs :
  brace_payload query = Ok condition →
  lookup st (paren_operand query) = Some R →
  map_res predicate_of (parse_conditions condition) = Ok preds →
  Forall2 (λ p i, get_attribute_index st (pred_attr p) = Ok i) preds idxs →
  ok_of (selection st query) =
    ok_of (rows ← filter_res (holds_all (zip idxs preds)) (data R);
           Ok (attributes R :: rows)) ∧
  ∀ i x, head idxs = Some i → head (data R) = Some x → length x ≤ i →
         selection st query = Raise IndexError.
Proof.
  intros Hp HR Hpreds Hidxs. split.
  - apply (selection_columns _ _ condition); [done..|].
    eapply Forall2_impl; [done|]. by intros p i ?%or_raise_Ok.
  - intros i x Hi Hx Hlen.
    destruct Hidxs as [|p i' preds idxs Hpi _]; simplify_eq/=.
    destruct (data R) as [|x' rows] eqn:Hdata; simplify_eq/=.
    by eapply selection_short_row.
Qed.

(** On the store [mirror] the selection of the rows of [B] with
    [x = '1'] keeps the row whose [x] is 2, because [x] is the first
    column of [A]; the Select operator of the specification keeps no
    row.  On the well-formed store [narrow] the selection of the only
    row of [B], whose [x] is 1, raises IndexError. *)
Example selection_wrong_column :
  (selection mirror "SELE (B) {x = '1'}" = Ok [["y"; "x"]; ["1"; "2"]] ∧
   select_op (Relation ["y"; "x"] [["1"; "2"]]) [Predicate "x" OpEq "1"] =
   Ok (Relation ["y"; "x"] [])) ∧
  (store_wf narrow ∧
   selection narrow "SELE (B) {x = '1'}" = Raise IndexError ∧
   select_op (Relation ["x"] [["1"]]) [Predicate "x" OpEq "1"] =
   Ok (Relation ["x"] [["1"]])).
Proof.
  split_and!; try reflexivity. apply (bool_decide_unpack _). reflexivity.
Qed.

(** C36: [OR] is evaluated as [AND]: a row that a selection with an [OR]
    payload keeps satisfies every segment of the payload, not just one
    of them. *)
Theorem or_is_conjunction st query condition t x :
  brace_payload query = Ok condition →
  contains "AND" condition = false → contains "OR" condition = true →
  selection st query = Ok t → x ∈ drop 1 t →
  Forall (λ c, evaluate_conditions_step st x c = Ok [] ∨
               evaluate_conditions_step st x c = Ok [true])
         (strip <$> split "OR" condition).
Proof.
  intros Hp Hand Hor (condition'&R&Hp'&_&_&->)%selection_Ok Hx.
  rewrite Hp in Hp'. injection Hp' as <-. simpl in Hx.
  apply list_elem_of_filter in Hx as [Hx _].
  apply evaluate_conditions_true in Hx.
  unfold parse_conditions in Hx. by rewrite Hand, Hor in Hx.
Qed.

End properties.

(** ** Query evaluation and the difference operator *)

Section evaluation.
Context `{FloatOps} `{SetOrder row}.
Implicit Types (st : store) (query : string) (fuel : nat).

(** The branch of the dispatch that a query starting with [-] takes. *)
Lemma evaluate_query_minus_branch fuel st query t :
  strip query = String "-" t →
  evaluate_query (S fuel) st query =
  try_except (difference_with (evaluate_query fuel st) (String "-" t)) PyNone.
Proof.
  intros Hq. cbn [evaluate_query]. cbv zeta. rewrite Hq.
  rewrite !startswith_head_ne by done. by rewrite startswith_head_eq.
Qed.

(** A query that starts with [-] and has no separator [) - (] evaluates to
    [None]: [difference] raises and [evaluate_query] swallows it. *)
Lemma evaluate_query_minus_atom fuel st query t :
  strip query = String "-" t → contains ") - (" query = false →
  evaluate_query (S fuel) st query = Done (Ok PyNone).
Proof.
  intros Hq Hc. rewrite (evaluate_query_minus_branch _ _ _ t) by done.
  unfold difference_with. rewrite <-Hq, split_no_sep; [done..|].
  apply not_true_is_false. intros Hc'%contains_strip_with. congruence.
Qed.

(** A query that starts with a parenthesis matches no prefix of the
    dispatch. *)
Lemma evaluate_query_paren fuel st query t :
  strip query = String "(" t →
  evaluate_query (S fuel) st query = Done (Ok PyNone).
Proof.
  intros Hq. cbn [evaluate_query]. cbv zeta. rewrite Hq.
  by rewrite !startswith_head_ne.
Qed.

(** The left operand that [difference] builds from a query starting with
    [-] starts with [-] again and has no separator. *)
Lemma difference_left_query query t l r :
  query = String "-" t → split ") - (" query = [l; r] →
  ∃ t', strip (strip l +:+ ")") = String "-" t' ∧
        contains ") - (" (strip l +:+ ")") = false.
Proof.
  intros -> (Hcut&Hl&_)%split_two; [|done].
  apply cut_head in Hcut as [l' ->]; [|done].
  destruct (strip_with_cons isspace "-" l') as [l2 Hl2]; [done|].
  unfold strip. rewrite Hl2.
  destruct (strip_with_cons isspace "-" (l2 +:+ ")")) as [t' Ht']; [done|].
  exists t'. split; [exact Ht'|].
  rewrite contains_snoc; [|done|by intros [|? [|? [|? [|? [|? [|? ?]]]]]]].
  rewrite <-Hl2. apply not_true_is_false.
  intros Hc%contains_strip_with. congruence.
Qed.

(** The two sub-queries of a difference both evaluate to [None], so the
    body of [difference] stops at its check of the operands. *)
Lemma difference_with_minus fuel st query :
  startswith query "-" = true →
  difference_with (evaluate_query (S fuel) st) query =
  if bool_decide (length (split ") - (" query) = 2) then Done (Ok PyNone)
  else Done (Raise (ValueError "Invalid difference query format")).
Proof.
  intros [t ->]%startswith_head. unfold difference_with.
  destruct (split _ _) as [|l [|r [|]]] eqn:Hs; try done.
  destruct (difference_left_query _ t l r eq_refl Hs) as (t'&Hst&Hc).
  rewrite (evaluate_query_minus_atom _ _ _ t' Hst Hc).
  destruct (strip_with_cons isspace "(" (strip r)) as [t2 Ht2]; [done|].
  by rewrite (evaluate_query_paren _ _ ("(" +:+ strip r) t2 Ht2).
Qed.

Lemma evaluate_query_unfold fuel st query :
  evaluate_query (S fuel) st query =
  let query := strip query in
  try_except
    (if startswith query "SELE" then Done (PyList <$> selection st query)
     else if startswith query "PROJ" then Done (PyList <$> projection st query)
     else if startswith query "X" then Done (PyList <$> crossproduct st query)
     else if startswith query "JOIN" then Done (Raise (AttributeError "join"))
     else if startswith query "*" then
       Done (Raise (AttributeError "naturaljoin"))
     else if startswith query "U" then Done (PyList <$> union st query)
     else if startswith query "-" then difference fuel st query
     else mret PyNone)
    PyNone.
Proof. done. Qed.

(** With fuel for two nested calls, a query that starts with [-]
    evaluates to [None]. *)
Lemma evaluate_query_minus_None fuel st query :
  startswith (strip query) "-" = true →
  evaluate_query (S (S fuel)) st query = Done (Ok PyNone).
Proof.
  intros Hq. pose proof Hq as [t Ht]%startswith_head.
  rewrite (evaluate_query_minus_branch _ _ _ t Ht), <-Ht.
  rewrite difference_with_minus by done. by case_bool_decide.
Qed.

(** Fuel beyond two nested calls changes nothing. *)
Lemma evaluate_query_fuel_2 fuel st query :
  evaluate_query (S (S fuel)) st query = evaluate_query 2 st query.
Proof.
  rewrite (evaluate_query_unfold (S fuel)), (evaluate_query_unfold 1).
  cbv zeta.
  do 6 (destruct (startswith _ _); [reflexivity|]).
  destruct (startswith _ "-") eqn:Hm; [|reflexivity].
  unfold difference. by rewrite !difference_with_minus.
Qed.

(** The body of [difference] over an evaluator that returns the tables of
    the two operands: a table is never falsy, the check of the column
    counts is the one of the specification, and the two ways of building
    the result are one. *)
Lemma difference_with_tables (ev : string → fueled pyval) query l r A B :
  split ") - (" query = [l; r] →
  ev (strip l +:+ ")") = Done (Ok (PyList (table_of A))) →
  ev ("(" +:+ strip r) = Done (Ok (PyList (table_of B))) →
  difference_with ev query =
  Done (if bool_decide (length (attributes A) ≠ length (attributes B))
        then Raise (ValueError
          "The two relations must have the same number of columns for the difference operation.")
        else Ok (PyList (attributes A :: set_diff_list (data A) (data B)))).
Proof.
  intros Hs Hl Hr. unfold difference_with. rewrite Hs, Hl. simpl. rewrite Hr.
  simpl. case_bool_decide; [done|]. by destruct (set_diff_list _ _).
Qed.

(** Without fuel for the sub-queries [difference] does not finish or
    raises; in no case does it return a table. *)
Lemma difference_no_table fuel st query t :
  startswith query "-" = true →
  difference fuel st query ≠ Done (Ok (PyList t)).
Proof.
  intros Hq. unfold difference. destruct fuel as [|fuel].
  - unfold difference_with. by destruct (split _ _) as [|l [|r [|]]].
  - rewrite difference_with_minus by done. by case_bool_decide.
Qed.

Lemma difference_done fuel st query :
  startswith query "-" = true → is_done (difference (S fuel) st query) = true.
Proof.
  intros Hq. unfold difference. rewrite difference_with_minus by done.
  by case_bool_decide.
Qed.

Lemma evaluate_query_done fuel st query :
  is_done (evaluate_query (S (S fuel)) st query) = true.
Proof.
  rewrite evaluate_query_unfold. cbv zeta. rewrite try_except_done.
  do 6 (destruct (startswith _ _); [done|]).
  destruct (startswith _ "-") eqn:Hm; [|done]. by apply difference_done.
Qed.

(** The outcome of a line: the query text and the result of the
    dispatch. *)
Lemma process_query_done fuel st line :
  ∃ o, process_query (S fuel) st line = Done (Ok (strip line, o)).
Proof.
  unfold process_query.
  destruct (startswith _ "SELE"); [destruct (selection _ _); by eexists|].
  destruct (startswith _ "PROJ"); [destruct (projection _ _); by eexists|].
  destruct (startswith _ "X"); [destruct (crossproduct _ _); by eexists|].
  do 2 (destruct (startswith _ _); [by eexists|]).
  destruct (startswith _ "U"); [destruct (union _ _); by eexists|].
  destruct (startswith _ "-") eqn:Hm.
  { pose proof (difference_done fuel st (strip line) Hm) as Hd.
    destruct (difference _ _ _) as [[v|e]|];
      [by exists (Result v)|by exists (Error e)|done]. }
  destruct (startswith _ ","); [by eexists|].
  destruct (startswith _ "OR"); by eexists.
Qed.

(** An entry carries the stripped line. *)
Lemma process_query_fst fuel st line r :
  process_query fuel st line = Done (Ok r) → r.1 = strip line.
Proof.
  unfold process_query. cbv zeta.
  match goal with |- match ?m with _ => _ end = _ → _ =>
    destruct m as [[v|e]|] end; by intros [= <-].
Qed.

(** The tables among the outcomes come from the four operators that
    work. *)
Lemma process_query_table fuel st line q t :
  process_query fuel st line = Done (Ok (q, Result (PyList t))) →
  q = strip line ∧
  (selection st q = Ok t ∨ projection st q = Ok t ∨
   crossproduct st q = Ok t ∨ union st q = Ok t).
Proof.
  unfold process_query. generalize (strip line) as query. intros query Hq.
  destruct (startswith _ "SELE");
    [destruct (selection st query) eqn:?; inversion Hq; subst; by eauto|].
  destruct (startswith _ "PROJ");
    [destruct (projection st query) eqn:?; inversion Hq; subst; by eauto|].
  destruct (startswith _ "X");
    [destruct (crossproduct st query) eqn:?; inversion Hq; subst; by eauto 6|].
  destruct (startswith _ "JOIN"); [done|].
  destruct (startswith _ "*"); [done|].
  destruct (startswith _ "U");
    [destruct (union st query) eqn:?; inversion Hq; subst; by eauto 6|].
  destruct (startswith _ "-") eqn:Hm.
  { pose proof (difference_no_table fuel st query t Hm) as Hd.
    destruct (difference _ _ _) as [[[]|]|]; by inversion Hq; subst. }
  destruct (startswith _ ","); [done|]. by destruct (startswith _ "OR").
Qed.

End evaluation.

(** ** The batch *)

#[export] Hint Resolve selection_wf projection_wf crossproduct_wf union_wf : py.

Section batch.
Context `{FloatOps} `{SetOrder row}.
Implicit Types (st : store) (query line : string) (fuel : nat).

Lemma process_queries_cons fuel st line lines :
  process_queries fuel st (line :: lines) =
  r ← process_query fuel st line;
  rs ← process_queries fuel st lines; mret (r :: rs).
Proof. done. Qed.

Lemma process_queries_Ok fuel st lines rs :
  process_queries fuel st lines = Done (Ok rs) ↔
  Forall2 (λ line r, process_query fuel st line = Done (Ok r)) lines rs.
Proof.
  revert rs. induction lines as [|line lines IH]; intros rs.
  { split; [inversion 1; constructor|by inversion 1]. }
  rewrite process_queries_cons. split.
  - destruct (process_query fuel st line) as [[r|]|] eqn:Hr; [|done..]. simpl.
    destruct (process_queries fuel st lines) as [[rs'|]|] eqn:Hrs; [|done..].
    inversion 1. constructor; [done|]. by apply IH.
  - inversion 1 as [|???? Hr Hrs]; simplify_eq. rewrite Hr. simpl.
    apply IH in Hrs. by rewrite Hrs.
Qed.

(** No exception leaves the loop body, whatever the fuel. *)
Lemma process_query_never_raises fuel st line e :
  process_query fuel st line ≠ Done (Raise e).
Proof.
  unfold process_query. cbv zeta.
  by match goal with
     | |- context [match ?m with Done _ => _ | OutOfFuel => _ end] =>
         destruct m as [[]|]
     end.
Qed.

Lemma process_queries_never_raises fuel st lines e :
  process_queries fuel st lines ≠ Done (Raise e).
Proof.
  induction lines as [|line lines IH]; [done|]. rewrite process_queries_cons.
  pose proof (process_query_never_raises fuel st line) as Hq.
  destruct (process_query fuel st line) as [[r|e']|]; [|by destruct (Hq e')|done].
  simpl. by destruct (process_queries fuel st lines) as [[]|].
Qed.

(** The fuel beyond one nested call does not change the outcome of a
    line. *)
Lemma process_query_fuel fuel st line :
  process_query (S fuel) st line = process_query 1 st line.
Proof.
  unfold process_query. cbv zeta.
  do 6 (destruct (startswith _ _); [reflexivity|]).
  destruct (startswith _ "-") eqn:Hm; [|reflexivity].
  unfold difference. by rewrite !difference_with_minus.
Qed.

(** The batch with fuel for one nested call: an entry per line. *)
Lemma process_queries_entries fuel st lines :
  ∃ rs, process_queries (S fuel) st lines = Done (Ok rs) ∧
        Forall2 (λ line r, process_query 1 st line = Done (Ok r) ∧
                           r.1 = strip line) lines rs.
Proof.
  induction lines as [|line lines (rs&Hrs&Hall)]; [by exists []|].
  destruct (process_query_done fuel st line) as [o Ho].
  exists ((strip line, o) :: rs). rewrite process_queries_cons, Ho. simpl.
  rewrite Hrs. split; [done|]. constructor; [|done].
  by rewrite <-(process_query_fuel fuel).
Qed.

(** C4: the body of [difference] is right where its callers are wrong:
    over any evaluator that returns the tables of the two operands it
    computes the Difference of the specification, up to the kind of
    error.  It fails exactly when the column counts differ, and
    otherwise returns the header of the left operand with the rows of
    the left operand that are not rows of the right one, each once; the
    header alone when there is none. *)
Theorem difference_body_refines (ev : string → fueled pyval) query l r A B :
  split ") - (" query = [l; r] →
  ev (strip l +:+ ")") = Done (Ok (PyList (table_of A))) →
  ev ("(" +:+ strip r) = Done (Ok (PyList (table_of B))) →
  ∃ result, difference_with ev query = Done result ∧
    ok_of result = PyList ∘ table_of <$> ok_of (diff_op A B) ∧
    ∀ t, result = Ok (PyList t) →
         ∃ rows, t = attributes A :: rows ∧ NoDup rows ∧
                 ∀ x, x ∈ rows ↔ x ∈ data A ∧ x ∉ data B.
Proof.
  intros Hs Hl Hr. eexists. split; [by eapply difference_with_tables|].
  unfold diff_op. case_bool_decide; [done|]. split; [done|].
  intros t [= <-]. eexists. split_and!;
    [done|apply set_diff_list_NoDup|apply set_diff_list_elem].
Qed.

(** C15: [evaluate_query] terminates: fuel for two nested calls is enough
    for every query on every store, the result does not depend on the
    fuel beyond that, and no exception leaves it. *)
Theorem evaluate_query_total st query :
  ∃ v, ∀ fuel, evaluate_query (S (S fuel)) st query = Done (Ok v).
Proof.
  pose proof (evaluate_query_done 0 st query) as Hd.
  destruct (evaluate_query 2 st query) as [[v|e]|] eqn:Hv; [|exfalso..].
  - exists v. intros fuel. by rewrite evaluate_query_fuel_2.
  - rewrite evaluate_query_unfold in Hv. by apply try_except_never_raises in Hv.
  - done.
Qed.

(** C3: [difference] never computes a difference.  Its query starts with
    [-], so the left sub-query it builds starts with [-] too and has no
    separator left, and the right one starts with a parenthesis: both
    evaluate to [None], and the method returns [None] when the query has
    exactly one separator [) - (] and raises ValueError otherwise. *)
Theorem difference_never_computes fuel st query :
  startswith query "-" = true →
  difference (S fuel) st query =
  (if bool_decide (length (split ") - (" query) = 2) then Done (Ok PyNone)
   else Done (Raise (ValueError "Invalid difference query format"))) ∧
  evaluate_query (S (S fuel)) st query = Done (Ok PyNone).
Proof.
  intros Hq. split; [by apply difference_with_minus|].
  apply evaluate_query_minus_None.
  apply startswith_head in Hq as [t ->].
  destruct (strip_with_cons isspace "-" t) as [t' Ht']; [done|].
  apply startswith_head. by exists t'.
Qed.

(** C11: the batch never stops on a query: with fuel for one nested call
    [process_queries] gives one entry per line, in the order of the
    lines, each with the stripped text of its line. *)
Theorem process_queries_total fuel st lines :
  ∃ rs, process_queries (S fuel) st lines = Done (Ok rs) ∧
        rs.*1 = strip <$> lines.
Proof.
  induction lines as [|line lines (rs&Hrs&Hq)]; [by exists []|].
  destruct (process_query_done fuel st line) as [o Ho].
  exists ((strip line, o) :: rs). rewrite process_queries_cons, Ho. simpl.
  rewrite Hrs. split; [done|]. f_equal. exact Hq.
Qed.

(** Every table of the report is well formed when the store is: a
    header, and rows as long as the header. *)
Lemma process_queries_wf fuel st lines rs q t :
  store_wf st → process_queries fuel st lines = Done (Ok rs) →
  (q, Result (PyList t)) ∈ rs → table_wf t.
Proof.
  intros Hst Hrs%process_queries_Ok Hq.
  destruct (proj1 (list_elem_of_lookup _ _) Hq) as [i Hi].
  destruct (Forall2_lookup_r _ _ _ _ _ Hrs Hi) as (line&_&Hline).
  apply process_query_table in Hline as (_&[?|[?|[?|?]]]);
    eauto with py.
Qed.

(** A line that starts with [-] leaves the query text and the blank
    row in the report, and no row of a result, whatever its operands
    are. *)
Lemma minus_line_report fuel st line :
  startswith (strip line) "-" = true →
  process_queries_from_file (S fuel) st [line] = Done (Ok [[strip line]; []]).
Proof.
  intros Hm. unfold process_queries_from_file, process_queries, process_query.
  pose proof Hm as [t Hq]%startswith_head. rewrite Hq.
  rewrite !startswith_head_ne by done. rewrite startswith_head_eq. rewrite <-Hq.
  unfold difference. rewrite difference_with_minus by done.
  by case_bool_decide.
Qed.

(** C40: the methods [join], [naturaljoin], [AND] and [OR] that the
    dispatch calls do not exist: a line with one of these prefixes is
    recorded with the AttributeError of the call. *)
Theorem undefined_operators fuel st line rest :
  (strip line = "JOIN" +:+ rest →
   process_query fuel st line =
   Done (Ok (strip line, Error (AttributeError "join")))) ∧
  (strip line = "*" +:+ rest →
   process_query fuel st line =
   Done (Ok (strip line, Error (AttributeError "naturaljoin")))) ∧
  (strip line = "," +:+ rest →
   process_query fuel st line =
   Done (Ok (strip line, Error (AttributeError "AND")))) ∧
  (strip line = "OR" +:+ rest →
   process_query fuel st line =
   Done (Ok (strip line, Error (AttributeError "OR")))).
Proof.
  unfold process_query. split_and!; intros ->;
    rewrite ?startswith_head_ne by done; by rewrite ?startswith_head_eq.
Qed.

(** The text of an exception is not written: a selection that fails
    leaves the query and the blank row in the report, as a line without
    operator does. *)
Lemma failed_selection_report fuel st line e :
  startswith (strip line) "SELE" = true →
  selection st (strip line) = Raise e →
  process_queries_from_file fuel st [line] = Done (Ok [[strip line]; []]).
Proof.
  intros Hs He.
  unfold process_queries_from_file, process_queries, process_query.
  by rewrite Hs, He.
Qed.

End batch.

(** ** The properties on the database [company]

    Floats are the decimal rationals of PyFloat.v and sets keep the order
    of first occurrence. *)

Lemma crossproduct_cartesian_witness :
  ∃ rows,
    crossproduct company "X (EMP * DEPT)" =
    Ok ((attributes emp ++ attributes dept) :: rows) ∧
    length rows = length (data emp) * length (data dept) ∧
    ∀ i j a b, data emp !! i = Some a → data dept !! j = Some b →
               rows !! (i * length (data dept) + j) = Some (a ++ b).
Proof.
  apply (crossproduct_cartesian company "X (EMP * DEPT)" "EMP " " DEPT");
    reflexivity.
Defined.

Lemma selection_filters_witness :
  ∃ condition R rows,
    brace_payload "SELE (EMP) {salary > '60'}" = Ok condition ∧
    lookup company (paren_operand "SELE (EMP) {salary > '60'}") = Some R ∧
    [["id"; "name"; "salary"]; ["2"; "Bo"; "90"]] = attributes R :: rows ∧
    rows `sublist_of` data R ∧ length rows ≤ length (data R) ∧
    ∀ x, x ∈ rows ↔
         x ∈ data R ∧
         evaluate_conditions company x (parse_conditions condition) = Ok true.
Proof.
  apply (selection_filters company "SELE (EMP) {salary > '60'}"). reflexivity.
Defined.

Lemma union_rows_witness :
  ∃ rows, union company "U (EMP U EMP)" = Ok (attributes emp :: rows) ∧
          NoDup rows ∧ ∀ x, x ∈ rows ↔ x ∈ data emp ∨ x ∈ data emp.
Proof.
  apply (union_rows company "U (EMP U EMP)" "EMP " " EMP"); reflexivity.
Defined.

Lemma union_idempotent_witness :
  ∃ rows, union company "U (EMP U EMP)" = Ok (attributes emp :: rows) ∧
          rows ≡ₚ data emp.
Proof.
  apply (union_idempotent company "U (EMP U EMP)" "EMP " " EMP");
    [reflexivity..|]. apply (bool_decide_unpack _). reflexivity.
Defined.

Lemma projection_refines_witness :
  ok_of (projection company "PROJ (EMP * DEPT) {dname, name}") =
  ok_of (table_of <$> project_op (cross_op emp dept) ["dname"; "name"]).
Proof.
  apply (proj2 (projection_refines company "PROJ (EMP * DEPT) {dname, name}"
                  "dname, name" eq_refl) "EMP " " DEPT" emp dept); reflexivity.
Defined.

Lemma projection_cells_witness :
  ∃ rows, [["name"; "id"]; ["Al"; "1"]; ["Bo"; "2"]] =
          (strip <$> split "," "name, id") :: rows ∧
    length rows = length (data emp) ∧
    ∀ i x y, data emp !! i = Some x → rows !! i = Some y →
      Forall2 (λ attr cell, ∃ j, index_of attr (attributes emp) = Some j ∧
                                 x !! j = Some cell)
              (strip <$> split "," "name, id") y.
Proof.
  apply (projection_cells company "PROJ (EMP) {name, id}"); reflexivity.
Defined.

Lemma difference_never_computes_witness :
  difference 1 company "- (EMP) - (DEPT)" = Done (Ok PyNone) ∧
  evaluate_query 2 company "- (EMP) - (DEPT)" = Done (Ok PyNone).
Proof. apply (difference_never_computes 0 company "- (EMP) - (DEPT)"). reflexivity. Defined.

Lemma difference_body_refines_witness :
  ∃ result,
    difference_with
      (λ q, Done (Ok (PyList (if bool_decide (q = "(EMP)") then table_of emp
                              else [attributes emp; ["2"; "Bo"; "90"]]))))
      "(EMP) - (LEFT)" = Done result ∧
    ok_of result =
      PyList ∘ table_of <$>
        ok_of (diff_op emp (Relation (attributes emp) [["2"; "Bo"; "90"]])) ∧
    ∀ t, result = Ok (PyList t) →
         ∃ rows, t = attributes emp :: rows ∧ NoDup rows ∧
                 ∀ x, x ∈ rows ↔ x ∈ data emp ∧ x ∉ [["2"; "Bo"; "90"]].
Proof.
  apply (difference_body_refines _ "(EMP) - (LEFT)" "(EMP" "LEFT)" emp
           (Relation (attributes emp) [["2"; "Bo"; "90"]])); reflexivity.
Defined.

Lemma minus_line_report_witness :
  process_queries_from_file 1 company ["- (EMP) - (EMP)"] =
  Done (Ok [["- (EMP) - (EMP)"]; []]).
Proof. apply (minus_line_report 0 company "- (EMP) - (EMP)"). reflexivity. Defined.

Lemma failed_selection_report_witness :
  process_queries_from_file 1 company ["SELE (GHOST) {x = 'y'}"] =
  Done (Ok [["SELE (GHOST) {x = 'y'}"]; []]).
Proof.
  apply (failed_selection_report 1 company "SELE (GHOST) {x = 'y'}"
           (relation_not_found "GHOST")); reflexivity.
Defined.

Lemma selection_refines_select_witness :
  ok_of (selection company "SELE (EMP) {salary > '40' AND name = 'Al'}") =
  ok_of (table_of <$> select_op emp [Predicate "salary" OpGt "40";
                                     Predicate "name" OpEq "Al"]) ∧
  ∀ t, selection company "SELE (EMP) {salary > '40' AND name = 'Al'}" = Ok t →
       ∃ S, select_op emp [Predicate "salary" OpGt "40";
                           Predicate "name" OpEq "Al"] = Ok S ∧
            t = table_of S ∧
            attributes S = attributes emp ∧ length (data S) ≤ length (data emp).
Proof.
  apply (selection_refines_select company
           "SELE (EMP) {salary > '40' AND name = 'Al'}"
           "salary > '40' AND name = 'Al'");
    [reflexivity..|apply (bool_decide_unpack _); reflexivity|done].
Defined.

Lemma selection_foreign_column_witness :
  ok_of (selection mirror "SELE (B) {x = '1'}") =
    ok_of (rows ← filter_res (holds_all (zip [0] [Predicate "x" OpEq "1"]))
                    [["1"; "2"]];
           Ok (["y"; "x"] :: rows)) ∧
  ∀ i x, head [0] = Some i → head [["1"; "2"]] = Some x → length x ≤ i →
         selection mirror "SELE (B) {x = '1'}" = Raise IndexError.
Proof.
  apply (selection_foreign_column mirror "SELE (B) {x = '1'}" "x = '1'"
           (Relation ["y"; "x"] [["1"; "2"]]) [Predicate "x" OpEq "1"] [0]);
    [reflexivity..|]. by repeat constructor.
Defined.

Lemma or_is_conjunction_witness :
  Forall (λ c, evaluate_conditions_step company ["1"; "Al"; "50"] c = Ok [] ∨
               evaluate_conditions_step company ["1"; "Al"; "50"] c = Ok [true])
         (strip <$> split "OR" "salary < '60' OR name = 'Al'").
Proof.
  apply (or_is_conjunction company "SELE (EMP) {salary < '60' OR name = 'Al'}"
           "salary < '60' OR name = 'Al'"
           [["id"; "name"; "salary"]; ["1"; "Al"; "50"]]);
    [reflexivity..|]. simpl. left.
Defined.

Lemma undefined_operators_witness :
  process_query 1 company "JOIN (EMP, DEPT)" =
  Done (Ok (strip "JOIN (EMP, DEPT)", Error (AttributeError "join"))).
Proof.
  apply (proj1 (undefined_operators 1 company "JOIN (EMP, DEPT)" " (EMP, DEPT)")).
  reflexivity.
Defined.

End Fileread.
