(* ===== verification/Rows.v ===== *)
(** * Rows: relations and reports up to the order of rows

    The specification leaves the order of the rows of a union and of a
    difference open, and the code takes it from the iteration order of a
    Python set.  This file states what does not depend on it.  Two
    relations are equivalent when they have one header and the same rows;
    the operators of Algebra.v respect the equivalence, with any two set
    orders, and union is commutative, associative and idempotent up to
    it.  For the code: under any two set orders the entries Fileread.py
    records for a query file agree, the tables of unions up to a
    permutation of their rows and everything else exactly.  (The batch of
    newonetest.py takes no set order at all: the only method that builds
    a set is its [difference], which no query reaches.) *)

From S2P Require Import Prelude PyString PyFloat PySet Relation Algebra.
From S2P Require Import Fileread.

(** ** Relations with the same rows *)

(** One header and the same rows, whatever their order and however often
    each occurs. *)
#[export] Instance relation_equiv : Equiv relation := λ R S,
  attributes R = attributes S ∧ ∀ x, x ∈ data R ↔ x ∈ data S.

(** Results of the operators: the same error, or relations with the same
    rows. *)
#[export] Instance spec_equiv : Equiv (spec relation) := λ m1 m2,
  match m1, m2 with
  | Ok R1, Ok R2 => R1 ≡ R2
  | Raise e1, Raise e2 => e1 = e2
  | _, _ => False
  end.

(** Tables with one header and the same rows up to their order. *)
Definition table_perm (t1 t2 : table) : Prop :=
  head t1 = head t2 ∧ tail t1 ≡ₚ tail t2.

(** Entries of [results] with one query and the same result, a table up
    to the order of its rows. *)
Definition entry_perm (r1 r2 : string * Fileread.outcome) : Prop :=
  r1.1 = r2.1 ∧
  match r1.2, r2.2 with
  | Fileread.Result (PyList t1), Fileread.Result (PyList t2) => table_perm t1 t2
  | o1, o2 => o1 = o2
  end.

#[export] Instance relation_equivalence : Equivalence (≡@{relation}).
Proof.
  split.
  - done.
  - intros R S [? HS]. split; [done|]. intros x. by rewrite HS.
  - intros R S T [? HS] [? HT]. split; [congruence|]. intros x. by rewrite HS.
Qed.

#[export] Instance spec_equivalence : Equivalence (≡@{spec relation}).
Proof.
  split.
  - by intros [R|e].
  - intros [R1|e1] [R2|e2] Hm; try done; unfold equiv, spec_equiv in *;
      by symmetry.
  - intros [R1|e1] [R2|e2] [R3|e3] H12 H23; try done;
      unfold equiv, spec_equiv in *; by etrans.
Qed.

#[export] Instance table_perm_equivalence : Equivalence table_perm.
Proof.
  split.
  - done.
  - intros t1 t2 [??]. by split.
  - intros t1 t2 t3 [??] [??]. split; by etrans.
Qed.

#[export] Instance entry_perm_equivalence : Equivalence entry_perm.
Proof.
  split.
  - intros [q [[t|]|e]]; by split.
  - intros [q1 o1] [q2 o2] [Hq Ho]. split; [done|]. simpl in *.
    by destruct o1 as [[t1|]|e1], o2 as [[t2|]|e2]; simplify_eq/=.
  - intros [q1 o1] [q2 o2] [q3 o3] [Hq1 Ho1] [Hq2 Ho2].
    split; [by etrans|]. simpl in *.
    destruct o1 as [[t1|]|e1], o2 as [[t2|]|e2], o3 as [[t3|]|e3];
      simplify_eq/=; try done. by etrans.
Qed.

(** ** The operators respect the equivalence *)

#[export] Instance attributes_proper : Proper ((≡) ==> (=)) attributes.
Proof. by intros R S [? _]. Qed.

#[export] Instance Ok_proper : Proper ((≡) ==> (≡)) (@Ok error relation).
Proof. by intros R S ?. Qed.

#[export] Instance cross_op_proper : Proper ((≡) ==> (≡) ==> (≡)) cross_op.
Proof.
  intros A A' [HA HAr] B B' [HB HBr]. split; simpl; [congruence|].
  intros x. rewrite !cross_rows_elem. by setoid_rewrite HAr; setoid_rewrite HBr.
Qed.

(** Projection raises [RowTooShort] on a row, whichever it is. *)
Lemma project_row_Raise idxs (x : row) e :
  project_row idxs x = Raise e → e = RowTooShort.
Proof.
  intros (i&_&Hi)%map_res_Raise_elem. by apply or_raise_Raise in Hi as [_ ->].
Qed.

#[export] Instance project_op_proper : Proper ((≡) ==> (=) ==> (≡)) project_op.
Proof.
  intros A A' [HA HAr] attrs ? <-. unfold project_op, column. rewrite HA.
  destruct (map_res _ attrs) as [idxs|e]; simpl; [|done].
  pose proof (map_res_same_elems (project_row idxs) _ _ HAr) as Hrows.
  destruct (map_res _ (data A)), (map_res _ (data A')); simpl; try done.
  destruct Hrows as [(x&_&->%project_row_Raise) (x'&_&->%project_row_Raise)].
  done.
Qed.

(** Selection: the rows are compared in the order of the relation, so the
    error of a selection that fails depends on the order; whether it
    fails, and its rows, do not. *)
Lemma select_op_equiv `{FloatOps} A A' preds :
  A ≡ A' → ok_of (select_op A preds) ≡ ok_of (select_op A' preds).
Proof.
  intros [HA HAr]. unfold select_op, column. rewrite HA.
  destruct (map_res _ preds) as [idxs|e]; simpl; [|done].
  pose proof (filter_res_same_elems (holds_all (zip idxs preds)) _ _ HAr) as Hrows.
  destruct (filter_res _ (data A)), (filter_res _ (data A')); simpl;
    try done; by constructor.
Qed.

Section orders.
Context {Heq : EqDecision row} (O1 O2 : SetOrder row).
Implicit Types (A B : relation).

(** Union and difference under two set orders. *)
Lemma union_op_orders A A' B B' :
  A ≡ A' → B ≡ B' → @union_op _ O1 A B ≡ @union_op _ O2 A' B'.
Proof.
  intros [HA HAr] [HB HBr]. unfold union_op. rewrite HA, HB.
  case_bool_decide; [done|]. split; simpl; [done|].
  intros x. rewrite !set_list_elem, !elem_of_app. by rewrite HAr, HBr.
Qed.

Lemma diff_op_orders A A' B B' :
  A ≡ A' → B ≡ B' → @diff_op _ O1 A B ≡ @diff_op _ O2 A' B'.
Proof.
  intros [HA HAr] [HB HBr]. unfold diff_op. rewrite HA, HB.
  case_bool_decide; [done|]. split; simpl; [done|].
  intros x. by rewrite !set_diff_list_elem, HAr, HBr.
Qed.

End orders.

Section laws.
Context `{SetOrder row}.
Implicit Types (A B C : relation).

#[export] Instance union_op_proper : Proper ((≡) ==> (≡) ==> (≡)) union_op.
Proof. intros A A' HA B B' HB. by apply union_op_orders. Qed.

#[export] Instance diff_op_proper : Proper ((≡) ==> (≡) ==> (≡)) diff_op.
Proof. intros A A' HA B B' HB. by apply diff_op_orders. Qed.

(** The rows of a union. *)
Lemma union_op_equiv A B :
  attributes A = attributes B →
  union_op A B ≡ Ok (Relation (attributes A) (data A ++ data B)).
Proof.
  intros Hattr. unfold union_op. rewrite bool_decide_eq_false_2 by (by intros ?).
  split; simpl; [done|]. intros x. apply set_list_elem.
Qed.

Lemma union_op_comm A B : union_op A B ≡ union_op B A.
Proof.
  unfold union_op. do 2 case_bool_decide; try done; try congruence.
  split; simpl; [done|]. intros x. rewrite !set_list_elem, !elem_of_app. tauto.
Qed.

(** Idempotence, as the specification states it: the union of a relation
    with itself has its rows. *)
Lemma union_op_self A : union_op A A ≡ Ok A.
Proof.
  rewrite union_op_equiv by done. split; simpl; [done|].
  intros x. rewrite elem_of_app. tauto.
Qed.

Lemma union_op_assoc A B C :
  (U ← union_op A B; union_op U C) ≡ (U ← union_op B C; union_op A U).
Proof.
  unfold union_op.
  destruct (decide (attributes A = attributes B)) as [HAB|HAB],
    (decide (attributes B = attributes C)) as [HBC|HBC];
    repeat (case_bool_decide; simpl; try done; try congruence).
  split; simpl; [done|]. intros x.
  rewrite !set_list_elem, !elem_of_app, !set_list_elem, !elem_of_app. tauto.
Qed.

(** The difference of a relation with an equivalent one has no row. *)
Lemma diff_op_equiv_empty A B :
  A ≡ B → diff_op A B ≡ Ok (Relation (attributes A) []).
Proof. intros <-. by rewrite diff_op_self. Qed.

End laws.

(** ** Fileread.py under two set orders *)

Section fileread_orders.
Context `{FloatOps} {Heq : EqDecision row} (O1 O2 : SetOrder row).
Implicit Types (st : store) (query line : string) (fuel : nat).

(** [union]: the same exception, or the same header with the rows in two
    orders. *)
Lemma union_orders st query :
  match @Fileread.union _ O1 st query, @Fileread.union _ O2 st query with
  | Ok t1, Ok t2 => table_perm t1 t2
  | Raise e1, Raise e2 => e1 = e2
  | _, _ => False
  end.
Proof.
  unfold Fileread.union. destruct (split _ _) as [|l [|r [|]]]; try done.
  destruct (Fileread.get_relation_data st (strip l)) as [A|]; [|done].
  destruct (Fileread.get_relation_data st (strip r)) as [B|]; [|done]. simpl.
  case_bool_decide; [done|]. split; [done|]. simpl. by apply set_list_orders.
Qed.

(** One pass through the loop. *)
Lemma process_query_orders fuel st line :
  ∃ o1 o2,
    @Fileread.process_query _ _ O1 (S fuel) st line = Done (Ok (strip line, o1)) ∧
    @Fileread.process_query _ _ O2 (S fuel) st line = Done (Ok (strip line, o2)) ∧
    entry_perm (strip line, o1) (strip line, o2).
Proof.
  unfold Fileread.process_query. generalize (strip line) as query. intros query.
  destruct (startswith _ "SELE");
    [destruct (Fileread.selection _ _); by do 2 eexists|].
  destruct (startswith _ "PROJ");
    [destruct (Fileread.projection _ _); by do 2 eexists|].
  destruct (startswith _ "X");
    [destruct (Fileread.crossproduct _ _); by do 2 eexists|].
  destruct (startswith _ "JOIN"); [by do 2 eexists|].
  destruct (startswith _ "*"); [by do 2 eexists|].
  destruct (startswith _ "U").
  { pose proof (union_orders st query) as Hu.
    destruct (@Fileread.union _ O1 _ _), (@Fileread.union _ O2 _ _);
      try done; do 2 eexists; (split_and!; [done..|split; [done|]]); simpl;
      [done|by subst]. }
  destruct (startswith _ "-") eqn:Hm.
  { unfold Fileread.difference. rewrite !Fileread.difference_with_minus by done.
    case_bool_decide; by do 2 eexists. }
  destruct (startswith _ ","); [by do 2 eexists|].
  destruct (startswith _ "OR"); by do 2 eexists.
Qed.

(** The rows written for equivalent entries are permutations. *)
Lemma report_entry_perm r1 r2 :
  entry_perm r1 r2 → Fileread.report_entry r1 ≡ₚ Fileread.report_entry r2.
Proof.
  destruct r1 as [q1 o1], r2 as [q2 o2]. intros [Hq Ho]. simpl in *. subst q2.
  destruct o1 as [[t1|]|e1], o2 as [[t2|]|e2]; simplify_eq/=; try done.
  destruct Ho as [Hh Ht]. do 2 f_equiv.
  destruct t1 as [|h1 t1], t2 as [|h2 t2]; simplify_eq/=; [done|by f_equiv].
Qed.

(** The rows written for entries that agree up to the order of rows. *)
Lemma report_perm rs1 rs2 :
  Forall2 entry_perm rs1 rs2 →
  rs1 ≫= Fileread.report_entry ≡ₚ rs2 ≫= Fileread.report_entry.
Proof.
  induction 1 as [|r1 r2 rs1 rs2 Hr _ IH]; [done|].
  change (Fileread.report_entry r1 ++ (rs1 ≫= Fileread.report_entry)
          ≡ₚ Fileread.report_entry r2 ++ (rs2 ≫= Fileread.report_entry)).
  by apply Permutation_app; [apply report_entry_perm|].
Qed.

(** The loop under two orders: it ends under both, with entries that
    agree up to the order of the rows of unions. *)
Lemma process_queries_orders fuel st queries :
  ∃ rs1 rs2,
    @Fileread.process_queries _ _ O1 (S fuel) st queries = Done (Ok rs1) ∧
    @Fileread.process_queries _ _ O2 (S fuel) st queries = Done (Ok rs2) ∧
    Forall2 entry_perm rs1 rs2.
Proof.
  induction queries as [|line queries (rs1&rs2&H1&H2&Hrs)].
  { by exists [], []. }
  destruct (process_query_orders fuel st line) as (o1&o2&Ho1&Ho2&Ho).
  exists ((strip line, o1) :: rs1), ((strip line, o2) :: rs2).
  rewrite !Fileread.process_queries_cons, Ho1, Ho2. simpl. rewrite H1, H2.
  split_and!; [done..|by constructor].
Qed.

(** C28: the order in which a set gives its elements does not change what
    Fileread.py answers.  Under any two orders the loop records entries
    for the same queries with the same results, the table of a union up
    to a permutation of its rows and every other result, exceptions
    included, exactly; the reports are permutations of each other. *)
Theorem results_up_to_order fuel st queries :
  ∃ rs1 rs2,
    @Fileread.process_queries _ _ O1 (S fuel) st queries = Done (Ok rs1) ∧
    @Fileread.process_queries _ _ O2 (S fuel) st queries = Done (Ok rs2) ∧
    Forall2 entry_perm rs1 rs2 ∧
    rs1 ≫= Fileread.report_entry ≡ₚ rs2 ≫= Fileread.report_entry.
Proof.
  destruct (process_queries_orders fuel st queries) as (rs1&rs2&H1&H2&Hrs).
  exists rs1, rs2. split_and!; [done..|by apply report_perm].
Qed.

End fileread_orders.

(** The order can be observed: the union of [EMP] with itself under the
    order of first occurrence and under its reverse. *)
Example union_two_orders :
  @Fileread.union _ first_occurrence company "U (EMP U EMP)" =
    Ok [["id"; "name"; "salary"]; ["1"; "Al"; "50"]; ["2"; "Bo"; "90"]] ∧
  @Fileread.union _ reverse_occurrence company "U (EMP U EMP)" =
    Ok [["id"; "name"; "salary"]; ["2"; "Bo"; "90"]; ["1"; "Al"; "50"]].
Proof. split; reflexivity. Qed.
