(* ===== verification/Newonetest.v ===== *)
(** * Newonetest: the methods of newonetest.py

    The second version of [SimpleDB].  Its loader is the one of
    Relation.v.  Its evaluator [execute_query] looks for the characters
    [U] and [-] anywhere in the query before it looks at the prefix, calls
    [union] with the two halves of the text (which calls [execute_query]
    again), calls [difference] with two arguments although the method
    takes one, and calls a method [crossproduct] the class does not have.
    [selection] and [projection] resolve attributes in the relation itself
    and return the rows without the header.

    The recursion of [execute_query] through [union] is by fuel; the
    theorems show that more fuel than the query has characters is enough,
    and that the calls nest exactly once for every [U] of the query.
    (The interpreter has a recursion limit, which a line with several
    hundred [U] exceeds; the model has none.)
    [difference] and [process_single_query] call each other; their
    recursion is by fuel too, and one level is all that is ever used.

    The operand and payload expressions and [evaluate_condition] are the
    same text as in Fileread.py and are taken from Fileread.v. *)

From S2P Require Import Prelude PyString PyFloat PySet Relation Algebra Fileread.

Module Newonetest.

Section methods.
Context `{FloatOps} `{SetOrder row}.
Implicit Types (st : store) (query : string).

(** [__init__] and [load_relations]: the same text as in Fileread.py. *)
Definition init : store := Relation.init.

Definition load_relations st (directory : list (string * list row)) : res store :=
  Relation.load_relations st directory.

(** The first statement of [execute_query]: a query in parentheses loses
    them, [query[1:-1].strip()]. *)
Definition unwrap (query : string) : string :=
  if startswith query "(" && endswith query ")" then strip (slice 1 1 query)
  else query.

(** The unpacking [left, right = query.split(sep, 1)] and the two
    [strip]s of [parse_union_query] and [parse_difference_query]. *)
Definition parse_binary (sep query : string) : res (string * string) :=
  match split_once sep query with
  | [l; r] => Ok (strip l, strip r)
  | pieces => Raise (UnpackError 2 (length pieces))
  end.

(** [parse_union_query]. *)
Definition parse_union_query (query : string) : res (string * string) :=
  parse_binary "U" query.

(** [parse_difference_query]. *)
Definition parse_difference_query (query : string) : res (string * string) :=
  parse_binary "-" query.

(** The number of [U] in a query: one call of [union] each. *)
Definition unions (query : string) : nat := count_char "U" query.

(** [evaluate_condition]: the same text as in Fileread.py. *)
Definition evaluate_condition (value operator condition_value : string)
    : res bool :=
  Fileread.evaluate_condition value operator condition_value.

(** [selection]: one condition, resolved in the relation; the rows
    without the header. *)
Definition selection st query : res table :=
  let relation_name := Fileread.paren_operand query in
  condition ← Fileread.brace_payload query;
  match lookup st relation_name with
  | None => Raise (Fileread.relation_not_found relation_name)
  | Some r =>
      match split_ws condition with
      | [attr; operator; value] =>
          let value := strip_chars "'" value in
          col_index ←
            (index_of attr (attributes r) ?!
             ValueError ("Attribute '" +:+ attr +:+ "' not found in relation '"
                         +:+ relation_name +:+ "'."))%py;
          filter_res
            (λ row : row, cell ← getitem row col_index;
                          evaluate_condition cell operator value)
            (data r)
      | words => Raise (UnpackError 3 (length words))
      end
  end.

(** [projection]: the rows without the header. *)
Definition projection st query : res table :=
  let relation_name := Fileread.paren_operand query in
  payload ← Fileread.brace_payload query;
  let attributes_ := strip <$> split "," payload in
  match lookup st relation_name with
  | None => Raise (Fileread.relation_not_found relation_name)
  | Some r =>
      col_indices ←
        map_res (Fileread.col_index_of relation_name (attributes r)) attributes_;
      map_res (λ row : row, map_res (getitem row) col_indices) (data r)
  end.

(** The body of [union], over the evaluator [ev] of its operands
    ([self.execute_query]). *)
Definition union_with (ev : string → fueled table) (left_query right_query : string)
    : fueled table :=
  left_result ← ev left_query;
  right_result ← ev right_query;
  mret (left_result ++
        filter (λ row, row ∉ left_result) right_result).

(** [execute_query].  [self.difference(left_query, right_query)] passes
    one argument too many and [self.crossproduct] does not exist. *)
Fixpoint execute_query (fuel : nat) st query : fueled table :=
  match fuel with
  | 0 => OutOfFuel
  | S fuel' =>
      let query := unwrap query in
      if contains "U" query then
        match parse_union_query query with
        | Ok (left_query, right_query) =>
            union_with (execute_query fuel' st) left_query right_query
        | Raise e => Done (Raise e)
        end
      else if contains "-" query then
        match parse_difference_query query with
        | Ok (left_query, right_query) => Done (Raise TypeError)
        | Raise e => Done (Raise e)
        end
      else if startswith query "SELE" then Done (selection st query)
      else if startswith query "PROJ" then Done (projection st query)
      else if startswith query "X" then
        Done (Raise (AttributeError "crossproduct"))
      else mret []
  end.

(** [union]. *)
Definition union (fuel : nat) st (left_query right_query : string)
    : fueled table :=
  union_with (execute_query fuel st) left_query right_query.

(** [process_single_query], over [self.difference]: a list of rows or
    [None].  [self.union(query)] lacks an argument; [join],
    [naturaljoin] and [crossproduct] do not exist. *)
Definition process_single_query_with (diff : string → fueled (option table))
    st query : fueled (option table) :=
  let query := strip query in
  if startswith query "SELE" then Done (Some <$> selection st query)
  else if startswith query "PROJ" then Done (Some <$> projection st query)
  else if startswith query "X" then Done (Raise (AttributeError "crossproduct"))
  else if startswith query "JOIN" then Done (Raise (AttributeError "join"))
  else if startswith query "*" then Done (Raise (AttributeError "naturaljoin"))
  else if startswith query "U" then Done (Raise TypeError)
  else if startswith query "-" then diff query
  else mret None.

(** [difference]: the first row of each operand is taken as its header. *)
Fixpoint difference (fuel : nat) st query : fueled (option table) :=
  match fuel with
  | 0 => OutOfFuel
  | S fuel' =>
      match split "-" query with
      | [left_query; right_query] =>
          left_result ←
            process_single_query_with (difference fuel' st) st (strip left_query);
          right_result ←
            process_single_query_with (difference fuel' st) st (strip right_query);
          match left_result, right_result with
          | Some left_result, Some right_result =>
              Done (left_header ← getitem left_result 0;
                    right_header ← getitem right_result 0;
                    if bool_decide (left_header ≠ right_header) then
                      Raise (ValueError
                        "Headers do not match for the difference operation.")
                    else
                      Ok (Some (left_header ::
                                set_diff_list (drop 1 left_result)
                                              (drop 1 right_result))))
          | _, _ => mret None
          end
      | pieces => Done (Raise (UnpackError 2 (length pieces)))
      end
  end.

(** [process_single_query]. *)
Definition process_single_query (fuel : nat) st query : fueled (option table) :=
  process_single_query_with (difference fuel st) st query.

(** What the loop of [process_queries_from_file] appends beside the
    query: the list [execute_query] returns or the text of an exception. *)
Inductive outcome : Type :=
| Result (t : table)
| Error (e : exn).

(** The body of the loop of [process_queries_from_file] over the lines. *)
Definition process_query (fuel : nat) st (line : string)
    : fueled (string * outcome) :=
  let query := strip line in
  match execute_query fuel st query with
  | Done (Ok result) => mret (query, Result result)
  | Done (Raise e) => mret (query, Error e)
  | OutOfFuel => OutOfFuel
  end.

Fixpoint process_queries (fuel : nat) st (queries : list string)
    : fueled (list (string * outcome)) :=
  match queries with
  | [] => mret []
  | line :: queries' =>
      r ← process_query fuel st line;
      rs ← process_queries fuel st queries';
      mret (r :: rs)
  end.

(** The rows handed to the CSV writer for one entry of [results]. *)
Definition report_entry (entry : string * outcome) : list row :=
  let '(query, result) := entry in
  [query] ::
  match result with
  | Result t => t
  | Error _ => []
  end ++ [[]].

(** [process_queries_from_file], from the lines of the query file to the
    rows of the report. *)
Definition process_queries_from_file (fuel : nat) st (queries : list string)
    : fueled (list row) :=
  results ← process_queries fuel st queries;
  mret (results ≫= report_entry).

End methods.

(** ** Parsing *)

Lemma unwrap_length query : String.length (unwrap query) ≤ String.length query.
Proof.
  unfold unwrap. destruct (_ && _); [|done].
  etrans; [apply strip_length|]. etrans; [apply slice_length|]. lia.
Qed.

(** With the separator in the query, the unpacking succeeds, cuts at the
    leftmost separator and gives two shorter operands. *)
Lemma parse_binary_Ok sep query :
  sep ≠ "" → contains sep query = true →
  ∃ l r, query = l +:+ sep +:+ r ∧ contains sep l = false ∧
         parse_binary sep query = Ok (strip l, strip r).
Proof.
  intros Hsep (l&r&Hcut)%cut_contains. exists l, r. split_and!.
  - by apply cut_Some.
  - by eapply cut_Some_first.
  - unfold parse_binary, split_once. by rewrite Hcut.
Qed.

Lemma parse_binary_length sep query l r :
  sep ≠ "" → parse_binary sep query = Ok (l, r) →
  String.length l < String.length query ∧ String.length r < String.length query.
Proof.
  intros Hsep. unfold parse_binary, split_once.
  destruct (cut sep query) as [p [q|]] eqn:Hcut; [|done]. intros [= <- <-].
  apply cut_length in Hcut. pose proof (strip_length p). pose proof (strip_length q).
  assert (0 < String.length sep) by (destruct sep; [done|simpl; lia]). lia.
Qed.

(** The parentheses and the white space that [unwrap] removes are no
    [U]. *)
Lemma unwrap_unions query : unions (unwrap query) = unions query.
Proof.
  unfold unwrap, unions.
  destruct (startswith _ _) eqn:Hs, (endswith _ _) eqn:He; try done. simpl.
  destruct (slice_between "(" ")" query) as (m&->&->); [done..|].
  rewrite count_char_strip by done. simpl.
  rewrite count_char_app. simpl. lia.
Qed.

(** The left operand of a union has no [U], the right one has one less
    than the query. *)
Lemma union_operands_unions query l r :
  parse_union_query (unwrap query) = Ok (l, r) →
  unions l = 0 ∧ S (unions r) = unions query.
Proof.
  unfold parse_union_query, parse_binary, split_once.
  destruct (cut "U" (unwrap query)) as [l0 [r0|]] eqn:Hcut; [|done].
  intros [= <- <-]. rewrite <-(unwrap_unions query), (cut_Some _ _ _ _ Hcut).
  apply cut_Some_first in Hcut; [|done].
  rewrite (contains_char "U") in Hcut. apply count_char_0 in Hcut.
  unfold unions in *. rewrite !count_char_strip, !count_char_app by done.
  simpl. lia.
Qed.

(** The unpacking succeeds exactly on a query with a [U]. *)
Lemma parse_union_query_contains query l r :
  parse_union_query query = Ok (l, r) → contains "U" query = true.
Proof.
  unfold parse_union_query, parse_binary, split_once.
  destruct (cut "U" query) as [l0 [r0|]] eqn:Hcut; [|done]. intros _.
  rewrite (cut_Some _ _ _ _ Hcut). apply contains_app.
Qed.

Lemma parse_union_query_Raise query e :
  parse_union_query query = Raise e → contains "U" query = false.
Proof.
  destruct (contains "U" query) eqn:HU; [|done].
  destruct (parse_binary_Ok "U" query) as (l&r&_&_&Hp); [done..|].
  unfold parse_union_query. by rewrite Hp.
Qed.

(** ** Termination of [execute_query] *)

Section execute.
Context `{FloatOps} `{SetOrder row}.
Implicit Types (st : store) (query : string) (fuel : nat).

Lemma execute_query_unfold fuel st query :
  execute_query (S fuel) st query =
  let query := unwrap query in
  if contains "U" query then
    match parse_union_query query with
    | Ok (left_query, right_query) => union fuel st left_query right_query
    | Raise e => Done (Raise e)
    end
  else if contains "-" query then
    match parse_difference_query query with
    | Ok (left_query, right_query) => Done (Raise TypeError)
    | Raise e => Done (Raise e)
    end
  else if startswith query "SELE" then Done (selection st query)
  else if startswith query "PROJ" then Done (projection st query)
  else if startswith query "X" then Done (Raise (AttributeError "crossproduct"))
  else mret [].
Proof. done. Qed.

(** The operands of a union are shorter than the query. *)
Lemma union_operands_shorter query l r :
  parse_union_query (unwrap query) = Ok (l, r) →
  String.length l < String.length query ∧ String.length r < String.length query.
Proof.
  intros [??]%parse_binary_length; [|done].
  pose proof (unwrap_length query). lia.
Qed.

Lemma union_with_ext (ev1 ev2 : string → fueled table) l r :
  ev1 l = ev2 l → ev1 r = ev2 r → union_with ev1 l r = union_with ev2 l r.
Proof. unfold union_with. by intros -> ->. Qed.

Lemma union_with_done (ev : string → fueled table) l r :
  is_done (ev l) = true → is_done (ev r) = true →
  is_done (union_with ev l r) = true.
Proof. unfold union_with. by destruct (ev l) as [[]|], (ev r) as [[]|]. Qed.

(** The recursion over any size of the query that the operands of a
    union have less of. *)
Section size.
Context (size : string → nat).
Hypothesis operands_smaller : ∀ query l r,
  parse_union_query (unwrap query) = Ok (l, r) →
  size l < size query ∧ size r < size query.

Lemma execute_query_done_below fuel st query :
  size query < fuel → is_done (execute_query fuel st query) = true.
Proof.
  revert query. induction fuel as [|fuel IH]; intros query Hlen; [lia|].
  rewrite execute_query_unfold. cbv zeta.
  destruct (contains "U" _).
  { destruct (parse_union_query _) as [[l r]|] eqn:Hp; [|done].
    apply operands_smaller in Hp as [??].
    apply union_with_done; apply IH; lia. }
  destruct (contains "-" _); [by destruct (parse_difference_query _) as [[]|]|].
  by repeat destruct (startswith _ _).
Qed.

Lemma execute_query_fuel_below fuel fuel' st query :
  size query < fuel → size query < fuel' →
  execute_query fuel st query = execute_query fuel' st query.
Proof.
  revert fuel' query. induction fuel as [|fuel IH]; intros [|fuel'] query ??;
    [lia..|].
  rewrite !execute_query_unfold. cbv zeta.
  destruct (contains "U" _); [|done].
  destruct (parse_union_query _) as [[l r]|] eqn:Hp; [|done].
  apply operands_smaller in Hp as [??].
  apply union_with_ext; apply IH; lia.
Qed.

End size.

(** More fuel than the query has characters is enough. *)
Lemma execute_query_done fuel st query :
  String.length query < fuel → is_done (execute_query fuel st query) = true.
Proof. apply execute_query_done_below, union_operands_shorter. Qed.

(** Beyond that, the fuel does not matter. *)
Lemma execute_query_fuel fuel fuel' st query :
  String.length query < fuel → String.length query < fuel' →
  execute_query fuel st query = execute_query fuel' st query.
Proof. apply execute_query_fuel_below, union_operands_shorter. Qed.

(** The rows of a query are returned by the call that is one deeper than
    the query has [U]. *)
Lemma execute_query_Ok_unions fuel st query rows :
  execute_query fuel st query = Done (Ok rows) → unions query < fuel.
Proof.
  revert query rows. induction fuel as [|fuel IH]; intros query rows; [done|].
  rewrite execute_query_unfold. cbv zeta.
  destruct (parse_union_query _) as [[l r]|] eqn:Hp.
  2:{ intros _. rewrite <-unwrap_unions. apply parse_union_query_Raise in Hp.
      unfold unions. rewrite (proj2 (count_char_0 _ _)); [lia|].
      by rewrite <-(contains_char "U"). }
  destruct (union_operands_unions _ _ _ Hp) as [_ <-].
  rewrite (parse_union_query_contains _ _ _ Hp). unfold union, union_with.
  destruct (execute_query fuel st l) as [[lt|]|]; [|done..]. simpl.
  destruct (execute_query fuel st r) as [[rt|]|] eqn:Hr; [|done..].
  intros _. apply IH in Hr. lia.
Qed.

End execute.

(** ** The evaluator *)

Section evaluator.
Context `{FloatOps} `{SetOrder row}.
Implicit Types (st : store) (query : string) (fuel : nat).

(** C7: [execute_query] terminates: its recursion through [union] is on
    strictly shorter texts, so more fuel than the query has characters
    always gives the same result, a list of rows or an exception. *)
Theorem execute_query_total st query :
  ∃ r, ∀ fuel, String.length query < fuel → execute_query fuel st query = Done r.
Proof.
  pose proof (execute_query_done (S (String.length query)) st query) as Hd.
  destruct (execute_query _ st query) as [r|] eqn:Hr; [|by discriminate Hd; lia].
  exists r. intros fuel Hfuel. rewrite <-Hr. apply execute_query_fuel; lia.
Qed.

(** C8: the depth of the recursion.  [execute_query] calls itself, through
    [union], once for every [U] of the query: one call more than the
    query has [U] always ends, with the same result at every depth
    beyond, and no call less deep returns the rows of the query. *)
Theorem execute_query_depth st query :
  (∃ r, ∀ fuel, unions query < fuel → execute_query fuel st query = Done r) ∧
  ∀ fuel rows, execute_query fuel st query = Done (Ok rows) →
               unions query < fuel.
Proof.
  split; [|intros fuel rows; apply execute_query_Ok_unions].
  pose proof (λ Hs, execute_query_done_below unions Hs (S (unions query))
                      st query) as Hd.
  destruct (execute_query _ st query) as [r|] eqn:Hr.
  - exists r. intros fuel Hfuel. rewrite <-Hr.
    apply (execute_query_fuel_below unions); [|lia..].
    intros q l r' [??]%union_operands_unions. lia.
  - discriminate Hd; [|lia]. intros q l r' [??]%union_operands_unions. lia.
Qed.

(** C12: every query with a [-] in its text and no [U] raises TypeError:
    [execute_query] calls [difference] with two arguments, and the
    method takes one.  No difference is ever computed. *)
Theorem minus_raises_TypeError fuel st query :
  contains "U" (unwrap query) = false → contains "-" (unwrap query) = true →
  execute_query (S fuel) st query = Done (Raise TypeError).
Proof.
  intros HU Hm. rewrite execute_query_unfold. cbv zeta. rewrite HU, Hm.
  destruct (parse_binary_Ok "-" _ ltac:(done) Hm) as (l&r&_&_&Hp).
  unfold parse_difference_query. by rewrite Hp.
Qed.

(** C14: a [U] anywhere in the text makes the query a union, cut at the
    leftmost [U], whatever the text starts with: the operands are the
    stripped texts before and after it. *)
Theorem execute_query_union fuel st query :
  contains "U" (unwrap query) = true →
  ∃ l r, unwrap query = l +:+ "U" +:+ r ∧ contains "U" l = false ∧
         execute_query (S fuel) st query = union fuel st (strip l) (strip r).
Proof.
  intros HU. destruct (parse_binary_Ok "U" _ ltac:(done) HU) as (l&r&Hq&Hl&Hp).
  exists l, r. split_and!; [done..|].
  rewrite execute_query_unfold. cbv zeta. rewrite HU.
  unfold parse_union_query. by rewrite Hp.
Qed.

(** C34: [union] on operands that are evaluated.  The result is the rows
    of the left operand followed by the rows of the right one that the
    left one lacks, each in their order, so it has exactly the rows of
    both.  It is free of duplicates exactly when the left operand is
    and the rows taken from the right one are; a row of the left operand
    may occur in the right one any number of times.  That is also
    exactly when the result is, up to the order of the rows, the Union
    of the specification on two relations with these rows and one
    header: on other operands it has a row more than once where the
    specification has a set. *)
Theorem union_appends fuel st l r lt rt :
  execute_query fuel st l = Done (Ok lt) →
  execute_query fuel st r = Done (Ok rt) →
  ∃ t, union fuel st l r = Done (Ok t) ∧
       t = lt ++ filter (λ x, x ∉ lt) rt ∧
       (∀ x, x ∈ t ↔ x ∈ lt ∨ x ∈ rt) ∧
       (NoDup t ↔ NoDup lt ∧ NoDup (filter (λ x, x ∉ lt) rt)) ∧
       ∀ attrs U, union_op (Relation attrs lt) (Relation attrs rt) = Ok U →
                  (t ≡ₚ data U ↔ NoDup t).
Proof.
  intros Hl Hr. eexists. split_and!; [|done|..].
  - unfold union, union_with. by rewrite Hl, Hr.
  - apply elem_of_app_filter.
  - apply NoDup_app_filter.
  - intros attrs U [_ ->]%union_op_Ok. simpl. split.
    + intros ->. apply set_list_NoDup.
    + intros Ht. apply NoDup_Permutation; [done|apply set_list_NoDup|].
      intros x. by rewrite set_list_elem, elem_of_app_filter, elem_of_app.
Qed.

(** The first exception of the operands leaves [union]: the one of
    the left operand, and then the right operand is not evaluated. *)
Lemma union_raises fuel st l r e :
  (execute_query fuel st l = Done (Raise e) →
   union fuel st l r = Done (Raise e)) ∧
  (∀ lt, execute_query fuel st l = Done (Ok lt) →
         execute_query fuel st r = Done (Raise e) →
         union fuel st l r = Done (Raise e)).
Proof.
  unfold union, union_with. split; [by intros ->|]. by intros lt -> ->.
Qed.

(** C39: a cross product is never computed: a query that starts with [X]
    and has neither [U] nor [-] calls the method [crossproduct], which
    the class does not define. *)
Theorem crossproduct_missing fuel st query rest :
  unwrap query = "X" +:+ rest →
  contains "U" rest = false → contains "-" rest = false →
  execute_query (S fuel) st query =
  Done (Raise (AttributeError "crossproduct")).
Proof.
  intros Hq HU Hm. rewrite execute_query_unfold. cbv zeta. rewrite Hq.
  change ("X" +:+ rest) with (String "X" rest).
  assert (∀ c, c ≠ "X"%char → contains (String c "") (String "X" rest) =
                               contains (String c "") rest) as Hc.
  { intros c Hc. rewrite contains_cons. unfold starts; simpl.
    by rewrite bool_decide_eq_false_2. }
  rewrite !Hc, HU, Hm by done.
  rewrite !startswith_head_ne by done. by rewrite startswith_head_eq.
Qed.

End evaluator.

(** ** Selection and projection *)

Section operators.
Context `{FloatOps} `{SetOrder row}.
Implicit Types (st : store) (query : string) (R : relation).

Lemma selection_unfold st query condition R attr operator value :
  Fileread.brace_payload query = Ok condition →
  lookup st (Fileread.paren_operand query) = Some R →
  split_ws condition = [attr; operator; value] →
  selection st query =
  col_index ←
    (index_of attr (attributes R) ?!
     ValueError ("Attribute '" +:+ attr +:+ "' not found in relation '"
                 +:+ Fileread.paren_operand query +:+ "'."))%py;
  filter_res
    (λ row : row, cell ← getitem row col_index;
                  evaluate_condition cell operator (strip_chars "'" value))
    (data R).
Proof.
  intros Hp HR Hs. unfold selection. rewrite Hp. simpl. by rewrite HR, Hs.
Qed.

(** [selection] implements the Select operator of the specification
    for one predicate, up to the kind of error: on a query whose payload
    is a well-formed condition it returns the rows, without the header,
    of [select_op] on the relation. *)
Lemma selection_refines st query condition R p :
  Fileread.brace_payload query = Ok condition →
  lookup st (Fileread.paren_operand query) = Some R →
  predicate_of condition = Ok p →
  ok_of (selection st query) = ok_of (data <$> select_op R [p]).
Proof.
  intros Hp HR (attr&operator&value&op&Hs&Hop&->)%predicate_of_Ok.
  rewrite (selection_unfold _ _ _ _ _ _ _ Hp HR Hs).
  unfold select_op. simpl. unfold column.
  rewrite !ok_of_bind, !ok_of_or_raise.
  destruct (index_of attr (attributes R)) as [i|]; [|done]. simpl.
  rewrite result_fmap_bind, ok_of_bind.
  etrans; [apply (ok_of_filter_res_ext _
    (holds_all [(i, Predicate attr op (strip_chars "'" value))]))
          |by destruct (filter_res _ _)].
  intros x _. rewrite holds_all_single. unfold holds, getitem. simpl.
  apply ok_of_bind_ext; [by autorewrite with pyrw|].
  intros cell _. by apply Fileread.evaluate_condition_refines.
Qed.

(** [projection] implements the Project operator of the
    specification, up to the kind of error: it returns the rows, without
    the header, of [project_op] on the relation. *)
Lemma projection_refines_rows st query payload R :
  Fileread.brace_payload query = Ok payload →
  lookup st (Fileread.paren_operand query) = Some R →
  ok_of (projection st query) =
  ok_of (data <$> project_op R (strip <$> split "," payload)).
Proof.
  intros Hp HR. unfold projection, project_op. rewrite Hp, HR. simpl.
  rewrite result_fmap_bind. apply ok_of_bind_ext.
  { apply ok_of_map_res_ext. intros a _.
    unfold Fileread.col_index_of, column. by autorewrite with pyrw. }
  intros idxs _. rewrite result_fmap_bind.
  etrans; [|symmetry; apply ok_of_bind].
  etrans; [apply (ok_of_map_res_ext _ (project_row idxs))
          |by destruct (map_res _ _)].
  intros x _. apply ok_of_map_res_ext. intros i _.
  unfold getitem. by autorewrite with pyrw.
Qed.

(** The two versions agree on projections of a stored relation, errors
    included: the projection of Fileread.py is the one of newonetest.py
    with the requested attributes in front as a header. *)
Lemma projection_versions st query :
  contains "*" (Fileread.paren_operand query) = false →
  Fileread.projection st query =
  payload ← Fileread.brace_payload query;
  rows ← projection st query;
  Ok ((strip <$> split "," payload) :: rows).
Proof.
  intros Hc. unfold Fileread.projection, projection, Fileread.projection_source.
  rewrite Hc. destruct (Fileread.brace_payload query) as [payload|]; [|done].
  simpl. rewrite Fileread.paren_operand_strip.
  destruct (lookup st _) as [R|]; [|done]. simpl.
  destruct (map_res _ (strip <$> _)) as [idxs|]; [|done]. simpl.
  by destruct (map_res _ (data R)).
Qed.

(** The two versions agree on a selection by one condition whose
    attribute resolves in the store as in the relation, exceptions
    included: the selection of Fileread.py is the one of newonetest.py
    with the header of the relation in front. *)
Lemma selection_versions st query condition R attr operator value i :
  Fileread.brace_payload query = Ok condition →
  lookup st (Fileread.paren_operand query) = Some R →
  contains "AND" condition = false → contains "OR" condition = false →
  split_ws condition = [attr; operator; value] →
  index_of attr (attributes R) = Some i →
  Fileread.find_attribute (values st) attr = Some i →
  Fileread.selection st query =
  (λ rows, attributes R :: rows) <$> selection st query.
Proof.
  intros Hp HR Hand Hor Hs Hi Hf.
  rewrite (selection_unfold _ _ _ _ _ _ _ Hp HR Hs), Hi. simpl.
  unfold Fileread.selection, Fileread.parse_conditions.
  rewrite Hp. simpl. rewrite HR, Hand, Hor.
  rewrite (filter_res_ext _ (λ row : row, cell ← getitem row i;
    evaluate_condition cell operator (strip_chars "'" value)));
    [by destruct (filter_res _ _)|].
  intros x _. unfold Fileread.evaluate_conditions. simpl.
  unfold Fileread.evaluate_conditions_step, Fileread.get_attribute_index.
  rewrite bool_decide_eq_false_2 by (by intros ->). rewrite Hs, Hf. simpl.
  destruct (getitem x i) as [cell|]; [|done]. simpl.
  unfold evaluate_condition.
  by destruct (Fileread.evaluate_condition _ _ _) as [[]|].
Qed.

(** C35: the two versions agree up to the header, exceptions included.
    On a stored relation the projection of Fileread.py is the projection
    of newonetest.py with the requested attributes in front; on one
    condition whose attribute resolves in the store as in the relation,
    the selection of Fileread.py is the selection of newonetest.py with
    the header of the relation in front. *)
Theorem versions_agree st query :
  (contains "*" (Fileread.paren_operand query) = false →
   Fileread.projection st query =
   payload ← Fileread.brace_payload query;
   rows ← projection st query;
   Ok ((strip <$> split "," payload) :: rows)) ∧
  (∀ condition R attr operator value i,
     Fileread.brace_payload query = Ok condition →
     lookup st (Fileread.paren_operand query) = Some R →
     contains "AND" condition = false → contains "OR" condition = false →
     split_ws condition = [attr; operator; value] →
     index_of attr (attributes R) = Some i →
     Fileread.find_attribute (values st) attr = Some i →
     Fileread.selection st query =
     (λ rows, attributes R :: rows) <$> selection st query).
Proof.
  split; [apply projection_versions|].
  intros. by eapply selection_versions.
Qed.

End operators.

(** ** The batch *)

Section batch.
Context `{FloatOps} `{SetOrder row}.
Implicit Types (st : store) (query line : string) (fuel : nat).

Lemma process_query_entry fuel st line :
  String.length line < fuel →
  ∃ o, process_query fuel st line = Done (Ok (strip line, o)).
Proof.
  intros Hlen. unfold process_query.
  pose proof (execute_query_done fuel st (strip line)) as Hd.
  pose proof (strip_length line).
  destruct (execute_query _ _ _) as [[t|e]|];
    [by exists (Result t)|by exists (Error e)|]. discriminate Hd. lia.
Qed.

Lemma process_queries_no_exception fuel st lines e :
  process_queries fuel st lines ≠ Done (Raise e).
Proof.
  induction lines as [|line lines IH]; [done|]. simpl. unfold process_query.
  destruct (execute_query _ _ _) as [[]|]; simpl; [| |done];
    by destruct (process_queries fuel st lines) as [[]|].
Qed.

(** The batch with more fuel than the longest line has characters: an
    entry per line, the same whatever the fuel beyond that. *)
Lemma process_queries_results fuel st lines :
  Forall (λ line, String.length line < fuel) lines →
  ∃ rs, process_queries fuel st lines = Done (Ok rs) ∧
        Forall2 (λ line r,
          process_query (S (String.length line)) st line = Done (Ok r) ∧
          r.1 = strip line) lines rs.
Proof.
  induction 1 as [|line lines Hline _ (rs&Hrs&Hall)]; [by exists []|].
  destruct (process_query_entry fuel st line Hline) as [o Ho].
  exists ((strip line, o) :: rs). simpl. rewrite Ho. simpl. rewrite Hrs.
  split; [done|]. constructor; [|done]. split; [|done].
  rewrite <-Ho. unfold process_query.
  pose proof (strip_length line).
  by rewrite (execute_query_fuel (S _) fuel) by lia.
Qed.

(** The batch never stops on a query: with more fuel than the
    longest line has characters, [process_queries] gives one entry per
    line, in the order of the lines, each with the stripped text of its
    line. *)
Lemma batch_total fuel st lines :
  Forall (λ line, String.length line < fuel) lines →
  ∃ rs, process_queries fuel st lines = Done (Ok rs) ∧
        rs.*1 = strip <$> lines.
Proof.
  induction 1 as [|line lines Hline _ (rs&Hrs&Hq)]; [by exists []|].
  destruct (process_query_entry fuel st line Hline) as [o Ho].
  exists ((strip line, o) :: rs). simpl. rewrite Ho. simpl. rewrite Hrs.
  split; [done|]. f_equal. exact Hq.
Qed.

End batch.

(** ** The method [difference] *)

Section difference.
Context `{FloatOps} `{SetOrder row}.
Implicit Types (st : store) (query : string) (fuel : nat).

(** A piece of a text split at [-] does not start with [-], so
    [process_single_query] on it does not call [difference] again. *)
Lemma process_single_query_piece diff st query piece :
  piece ∈ split "-" query →
  process_single_query_with diff st (strip piece) =
  process_single_query_with (λ _, OutOfFuel) st (strip piece).
Proof.
  intros Hp%split_pieces_no_sep; [|done].
  unfold process_single_query_with.
  do 6 (destruct (startswith _ _); [reflexivity|]).
  destruct (startswith (strip (strip piece)) "-") eqn:Hm; [|reflexivity].
  apply startswith_contains in Hm. rewrite strip_idemp in Hm.
  apply contains_strip_with in Hm. congruence.
Qed.

Lemma difference_unfold fuel st query :
  difference (S fuel) st query =
  match split "-" query with
  | [left_query; right_query] =>
      left_result ← process_single_query fuel st (strip left_query);
      right_result ← process_single_query fuel st (strip right_query);
      match left_result, right_result with
      | Some left_result, Some right_result =>
          Done (left_header ← getitem left_result 0;
                right_header ← getitem right_result 0;
                if bool_decide (left_header ≠ right_header) then
                  Raise (ValueError
                    "Headers do not match for the difference operation.")
                else
                  Ok (Some (left_header ::
                            set_diff_list (drop 1 left_result)
                                          (drop 1 right_result))))
      | _, _ => mret None
      end
  | pieces => Done (Raise (UnpackError 2 (length pieces)))
  end.
Proof. reflexivity. Qed.

(** One level of fuel is all [difference] uses. *)
Lemma difference_fuel fuel st query :
  difference (S fuel) st query = difference 1 st query.
Proof.
  rewrite !difference_unfold. unfold process_single_query.
  destruct (split "-" query) as [|l [|r [|]]] eqn:Hs; [reflexivity..| |reflexivity].
  assert (l ∈ split "-" query ∧ r ∈ split "-" query) as [Hl Hr]
    by (rewrite Hs; set_solver).
  rewrite (process_single_query_piece (difference fuel st) _ _ _ Hl),
    (process_single_query_piece (difference fuel st) _ _ _ Hr).
  symmetry.
  by rewrite (process_single_query_piece (difference 0 st) _ _ _ Hl),
    (process_single_query_piece (difference 0 st) _ _ _ Hr).
Qed.

(** [difference] takes the first row of each operand for its header.
    On two selections, which return rows without a header, it raises
    unless their first rows are equal, and then keeps that row in the
    result although it is a row of both operands. *)
Lemma difference_of_selections fuel st query l r x lt y rt :
  split "-" query = [l; r] →
  startswith (strip l) "SELE" = true → startswith (strip r) "SELE" = true →
  selection st (strip l) = Ok (x :: lt) →
  selection st (strip r) = Ok (y :: rt) →
  difference (S fuel) st query =
  Done (if bool_decide (x ≠ y)
        then Raise (ValueError
               "Headers do not match for the difference operation.")
        else Ok (Some (x :: set_diff_list lt rt))).
Proof.
  intros Hs Hl Hr Hlt Hrt. rewrite difference_unfold, Hs.
  unfold process_single_query, process_single_query_with.
  rewrite !strip_idemp, Hl, Hr, Hlt, Hrt. reflexivity.
Qed.

End difference.

(** ** The properties on the database [company] *)

Lemma minus_raises_TypeError_witness :
  execute_query 1 company "SELE (EMP) {salary > '-5'}" = Done (Raise TypeError).
Proof.
  apply (minus_raises_TypeError 0 company "SELE (EMP) {salary > '-5'}");
    reflexivity.
Defined.

Lemma execute_query_union_witness :
  ∃ l r, unwrap "PROJ (USERS) {name}" = l +:+ "U" +:+ r ∧
         contains "U" l = false ∧
         execute_query 2 company "PROJ (USERS) {name}" =
         union 1 company (strip l) (strip r).
Proof. apply (execute_query_union 1 company "PROJ (USERS) {name}"). reflexivity. Defined.

(** Two [U]: three nested calls, and no fewer. *)
Example execute_query_depth_three :
  execute_query 2 company "PROJ (EMP) {id} U PROJ (EMP) {id} U PROJ (DEPT) {id}" =
    OutOfFuel ∧
  execute_query 3 company "PROJ (EMP) {id} U PROJ (EMP) {id} U PROJ (DEPT) {id}" =
    Done (Ok [["1"]; ["2"]]).
Proof. split; reflexivity. Qed.

Lemma union_appends_witness :
  ∃ t, union 1 company "SELE (EMP) {salary > '40'}" "SELE (EMP) {salary < '60'}" =
       Done (Ok t) ∧
       t = data emp ++ filter (λ x, x ∉ data emp) [["1"; "Al"; "50"]] ∧
       (∀ x, x ∈ t ↔ x ∈ data emp ∨ x ∈ [["1"; "Al"; "50"]]) ∧
       (NoDup t ↔
        NoDup (data emp) ∧
        NoDup (filter (λ x, x ∉ data emp) [["1"; "Al"; "50"]])) ∧
       ∀ attrs U,
         union_op (Relation attrs (data emp))
                  (Relation attrs [["1"; "Al"; "50"]]) = Ok U →
         (t ≡ₚ data U ↔ NoDup t).
Proof.
  apply (union_appends 1 company "SELE (EMP) {salary > '40'}"
           "SELE (EMP) {salary < '60'}"); reflexivity.
Defined.

(** A row that the left operand has twice stays twice in the union, and
    the Union of the specification has it once. *)
Example union_keeps_duplicates :
  execute_query 3 (store_set company "TWICE"
                     (Relation ["id"] [["1"]; ["1"]]))
    "SELE (TWICE) {id = '1'} U SELE (TWICE) {id = '1'}" =
    Done (Ok [["1"]; ["1"]]) ∧
  union_op (Relation ["id"] [["1"]; ["1"]]) (Relation ["id"] [["1"]; ["1"]]) =
    Ok (Relation ["id"] [["1"]]).
Proof. split; reflexivity. Qed.

Lemma crossproduct_missing_witness :
  execute_query 1 company "X (EMP * DEPT)" =
  Done (Raise (AttributeError "crossproduct")).
Proof.
  apply (crossproduct_missing 0 company "X (EMP * DEPT)" " (EMP * DEPT)");
    reflexivity.
Defined.

Example selection_refines_emp :
  ok_of (selection company "SELE (EMP) {salary > '60'}") =
  ok_of (data <$> select_op emp [Predicate "salary" OpGt "60"]).
Proof.
  apply (selection_refines company "SELE (EMP) {salary > '60'}" "salary > '60'");
    reflexivity.
Qed.

Example projection_refines_rows_emp :
  ok_of (projection company "PROJ (EMP) {name, id}") =
  ok_of (data <$> project_op emp (strip <$> split "," "name, id")).
Proof.
  apply (projection_refines_rows company "PROJ (EMP) {name, id}"); reflexivity.
Qed.

Lemma versions_agree_witness :
  Fileread.projection company "PROJ (EMP) {name, id}" =
    (payload ← Fileread.brace_payload "PROJ (EMP) {name, id}";
     rows ← projection company "PROJ (EMP) {name, id}";
     Ok ((strip <$> split "," payload) :: rows)) ∧
  Fileread.selection company "SELE (EMP) {salary > '60'}" =
    (λ rows, attributes emp :: rows) <$>
    selection company "SELE (EMP) {salary > '60'}".
Proof.
  split.
  - apply (proj1 (versions_agree company "PROJ (EMP) {name, id}")). reflexivity.
  - apply (proj2 (versions_agree company "SELE (EMP) {salary > '60'}")
             "salary > '60'" emp "salary" ">" "'60'" 2); reflexivity.
Defined.

Lemma batch_total_witness :
  ∃ rs, process_queries 40 company ["X (EMP * DEPT)"; " EMP U EMP "] =
        Done (Ok rs) ∧
        rs.*1 = strip <$> ["X (EMP * DEPT)"; " EMP U EMP "].
Proof.
  apply (batch_total 40 company ["X (EMP * DEPT)"; " EMP U EMP "]).
  apply (bool_decide_unpack _). reflexivity.
Defined.

Lemma difference_of_selections_witness :
  difference 1 company "SELE (EMP) {salary > '40'} - SELE (EMP) {salary > '40'}" =
  Done (if bool_decide (["1"; "Al"; "50"] ≠ ["1"; "Al"; "50"])
        then Raise (ValueError
               "Headers do not match for the difference operation.")
        else Ok (Some (["1"; "Al"; "50"] ::
                       set_diff_list [["2"; "Bo"; "90"]] [["2"; "Bo"; "90"]]))).
Proof.
  apply (difference_of_selections 0 company
           "SELE (EMP) {salary > '40'} - SELE (EMP) {salary > '40'}"
           "SELE (EMP) {salary > '40'} " " SELE (EMP) {salary > '40'}"
           ["1"; "Al"; "50"] [["2"; "Bo"; "90"]]
           ["1"; "Al"; "50"] [["2"; "Bo"; "90"]]); reflexivity.
Defined.

Lemma union_raises_witness :
  union 1 company "SELE (GHOST) {x = 'y'}" "X (EMP * DEPT)" =
  Done (Raise (Fileread.relation_not_found "GHOST")).
Proof.
  apply (proj1 (union_raises 1 company "SELE (GHOST) {x = 'y'}" "X (EMP * DEPT)"
                  (Fileread.relation_not_found "GHOST"))).
  reflexivity.
Defined.

End Newonetest.
