(* ===== verification/Bounds.v ===== *)
(** * Bounds: the size of results and the indices into rows

    Two kinds of bounds.  The number of rows of a result of Fileread.py
    and of its report is bounded by the sizes of the stored relations: a
    selection has at most the rows of its relation, a union at most those
    of both operands, a cross product their product.  And an index into a
    row stays within the row: on a well-formed store [row[i]] never
    raises in the projection of either version nor in the selection of
    newonetest.py, so their only IndexError is the one of a query without
    brace.  The selection of Fileread.py has no such bound: it takes the
    index from the first relation of the store that has the attribute. *)

From S2P Require Import Prelude PyString PyFloat PySet Relation Algebra.
From S2P Require Import Fileread Newonetest.

(** ** Measures *)

(** The number of rows of the largest relation of the store. *)
Definition rows_max (st : store) : nat :=
  max_list ((λ r, length (data r)) <$> values st).

(** A bound on the rows of a result, header included: the square of
    [rows_max + 1] covers the header with the product of two relations
    and with the rows of both. *)
Definition table_bound (st : store) : nat := S (rows_max st) * S (rows_max st).

(** The exceptions that are not an index out of a row: the IndexError of
    a query without brace and the ValueErrors of the source. *)
Definition in_bounds (query : string) (e : exn) : Prop :=
  (e = IndexError ∧ contains "{" query = false) ∨ ∃ msg, e = ValueError msg.

Lemma lookup_rows_max st name r :
  lookup st name = Some r → length (data r) ≤ rows_max st.
Proof.
  intros Hr%lookup_values. apply max_list_elem_of_le, list_elem_of_fmap.
  by exists r.
Qed.

(** The length of a list bind between the bounds of its pieces. *)
Lemma length_bind_bounds {A B} (f : A → list B) (l : list A) lo hi :
  Forall (λ x, lo ≤ length (f x) ≤ hi) l →
  length l * lo ≤ length (l ≫= f) ≤ length l * hi.
Proof.
  induction 1 as [|x l Hx _ IH]; csimpl; [lia|]. rewrite length_app. lia.
Qed.

(** ** Sizes of the results *)

Section sizes.
Context `{FloatOps} `{SetOrder row}.
Implicit Types (st : store) (query line : string) (t : table) (fuel : nat).

Lemma selection_length st query t :
  Fileread.selection st query = Ok t → 0 < length t ≤ S (rows_max st).
Proof.
  intros (c&r&_&Hr%lookup_rows_max&_&->)%Fileread.selection_Ok.
  unfold Fileread.selected. simpl.
  pose proof (length_filter
    (λ x, Fileread.evaluate_conditions st x (Fileread.parse_conditions c) = Ok true)
    (data r)). lia.
Qed.

Lemma crossproduct_length st query t :
  Fileread.crossproduct st query = Ok t →
  0 < length t ≤ S (rows_max st * rows_max st).
Proof.
  intros (l&r&A&B&_&HA%lookup_rows_max&HB%lookup_rows_max&->)
    %Fileread.crossproduct_Ok.
  unfold table_of, cross_op. simpl. rewrite cross_rows_length. nia.
Qed.

Lemma union_length st query t :
  Fileread.union st query = Ok t →
  0 < length t ≤ S (rows_max st + rows_max st).
Proof.
  intros (l&r&A&B&U&_&HA%lookup_rows_max&HB%lookup_rows_max&
          [_ ->]%union_op_Ok&->)%Fileread.union_Ok.
  unfold table_of. simpl.
  pose proof (set_list_length (data A ++ data B)) as Hlen.
  rewrite length_app in Hlen. lia.
Qed.

(** The source of a projection is a stored relation or a product. *)
Lemma projection_source_length st rq ra d :
  Fileread.projection_source st rq = Ok (ra, d) →
  length d < table_bound st.
Proof.
  unfold table_bound. destruct (contains "*" rq) eqn:Hc.
  - rewrite Fileread.projection_source_cross by done.
    destruct (Fileread.crossproduct st rq) as [t|] eqn:Ht; [|done].
    apply crossproduct_length in Ht. intros [= _ <-].
    rewrite length_drop. nia.
  - unfold Fileread.projection_source. rewrite Hc.
    destruct (lookup st _) as [R|] eqn:HR; [|done].
    apply lookup_rows_max in HR. intros [= _ <-]. nia.
Qed.

Lemma projection_length st query t :
  Fileread.projection st query = Ok t → 0 < length t ≤ table_bound st.
Proof.
  intros Ht.
  destruct (Fileread.projection_Ok_inv _ _ _ Ht) as (payload&ra&d&Hp&Hs).
  destruct (Fileread.projection_shape _ _ _ _ _ _ Hp Hs Ht) as (rows&->&Hlen&_).
  apply projection_source_length in Hs. simpl. lia.
Qed.

(** Every table among the outcomes of the lines is within the bound. *)
Lemma process_query_length fuel st line q t :
  Fileread.process_query fuel st line = Done (Ok (q, Fileread.Result (PyList t))) →
  0 < length t ≤ table_bound st.
Proof.
  intros (_&[Ht|[Ht|[Ht|Ht]]])%Fileread.process_query_table.
  - apply selection_length in Ht. unfold table_bound. nia.
  - by eapply projection_length.
  - apply crossproduct_length in Ht. unfold table_bound. nia.
  - apply union_length in Ht. unfold table_bound. nia.
Qed.

(** An entry of the report: the query, the rows of a table, the blank
    row. *)
Lemma report_entry_length fuel st line r :
  Fileread.process_query fuel st line = Done (Ok r) →
  2 ≤ length (Fileread.report_entry r) ≤ 2 + table_bound st.
Proof.
  destruct r as [q [[t|]|e]]; simpl; [|lia..].
  intros Ht%process_query_length. rewrite length_app. simpl. lia.
Qed.

(** C38: the size of the report of Fileread.py is bounded by the number of
    lines and the size of the stored relations: every line takes at
    least two rows, its text and the blank row, and at most the rows of a
    table besides, which are no more than the square of the
    largest relation's rows plus one. *)
Theorem report_size fuel st lines report :
  Fileread.process_queries_from_file fuel st lines = Done (Ok report) →
  length lines * 2 ≤ length report ≤ length lines * (2 + table_bound st).
Proof.
  unfold Fileread.process_queries_from_file.
  destruct (Fileread.process_queries fuel st lines) as [[rs|]|] eqn:Hrs;
    [|done..].
  intros [= <-]. apply Fileread.process_queries_Ok in Hrs.
  rewrite (Forall2_length _ _ _ Hrs).
  apply length_bind_bounds, Forall_forall. intros r Hr.
  destruct (proj1 (list_elem_of_lookup _ _) Hr) as [i Hi].
  destruct (Forall2_lookup_r _ _ _ _ _ Hrs Hi) as (line&_&Hline).
  by eapply report_entry_length.
Qed.

End sizes.

(** ** Indices into rows *)

Section indices.
Context `{FloatOps} `{SetOrder row}.
Implicit Types (st : store) (query : string) (x : row) (idxs : list nat).

(** A row that has every column gives every cell. *)
Lemma getitems_total x idxs :
  Forall (λ i, i < length x) idxs → ∃ y, map_res (getitem x) idxs = Ok y.
Proof.
  intros Hi. apply map_res_total. eapply Forall_impl; [done|].
  intros i. apply getitem_lt.
Qed.

Lemma col_index_of_lt rq ra attr i :
  Fileread.col_index_of rq ra attr = Ok i → i < length ra.
Proof. intros [Hi _]%or_raise_Ok%index_of_Some. by eapply lookup_lt_Some. Qed.

Lemma col_indices_lt rq ra attrs idxs :
  map_res (Fileread.col_index_of rq ra) attrs = Ok idxs →
  Forall (λ i, i < length ra) idxs.
Proof.
  intros Hi. eapply map_res_Forall; [done|]. intros ?? _. apply col_index_of_lt.
Qed.

(** The rows of a rectangular table projected on columns of its header. *)
Lemma project_rows_total n idxs (d : list row) :
  table_arity n d → Forall (λ i, i < n) idxs →
  ∃ rows, map_res (λ x : row, map_res (getitem x) idxs) d = Ok rows.
Proof.
  intros Hd Hi. apply map_res_total. eapply Forall_impl; [exact Hd|].
  intros x Hx. apply getitems_total. by rewrite Hx.
Qed.

Lemma crossproduct_Raise st query e :
  Fileread.crossproduct st query = Raise e → ∃ msg, e = ValueError msg.
Proof.
  unfold Fileread.crossproduct, Fileread.get_relation_data,
    Fileread.relation_not_found.
  destruct (split "*" _) as [|l [|r [|]]]; try (by intros [= <-]; eauto).
  destruct (lookup st (strip l)); simpl; [|by intros [= <-]; eauto].
  destruct (lookup st (strip r)); simpl; [done|by intros [= <-]; eauto].
Qed.

Lemma projection_source_Raise st rq e :
  Fileread.projection_source st rq = Raise e → ∃ msg, e = ValueError msg.
Proof.
  destruct (contains "*" rq) eqn:Hc.
  - rewrite Fileread.projection_source_cross by done.
    destruct (Fileread.crossproduct st rq) eqn:Ht; simpl; [done|].
    intros [= <-]. by eapply crossproduct_Raise.
  - unfold Fileread.projection_source. rewrite Hc.
    destruct (lookup st _); [done|]. intros [= <-]. by eexists.
Qed.

(** The source of a projection is rectangular when the store is. *)
Lemma projection_source_wf st rq ra d :
  store_wf st → Fileread.projection_source st rq = Ok (ra, d) →
  table_arity (length ra) d.
Proof.
  intros Hst. destruct (contains "*" rq) eqn:Hc.
  - rewrite Fileread.projection_source_cross by done.
    destruct (Fileread.crossproduct st rq) as [t|] eqn:Ht; [|done].
    apply Fileread.crossproduct_wf in Ht; [|done].
    destruct t as [|h rows]; [done|]. by intros [= <- <-].
  - unfold Fileread.projection_source. rewrite Hc.
    destruct (lookup st _) as [R|] eqn:HR; [|done]. intros [= <- <-].
    by eapply lookup_wf.
Qed.

(** C32: in the projection of Fileread.py no index leaves its row: on a
    well-formed store [row[i]] never raises, over a stored relation and
    over a cross product, so a projection fails only with the IndexError
    of a query without [{] or with a ValueError of the source (unknown
    relation, unknown attribute, malformed product). *)
Theorem projection_in_bounds st query e :
  store_wf st → Fileread.projection st query = Raise e → in_bounds query e.
Proof.
  intros Hst. unfold in_bounds, Fileread.projection.
  destruct (Fileread.brace_payload query) as [payload|e'] eqn:Hp; simpl.
  2:{ intros [= <-]. left. by apply Fileread.brace_payload_Raise in Hp as [? ->]. }
  destruct (Fileread.projection_source st _) as [[ra d]|e'] eqn:Hs; simpl.
  2:{ intros [= <-]. right. by eapply projection_source_Raise. }
  destruct (map_res (Fileread.col_index_of _ ra) _) as [idxs|e'] eqn:Hi; simpl.
  2:{ intros [= <-]. right.
      apply map_res_Raise_elem in Hi as (a&_&[_ ->]%or_raise_Raise). by eexists. }
  destruct (project_rows_total (length ra) idxs d) as [rows ->]; [..|done].
  - by eapply projection_source_wf.
  - by eapply col_indices_lt.
Qed.

(** The only exception of a comparison is the one of [float]. *)
Lemma evaluate_condition_Raise value operator condition_value e :
  Fileread.evaluate_condition value operator condition_value = Raise e →
  ∃ s, e = FloatError s.
Proof.
  unfold Fileread.evaluate_condition, to_float.
  repeat case_decide; try done;
    (destruct (float_of_str value); simpl; [|by intros [= <-]; eauto]);
    (destruct (float_of_str condition_value); simpl; [done|by intros [= <-]; eauto]).
Qed.

(** The rows of a relation filtered on one of its columns. *)
Lemma filter_column_Raise (R : relation) i operator value e :
  relation_wf R → i < length (attributes R) →
  filter_res (λ x : row, cell ← getitem x i;
                         Newonetest.evaluate_condition cell operator value)
             (data R) = Raise e →
  ∃ s, e = FloatError s.
Proof.
  intros HR Hi (l1&x&l2&Hd&Hx&_)%filter_res_Raise.
  assert (length x = length (attributes R)) as Hlen.
  { apply (proj1 (Forall_forall _ _) HR). rewrite Hd. set_solver. }
  destruct (getitem_lt x i) as [cell Hcell]; [lia|]. rewrite Hcell in Hx.
  by eapply evaluate_condition_Raise.
Qed.

Lemma selection_Raise_IndexError st query :
  store_wf st → Newonetest.selection st query = Raise IndexError →
  contains "{" query = false.
Proof.
  intros Hst. unfold Newonetest.selection.
  destruct (Fileread.brace_payload query) as [c|e] eqn:Hp; simpl;
    [|by apply Fileread.brace_payload_Raise in Hp as [? _]].
  destruct (lookup st _) as [R|] eqn:HR; [|done].
  destruct (split_ws c) as [|attr [|op [|v [|]]]]; try done.
  destruct (index_of attr (attributes R)) as [i|] eqn:Hi; [|done]. simpl.
  intros [s ?]%filter_column_Raise; [done|by eapply lookup_wf|].
  apply index_of_Some in Hi as [Hi _]. by eapply lookup_lt_Some.
Qed.

Lemma projection_Raise_IndexError st query :
  store_wf st → Newonetest.projection st query = Raise IndexError →
  contains "{" query = false.
Proof.
  intros Hst. unfold Newonetest.projection.
  destruct (Fileread.brace_payload query) as [payload|e] eqn:Hp; simpl;
    [|by apply Fileread.brace_payload_Raise in Hp as [? _]].
  destruct (lookup st _) as [R|] eqn:HR; [|done].
  destruct (map_res (Fileread.col_index_of _ _) _) as [idxs|e] eqn:Hi; simpl.
  2:{ by apply map_res_Raise_elem in Hi as (a&_&[_ ->]%or_raise_Raise). }
  destruct (project_rows_total (length (attributes R)) idxs (data R))
    as [rows ->]; [by eapply lookup_wf|by eapply col_indices_lt|done].
Qed.

(** In newonetest.py no index leaves its row: on a well-formed store
    [row[col_index]] of [selection] and [row[i]] of [projection] never
    raise, because the column is resolved in the relation the rows come
    from; an IndexError of either method is the one of a query without
    [{]. *)
Lemma rows_in_bounds st query :
  store_wf st →
  Newonetest.selection st query = Raise IndexError ∨
  Newonetest.projection st query = Raise IndexError →
  contains "{" query = false.
Proof.
  intros Hst [?|?];
    [by eapply selection_Raise_IndexError|by eapply projection_Raise_IndexError].
Qed.

End indices.

(** ** The bounds on the database [company] *)

Lemma report_size_witness :
  2 * 2 ≤ length [["X (EMP * DEPT)"];
                  ["id"; "name"; "salary"; "id"; "dname"];
                  ["1"; "Al"; "50"; "1"; "Eng"]; ["2"; "Bo"; "90"; "1"; "Eng"];
                  []; ["EMP U EMP"]; []]
        ≤ 2 * (2 + table_bound company).
Proof.
  apply (report_size 1 company ["X (EMP * DEPT)"; "EMP U EMP"]). reflexivity.
Defined.

Lemma projection_in_bounds_witness :
  in_bounds "PROJ (EMP) {name, dname}"
            (ValueError "Attribute 'dname' not found in relation 'EMP'.").
Proof.
  apply (projection_in_bounds company "PROJ (EMP) {name, dname}");
    [apply (bool_decide_unpack _)|]; reflexivity.
Defined.

Lemma rows_in_bounds_witness : contains "{" "SELE (EMP) salary > 1" = false.
Proof.
  apply (rows_in_bounds company "SELE (EMP) salary > 1");
    [apply (bool_decide_unpack _); reflexivity|left; reflexivity].
Defined.
