(* ===== verification/Typing.v ===== *)
(** * Typing: the results are relations of the data model

    A relation of the specification is a header with rows as long as the
    header.  Here the results of the two evaluators are checked against
    it.  What [evaluate_query] of Fileread.py returns on a well-formed
    store is [None] or the table of a well-formed relation.  The rows
    that [execute_query] of newonetest.py returns for a selection or a
    projection all have one length; its union compares no headers, so a
    union can mix rows of different lengths. *)

From S2P Require Import Prelude PyString PyFloat PySet Relation Algebra.
From S2P Require Import Fileread Newonetest.

(** ** The types *)

(** A value of the data model: [None], or the table of a relation whose
    rows are as long as its header. *)
Definition well_typed (v : pyval) : Prop :=
  v = PyNone ∨ ∃ R, v = PyList (table_of R) ∧ relation_wf R.

(** Rows of one length. *)
Definition uniform (rows : table) : Prop := ∃ n, table_arity n rows.

(** A well-formed table is the table of a well-formed relation. *)
Lemma table_wf_relation (t : table) :
  table_wf t ↔ ∃ R, t = table_of R ∧ relation_wf R.
Proof.
  split.
  - destruct t as [|h rows]; [done|]. intros Hwf. by exists (Relation h rows).
  - by intros (R&->&HR).
Qed.

(** The rows of a table of arity [n] joined with those of another. *)
Lemma table_arity_app n (l k : table) :
  table_arity n l → table_arity n k → table_arity n (l ++ k).
Proof. apply Forall_app_2. Qed.

Section fileread.
Context `{FloatOps} `{SetOrder row}.
Implicit Types (st : store) (query : string) (fuel : nat) (t : table).

(** The tables [evaluate_query] returns come from the four operators
    that work, applied to the stripped query. *)
Lemma evaluate_query_table fuel st query t :
  Fileread.evaluate_query fuel st query = Done (Ok (PyList t)) →
  Fileread.selection st (strip query) = Ok t ∨
  Fileread.projection st (strip query) = Ok t ∨
  Fileread.crossproduct st (strip query) = Ok t ∨
  Fileread.union st (strip query) = Ok t.
Proof.
  destruct fuel as [|fuel]; [done|]. rewrite Fileread.evaluate_query_unfold.
  cbv zeta. generalize (strip query) as q. intros q.
  intros [Hq|[[=] _]]%try_except_Done_inv. revert Hq.
  destruct (startswith _ "SELE");
    [destruct (Fileread.selection st q); intros [= <-]; by eauto|].
  destruct (startswith _ "PROJ");
    [destruct (Fileread.projection st q); intros [= <-]; by eauto|].
  destruct (startswith _ "X");
    [destruct (Fileread.crossproduct st q); intros [= <-]; by eauto 6|].
  do 2 (destruct (startswith _ _); [done|]).
  destruct (startswith _ "U");
    [destruct (Fileread.union st q); intros [= <-]; by eauto 6|].
  destruct (startswith _ "-") eqn:Hm; [|done].
  intros Hd. by apply Fileread.difference_no_table in Hd.
Qed.

(** C31: what [evaluate_query] returns has the type of the data model: on
    a well-formed store and with fuel for two nested calls the result is
    [None] or the table of a relation whose rows are all as long as its
    header; no exception and no other list leaves the evaluator. *)
Theorem evaluate_query_typed fuel st query :
  store_wf st →
  ∃ v, Fileread.evaluate_query (S (S fuel)) st query = Done (Ok v) ∧
       well_typed v.
Proof.
  intros Hst. unfold well_typed. pose proof (Fileread.evaluate_query_done fuel st query) as Hd.
  destruct (Fileread.evaluate_query _ st query) as [[[t|]|e]|] eqn:Hv;
    [|by eauto| |done].
  - exists (PyList t). split; [done|]. right.
    assert (table_wf t) as (R&->&HR)%table_wf_relation; [|by eauto].
    apply evaluate_query_table in Hv as [?|[?|[?|?]]];
      eauto using Fileread.selection_wf, Fileread.projection_wf,
        Fileread.crossproduct_wf, Fileread.union_wf.
  - rewrite Fileread.evaluate_query_unfold in Hv.
    by apply try_except_never_raises in Hv.
Qed.

End fileread.

Section newonetest.
Context `{FloatOps} `{SetOrder row}.
Implicit Types (st : store) (query : string) (fuel : nat) (rows : table).

(** A selection returns rows of its relation. *)
Lemma selection_rows st query rows :
  Newonetest.selection st query = Ok rows →
  ∃ R, lookup st (Fileread.paren_operand query) = Some R ∧ rows ⊆ data R.
Proof.
  unfold Newonetest.selection.
  destruct (Fileread.brace_payload query) as [c|]; [|done]. simpl.
  destruct (lookup st _) as [R|]; [|done].
  destruct (split_ws c) as [|attr [|op [|v [|]]]]; try done.
  destruct (index_of attr _) as [i|]; [|done]. simpl.
  intros ->%filter_res_Ok. exists R. split; [done|].
  intros x [_ Hx]%list_elem_of_filter. done.
Qed.

Lemma selection_arity st query rows :
  store_wf st → Newonetest.selection st query = Ok rows →
  ∃ n, table_arity n rows.
Proof.
  intros Hst (R&HR%(lookup_wf _ _ _ Hst)&Hsub)%selection_rows.
  exists (length (attributes R)). apply Forall_forall. intros x Hx%Hsub.
  by apply (proj1 (Forall_forall _ _) HR).
Qed.

(** A projection returns rows with one cell per requested attribute. *)
Lemma projection_arity st query rows :
  Newonetest.projection st query = Ok rows → ∃ n, table_arity n rows.
Proof.
  unfold Newonetest.projection.
  destruct (Fileread.brace_payload query) as [payload|]; [|done]. simpl.
  destruct (lookup st _) as [R|]; [|done].
  destruct (map_res _ (strip <$> _)) as [idxs|]; [|done]. simpl.
  intros Hrows. exists (length idxs).
  eapply map_res_Forall; [done|]. intros x y _. apply map_res_length.
Qed.

(** C37: the rows [execute_query] returns for a query without [U] have one
    type: on a well-formed store they all have the same number of cells,
    those of the relation for a selection and one per requested attribute
    for a projection; every other such query gives no row or an
    exception. *)
Theorem execute_query_arity fuel st query rows :
  store_wf st → contains "U" (Newonetest.unwrap query) = false →
  Newonetest.execute_query fuel st query = Done (Ok rows) →
  uniform rows.
Proof.
  intros Hst HU. unfold uniform. destruct fuel as [|fuel]; [done|].
  rewrite Newonetest.execute_query_unfold. cbv zeta. rewrite HU.
  destruct (contains "-" _);
    [by destruct (Newonetest.parse_difference_query _) as [[]|]|].
  destruct (startswith _ "SELE"); [intros [= ?]; by eapply selection_arity|].
  destruct (startswith _ "PROJ"); [intros [= ?]; by eapply projection_arity|].
  destruct (startswith _ "X"); [done|].
  intros [= <-]. exists 0. constructor.
Qed.

End newonetest.

(** ** The types on the database [company] *)

(** The union of newonetest.py compares no headers: the union of a
    projection of [EMP] on one attribute with a projection of [DEPT] on
    two succeeds, and its rows have different lengths; the Union of the
    specification fails on operands with different attributes. *)
Example union_mixes_arities :
  Newonetest.execute_query 2 company "PROJ (EMP) {id} U PROJ (DEPT) {id, dname}" =
    Done (Ok [["1"]; ["2"]; ["1"; "Eng"]]) ∧
  union_op (Relation ["id"] [["1"]; ["2"]])
           (Relation ["id"; "dname"] [["1"; "Eng"]]) = Raise SchemaMismatch.
Proof. split; reflexivity. Qed.

Lemma evaluate_query_typed_witness :
  ∃ v, Fileread.evaluate_query 2 company "X (EMP * DEPT)" = Done (Ok v) ∧
       well_typed v.
Proof.
  apply (evaluate_query_typed 0 company "X (EMP * DEPT)").
  apply (bool_decide_unpack _). reflexivity.
Defined.

Lemma execute_query_arity_witness : uniform [["Al"; "1"]; ["Bo"; "2"]].
Proof.
  apply (execute_query_arity 1 company "PROJ (EMP) {name, id}");
    [apply (bool_decide_unpack _)|..]; reflexivity.
Defined.
