(* ===== verification/Script.v ===== *)
(** * Script: the two programs from the directory to the report

    Each source file ends with three statements: the database is created,
    the directory [Data] is loaded and the query file is processed.  Here
    they are composed as the code composes them, the directory given by
    its listing with the rows of each file and the query file by its
    lines.  An exception of the loader is not caught: it ends the program
    before any query is read.  The theorems show when that happens and
    that otherwise every line of the query file has its entry in the
    report, in the order of the lines. *)

From S2P Require Import Prelude PyString PyFloat PySet Relation Algebra.
From S2P Require Import Fileread Newonetest.

Section scripts.
Context `{FloatOps} `{SetOrder row}.
Implicit Types (dir : list (string * list row)) (queries : list string).
Implicit Types (fuel : nat) (line : string).

(** The statements at the end of Fileread.py. *)
Definition fileread_main fuel dir queries : fueled (list row) :=
  let db := init in
  match load_relations db dir with
  | Ok db => Fileread.process_queries_from_file fuel db queries
  | Raise e => Done (Raise e)
  end.

(** The statements at the end of newonetest.py. *)
Definition newonetest_main fuel dir queries : fueled (list row) :=
  let db := Newonetest.init in
  match Newonetest.load_relations db dir with
  | Ok db => Newonetest.process_queries_from_file fuel db queries
  | Raise e => Done (Raise e)
  end.

(** ** Directories the loader accepts *)

(** Every CSV file of the listing has a first row. *)
Definition has_headers dir : Prop :=
  Forall (λ f, endswith f.1 ".csv" = true → f.2 ≠ []) dir.

#[export] Instance has_headers_dec dir : Decision (has_headers dir).
Proof. unfold has_headers. apply _. Defined.

Lemma has_headers_empty_csv dir :
  ¬ has_headers dir ↔ ∃ f, f ∈ dir ∧ endswith f.1 ".csv" = true ∧ f.2 = [].
Proof.
  unfold has_headers. split.
  - intros ([name rows]&Hf&Hn)%not_Forall_Exists%Exists_exists; [|apply _].
    exists (name, rows). simpl in *.
    destruct (endswith name ".csv"), rows; naive_solver.
  - intros (f&Hf&He&Hr) Hall. by apply (proj1 (Forall_forall _ _) Hall f Hf He).
Qed.

(** The rows of every file are as long as its first row. *)
Definition rectangular dir : Prop :=
  Forall (λ f, table_arity (length (hd [] f.2)) (tl f.2)) dir.

#[export] Instance rectangular_dec dir : Decision (rectangular dir).
Proof. unfold rectangular. apply _. Defined.

(** The store loaded from rectangular files is well formed. *)
Lemma loaded_store_wf dir db :
  rectangular dir → load_relations init dir = Ok db → store_wf db.
Proof. intros Hdir. apply load_relations_wf; [|done]. split; constructor. Qed.

Lemma load_relations_has_headers st dir e :
  load_relations st dir = Raise e ↔ e = StopIteration ∧ ¬ has_headers dir.
Proof. by rewrite load_relations_Raise, has_headers_empty_csv. Qed.

(** ** The report of a batch *)

Lemma fileread_report_Raise fuel st queries e :
  Fileread.process_queries_from_file fuel st queries ≠ Done (Raise e).
Proof.
  unfold Fileread.process_queries_from_file.
  pose proof (Fileread.process_queries_never_raises fuel st queries) as Hq.
  destruct (Fileread.process_queries fuel st queries) as [[rs|e']|];
    [done|by destruct (Hq e')|done].
Qed.

Lemma newonetest_report_Raise fuel st queries e :
  Newonetest.process_queries_from_file fuel st queries ≠ Done (Raise e).
Proof.
  unfold Newonetest.process_queries_from_file.
  pose proof (Newonetest.process_queries_no_exception fuel st queries) as Hq.
  destruct (Newonetest.process_queries fuel st queries) as [[rs|e']|];
    [done|by destruct (Hq e')|done].
Qed.

(** C16: Fileread.py answers every line of the query file: when every CSV
    file of the directory has a first row, the program ends with a report
    that is the entries of the lines in their order, each entry the
    outcome of its line on the loaded store and headed by the stripped
    text of the line. *)
Theorem fileread_main_reports fuel dir queries :
  has_headers dir →
  ∃ db rs,
    load_relations init dir = Ok db ∧
    fileread_main (S fuel) dir queries =
      Done (Ok (rs ≫= Fileread.report_entry)) ∧
    Forall2 (λ line r, Fileread.process_query 1 db line = Done (Ok r) ∧
                       r.1 = strip line ∧ [strip line] ∈ Fileread.report_entry r)
            queries rs.
Proof.
  intros [db Hdb]%(load_relations_is_Ok init).
  destruct (Fileread.process_queries_entries fuel db queries) as (rs&Hrs&Hall).
  exists db, rs. split_and!; [done| |].
  - unfold fileread_main, Fileread.process_queries_from_file. cbv zeta.
    by rewrite Hdb, Hrs.
  - eapply Forall2_impl; [done|]. intros line [q o] [? <-].
    split_and!; [done..|]. simpl. left.
Qed.

(** C17: newonetest.py answers every line of the query file: when every
    CSV file of the directory has a first row and the fuel exceeds the
    length of the longest line, the program ends with a report that is
    the entries of the lines in their order, each the outcome of its line
    on the loaded store. *)
Theorem newonetest_main_reports fuel dir queries :
  has_headers dir →
  Forall (λ line, String.length line < fuel) queries →
  ∃ db rs,
    load_relations init dir = Ok db ∧
    newonetest_main fuel dir queries =
      Done (Ok (rs ≫= Newonetest.report_entry)) ∧
    Forall2 (λ line r,
      Newonetest.process_query (S (String.length line)) db line = Done (Ok r) ∧
      r.1 = strip line ∧ [strip line] ∈ Newonetest.report_entry r)
      queries rs.
Proof.
  intros [db Hdb]%(load_relations_is_Ok init) Hfuel.
  destruct (Newonetest.process_queries_results fuel db queries Hfuel)
    as (rs&Hrs&Hall).
  exists db, rs. split_and!; [done| |].
  - unfold newonetest_main, Newonetest.process_queries_from_file,
      Newonetest.load_relations, Newonetest.init. cbv zeta.
    by rewrite Hdb, Hrs.
  - eapply Forall2_impl; [done|]. intros line [q o] [? <-].
    split_and!; [done..|]. simpl. left.
Qed.

(** C18: the invariant of the data model holds along a run of Fileread.py:
    when the rows of every file of the directory are as long as its
    first row, the store the program loads is well formed (distinct
    names, rows as long as their header) and so is every table among the
    results of the batch, a header with rows of its length. *)
Theorem fileread_main_wf fuel dir queries db rs :
  rectangular dir →
  load_relations init dir = Ok db →
  Fileread.process_queries fuel db queries = Done (Ok rs) →
  fileread_main fuel dir queries = Done (Ok (rs ≫= Fileread.report_entry)) ∧
  store_wf db ∧
  ∀ q t, (q, Fileread.Result (PyList t)) ∈ rs → table_wf t.
Proof.
  intros Hdir Hdb Hrs. split_and!.
  - unfold fileread_main, Fileread.process_queries_from_file. cbv zeta.
    by rewrite Hdb, Hrs.
  - by eapply loaded_store_wf.
  - intros q t. eapply Fileread.process_queries_wf; [|done].
    by eapply loaded_store_wf.
Qed.

(** C19: the one way the programs fail: both end with an exception exactly
    when a CSV file of the directory has no first row, with the
    StopIteration of [next(reader)] and before any query is read; no
    query makes them fail, whatever the fuel. *)
Theorem main_Raise fuel dir queries e :
  (fileread_main fuel dir queries = Done (Raise e) ↔
   e = StopIteration ∧ ¬ has_headers dir) ∧
  (newonetest_main fuel dir queries = Done (Raise e) ↔
   e = StopIteration ∧ ¬ has_headers dir).
Proof.
  unfold fileread_main, newonetest_main, Newonetest.load_relations,
    Newonetest.init. cbv zeta.
  rewrite <-!(load_relations_has_headers init).
  destruct (load_relations init dir) as [db|e'].
  - split; (split; [intros Hr|done]);
      [by apply fileread_report_Raise in Hr
      |by apply newonetest_report_Raise in Hr].
  - split; split; congruence.
Qed.

End scripts.

(** ** The programs on the directory of the database [company] *)

Lemma fileread_main_reports_witness :
  ∃ db rs,
    load_relations init company_dir = Ok db ∧
    fileread_main 1 company_dir ["X (EMP * DEPT)"; " SELE (GHOST) {x = 'y'}"] =
      Done (Ok (rs ≫= Fileread.report_entry)) ∧
    Forall2 (λ line r, Fileread.process_query 1 db line = Done (Ok r) ∧
                       r.1 = strip line ∧ [strip line] ∈ Fileread.report_entry r)
            ["X (EMP * DEPT)"; " SELE (GHOST) {x = 'y'}"] rs.
Proof.
  apply (fileread_main_reports 0 company_dir).
  apply (bool_decide_unpack _). reflexivity.
Defined.

Lemma newonetest_main_reports_witness :
  ∃ db rs,
    load_relations init company_dir = Ok db ∧
    newonetest_main 40 company_dir ["PROJ (EMP) {name}"; " EMP U EMP "] =
      Done (Ok (rs ≫= Newonetest.report_entry)) ∧
    Forall2 (λ line r,
      Newonetest.process_query (S (String.length line)) db line = Done (Ok r) ∧
      r.1 = strip line ∧ [strip line] ∈ Newonetest.report_entry r)
      ["PROJ (EMP) {name}"; " EMP U EMP "] rs.
Proof.
  apply (newonetest_main_reports 40 company_dir);
    apply (bool_decide_unpack _); reflexivity.
Defined.

Lemma fileread_main_wf_witness :
  fileread_main 1 company_dir ["SELE (GHOST) {x = 'y'}"; " X (EMP * DEPT)"] =
    Done (Ok ([("SELE (GHOST) {x = 'y'}",
                Fileread.Error (Fileread.relation_not_found "GHOST"));
               ("X (EMP * DEPT)",
                Fileread.Result (PyList (table_of (cross_op emp dept))))]
              ≫= Fileread.report_entry)) ∧
  store_wf company ∧
  ∀ q t,
    (q, Fileread.Result (PyList t)) ∈
      [("SELE (GHOST) {x = 'y'}",
        Fileread.Error (Fileread.relation_not_found "GHOST"));
       ("X (EMP * DEPT)",
        Fileread.Result (PyList (table_of (cross_op emp dept))))] →
    table_wf t.
Proof.
  apply (fileread_main_wf 1 company_dir
           ["SELE (GHOST) {x = 'y'}"; " X (EMP * DEPT)"] company);
    [apply (bool_decide_unpack _)|..]; reflexivity.
Defined.
