(* ===== verification/Listing.v ===== *)
(** * Listing: the programs and the order of the listing

    [os.listdir] gives the names of a directory in an order the system
    chooses, and [load_relations] stores the relations in that order.
    The store is a Python dict, so a relation is found by its name
    whatever the order; but [get_attribute_index] of Fileread.py walks
    the relations in the order of the store and takes the column of the
    first one that has the attribute.

    This file states what a method sees of a store: the relation under
    each name, and for Fileread.py the column each attribute resolves
    to.  The methods are morphisms for these relations.  Hence the
    report of newonetest.py does not depend on the order of the
    listing, and the report of Fileread.py does not when every
    attribute has one column in the files that have it; two files with
    one attribute in different columns make its answer depend on the
    order ([listing_order_matters]).  Two runs that find the directory
    in two orders are two processes, with two orders of their sets:
    their reports then agree up to the order of the rows of unions
    ([listing_and_set_order]). *)

From stdpp Require Import gmap.
From S2P Require Import Prelude PyString PyFloat PySet Relation Algebra.
From S2P Require Import Fileread Rows Newonetest Script.

(** ** What the methods see of a store *)

(** The same relation under each name. *)
#[export] Instance store_equiv : Equiv store := λ st1 st2,
  ∀ name, lookup st1 name = lookup st2 name.

(** Each attribute resolved to the same column. *)
Definition same_columns (st1 st2 : store) : Prop :=
  ∀ attr, Fileread.find_attribute (values st1) attr =
          Fileread.find_attribute (values st2) attr.

(** Both: what Fileread.py sees. *)
Definition same_view (st1 st2 : store) : Prop :=
  st1 ≡ st2 ∧ same_columns st1 st2.

(** Every attribute has one column: two relations that have it have it
    at the same index. *)
Definition one_column (rels : list relation) : Prop :=
  Forall (λ R1, Forall (λ R2,
    Forall (λ attr, attr ∈ attributes R2 →
              index_of attr (attributes R1) = index_of attr (attributes R2))
           (attributes R1)) rels) rels.

#[export] Instance one_column_dec rels : Decision (one_column rels).
Proof. unfold one_column. apply _. Defined.

(** The relations of the CSV files of a listing that have a first
    row. *)
Definition relations_of (dir : list (string * list row)) : list relation :=
  omap (λ f, if endswith f.1 ".csv" then
               match f.2 with
               | attributes :: data => Some (Relation attributes data)
               | [] => None
               end
             else None) dir.

(** A directory as a finite map from the names of its files. *)
Definition files (dir : list (string * list row)) : gmap string (list row) :=
  list_to_map dir.

(** Two files with the attribute [x] in different columns, listed in the
    two orders. *)
Definition crossed : list (string * list row) :=
  [("A.csv", [["x"; "y"]; ["1"; "2"]]); ("B.csv", [["y"; "x"]; ["3"; "4"]])].

(** ** Stores *)

#[export] Instance store_equivalence : Equivalence (≡@{store}).
Proof.
  split; [by intros ??|by intros ????|].
  intros st1 st2 st3 H12 H23 name. by rewrite H12.
Qed.

#[export] Instance same_view_equivalence : Equivalence same_view.
Proof.
  split.
  - by intros st.
  - intros st1 st2 [??]. by split; [|intros attr].
  - intros st1 st2 st3 [H12 C12] [H23 C23].
    split; [by etrans|]. intros attr. by rewrite C12.
Qed.

#[export] Instance lookup_proper : Proper ((≡) ==> (=) ==> (=)) lookup.
Proof. by intros st1 st2 Hst name ? <-. Qed.

Lemma one_column_spec rels R1 R2 attr :
  one_column rels → R1 ∈ rels → R2 ∈ rels →
  attr ∈ attributes R1 → attr ∈ attributes R2 →
  index_of attr (attributes R1) = index_of attr (attributes R2).
Proof.
  unfold one_column. rewrite Forall_forall. intros Hrels H1 H2 Ha1 Ha2.
  specialize (Hrels R1 H1). rewrite Forall_forall in Hrels.
  specialize (Hrels R2 H2). rewrite Forall_forall in Hrels. by apply Hrels.
Qed.

Lemma one_column_subseteq rels1 rels2 :
  rels1 ⊆ rels2 → one_column rels2 → one_column rels1.
Proof.
  intros Hsub Hone. unfold one_column. rewrite Forall_forall. intros R1 H1.
  rewrite Forall_forall. intros R2 H2. rewrite Forall_forall. intros attr Ha1 Ha2.
  eapply one_column_spec; eauto.
Qed.

(** With one column per attribute the column an attribute resolves to
    does not depend on the order of the relations. *)
Lemma find_attribute_one_column rels1 rels2 attr :
  one_column rels1 → (∀ R, R ∈ rels1 ↔ R ∈ rels2) →
  Fileread.find_attribute rels1 attr = Fileread.find_attribute rels2 attr.
Proof.
  intros Hone Hrels.
  destruct (Fileread.find_attribute rels2 attr) as [j|] eqn:H2.
  - apply Fileread.find_attribute_Some in H2 as (l2&R2&l2'&->&_&Hj).
    destruct (Fileread.find_attribute rels1 attr) as [i|] eqn:H1.
    + apply Fileread.find_attribute_Some in H1 as (l1&R1&l1'&->&_&Hi).
      rewrite <-Hi, <-Hj. apply (one_column_spec (l1 ++ R1 :: l1')); [done|..].
      * set_solver.
      * apply Hrels. set_solver.
      * by eapply index_of_Some_elem.
      * by eapply index_of_Some_elem.
    + rewrite Fileread.find_attribute_None, Forall_forall in H1.
      destruct (H1 R2); [apply Hrels; set_solver|].
      by eapply index_of_Some_elem.
  - rewrite Fileread.find_attribute_None, Forall_forall in H2 |- *.
    intros R HR. apply H2. by apply Hrels.
Qed.

(** With unique names a relation of the store is the relation of its
    name. *)
Lemma elem_of_values st R :
  store_keys_wf st → R ∈ values st ↔ ∃ name, lookup st name = Some R.
Proof.
  intros Hwf. split; [|intros [name ?]; by eapply lookup_values].
  unfold values. intros ([name R']&->&Hin)%list_elem_of_fmap. exists name.
  induction st as [|[k r] st IH]; [by apply elem_of_nil in Hin|].
  apply NoDup_cons in Hwf as [Hk Hwf]. simpl.
  apply elem_of_cons in Hin as [[= -> ->]|Hin]; [by rewrite decide_True|].
  rewrite decide_False; [by apply IH|]. intros ->. apply Hk.
  by apply (list_elem_of_fmap_2 fst) in Hin.
Qed.

(** ** The loader *)

Lemma load_relations_keys_wf st dir st' :
  store_keys_wf st → load_relations st dir = Ok st' → store_keys_wf st'.
Proof.
  revert st. induction dir as [|[f rows] dir IH]; intros st Hst;
    [by intros [= <-]|]. simpl.
  destruct (load_file st f rows) as [st1|] eqn:Hf; [|done]. simpl.
  apply IH. by eapply load_file_keys_wf.
Qed.

(** After loading a directory with unique names, a name maps to the
    relation of the file of that name, or to what it mapped to. *)
Lemma load_relations_files st dir st' name :
  NoDup dir.*1 → load_relations st dir = Ok st' →
  lookup st' name =
  match files dir !! (name +:+ ".csv") with
  | Some (attributes :: data) => Some (Relation attributes data)
  | _ => lookup st name
  end.
Proof.
  unfold files. revert st.
  induction dir as [|[f rows] dir IH]; intros st Hdir; [by intros [= <-]|].
  apply NoDup_cons in Hdir as [Hf Hdir]. simpl.
  destruct (load_file st f rows) as [st1|] eqn:Hst1; [|done]. simpl.
  intros Hst'. rewrite (IH _ Hdir Hst').
  destruct (decide (f = name +:+ ".csv")) as [->|Hne].
  - rewrite lookup_insert_eq, (not_elem_of_list_to_map_1 _ _ Hf).
    apply load_file_Ok in Hst1 as [[Hcsv _]|(name'&h&d&Heq&->&->)].
    { by rewrite endswith_suffix in Hcsv. }
    apply (f_equal (slice 0 (String.length ".csv"))) in Heq.
    rewrite !slice_suffix in Heq. subst name'.
    by rewrite lookup_store_set, decide_True.
  - rewrite lookup_insert_ne by done.
    by rewrite (load_file_lookup_ne _ _ _ _ _ Hst1 Hne).
Qed.

(** The order of the listing does not change what a name maps to. *)
Lemma load_relations_perm st dir1 dir2 st1 st2 :
  dir1 ≡ₚ dir2 → NoDup dir1.*1 →
  load_relations st dir1 = Ok st1 → load_relations st dir2 = Ok st2 →
  st1 ≡ st2.
Proof.
  intros Hperm Hdir H1 H2 name.
  assert (NoDup dir2.*1) as Hdir2 by by rewrite <-Hperm.
  rewrite (load_relations_files _ _ _ _ Hdir H1),
    (load_relations_files _ _ _ _ Hdir2 H2).
  unfold files. by rewrite (list_to_map_proper _ _ Hdir Hperm).
Qed.

Lemma load_relations_perm_Raise st dir1 dir2 e :
  dir1 ≡ₚ dir2 → load_relations st dir1 = Raise e →
  load_relations st dir2 = Raise e.
Proof.
  intros Hperm. rewrite !load_relations_Raise.
  intros (->&f&Hf&?&?). split; [done|]. exists f. by rewrite <-Hperm.
Qed.

(** The relations of the store are relations of the files. *)
Lemma values_relations_of dir st :
  NoDup dir.*1 → load_relations init dir = Ok st →
  values st ⊆ relations_of dir.
Proof.
  intros Hdir Hst R HR.
  apply elem_of_values in HR as [name HR];
    [|by eapply (load_relations_keys_wf init); [apply NoDup_nil_2|]].
  rewrite (load_relations_files _ _ _ _ Hdir Hst) in HR.
  destruct (files dir !! _) as [[|h d]|] eqn:Hf; simplify_eq/=.
  apply elem_of_list_to_map_2 in Hf. apply list_elem_of_omap.
  eexists. split; [done|]. simpl. by rewrite endswith_suffix.
Qed.

(** ** The methods of Fileread.py are morphisms *)

Section fileread.
Context `{FloatOps} `{SetOrder row}.
Implicit Types (st : store) (query : string) (fuel : nat).

#[export] Instance get_relation_data_proper :
  Proper ((≡) ==> (=) ==> (=)) Fileread.get_relation_data.
Proof.
  intros st1 st2 Hst name ? <-. unfold Fileread.get_relation_data.
  by rewrite (Hst name).
Qed.

#[export] Instance get_attribute_index_proper :
  Proper (same_columns ==> (=) ==> (=)) Fileread.get_attribute_index.
Proof.
  intros st1 st2 Hst attr ? <-. unfold Fileread.get_attribute_index.
  by rewrite (Hst attr).
Qed.

#[export] Instance evaluate_conditions_step_proper :
  Proper (same_columns ==> (=) ==> (=) ==> (=))
    Fileread.evaluate_conditions_step.
Proof.
  intros st1 st2 Hst row ? <- condition ? <-.
  unfold Fileread.evaluate_conditions_step. case_bool_decide; [done|].
  destruct (split_ws condition) as [|attr [|op [|value [|]]]]; try done.
  by rewrite (get_attribute_index_proper _ _ Hst attr attr).
Qed.

#[export] Instance evaluate_conditions_proper :
  Proper (same_columns ==> (=) ==> (=) ==> (=)) Fileread.evaluate_conditions.
Proof.
  intros st1 st2 Hst row ? <- conditions ? <-.
  unfold Fileread.evaluate_conditions. f_equal. generalize (@nil bool).
  induction conditions as [|condition conditions IH]; intros results; [done|].
  simpl. rewrite (evaluate_conditions_step_proper _ _ Hst _ _ eq_refl _ _ eq_refl).
  destruct (Fileread.evaluate_conditions_step _ _ _); [apply IH|done].
Qed.

#[export] Instance selection_proper :
  Proper (same_view ==> (=) ==> (=)) Fileread.selection.
Proof.
  intros st1 st2 [Hst Hcol] query ? <-. unfold Fileread.selection.
  rewrite (Hst (Fileread.paren_operand query)).
  destruct (Fileread.brace_payload query); [simpl|done].
  destruct (lookup st2 _); [|done].
  erewrite filter_res_ext; [done|]. intros row _.
  by apply evaluate_conditions_proper.
Qed.

#[export] Instance crossproduct_proper :
  Proper ((≡) ==> (=) ==> (=)) Fileread.crossproduct.
Proof.
  intros st1 st2 Hst query ? <-. unfold Fileread.crossproduct.
  destruct (split _ _) as [|l [|r [|]]]; try done.
  by rewrite !(get_relation_data_proper _ _ Hst _ _ eq_refl).
Qed.

#[export] Instance union_proper :
  Proper ((≡) ==> (=) ==> (=)) Fileread.union.
Proof.
  intros st1 st2 Hst query ? <-. unfold Fileread.union.
  destruct (split _ _) as [|l [|r [|]]]; try done.
  by rewrite !(get_relation_data_proper _ _ Hst _ _ eq_refl).
Qed.

#[export] Instance projection_proper :
  Proper ((≡) ==> (=) ==> (=)) Fileread.projection.
Proof.
  intros st1 st2 Hst query ? <-.
  unfold Fileread.projection, Fileread.projection_source.
  by rewrite (crossproduct_proper _ _ Hst _ _ eq_refl), (Hst (strip _)).
Qed.

Lemma difference_with_ext (ev1 ev2 : string → fueled pyval) query :
  (∀ q, ev1 q = ev2 q) →
  Fileread.difference_with ev1 query = Fileread.difference_with ev2 query.
Proof.
  intros Hev. unfold Fileread.difference_with.
  destruct (split _ _) as [|l [|r [|]]]; try done. by rewrite !Hev.
Qed.

(** The branches of the dispatchers that call a method on the store. *)
Lemma dispatch_view st1 st2 query :
  same_view st1 st2 →
  Fileread.selection st1 query = Fileread.selection st2 query ∧
  Fileread.projection st1 query = Fileread.projection st2 query ∧
  Fileread.crossproduct st1 query = Fileread.crossproduct st2 query ∧
  Fileread.union st1 query = Fileread.union st2 query.
Proof.
  intros Hst. pose proof Hst as [Hst' _].
  split_and!; [by apply selection_proper|by apply projection_proper
              |by apply crossproduct_proper|by apply union_proper].
Qed.

#[export] Instance evaluate_query_proper :
  Proper ((=) ==> same_view ==> (=) ==> (=)) Fileread.evaluate_query.
Proof.
  intros fuel ? <- st1 st2 Hst.
  induction fuel as [|fuel IH]; intros query ? <-; [done|].
  rewrite !Fileread.evaluate_query_unfold. cbv zeta.
  destruct (dispatch_view _ _ (strip query) Hst) as (->&->&->&->).
  f_equal. do 6 (destruct (startswith _ _); [done|]).
  destruct (startswith _ _); [|done].
  apply difference_with_ext. intros q. by apply IH.
Qed.

#[export] Instance process_query_proper :
  Proper ((=) ==> same_view ==> (=) ==> (=)) Fileread.process_query.
Proof.
  intros fuel ? <- st1 st2 Hst line ? <-.
  unfold Fileread.process_query, Fileread.difference. cbv zeta.
  destruct (dispatch_view _ _ (strip line) Hst) as (->&->&->&->).
  erewrite difference_with_ext; [done|]. intros q.
  by apply evaluate_query_proper.
Qed.

#[export] Instance process_queries_proper :
  Proper ((=) ==> same_view ==> (=) ==> (=)) Fileread.process_queries.
Proof.
  intros fuel ? <- st1 st2 Hst queries ? <-.
  induction queries as [|line queries IH]; [done|]. simpl.
  by rewrite (process_query_proper _ _ eq_refl _ _ Hst _ _ eq_refl), IH.
Qed.

End fileread.

(** ** The methods of newonetest.py are morphisms *)

Section newonetest.
Context `{FloatOps} `{SetOrder row}.
Implicit Types (st : store) (query : string) (fuel : nat).

#[export] Instance newonetest_selection_proper :
  Proper ((≡) ==> (=) ==> (=)) Newonetest.selection.
Proof.
  intros st1 st2 Hst query ? <-. unfold Newonetest.selection.
  by rewrite (Hst (Fileread.paren_operand query)).
Qed.

#[export] Instance newonetest_projection_proper :
  Proper ((≡) ==> (=) ==> (=)) Newonetest.projection.
Proof.
  intros st1 st2 Hst query ? <-. unfold Newonetest.projection.
  by rewrite (Hst (Fileread.paren_operand query)).
Qed.

#[export] Instance execute_query_proper :
  Proper ((=) ==> (≡) ==> (=) ==> (=)) Newonetest.execute_query.
Proof.
  intros fuel ? <- st1 st2 Hst.
  induction fuel as [|fuel IH]; intros query ? <-; [done|].
  rewrite !Newonetest.execute_query_unfold. cbv zeta.
  rewrite (newonetest_selection_proper _ _ Hst _ _ eq_refl),
    (newonetest_projection_proper _ _ Hst _ _ eq_refl).
  destruct (contains "U" _); [|done].
  destruct (Newonetest.parse_union_query _) as [[l r]|]; [|done].
  apply Newonetest.union_with_ext; by apply IH.
Qed.

#[export] Instance newonetest_process_queries_proper :
  Proper ((=) ==> (≡) ==> (=) ==> (=)) Newonetest.process_queries.
Proof.
  intros fuel ? <- st1 st2 Hst queries ? <-.
  induction queries as [|line queries IH]; [done|]. simpl.
  unfold Newonetest.process_query.
  by rewrite (execute_query_proper _ _ eq_refl _ _ Hst _ _ eq_refl), IH.
Qed.

End newonetest.

(** ** The programs *)

Section programs.
Context `{FloatOps} `{SetOrder row}.
Implicit Types (dir : list (string * list row)) (queries : list string).

(** The stores loaded from two listings of one directory. *)
Lemma loaded_stores dir1 dir2 :
  dir1 ≡ₚ dir2 → NoDup dir1.*1 →
  match load_relations init dir1, load_relations init dir2 with
  | Ok st1, Ok st2 =>
      st1 ≡ st2 ∧ (one_column (relations_of dir1) → same_columns st1 st2)
  | Raise e1, Raise e2 => e1 = e2
  | _, _ => False
  end.
Proof.
  intros Hperm Hdir. assert (NoDup dir2.*1) as Hdir2 by by rewrite <-Hperm.
  destruct (load_relations init dir1) as [st1|e1] eqn:H1,
    (load_relations init dir2) as [st2|e2] eqn:H2.
  - pose proof (load_relations_perm _ _ _ _ _ Hperm Hdir H1 H2) as Hst.
    split; [done|]. intros Hone attr.
    assert (store_keys_wf st1 ∧ store_keys_wf st2) as [Hwf1 Hwf2].
    { split; by eapply (load_relations_keys_wf init); [apply NoDup_nil_2|]. }
    apply find_attribute_one_column.
    + eapply one_column_subseteq; [|done]. by apply values_relations_of.
    + intros R. rewrite !elem_of_values by done. by setoid_rewrite (Hst _).
  - apply (load_relations_perm_Raise _ _ dir1) in H2; [congruence|done].
  - apply (load_relations_perm_Raise _ _ dir2) in H1; [congruence|done].
  - apply (load_relations_perm_Raise _ _ dir2) in H1; [congruence|done].
Qed.

(** newonetest.py finds a relation by its name only. *)
Lemma newonetest_listing fuel dir1 dir2 queries :
  dir1 ≡ₚ dir2 → NoDup dir1.*1 →
  newonetest_main fuel dir1 queries = newonetest_main fuel dir2 queries.
Proof.
  intros Hperm Hdir. pose proof (loaded_stores _ _ Hperm Hdir) as Hst.
  unfold newonetest_main, Newonetest.load_relations, Newonetest.init,
    Newonetest.process_queries_from_file. cbv zeta.
  destruct (load_relations init dir1) as [st1|e1],
    (load_relations init dir2) as [st2|e2]; try done; [|by subst].
  destruct Hst as [Hst _].
  by rewrite (newonetest_process_queries_proper _ _ eq_refl _ _ Hst _ _ eq_refl).
Qed.

(** Fileread.py also takes the column of an attribute from the store. *)
Lemma fileread_listing fuel dir1 dir2 queries :
  dir1 ≡ₚ dir2 → NoDup dir1.*1 → one_column (relations_of dir1) →
  fileread_main fuel dir1 queries = fileread_main fuel dir2 queries.
Proof.
  intros Hperm Hdir Hone. pose proof (loaded_stores _ _ Hperm Hdir) as Hst.
  unfold fileread_main, Fileread.process_queries_from_file. cbv zeta.
  destruct (load_relations init dir1) as [st1|e1],
    (load_relations init dir2) as [st2|e2]; try done; [|by subst].
  destruct Hst as [Hst Hcol].
  by rewrite (process_queries_proper _ _ eq_refl st1 st2 (conj Hst (Hcol Hone))
                _ _ eq_refl).
Qed.

(** C27: the order of the listing.  On two listings of one directory, in
    any two orders, newonetest.py ends with the same report, exceptions
    and fuel included; so does Fileread.py when every attribute has one
    column, that is when the CSV files that have an attribute in their
    first row have it at the same index.  ([listing_order_matters] is a
    directory where they do not, and the answer of Fileread.py depends
    on the order.) *)
Theorem listing_order fuel dir1 dir2 queries :
  dir1 ≡ₚ dir2 → NoDup dir1.*1 →
  newonetest_main fuel dir1 queries = newonetest_main fuel dir2 queries ∧
  (one_column (relations_of dir1) →
   fileread_main fuel dir1 queries = fileread_main fuel dir2 queries).
Proof.
  intros Hperm Hdir.
  split; [by apply newonetest_listing|by apply fileread_listing].
Qed.

End programs.

(** ** Two listings in two processes *)

Section two_orders.
Context `{FloatOps} {Heq : EqDecision row} (O1 O2 : SetOrder row).

(** Another run may find the directory listed in another order and
    its sets in another order: when every attribute has one column the
    reports of Fileread.py have the same rows, those of the unions in
    two orders. *)
Lemma listing_and_set_order fuel dir1 dir2 queries :
  dir1 ≡ₚ dir2 → NoDup dir1.*1 → one_column (relations_of dir1) →
  match @fileread_main _ _ O1 (S fuel) dir1 queries,
        @fileread_main _ _ O2 (S fuel) dir2 queries with
  | Done (Ok rows1), Done (Ok rows2) => rows1 ≡ₚ rows2
  | r1, r2 => r1 = r2
  end.
Proof.
  intros Hperm Hdir Hone. rewrite (fileread_listing _ _ dir2) by done.
  unfold fileread_main, Fileread.process_queries_from_file. cbv zeta.
  destruct (load_relations init dir2) as [st|e]; [|done].
  destruct (process_queries_orders O1 O2 fuel st queries)
    as (rs1&rs2&->&->&Hrs). simpl. by apply report_perm.
Qed.

End two_orders.

(** The two listings of [crossed]: the selection on [A] by [x] keeps the
    row when [A.csv] is listed first, and loses it when [B.csv] is,
    because [x] is then looked up in the second column. *)
Example listing_order_matters :
  fileread_main 1 crossed ["SELE (A) {x = 1}"] =
    Done (Ok [["SELE (A) {x = 1}"]; ["x"; "y"]; ["1"; "2"]; []]) ∧
  fileread_main 1 (reverse crossed) ["SELE (A) {x = 1}"] =
    Done (Ok [["SELE (A) {x = 1}"]; ["x"; "y"]; []]) ∧
  newonetest_main 20 crossed ["SELE (A) {x = 1}"] =
    newonetest_main 20 (reverse crossed) ["SELE (A) {x = 1}"].
Proof. repeat split; reflexivity. Qed.

Lemma listing_order_witness :
  newonetest_main 20 company_dir ["SELE (EMP) {salary > 60}"] =
    newonetest_main 20 (reverse company_dir) ["SELE (EMP) {salary > 60}"] ∧
  fileread_main 20 company_dir ["SELE (EMP) {salary > 60}"] =
    fileread_main 20 (reverse company_dir) ["SELE (EMP) {salary > 60}"].
Proof.
  destruct (listing_order 20 company_dir (reverse company_dir)
              ["SELE (EMP) {salary > 60}"]) as [Hn Hf].
  - symmetry. apply reverse_Permutation.
  - apply (bool_decide_unpack _). reflexivity.
  - split; [exact Hn|]. apply Hf. apply (bool_decide_unpack _). reflexivity.
Defined.
