(* ===== verification/Stdout.v ===== *)
(** * Stdout: what Fileread.py prints

    Fileread.py writes to the standard output while it works:
    [process_queries_from_file] prints the query and its result, or the
    message of the exception it caught; [evaluate_query] prints the
    message of the exception it turns into [None]; [difference] prints
    its operands and its result.  (newonetest.py prints nothing.)

    The output is the list of the texts given to [print], one per call.
    A method that prints is a computation in the monad [out]: the lines
    printed so far with what [fueled] returns.  An exception keeps the
    lines printed before it.  [Module Stdout] has the methods that print,
    with the names and the shape of the methods of Fileread.v and the
    [print] calls where the code has them; the methods that do not print
    are the ones of Fileread.v.  Erasing the output gives back the
    definitions of Fileread.v and Script.v, so every theorem about
    results holds of the program that prints. *)

From S2P Require Import Prelude PyString PyFloat PySet Relation PyStr.
From S2P Require Import Fileread Script.

(** ** The output monad *)

Definition out (A : Type) : Type := list string * fueled A.

(** The lines printed and what is returned. *)
Definition printed {A} (m : out A) : list string := m.1.
Definition returned {A} (m : out A) : fueled A := m.2.

#[export] Instance out_ret : MRet out := λ A a, ([], mret a).
#[export] Instance out_bind : MBind out := λ A B f m,
  match returned m with
  | Done (Ok a) => (printed m ++ printed (f a), returned (f a))
  | Done (Raise e) => (printed m, Done (Raise e))
  | OutOfFuel => (printed m, OutOfFuel)
  end.

(** [print(s)]. *)
Definition print (s : string) : out () := ([s], mret ()).

(** A computation that prints nothing. *)
Definition silent {A} (m : fueled A) : out A := ([], m).

(** [try: m except Exception as e: handler(e)]. *)
Definition try_with {A} (m : out A) (handler : exn → out A) : out A :=
  match returned m with
  | Done (Raise e) => (printed m ++ printed (handler e), returned (handler e))
  | _ => m
  end.

Module Stdout.

Section methods.
Context `{FloatOps} `{SetOrder row} `{StrOps}.
Implicit Types (st : store) (query : string).

(** The body of [difference], over the evaluator [ev] of sub-queries. *)
Definition difference_with (ev : string → out pyval) (query : string)
    : out pyval :=
  match split ") - (" query with
  | [l; r] =>
      let left_query := strip l +:+ ")" in
      let right_query := "(" +:+ strip r in
      left_relation ← ev left_query;
      right_relation ← ev right_query;
      print ("Left query: " +:+ left_query);;
      print ("Left relation result: " +:+ str_pyval left_relation);;
      print ("Right query: " +:+ right_query);;
      print ("Right relation result: " +:+ str_pyval right_relation);;
      if falsy left_relation || falsy right_relation then
        print "One of the subqueries returned no results.";;
        mret PyNone
      else
        match left_relation, right_relation with
        | PyList (left_header :: left_rows),
          PyList (right_header :: right_rows) =>
            if bool_decide (length left_header ≠ length right_header) then
              silent (Done (Raise (ValueError
                "The two relations must have the same number of columns for the difference operation.")))
            else
              print ("Left data tuples: " +:+ str_tuples left_rows);;
              print ("Right data tuples: " +:+ str_tuples right_rows);;
              let difference_data := set_diff_list left_rows right_rows in
              print ("Difference result: " +:+ str_tuples difference_data);;
              match difference_data with
              | _ :: _ => mret (PyList (left_header :: difference_data))
              | [] => mret (PyList [left_header])
              end
        | _, _ => mret PyNone
        end
  | _ => silent (Done (Raise (ValueError "Invalid difference query format")))
  end.

(** [evaluate_query]: the exception it catches is printed. *)
Fixpoint evaluate_query (fuel : nat) st query : out pyval :=
  match fuel with
  | 0 => silent OutOfFuel
  | S fuel' =>
      let query := strip query in
      try_with
        (if startswith query "SELE" then
           silent (Done (PyList <$> Fileread.selection st query))
         else if startswith query "PROJ" then
           silent (Done (PyList <$> Fileread.projection st query))
         else if startswith query "X" then
           silent (Done (PyList <$> Fileread.crossproduct st query))
         else if startswith query "JOIN" then
           silent (Done (Raise (AttributeError "join")))
         else if startswith query "*" then
           silent (Done (Raise (AttributeError "naturaljoin")))
         else if startswith query "U" then
           silent (Done (PyList <$> Fileread.union st query))
         else if startswith query "-" then
           difference_with (evaluate_query fuel' st) query
         else mret PyNone)
        (λ e,
           print ("Error evaluating query '" +:+ query +:+ "': " +:+ str_exn e);;
           mret PyNone)
  end.

(** [difference]. *)
Definition difference (fuel : nat) st query : out pyval :=
  difference_with (evaluate_query fuel st) query.

(** The body of the loop of [process_queries_from_file] over the lines. *)
Definition process_query (fuel : nat) st (line : string)
    : out (string * Fileread.outcome) :=
  let query := strip line in
  try_with
    (result ←
       (if startswith query "SELE" then
          silent (Done (PyList <$> Fileread.selection st query))
        else if startswith query "PROJ" then
          silent (Done (PyList <$> Fileread.projection st query))
        else if startswith query "X" then
          silent (Done (PyList <$> Fileread.crossproduct st query))
        else if startswith query "JOIN" then
          silent (Done (Raise (AttributeError "join")))
        else if startswith query "*" then
          silent (Done (Raise (AttributeError "naturaljoin")))
        else if startswith query "U" then
          silent (Done (PyList <$> Fileread.union st query))
        else if startswith query "-" then difference fuel st query
        else if startswith query "," then
          silent (Done (Raise (AttributeError "AND")))
        else if startswith query "OR" then
          silent (Done (Raise (AttributeError "OR")))
        else mret PyNone);
     print ("Query: " +:+ query);;
     print ("Result: " +:+ str_pyval result);;
     mret (query, Fileread.Result result))
    (λ e,
       print ("Error processing query '" +:+ query +:+ "': " +:+ str_exn e);;
       mret (query, Fileread.Error e)).

Fixpoint process_queries (fuel : nat) st (queries : list string)
    : out (list (string * Fileread.outcome)) :=
  match queries with
  | [] => mret []
  | line :: queries' =>
      r ← process_query fuel st line;
      rs ← process_queries fuel st queries';
      mret (r :: rs)
  end.

(** [process_queries_from_file], from the lines of the query file to the
    rows of the report, with the lines printed on the way. *)
Definition process_queries_from_file (fuel : nat) st (queries : list string)
    : out (list row) :=
  results ← process_queries fuel st queries;
  mret (results ≫= Fileread.report_entry).

(** The statements at the end of Fileread.py. *)
Definition fileread_main (fuel : nat)
    (dir : list (string * list row)) (queries : list string)
    : out (list row) :=
  let db := init in
  match load_relations db dir with
  | Ok db => process_queries_from_file fuel db queries
  | Raise e => silent (Done (Raise e))
  end.

(** ** Reference definitions: the output as a function of the results *)

(** What the loop prints for an entry of [results]. *)
Definition outcome_lines (entry : string * Fileread.outcome) : list string :=
  match entry.2 with
  | Fileread.Result v =>
      ["Query: " +:+ entry.1; "Result: " +:+ str_pyval v]
  | Fileread.Error e =>
      ["Error processing query '" +:+ entry.1 +:+ "': " +:+ str_exn e]
  end.

(** What [difference] prints on a query that starts with [-] and has one
    separator: the left operand fails in [evaluate_query], both operands
    are [None]. *)
Definition operand_lines (query : string) : list string :=
  if startswith query "-" then
    match split ") - (" query with
    | [l; r] =>
        let left_query := strip l +:+ ")" in
        let right_query := "(" +:+ strip r in
        ["Error evaluating query '" +:+ left_query +:+
           "': Invalid difference query format";
         "Left query: " +:+ left_query;
         "Left relation result: None";
         "Right query: " +:+ right_query;
         "Right relation result: None";
         "One of the subqueries returned no results."]
    | _ => []
    end
  else [].

Definition entry_lines (entry : string * Fileread.outcome) : list string :=
  operand_lines entry.1 ++ outcome_lines entry.

End methods.

End Stdout.

(** ** The laws of the output monad *)

Section out_laws.
Context {A B C : Type}.
Implicit Types (m : out A) (f : A → out B) (g : B → out C).

Lemma out_ret_bind (a : A) f : mret a ≫= f = f a.
Proof. unfold mbind, out_bind. simpl. by destruct (f a). Qed.

Lemma out_bind_ret m : m ≫= mret = m.
Proof.
  destruct m as [l [[a|e]|]]; unfold mbind, out_bind; simpl; [|done..].
  by rewrite app_nil_r.
Qed.

Lemma out_bind_assoc m f g : (m ≫= f) ≫= g = m ≫= (λ a, f a ≫= g).
Proof.
  destruct m as [l [[a|e]|]]; unfold mbind, out_bind; simpl; [|done..].
  destruct (f a) as [l' [[b|e]|]]; simpl; [|done..]. by rewrite app_assoc.
Qed.

Lemma out_bind_Ok l (a : A) f :
  (l, Done (Ok a)) ≫= f = (l ++ printed (f a), returned (f a)).
Proof. done. Qed.

(** Erasing the output of a sequence: the sequence of the erased
    computations. *)
Lemma returned_bind m f :
  returned (m ≫= f) = returned m ≫= (λ a, returned (f a)).
Proof. by destruct m as [l [[a|e]|]]. Qed.

(** The lines of a sequence: those of the first computation, then those
    of the second when the first returns. *)
Lemma printed_bind m f :
  printed (m ≫= f) =
  printed m ++ match returned m with
               | Done (Ok a) => printed (f a)
               | _ => []
               end.
Proof. destruct m as [l [[a|e]|]]; simpl; by rewrite ?app_nil_r. Qed.

Lemma returned_try_with m (handler : exn → out A) :
  returned (try_with m handler) =
  match returned m with
  | Done (Raise e) => returned (handler e)
  | r => r
  end.
Proof. by destruct m as [l [[a|e]|]]. Qed.

Lemma returned_try_except m (handler : exn → out A) v :
  (∀ e, returned (handler e) = mret v) →
  returned (try_with m handler) = try_except (returned m) v.
Proof.
  intros Hh. rewrite returned_try_with.
  destruct (returned m) as [[|e]|]; simpl; auto.
Qed.

(** An exception keeps the lines printed before it; the handler adds its
    own. *)
Lemma printed_try_with m (handler : exn → out A) :
  printed (try_with m handler) =
  printed m ++ match returned m with
               | Done (Raise e) => printed (handler e)
               | _ => []
               end.
Proof. destruct m as [l [[a|e]|]]; simpl; by rewrite ?app_nil_r. Qed.

End out_laws.

(** ** Erasure: the methods that print return what the methods of
    Fileread.v return *)

Section erasure.
Context `{FloatOps} `{SetOrder row} `{StrOps}.
Implicit Types (st : store) (query : string) (fuel : nat).

Lemma difference_with_returned ev ev' query :
  (∀ q, returned (ev q) = ev' q) →
  returned (Stdout.difference_with ev query) =
  Fileread.difference_with ev' query.
Proof.
  intros Hev. unfold Stdout.difference_with, Fileread.difference_with.
  destruct (split _ _) as [|l [|r [|]]]; try done. cbv zeta.
  rewrite returned_bind, Hev. destruct (ev' _) as [[lr|]|]; [|done..]. simpl.
  rewrite returned_bind, Hev. destruct (ev' _) as [[rr|]|]; [|done..]. simpl.
  destruct lr as [[|? ?]|], rr as [[|? ?]|]; simpl; try done.
  case_bool_decide; [done|]. simpl. by destruct (set_diff_list _ _).
Qed.

Lemma evaluate_query_returned fuel st query :
  returned (Stdout.evaluate_query fuel st query) =
  Fileread.evaluate_query fuel st query.
Proof.
  revert query. induction fuel as [|fuel IH]; intros query; [done|].
  cbn [Stdout.evaluate_query Fileread.evaluate_query]. cbv zeta.
  rewrite (returned_try_except _ _ PyNone) by done. f_equal.
  do 6 (destruct (startswith _ _); [done|]).
  destruct (startswith _ "-"); [|done]. by apply difference_with_returned.
Qed.

Lemma difference_returned fuel st query :
  returned (Stdout.difference fuel st query) = Fileread.difference fuel st query.
Proof. apply difference_with_returned, evaluate_query_returned. Qed.

Lemma process_query_returned fuel st line :
  returned (Stdout.process_query fuel st line) =
  Fileread.process_query fuel st line.
Proof.
  unfold Stdout.process_query, Fileread.process_query. cbv zeta.
  rewrite returned_try_with, returned_bind.
  destruct (startswith _ "SELE"); [by destruct (Fileread.selection _ _)|].
  destruct (startswith _ "PROJ"); [by destruct (Fileread.projection _ _)|].
  destruct (startswith _ "X"); [by destruct (Fileread.crossproduct _ _)|].
  do 2 (destruct (startswith _ _); [done|]).
  destruct (startswith _ "U"); [by destruct (Fileread.union _ _)|].
  destruct (startswith _ "-");
    [rewrite difference_returned; by destruct (Fileread.difference _ _ _) as [[]|]|].
  by do 2 (destruct (startswith _ _); [done|]).
Qed.

Lemma process_queries_returned fuel st queries :
  returned (Stdout.process_queries fuel st queries) =
  Fileread.process_queries fuel st queries.
Proof.
  induction queries as [|line queries IH]; [done|]. simpl.
  rewrite returned_bind, process_query_returned.
  destruct (Fileread.process_query _ _ _) as [[r|]|]; [|done..]. simpl.
  rewrite returned_bind, IH. by destruct (Fileread.process_queries _ _ _) as [[]|].
Qed.

Lemma process_queries_from_file_returned fuel st queries :
  returned (Stdout.process_queries_from_file fuel st queries) =
  Fileread.process_queries_from_file fuel st queries.
Proof.
  unfold Stdout.process_queries_from_file, Fileread.process_queries_from_file.
  rewrite returned_bind, process_queries_returned.
  by destruct (Fileread.process_queries _ _ _) as [[]|].
Qed.

Lemma fileread_main_returned fuel dir queries :
  returned (Stdout.fileread_main fuel dir queries) =
  fileread_main fuel dir queries.
Proof.
  unfold Stdout.fileread_main, fileread_main. cbv zeta.
  destruct (load_relations _ _); [|done].
  apply process_queries_from_file_returned.
Qed.

End erasure.

(** ** The output as a function of the results *)

Section output.
Context `{FloatOps} `{SetOrder row} `{StrLaws}.
Implicit Types (st : store) (query : string) (fuel : nat).

(** A query that starts with [-] and has no separator: [difference]
    raises, [evaluate_query] prints the message and returns [None]. *)
Lemma evaluate_query_minus_atom_out fuel st query t :
  strip query = String "-" t → contains ") - (" query = false →
  Stdout.evaluate_query (S fuel) st query =
  (["Error evaluating query '" +:+ strip query +:+
      "': Invalid difference query format"], Done (Ok PyNone)).
Proof.
  intros Hq Hc. cbn [Stdout.evaluate_query]. cbv zeta. rewrite Hq.
  rewrite !startswith_head_ne by done. rewrite startswith_head_eq.
  unfold Stdout.difference_with. rewrite <-Hq, split_no_sep.
  - unfold try_with. simpl. by rewrite str_ValueError.
  - done.
  - apply not_true_is_false. intros Hc'%contains_strip_with. congruence.
Qed.

(** A query that starts with a parenthesis matches no prefix: nothing is
    printed. *)
Lemma evaluate_query_paren_out fuel st query t :
  strip query = String "(" t →
  Stdout.evaluate_query (S fuel) st query = ([], Done (Ok PyNone)).
Proof.
  intros Hq. cbn [Stdout.evaluate_query]. cbv zeta. rewrite Hq.
  by rewrite !startswith_head_ne.
Qed.

(** The left operand [difference] builds is its own [strip]. *)
Lemma left_query_strip query t l r :
  query = String "-" t → split ") - (" query = [l; r] →
  strip (strip l +:+ ")") = strip l +:+ ")".
Proof.
  intros -> (Hcut&_)%split_two; [|done].
  apply cut_head in Hcut as [l' ->]; [|done].
  destruct (strip_with_cons isspace "-" l') as [l2 Hl2]; [done|].
  unfold strip at 2 3. rewrite Hl2. by apply (strip_fixed "-" l2 ")").
Qed.

(** What [difference] prints and returns on a query that starts with
    [-]. *)
Lemma difference_out fuel st query :
  startswith query "-" = true →
  Stdout.difference (S fuel) st query =
  (Stdout.operand_lines query,
   if bool_decide (length (split ") - (" query) = 2) then Done (Ok PyNone)
   else Done (Raise (ValueError "Invalid difference query format"))).
Proof.
  intros Hq. unfold Stdout.operand_lines. rewrite Hq.
  apply startswith_head in Hq as [t ->].
  unfold Stdout.difference, Stdout.difference_with.
  destruct (split _ _) as [|l [|r [|]]] eqn:Hs; try done.
  destruct (Fileread.difference_left_query _ t l r eq_refl Hs) as (t'&Hst&Hc).
  destruct (strip_with_cons isspace "(" (strip r)) as [t2 Ht2]; [done|].
  rewrite (evaluate_query_minus_atom_out _ _ _ t' Hst Hc), out_bind_Ok.
  rewrite (evaluate_query_paren_out _ _ ("(" +:+ strip r) t2 Ht2), out_bind_Ok.
  rewrite (left_query_strip _ t l r eq_refl Hs). simpl.
  by rewrite str_None.
Qed.

(** A branch of the dispatch that prints nothing before its result. *)
#[local] Ltac silent_branch Hop :=
  simpl; intros [= <-]; simpl; by rewrite Hop.

(** The lines of one pass through the loop, from the entry it records. *)
Lemma process_query_printed fuel st line entry :
  Fileread.process_query (S fuel) st line = Done (Ok entry) →
  printed (Stdout.process_query (S fuel) st line) = Stdout.entry_lines entry.
Proof.
  unfold Stdout.process_query, Fileread.process_query, Stdout.entry_lines.
  generalize (strip line) as query. intros query. cbv zeta.
  destruct (startswith query "-") eqn:Hm.
  - pose proof Hm as [t ->]%startswith_head.
    rewrite !startswith_head_ne by done. unfold Fileread.difference.
    rewrite difference_out, Fileread.difference_with_minus by done.
    case_bool_decide; intros [= <-]; simpl; by rewrite ?app_nil_r.
  - assert (Stdout.operand_lines query = []) as Hop
      by (unfold Stdout.operand_lines; by rewrite Hm).
    destruct (startswith _ "SELE");
      [destruct (Fileread.selection _ _); silent_branch Hop|].
    destruct (startswith _ "PROJ");
      [destruct (Fileread.projection _ _); silent_branch Hop|].
    destruct (startswith _ "X");
      [destruct (Fileread.crossproduct _ _); silent_branch Hop|].
    destruct (startswith _ "JOIN"); [silent_branch Hop|].
    destruct (startswith _ "*"); [silent_branch Hop|].
    destruct (startswith _ "U");
      [destruct (Fileread.union _ _); silent_branch Hop|].
    destruct (startswith _ ","); [silent_branch Hop|].
    destruct (startswith _ "OR"); silent_branch Hop.
Qed.

(** One pass through the loop: the entry it records and the lines it
    prints. *)
Lemma process_query_out fuel st line :
  ∃ o, Fileread.process_query (S fuel) st line = Done (Ok (strip line, o)) ∧
       Stdout.process_query (S fuel) st line =
       (Stdout.entry_lines (strip line, o), Done (Ok (strip line, o))).
Proof.
  destruct (Fileread.process_query_done fuel st line) as [o Ho].
  exists o. split; [done|].
  rewrite <-(process_query_printed _ _ _ _ Ho), <-Ho, <-process_query_returned.
  by destruct (Stdout.process_query _ _ _).
Qed.

(** The loop: the entries it records and, for each in turn, the lines it
    prints. *)
Lemma process_queries_out fuel st queries :
  ∃ results,
    Fileread.process_queries (S fuel) st queries = Done (Ok results) ∧
    Stdout.process_queries (S fuel) st queries =
    (results ≫= Stdout.entry_lines, Done (Ok results)).
Proof.
  induction queries as [|line queries (results&Hr&IH)]; [by exists []|].
  destruct (process_query_out fuel st line) as (o&Ho&Hout).
  exists ((strip line, o) :: results). cbn [Stdout.process_queries
    Fileread.process_queries]. rewrite Ho, Hr, Hout, out_bind_Ok, IH.
  split; [done|]. by rewrite out_bind_Ok, app_nil_r.
Qed.

(** C26: the output of Fileread.py.  When every CSV file has a first row
    the program prints, for the entries of [results] in turn, the lines
    of [entry_lines]: for a line that starts with [-] and has one
    separator the message of the failed left operand, the two operands
    with the result [None] and the notice that a sub-query returned no
    results; then the query with its result, or the query with the
    message of its exception.  The report it returns has the rows of
    [report_entry] for the same entries. *)
Theorem fileread_main_prints fuel dir queries :
  has_headers dir →
  ∃ st results,
    load_relations init dir = Ok st ∧
    Fileread.process_queries (S fuel) st queries = Done (Ok results) ∧
    Stdout.fileread_main (S fuel) dir queries =
    (results ≫= Stdout.entry_lines,
     Done (Ok (results ≫= Fileread.report_entry))).
Proof.
  intros [st Hst]%(load_relations_is_Ok init).
  destruct (process_queries_out fuel st queries) as (results&Hr&Hout).
  exists st, results. repeat split; [done..|].
  unfold Stdout.fileread_main, Stdout.process_queries_from_file. cbv zeta.
  by rewrite Hst, Hout, out_bind_Ok, app_nil_r.
Qed.

End output.

(** ** The output on the directory of the database [company] *)

Lemma fileread_main_prints_witness :
  ∃ st results,
    load_relations init company_dir = Ok st ∧
    Fileread.process_queries 1 st
      ["- (EMP) - (DEPT)"; "SELE (GHOST) {x = 'y'}"] = Done (Ok results) ∧
    Stdout.fileread_main 1 company_dir
      ["- (EMP) - (DEPT)"; "SELE (GHOST) {x = 'y'}"] =
    (results ≫= Stdout.entry_lines,
     Done (Ok (results ≫= Fileread.report_entry))).
Proof.
  apply (fileread_main_prints 0 company_dir).
  apply (bool_decide_unpack _). reflexivity.
Defined.

(** The lines of a difference and of a failed selection, as the
    interpreter prints them. *)
Example difference_line_printed :
  printed (Stdout.fileread_main 1 company_dir
    ["- (EMP) - (DEPT)"; "SELE (GHOST) {x = 'y'}"]) =
  ["Error evaluating query '- (EMP)': Invalid difference query format";
   "Left query: - (EMP)"; "Left relation result: None";
   "Right query: (DEPT)"; "Right relation result: None";
   "One of the subqueries returned no results.";
   "Query: - (EMP) - (DEPT)"; "Result: None";
   "Error processing query 'SELE (GHOST) {x = 'y'}': Relation 'GHOST' not found."].
Proof. reflexivity. Qed.
