(* ===== verification/Cells.v ===== *)
(** * Cells: where the cells of a result come from

    No method of the two programs builds a cell: the header and the rows
    of a result are copied from the relations of the store, and the rows
    of the store are the rows the CSV reader yields.  The only other text
    that reaches the report is the stripped line of each query.  This
    file proves it as an invariant over a predicate [P] on cells: when
    [P] holds of every cell of the store, it holds of every cell of every
    table an operator returns, and when it also holds of the stripped
    lines it holds of every cell of the report.  The predicate is a
    parameter, so that the invariant can be used for the cells the CSV
    writer and reader exchange without loss as well as for membership in
    the files of the directory. *)

From S2P Require Import Prelude PyString PyFloat PySet Relation Algebra.
From S2P Require Import Fileread Newonetest Typing Script.

(** A cell of a file of the directory, or the stripped text of a line of
    the query file. *)
Definition from_input (dir : list (string * list row)) (lines : list string)
    (c : string) : Prop :=
  (∃ f r, f ∈ dir ∧ r ∈ f.2 ∧ c ∈ r) ∨ c ∈ strip <$> lines.

Section cells.
Context (P : string → Prop).

(** Every cell of a table satisfies [P]. *)
Definition table_cells (t : table) : Prop := Forall (Forall P) t.

(** The header and the rows of a relation. *)
Definition relation_cells (R : relation) : Prop := table_cells (table_of R).

(** The relations of a store. *)
Definition store_cells (st : store) : Prop := Forall relation_cells (values st).

(** The rows of the files of a directory. *)
Definition directory_cells (dir : list (string * list row)) : Prop :=
  Forall (λ f, table_cells f.2) dir.

(** ** Tables *)

Lemma table_cells_app t1 t2 :
  table_cells (t1 ++ t2) ↔ table_cells t1 ∧ table_cells t2.
Proof. apply Forall_app. Qed.

Lemma table_cells_subseteq t1 t2 : t1 ⊆ t2 → table_cells t2 → table_cells t1.
Proof.
  unfold table_cells. rewrite !Forall_forall. intros Hsub Ht x Hx.
  by apply Ht, Hsub.
Qed.

Lemma table_cells_elems t1 t2 :
  (∀ x, x ∈ t1 → x ∈ t2) → table_cells t2 → table_cells t1.
Proof. apply table_cells_subseteq. Qed.

Lemma relation_cells_data R : relation_cells R → table_cells (data R).
Proof. by intros [_ ?]%Forall_cons. Qed.

Lemma relation_cells_attributes R : relation_cells R → Forall P (attributes R).
Proof. by intros [? _]%Forall_cons. Qed.

Lemma cross_rows_cells l r :
  table_cells l → table_cells r → table_cells (cross_rows l r).
Proof.
  unfold table_cells. rewrite !Forall_forall. intros Hl Hr x.
  intros (a&b&Ha&Hb&->)%cross_rows_elem.
  apply Forall_app. split; [by apply Hl|by apply Hr].
Qed.

Lemma cross_op_cells A B :
  relation_cells A → relation_cells B → relation_cells (cross_op A B).
Proof.
  intros [HA HdA]%Forall_cons [HB HdB]%Forall_cons. constructor.
  - by apply Forall_app.
  - by apply cross_rows_cells.
Qed.

(** ** The store *)

Lemma lookup_cells st name R :
  store_cells st → lookup st name = Some R → relation_cells R.
Proof.
  intros Hst HR%lookup_values. by apply (proj1 (Forall_forall _ _) Hst).
Qed.

Lemma store_set_cells st name R :
  store_cells st → relation_cells R → store_cells (store_set st name R).
Proof.
  unfold store_cells, values. intros Hst HR.
  induction st as [|[k R'] st IH]; simpl.
  { constructor; [done|constructor]. }
  apply Forall_cons in Hst as [HR' Hst]. case_decide; simpl.
  - by constructor.
  - constructor; [done|]. by apply IH.
Qed.

Lemma load_file_cells st filename rows st' :
  store_cells st → table_cells rows → load_file st filename rows = Ok st' →
  store_cells st'.
Proof.
  unfold load_file. intros Hst Hrows.
  destruct (endswith filename ".csv"); [|by intros [= <-]].
  destruct rows as [|attributes data]; [done|]. intros [= <-].
  by apply store_set_cells.
Qed.

(** The store loaded from a directory holds cells of its files. *)
Lemma load_relations_cells st dir st' :
  store_cells st → directory_cells dir → load_relations st dir = Ok st' →
  store_cells st'.
Proof.
  revert st. induction dir as [|[filename rows] dir IH]; intros st Hst Hdir.
  { by intros [= <-]. }
  apply Forall_cons in Hdir as [Hrows Hdir]. simpl.
  destruct (load_file st filename rows) as [st1|] eqn:Hst1; [|done]. simpl.
  apply IH; [|done]. by eapply load_file_cells.
Qed.

(** ** Fileread.py *)

Section fileread.
Context `{FloatOps} `{SetOrder row}.
Implicit Types (st : store) (query : string) (fuel : nat) (t : table).

Lemma selection_from_store st query t :
  store_cells st → Fileread.selection st query = Ok t → table_cells t.
Proof.
  intros Hst (c&R&_&HR%(lookup_cells _ _ _ Hst)&_&->)%Fileread.selection_Ok.
  constructor; [by apply relation_cells_attributes|].
  eapply table_cells_subseteq; [|by apply relation_cells_data].
  unfold Fileread.selected. intros x [_ Hx]%list_elem_of_filter. done.
Qed.

Lemma crossproduct_from_store st query t :
  store_cells st → Fileread.crossproduct st query = Ok t → table_cells t.
Proof.
  intros Hst (l&r&A&B&_&HA&HB&->)%Fileread.crossproduct_Ok.
  apply cross_op_cells; by eapply lookup_cells.
Qed.

Lemma union_from_store st query t :
  store_cells st → Fileread.union st query = Ok t → table_cells t.
Proof.
  intros Hst (l&r&A&B&U&_&HA&HB&[_ ->]%union_op_Ok&->)%Fileread.union_Ok.
  apply (lookup_cells _ _ _ Hst) in HA, HB.
  apply Forall_cons. simpl. split; [by apply relation_cells_attributes|].
  apply (table_cells_elems _ (data A ++ data B)).
  - intros x. by rewrite set_list_elem.
  - apply table_cells_app. split; by apply relation_cells_data.
Qed.

(** The header and the rows a projection reads are cells of the store. *)
Lemma projection_source_from_store st rq ra d :
  store_cells st → Fileread.projection_source st rq = Ok (ra, d) →
  Forall P ra ∧ table_cells d.
Proof.
  intros Hst. unfold Fileread.projection_source.
  destruct (contains "*" rq).
  - destruct (Fileread.crossproduct st rq) as [t|] eqn:Ht; [|done]. simpl.
    apply (crossproduct_from_store _ _ _ Hst) in Ht.
    destruct t as [|h t]; [done|]. intros [= <- <-].
    by apply Forall_cons in Ht.
  - destruct (lookup st _) as [R|] eqn:HR; [|done]. intros [= <- <-].
    apply (lookup_cells _ _ _ Hst) in HR.
    split; [by apply relation_cells_attributes|by apply relation_cells_data].
Qed.

(** A requested attribute that is found is an attribute of the source;
    a cell of a projected row is a cell of the source row. *)
Lemma col_index_of_elem rq ra attr i :
  Fileread.col_index_of rq ra attr = Ok i → attr ∈ ra.
Proof.
  unfold Fileread.col_index_of. intros Hi%or_raise_Ok.
  destruct (decide (attr ∈ ra)) as [|Hn%index_of_None]; [done|congruence].
Qed.

Lemma project_row_cells (x y : row) (idxs : list nat) :
  Forall P x → map_res (getitem x) idxs = Ok y → Forall P y.
Proof.
  intros Hx Hy. eapply map_res_Forall; [done|]. simpl.
  intros i c _ Hc%getitem_Ok%list_elem_of_lookup_2.
  by apply (proj1 (Forall_forall _ _) Hx).
Qed.

Lemma projection_from_store st query t :
  store_cells st → Fileread.projection st query = Ok t → table_cells t.
Proof.
  intros Hst. unfold Fileread.projection.
  destruct (Fileread.brace_payload query) as [payload|]; [|done]. simpl.
  destruct (Fileread.projection_source _ _) as [[ra d]|] eqn:Hs; [|done].
  apply (projection_source_from_store _ _ _ _ Hst) in Hs as [Hra Hd]. simpl.
  destruct (map_res _ (strip <$> _)) as [idxs|] eqn:Hidxs; [|done]. simpl.
  destruct (map_res _ d) as [rows|] eqn:Hrows; [|done]. intros [= <-].
  constructor.
  - apply Forall_forall. intros attr Hattr.
    apply map_res_Ok in Hidxs. apply list_elem_of_lookup_1 in Hattr as [j Hj].
    destruct (Forall2_lookup_l _ _ _ _ _ Hidxs Hj) as (i&_&Hi).
    apply col_index_of_elem in Hi. by apply (proj1 (Forall_forall _ _) Hra).
  - eapply map_res_Forall; [done|]. simpl. intros x y Hx.
    apply project_row_cells. by apply (proj1 (Forall_forall _ _) Hd).
Qed.

(** What a line of the query file adds to the report. *)
Lemma fileread_entry_cells fuel st line r :
  store_cells st → P (strip line) →
  Fileread.process_query fuel st line = Done (Ok r) →
  table_cells (Fileread.report_entry r).
Proof.
  intros Hst Hline Hr. destruct r as [q [[t|]|e]].
  - apply Fileread.process_query_table in Hr as [-> Ht].
    constructor; [by repeat constructor|].
    apply table_cells_app. split; [|by repeat constructor].
    destruct Ht as [?|[?|[?|?]]];
      eauto using selection_from_store, projection_from_store,
        crossproduct_from_store, union_from_store.
  - apply Fileread.process_query_fst in Hr. simpl in Hr. subst q.
    by repeat constructor.
  - apply Fileread.process_query_fst in Hr. simpl in Hr. subst q.
    by repeat constructor.
Qed.

Lemma fileread_report_cells fuel st lines rs :
  store_cells st → Forall (λ line, P (strip line)) lines →
  Fileread.process_queries fuel st lines = Done (Ok rs) →
  table_cells (rs ≫= Fileread.report_entry).
Proof.
  intros Hst Hlines Hrs%Fileread.process_queries_Ok.
  induction Hrs as [|line r lines rs Hr _ IH]; [constructor|].
  apply Forall_cons in Hlines as [Hline Hlines].
  apply table_cells_app. split; [by eapply fileread_entry_cells|by apply IH].
Qed.

(** The report of Fileread.py holds cells of the files and stripped
    lines of the query file. *)
Lemma fileread_main_from_files fuel dir lines rows :
  directory_cells dir → Forall (λ line, P (strip line)) lines →
  fileread_main fuel dir lines = Done (Ok rows) → table_cells rows.
Proof.
  intros Hdir Hlines. unfold fileread_main.
  destruct (load_relations init dir) as [st|] eqn:Hst; [|done].
  apply load_relations_cells in Hst; [|constructor|done].
  unfold Fileread.process_queries_from_file.
  destruct (Fileread.process_queries fuel st lines) as [[rs|]|] eqn:Hrs;
    [|done..]. intros [= <-]. by eapply fileread_report_cells.
Qed.

End fileread.

(** ** newonetest.py *)

Section newonetest.
Context `{FloatOps} `{SetOrder row}.
Implicit Types (st : store) (query : string) (fuel : nat) (rows : table).

Lemma newonetest_selection_from_store st query rows :
  store_cells st → Newonetest.selection st query = Ok rows → table_cells rows.
Proof.
  intros Hst (R&HR%(lookup_cells _ _ _ Hst)&Hsub)%selection_rows.
  eapply table_cells_subseteq; [done|]. by apply relation_cells_data.
Qed.

Lemma newonetest_projection_from_store st query rows :
  store_cells st → Newonetest.projection st query = Ok rows → table_cells rows.
Proof.
  intros Hst. unfold Newonetest.projection.
  destruct (Fileread.brace_payload query) as [payload|]; [|done]. simpl.
  destruct (lookup st _) as [R|] eqn:HR; [|done].
  apply (lookup_cells _ _ _ Hst), relation_cells_data in HR.
  destruct (map_res _ (strip <$> _)) as [idxs|]; [|done]. simpl.
  intros Hrows. eapply map_res_Forall; [done|]. simpl. intros x y Hx.
  apply project_row_cells. by apply (proj1 (Forall_forall _ _) HR).
Qed.

(** The rows of a union are rows of its operands. *)
Lemma union_with_cells (ev : string → fueled table) l r rows :
  (∀ q t, ev q = Done (Ok t) → table_cells t) →
  Newonetest.union_with ev l r = Done (Ok rows) → table_cells rows.
Proof.
  intros Hev. unfold Newonetest.union_with.
  destruct (ev l) as [[lt|]|] eqn:Hl; [|done..]. simpl.
  destruct (ev r) as [[rt|]|] eqn:Hr; [|done..]. intros [= <-].
  apply table_cells_app. split; [by eapply Hev|].
  eapply table_cells_subseteq; [|by eapply Hev].
  by intros x [_ ?]%list_elem_of_filter.
Qed.

Lemma execute_query_from_store fuel st query rows :
  store_cells st → Newonetest.execute_query fuel st query = Done (Ok rows) →
  table_cells rows.
Proof.
  intros Hst. revert query rows.
  induction fuel as [|fuel IH]; intros query rows; [done|].
  rewrite Newonetest.execute_query_unfold. cbv zeta.
  destruct (contains "U" _).
  { destruct (Newonetest.parse_union_query _) as [[l r]|]; [|done].
    by apply union_with_cells. }
  destruct (contains "-" _);
    [by destruct (Newonetest.parse_difference_query _) as [[]|]|].
  destruct (startswith _ "SELE");
    [intros [= ?]; by eapply newonetest_selection_from_store|].
  destruct (startswith _ "PROJ");
    [intros [= ?]; by eapply newonetest_projection_from_store|].
  destruct (startswith _ "X"); [done|]. intros [= <-]. constructor.
Qed.

Lemma newonetest_entry_cells fuel st line r :
  store_cells st → P (strip line) →
  Newonetest.process_query fuel st line = Done (Ok r) →
  table_cells (Newonetest.report_entry r).
Proof.
  intros Hst Hline. unfold Newonetest.process_query.
  destruct (Newonetest.execute_query fuel st _) as [[t|e]|] eqn:Ht;
    intros [= <-]; simpl; [|by repeat constructor].
  constructor; [by repeat constructor|].
  apply table_cells_app. split; [|by repeat constructor].
  by eapply execute_query_from_store.
Qed.

Lemma newonetest_report_cells fuel st lines rs :
  store_cells st → Forall (λ line, P (strip line)) lines →
  Newonetest.process_queries fuel st lines = Done (Ok rs) →
  table_cells (rs ≫= Newonetest.report_entry).
Proof.
  intros Hst Hlines. revert rs.
  induction Hlines as [|line lines Hline _ IH]; intros rs; simpl.
  { intros [= <-]. constructor. }
  destruct (Newonetest.process_query fuel st line) as [[r|]|] eqn:Hr;
    [|done..]. simpl.
  destruct (Newonetest.process_queries fuel st lines) as [[rs'|]|];
    [|done..]. intros [= <-].
  apply (table_cells_app (Newonetest.report_entry r)).
  split; [by eapply newonetest_entry_cells|by apply IH].
Qed.

(** The report of newonetest.py holds cells of the files and stripped
    lines of the query file. *)
Lemma newonetest_main_from_files fuel dir lines rows :
  directory_cells dir → Forall (λ line, P (strip line)) lines →
  newonetest_main fuel dir lines = Done (Ok rows) → table_cells rows.
Proof.
  intros Hdir Hlines. unfold newonetest_main, Newonetest.load_relations.
  destruct (load_relations Newonetest.init dir) as [st|] eqn:Hst; [|done].
  apply load_relations_cells in Hst; [|constructor|done].
  unfold Newonetest.process_queries_from_file.
  destruct (Newonetest.process_queries fuel st lines) as [[rs|]|] eqn:Hrs;
    [|done..]. intros [= <-]. by eapply newonetest_report_cells.
Qed.

End newonetest.

End cells.

(** ** The cells of a report *)

Lemma directory_from_input dir lines :
  directory_cells (from_input dir lines) dir.
Proof.
  apply Forall_forall. intros f Hf. apply Forall_forall. intros r Hr.
  apply Forall_forall. intros c Hc. left. by exists f, r.
Qed.

Lemma lines_from_input dir lines :
  Forall (λ line, from_input dir lines (strip line)) lines.
Proof.
  apply Forall_forall. intros line Hline. right.
  by apply list_elem_of_fmap_2.
Qed.

Section origin.
Context `{FloatOps} `{SetOrder row}.

(** C25: no cell of a report is made up: when Fileread.py or newonetest.py
    ends with a report, every cell of every row of the report is a cell
    of a file of the directory or the stripped text of a line of the
    query file.  The headers and the rows of the results are copied from
    the loaded relations, which hold the rows of the files; the only
    other rows are the query of each entry and the empty row that ends
    it. *)
Theorem report_cells_origin fuel dir lines rows r c :
  fileread_main fuel dir lines = Done (Ok rows) ∨
  newonetest_main fuel dir lines = Done (Ok rows) →
  r ∈ rows → c ∈ r → from_input dir lines c.
Proof.
  intros Hrows Hr Hc.
  assert (table_cells (from_input dir lines) rows) as Hcells.
  { destruct Hrows;
      [eapply fileread_main_from_files|eapply newonetest_main_from_files];
      eauto using directory_from_input, lines_from_input. }
  apply (proj1 (Forall_forall _ _) (proj1 (Forall_forall _ _) Hcells r Hr) c Hc).
Qed.

End origin.

Lemma report_cells_origin_witness :
  from_input company_dir ["X (EMP * DEPT)"; " PROJ (EMP) {name} "] "Eng".
Proof.
  apply (report_cells_origin 1 company_dir
           ["X (EMP * DEPT)"; " PROJ (EMP) {name} "]
           (default [] (ok_of (match fileread_main 1 company_dir
              ["X (EMP * DEPT)"; " PROJ (EMP) {name} "] with
              | Done v => v | OutOfFuel => Ok [] end)))
           ["1"; "Al"; "50"; "1"; "Eng"]).
  - left. reflexivity.
  - apply (bool_decide_unpack _). reflexivity.
  - apply (bool_decide_unpack _). reflexivity.
Defined.
