(* ===== verification/Files.v ===== *)
(** * Files: the two programs on the text of their files

    The other files take the directory as the rows of its files and the
    query file as its lines, and give the report as the rows handed to
    the CSV writer.  Here the programs run on text: a directory is the
    text of each file, [load_relations] opens a file in text mode and
    reads it with [csv.reader], [process_queries_from_file] reads the
    lines of the query file with [readlines] and writes the report with
    [csv.writer].  The file shows that the programs on text are the
    programs on rows composed with the reader and the writer, which
    exceptions the loader can raise, and that the report, read again
    with [csv.reader], gives the rows that were written.  [Module Run]
    is Fileread.py with all it does: what it reads, what it prints
    (Stdout.v) and what it writes. *)

From S2P Require Import Prelude PyString PyFloat PySet Relation PyCsv CsvFormat.
From S2P Require Import PyStr.
From S2P Require Import Algebra Fileread Newonetest Script Stdout Cells.

(** A directory: its files in the order of the listing, each with its
    text. *)
Definition directory : Type := list (string * string).

Module Text.

(** One iteration of the loop of [load_relations], from the text of the
    file. *)
Definition load_file (st : store) (filename text : string) : res store :=
  if endswith filename ".csv" then
    let relation_name := slice 0 4 filename in
    reader ← read_csv text;
    match reader with
    | [] => Raise StopIteration
    | attributes :: data =>
        Ok (store_set st relation_name (Relation attributes data))
    end
  else Ok st.

(** [load_relations]. *)
Fixpoint load_relations (st : store) (dir : directory) : res store :=
  match dir with
  | [] => Ok st
  | (filename, text) :: dir' =>
      st' ← load_file st filename text; load_relations st' dir'
  end.

(** The loop that writes the report of Fileread.py: what the writer adds
    to the file for one entry of [results]. *)
Definition write_entry (entry : string * Fileread.outcome) : string :=
  let '(query, result) := entry in
  writerow [query] +:+
  match result with
  | Fileread.Result (PyList t) => writerows t
  | _ => ""
  end +:+
  writerow [].

Fixpoint write_results (results : list (string * Fileread.outcome)) : string :=
  match results with
  | [] => ""
  | entry :: results' => write_entry entry +:+ write_results results'
  end.

(** The same loop in newonetest.py. *)
Definition newonetest_write_entry (entry : string * Newonetest.outcome)
    : string :=
  let '(query, result) := entry in
  writerow [query] +:+
  match result with
  | Newonetest.Result t => writerows t
  | Newonetest.Error _ => ""
  end +:+
  writerow [].

Fixpoint newonetest_write_results
    (results : list (string * Newonetest.outcome)) : string :=
  match results with
  | [] => ""
  | entry :: results' =>
      newonetest_write_entry entry +:+ newonetest_write_results results'
  end.

Section methods.
Context `{FloatOps} `{SetOrder row}.

(** [process_queries_from_file] of Fileread.py, from the text of the
    query file to the text of the report. *)
Definition process_queries_from_file (fuel : nat) (st : store)
    (query_file : string) : fueled string :=
  let queries := readlines query_file in
  results ← Fileread.process_queries fuel st queries;
  mret (write_results results).

(** [process_queries_from_file] of newonetest.py. *)
Definition newonetest_process_queries_from_file (fuel : nat) (st : store)
    (query_file : string) : fueled string :=
  let queries := readlines query_file in
  results ← Newonetest.process_queries fuel st queries;
  mret (newonetest_write_results results).

(** The statements at the end of Fileread.py. *)
Definition fileread_main (fuel : nat) (dir : directory) (query_file : string)
    : fueled string :=
  let db := init in
  match load_relations db dir with
  | Ok db => process_queries_from_file fuel db query_file
  | Raise e => Done (Raise e)
  end.

(** The statements at the end of newonetest.py. *)
Definition newonetest_main (fuel : nat) (dir : directory)
    (query_file : string) : fueled string :=
  let db := Newonetest.init in
  match load_relations db dir with
  | Ok db => newonetest_process_queries_from_file fuel db query_file
  | Raise e => Done (Raise e)
  end.

End methods.
End Text.

Module Run.
Section methods.
Context `{FloatOps} `{SetOrder row} `{StrOps}.

(** [process_queries_from_file] of Fileread.py: the lines read from the
    query file, the entries recorded and printed, the report written. *)
Definition process_queries_from_file (fuel : nat) (st : store)
    (query_file : string) : out string :=
  let queries := readlines query_file in
  results ← Stdout.process_queries fuel st queries;
  mret (Text.write_results results).

(** The statements at the end of Fileread.py: what is printed and the
    text of the report. *)
Definition fileread_main (fuel : nat) (dir : directory) (query_file : string)
    : out string :=
  let db := init in
  match Text.load_relations db dir with
  | Ok db => process_queries_from_file fuel db query_file
  | Raise e => silent (Done (Raise e))
  end.

End methods.
End Run.

(** ** The files of the database [company] *)

(** A text from its lines, each ended by [eol]. *)
Definition text_of_lines (eol : string) (ls : list string) : string :=
  foldr (λ l text, l +:+ eol +:+ text) "" ls.

Definition unix : string := String LF "".
Definition dos : string := String CR (String LF "").

Definition company_files : directory :=
  [("EMP.csv", text_of_lines unix ["id,name,salary"; "1,Al,50"; "2,Bo,90"]);
   ("notes.txt", "not a relation");
   ("DEPT.csv", writerows (table_of dept))].

Definition company_queries : string :=
  text_of_lines unix ["X (EMP * DEPT)"; " PROJ (EMP) {name, id} "; "";
                 "SELE (EMP) {salary > 60}"].

(** ** The directory as rows *)

(** The rows the reader yields for a text; none when it fails. *)
Definition rows_of (text : string) : list row :=
  match read_csv text with
  | Ok rows => rows
  | Raise _ => []
  end.

(** The listing of a directory with the rows of its CSV files. *)
Definition listing (dir : directory) : list (string * list row) :=
  (λ f, (f.1, if endswith f.1 ".csv" then rows_of f.2 else [])) <$> dir.

(** Every CSV file of the directory is read without error. *)
Definition readable (dir : directory) : Prop :=
  Forall (λ f, endswith f.1 ".csv" = true → read_csv f.2 = Ok (rows_of f.2)) dir.

#[export] Instance readable_dec dir : Decision (readable dir).
Proof. unfold readable. apply _. Defined.

(** Every CSV file of the directory is within the field limit. *)
Definition short_files (dir : directory) : Prop :=
  Forall (λ f, endswith f.1 ".csv" = true → short f.2) dir.

#[export] Instance short_files_dec dir : Decision (short_files dir).
Proof. unfold short_files, short. apply _. Defined.

Lemma read_csv_rows_of text rows : read_csv text = Ok rows → rows_of text = rows.
Proof. unfold rows_of. by intros ->. Qed.

Lemma short_files_readable dir : short_files dir → readable dir.
Proof.
  intros Hdir. eapply Forall_impl; [done|]. intros f Hf Hcsv. simpl in *.
  destruct (read_csv_short f.2 (Hf Hcsv)) as (rows&Hrows&_).
  by rewrite (read_csv_rows_of _ _ Hrows).
Qed.

Lemma rows_of_cells text : Forall (Forall cell) (rows_of text).
Proof.
  unfold rows_of. pose proof (read_csv_clean text) as Hr.
  destruct (read_csv text); [done|constructor].
Qed.

(** What the loader reads are cells. *)
Lemma listing_cells dir : directory_cells cell (listing dir).
Proof.
  apply Forall_fmap, Forall_forall. intros f _. simpl.
  destruct (endswith _ _); [apply rows_of_cells|constructor].
Qed.

(** ** The loader *)

Lemma load_file_rows st filename text :
  Text.load_file st filename text =
  if endswith filename ".csv" then
    rows ← read_csv text; load_file st filename rows
  else Ok st.
Proof.
  unfold Text.load_file, load_file. destruct (endswith filename ".csv"); [|done].
  by destruct (read_csv text).
Qed.

(** On readable files the loader on text is the loader on rows. *)
Lemma load_relations_listing st dir :
  readable dir → Text.load_relations st dir = load_relations st (listing dir).
Proof.
  intros Hdir. revert st.
  induction Hdir as [|[filename text] dir Hf _ IH]; intros st; [done|].
  simpl in *. rewrite load_file_rows. unfold load_file, rows_of.
  destruct (endswith filename ".csv"); [|apply IH].
  specialize (Hf eq_refl). unfold rows_of in Hf.
  destruct (read_csv text) as [rows|]; [|done]. simpl.
  destruct rows; [done|apply IH].
Qed.

Lemma listing_app dir1 dir2 : listing (dir1 ++ dir2) = listing dir1 ++ listing dir2.
Proof. apply fmap_app. Qed.

Lemma listing_names dir : (listing dir).*1 = dir.*1.
Proof. unfold listing. rewrite <-list_fmap_compose. by apply list_fmap_ext. Qed.

Lemma load_relations_Ok_readable st dir st' :
  Text.load_relations st dir = Ok st' → readable dir.
Proof.
  revert st. induction dir as [|[filename text] dir IH]; intros st.
  { constructor. }
  simpl. rewrite load_file_rows.
  destruct (endswith filename ".csv") eqn:Hcsv; simpl.
  - destruct (read_csv text) as [rows|] eqn:Hrows; [|done]. simpl.
    destruct (load_file st filename rows) as [st1|]; [|done]. simpl.
    intros ?%IH. constructor; [|done]. intros _. simpl.
    by rewrite (read_csv_rows_of _ _ Hrows).
  - intros ?%IH. constructor; [|done]. simpl. congruence.
Qed.

(** The relation a name maps to after loading, from the text of the
    last CSV file of that name. *)
Lemma load_relations_lookup_text st dir1 name text h d dir2 st' :
  read_csv text = Ok (h :: d) →
  Forall (λ f, f.1 ≠ name +:+ ".csv") dir2 →
  Text.load_relations st (dir1 ++ (name +:+ ".csv", text) :: dir2) = Ok st' →
  lookup st' name = Some (Relation h d).
Proof.
  intros Htext Hdir2 Hst'.
  pose proof (load_relations_Ok_readable _ _ _ Hst') as Hdir.
  rewrite load_relations_listing, listing_app in Hst' by done.
  cbn [listing fmap list_fmap fst snd] in Hst'.
  rewrite endswith_suffix, (read_csv_rows_of _ _ Htext) in Hst'.
  apply (load_relations_lookup _ _ _ _ _ _ _ Hst').
  apply Forall_forall. intros f Hf%(list_elem_of_fmap_2 fst).
  rewrite listing_names in Hf. apply list_elem_of_fmap in Hf as (g&->&Hg).
  by apply (proj1 (Forall_forall _ _) Hdir2).
Qed.

(** The exceptions of the loader: a CSV file without a first row, or a
    field longer than the field limit. *)
Lemma load_file_Raise_text st filename text e :
  Text.load_file st filename text = Raise e →
  endswith filename ".csv" = true ∧
  (e = StopIteration ∧ read_csv text = Ok [] ∨
   e = field_limit_error ∧ ¬ short text).
Proof.
  unfold Text.load_file. destruct (endswith filename ".csv"); [|done].
  pose proof (read_csv_clean text) as Hr.
  destruct (read_csv text) as [[|attributes data]|e']; simpl; intros [= <-].
  - split; [done|]. by left.
  - split; [done|]. right. by destruct Hr.
Qed.

Lemma load_relations_Raise_text st dir e :
  Text.load_relations st dir = Raise e →
  ∃ f, f ∈ dir ∧ endswith f.1 ".csv" = true ∧
       (e = StopIteration ∧ read_csv f.2 = Ok [] ∨
        e = field_limit_error ∧ ¬ short f.2).
Proof.
  revert st. induction dir as [|[filename text] dir IH]; intros st; [done|].
  simpl. destruct (Text.load_file st filename text) as [st1|e1] eqn:Hf; simpl.
  - intros (f&?&?)%IH. exists f. split; [by right|done].
  - intros [= ->]. apply load_file_Raise_text in Hf as [??].
    exists (filename, text). split; [by left|done].
Qed.

(** ** The report *)

Lemma writerows_cons r rows :
  writerows (r :: rows) = writerow r +:+ writerows rows.
Proof. done. Qed.

Lemma writerows_blank : writerows [[]] = writerow [].
Proof. apply str_app_nil_r. Qed.

Lemma write_entry_writerows entry :
  Text.write_entry entry = writerows (Fileread.report_entry entry).
Proof.
  destruct entry as [query result].
  unfold Text.write_entry, Fileread.report_entry.
  rewrite writerows_cons, writerows_app, writerows_blank.
  by destruct result as [[]|].
Qed.

Lemma write_results_writerows results :
  Text.write_results results = writerows (results ≫= Fileread.report_entry).
Proof.
  induction results as [|entry results IH]; [done|].
  rewrite bind_cons, writerows_app. simpl.
  by rewrite IH, write_entry_writerows.
Qed.

Lemma newonetest_write_entry_writerows entry :
  Text.newonetest_write_entry entry =
  writerows (Newonetest.report_entry entry).
Proof.
  destruct entry as [query result].
  unfold Text.newonetest_write_entry, Newonetest.report_entry.
  rewrite writerows_cons, writerows_app, writerows_blank.
  by destruct result.
Qed.

Lemma newonetest_write_results_writerows results :
  Text.newonetest_write_results results =
  writerows (results ≫= Newonetest.report_entry).
Proof.
  induction results as [|entry results IH]; [done|].
  rewrite bind_cons, writerows_app. simpl.
  by rewrite IH, newonetest_write_entry_writerows.
Qed.

(** ** The programs on text and on rows *)

Section programs.
Context `{FloatOps} `{SetOrder row}.
Implicit Types (fuel : nat) (st : store) (dir : directory).
Implicit Types (query_file text : string).

Lemma process_queries_from_file_text fuel st query_file :
  Text.process_queries_from_file fuel st query_file =
  rows ← Fileread.process_queries_from_file fuel st (readlines query_file);
  mret (writerows rows).
Proof.
  unfold Text.process_queries_from_file, Fileread.process_queries_from_file.
  destruct (Fileread.process_queries _ _ _) as [[rs|]|]; [|done..]. simpl.
  by rewrite write_results_writerows.
Qed.

Lemma newonetest_process_queries_from_file_text fuel st query_file :
  Text.newonetest_process_queries_from_file fuel st query_file =
  rows ← Newonetest.process_queries_from_file fuel st (readlines query_file);
  mret (writerows rows).
Proof.
  unfold Text.newonetest_process_queries_from_file,
    Newonetest.process_queries_from_file.
  destruct (Newonetest.process_queries _ _ _) as [[rs|]|]; [|done..]. simpl.
  by rewrite newonetest_write_results_writerows.
Qed.

(** Fileread.py on text is Fileread.py on the rows the reader yields for
    the files and on the lines of the query file, followed by the
    writer. *)
Lemma fileread_main_text fuel dir query_file :
  readable dir →
  Text.fileread_main fuel dir query_file =
  rows ← fileread_main fuel (listing dir) (readlines query_file);
  mret (writerows rows).
Proof.
  intros Hdir. unfold Text.fileread_main, fileread_main. cbv zeta.
  rewrite load_relations_listing by done.
  destruct (load_relations init _); [|done].
  apply process_queries_from_file_text.
Qed.

Lemma newonetest_main_text fuel dir query_file :
  readable dir →
  Text.newonetest_main fuel dir query_file =
  rows ← newonetest_main fuel (listing dir) (readlines query_file);
  mret (writerows rows).
Proof.
  intros Hdir. unfold Text.newonetest_main, newonetest_main,
    Newonetest.load_relations. cbv zeta.
  rewrite load_relations_listing by done.
  destruct (load_relations Newonetest.init _); [|done].
  apply newonetest_process_queries_from_file_text.
Qed.

(** The stripped lines of the query file are cells when they are within
    the field limit. *)
Lemma query_lines_cells query_file :
  Forall (λ line, short (strip line)) (readlines query_file) →
  Forall (λ line, cell (strip line)) (readlines query_file).
Proof.
  rewrite !Forall_forall. intros Hshort line Hline.
  split; [|by apply Hshort]. by eapply clean_strip, readlines_clean.
Qed.

(** A report that was written is read back. *)
Lemma fileread_report_reads_back fuel dir query_file text :
  Forall (λ line, short (strip line)) (readlines query_file) →
  Text.fileread_main fuel dir query_file = Done (Ok text) →
  ∃ rows,
    fileread_main fuel (listing dir) (readlines query_file) = Done (Ok rows) ∧
    text = writerows rows ∧ read_csv text = Ok rows.
Proof.
  intros Hlines%query_lines_cells Htext.
  assert (readable dir) as Hdir.
  { unfold Text.fileread_main in Htext.
    destruct (Text.load_relations init dir) eqn:Hst; [|done].
    by eapply load_relations_Ok_readable. }
  rewrite fileread_main_text in Htext by done.
  destruct (fileread_main _ _ _) as [[rows|]|] eqn:Hrows; [|done..].
  injection Htext as <-. exists rows. split_and!; [done..|].
  apply read_csv_writerows.
  eapply (fileread_main_from_files cell); [apply listing_cells|done..].
Qed.

Lemma newonetest_report_reads_back fuel dir query_file text :
  Forall (λ line, short (strip line)) (readlines query_file) →
  Text.newonetest_main fuel dir query_file = Done (Ok text) →
  ∃ rows,
    newonetest_main fuel (listing dir) (readlines query_file) =
      Done (Ok rows) ∧
    text = writerows rows ∧ read_csv text = Ok rows.
Proof.
  intros Hlines%query_lines_cells Htext.
  assert (readable dir) as Hdir.
  { unfold Text.newonetest_main in Htext.
    destruct (Text.load_relations Newonetest.init dir) eqn:Hst; [|done].
    by eapply load_relations_Ok_readable. }
  rewrite newonetest_main_text in Htext by done.
  destruct (newonetest_main _ _ _) as [[rows|]|] eqn:Hrows; [|done..].
  injection Htext as <-. exists rows. split_and!; [done..|].
  apply read_csv_writerows.
  eapply (newonetest_main_from_files cell); [apply listing_cells|done..].
Qed.

(** With a first row in every CSV file and everything within the field
    limit, Fileread.py ends with a report that reads back. *)
Lemma fileread_reads_back fuel dir query_file :
  short_files dir → has_headers (listing dir) →
  Forall (λ line, short (strip line)) (readlines query_file) →
  ∃ rows,
    Text.fileread_main (S fuel) dir query_file = Done (Ok (writerows rows)) ∧
    fileread_main (S fuel) (listing dir) (readlines query_file) =
      Done (Ok rows) ∧
    read_csv (writerows rows) = Ok rows.
Proof.
  intros Hdir%short_files_readable [db Hdb]%(load_relations_is_Ok init) Hlines.
  destruct (Fileread.process_queries_entries fuel db (readlines query_file))
    as (rs&Hrs&_).
  assert (Text.fileread_main (S fuel) dir query_file =
          Done (Ok (writerows (rs ≫= Fileread.report_entry)))) as Ht.
  { rewrite fileread_main_text by done. unfold fileread_main,
      Fileread.process_queries_from_file. cbv zeta. by rewrite Hdb, Hrs. }
  destruct (fileread_report_reads_back _ _ _ _ Hlines Ht)
    as (rows&Hrows&Htext&Hread).
  exists rows. by rewrite Ht, Htext in *.
Qed.

(** So does newonetest.py, with more fuel than the longest line has
    characters. *)
Lemma newonetest_reads_back fuel dir query_file :
  short_files dir → has_headers (listing dir) →
  Forall (λ line, short (strip line)) (readlines query_file) →
  Forall (λ line, String.length line < fuel) (readlines query_file) →
  ∃ rows,
    Text.newonetest_main fuel dir query_file = Done (Ok (writerows rows)) ∧
    newonetest_main fuel (listing dir) (readlines query_file) =
      Done (Ok rows) ∧
    read_csv (writerows rows) = Ok rows.
Proof.
  intros Hdir%short_files_readable [db Hdb]%(load_relations_is_Ok init)
    Hlines Hfuel.
  destruct (Newonetest.process_queries_results fuel db (readlines query_file)
              Hfuel) as (rs&Hrs&_).
  assert (Text.newonetest_main fuel dir query_file =
          Done (Ok (writerows (rs ≫= Newonetest.report_entry)))) as Ht.
  { rewrite newonetest_main_text by done. unfold newonetest_main,
      Newonetest.process_queries_from_file, Newonetest.load_relations,
      Newonetest.init. cbv zeta. by rewrite Hdb, Hrs. }
  destruct (newonetest_report_reads_back _ _ _ _ Hlines Ht)
    as (rows&Hrows&Htext&Hread).
  exists rows. by rewrite Ht, Htext in *.
Qed.

(** C21: the report is read back: when the CSV files of the directory are
    within the field limit of the csv module and have a first row, and
    the stripped lines of the query file are within the limit,
    Fileread.py ends with a report whose text, read with [csv.reader]
    from a file opened in text mode, gives the rows that were written,
    the rows of the report of the program on rows; so does newonetest.py
    with more fuel than the longest line has characters.  No cell needs
    a hypothesis: what the loader reads has no CR, and no operator
    builds a cell. *)
Theorem reports_read_back fuel dir query_file :
  short_files dir → has_headers (listing dir) →
  Forall (λ line, short (strip line)) (readlines query_file) →
  (∃ rows,
     Text.fileread_main (S fuel) dir query_file = Done (Ok (writerows rows)) ∧
     fileread_main (S fuel) (listing dir) (readlines query_file) =
       Done (Ok rows) ∧
     read_csv (writerows rows) = Ok rows) ∧
  (Forall (λ line, String.length line < fuel) (readlines query_file) →
   ∃ rows,
     Text.newonetest_main fuel dir query_file = Done (Ok (writerows rows)) ∧
     newonetest_main fuel (listing dir) (readlines query_file) =
       Done (Ok rows) ∧
     read_csv (writerows rows) = Ok rows).
Proof.
  intros Hdir Hheaders Hlines.
  split; [by apply fileread_reads_back|by apply newonetest_reads_back].
Qed.

End programs.

(** ** Fileread.py with all it does *)

Section run.
Context `{FloatOps} `{SetOrder row} `{StrOps}.
Implicit Types (fuel : nat) (st : store) (dir : directory).
Implicit Types (query_file text : string).

(** Without what it prints, the program is the program on text. *)
Lemma run_returned fuel dir query_file :
  returned (Run.fileread_main fuel dir query_file) =
  Text.fileread_main fuel dir query_file.
Proof.
  unfold Run.fileread_main, Text.fileread_main. cbv zeta.
  destruct (Text.load_relations init dir) as [st|]; [|done].
  unfold Run.process_queries_from_file, Text.process_queries_from_file.
  cbv zeta. rewrite returned_bind, process_queries_returned.
  by destruct (Fileread.process_queries _ _ _) as [[]|].
Qed.

(** What it prints is what the program on rows prints. *)
Lemma run_printed fuel dir query_file :
  readable dir →
  printed (Run.fileread_main fuel dir query_file) =
  printed (Stdout.fileread_main fuel (listing dir) (readlines query_file)).
Proof.
  intros Hdir. unfold Run.fileread_main, Stdout.fileread_main. cbv zeta.
  rewrite load_relations_listing by done.
  destruct (load_relations init _) as [st|]; [|done].
  unfold Run.process_queries_from_file, Stdout.process_queries_from_file.
  cbv zeta. rewrite !printed_bind.
  by destruct (returned (Stdout.process_queries _ _ _)) as [[]|].
Qed.

Context `{!StrLaws}.

(** What a run that loads its files records, prints and returns. *)
Lemma run_entries fuel dir query_file st :
  Text.load_relations init dir = Ok st →
  ∃ results,
    Fileread.process_queries (S fuel) st (readlines query_file) =
      Done (Ok results) ∧
    Run.fileread_main (S fuel) dir query_file =
      (results ≫= Stdout.entry_lines,
       Done (Ok (Text.write_results results))).
Proof.
  intros Hst.
  destruct (process_queries_out fuel st (readlines query_file))
    as (results&Hr&Hout).
  exists results. split; [done|].
  unfold Run.fileread_main, Run.process_queries_from_file. cbv zeta.
  by rewrite Hst, Hout, out_bind_Ok, app_nil_r.
Qed.

(** The whole behaviour of Fileread.py on files it can load: it prints
    the lines of the entries it records, in turn, and writes the report
    of the entries, which reads back as the rows of the entries. *)
Lemma run_behaviour fuel dir query_file :
  short_files dir → has_headers (listing dir) →
  Forall (λ line, short (strip line)) (readlines query_file) →
  ∃ st results,
    Text.load_relations init dir = Ok st ∧
    Fileread.process_queries (S fuel) st (readlines query_file) =
      Done (Ok results) ∧
    Run.fileread_main (S fuel) dir query_file =
      (results ≫= Stdout.entry_lines,
       Done (Ok (writerows (results ≫= Fileread.report_entry)))) ∧
    read_csv (writerows (results ≫= Fileread.report_entry)) =
      Ok (results ≫= Fileread.report_entry).
Proof.
  intros Hdir%short_files_readable [st Hst]%(load_relations_is_Ok init) Hlines.
  rewrite <-load_relations_listing in Hst by done.
  destruct (run_entries fuel dir query_file st Hst) as (results&Hr&Hrun).
  rewrite write_results_writerows in Hrun.
  exists st, results. split_and!; [done..|].
  destruct (fileread_report_reads_back (S fuel) dir query_file
              (writerows (results ≫= Fileread.report_entry)) Hlines)
    as (rows&Hrows&Htext&Hread).
  { by rewrite <-run_returned, Hrun. }
  unfold fileread_main, Fileread.process_queries_from_file in Hrows.
  cbv zeta in Hrows.
  rewrite <-load_relations_listing, Hst, Hr in Hrows by done.
  by injection Hrows as <-.
Qed.

End run.

(** ** What the loader reads and what it raises *)

(** C24: what the loader reads: after [load_relations] on the text of
    the files, the relation stored under a name is the header and the
    rows that the last CSV file of that name is the text of, whenever
    the text of the file, with its line ends as text mode gives them, is
    a text of the CSV format (fields as they are or between quotes,
    records ended by a line end, the last one optional) and no field is
    longer than the field limit of the csv module. *)
Theorem load_relations_reads st dir1 name text h d dir2 st' :
  file_text (universal_newlines text) (h :: d) →
  Forall (Forall short) (h :: d) →
  Forall (λ f, f.1 ≠ name +:+ ".csv") dir2 →
  Text.load_relations st (dir1 ++ (name +:+ ".csv", text) :: dir2) = Ok st' →
  lookup st' name = Some (Relation h d).
Proof.
  intros Htext Hshort. apply load_relations_lookup_text.
  by apply read_csv_file_text.
Qed.

(** C36: the exceptions of the loader on text: [load_relations] raises
    only for a CSV file of the directory, either the StopIteration of
    [next(reader)] when the reader yields no record for the file, or the
    error of the csv module for a field longer than its limit, and then
    the file has more characters than the limit.  The error of the csv
    module for a new-line character inside an unquoted field cannot
    occur, because the file is opened in text mode. *)
Lemma load_relations_raises st dir e :
  Text.load_relations st dir = Raise e →
  ∃ f, f ∈ dir ∧ endswith f.1 ".csv" = true ∧
       (e = StopIteration ∧ read_csv f.2 = Ok [] ∨
        e = field_limit_error ∧ ¬ short f.2).
Proof. apply load_relations_Raise_text. Qed.

(** ** The programs on the files of the database [company] *)

(** The loader reads the files of the company as the store [company]. *)
Example company_files_loaded :
  Text.load_relations init company_files = Ok company.
Proof. reflexivity. Qed.

(** The report of Fileread.py on the files of the company, line by line:
    a query with a comma is written between quotes, the empty query as
    two quotes. *)
Example company_report :
  Text.fileread_main 1 company_files company_queries =
  Done (Ok (text_of_lines dos
    ["X (EMP * DEPT)"; "id,name,salary,id,dname"; "1,Al,50,1,Eng";
     "2,Bo,90,1,Eng"; "";
     String QUOTE ("PROJ (EMP) {name, id}" +:+ String QUOTE "");
     "name,id"; "Al,1"; "Bo,2"; "";
     String QUOTE (String QUOTE ""); "";
     "SELE (EMP) {salary > 60}"; "id,name,salary"; "2,Bo,90"; ""])).
Proof. reflexivity. Qed.

(** A cell written with CR LF inside is loaded with LF alone: the files
    are opened without [newline=''], so text mode rewrites the line ends
    inside quoted cells too. *)
Example embedded_newline_rewritten :
  Text.load_relations init
    [("T.csv", writerows [["a"]; ["x" +:+ dos +:+ "y"]])] =
  Ok [("T", Relation ["a"] [["x" +:+ unix +:+ "y"]])].
Proof. reflexivity. Qed.

Lemma reports_read_back_witness :
  (∃ rows,
     Text.fileread_main 41 company_files company_queries =
       Done (Ok (writerows rows)) ∧
     fileread_main 41 (listing company_files) (readlines company_queries) =
       Done (Ok rows) ∧
     read_csv (writerows rows) = Ok rows) ∧
  (∃ rows,
     Text.newonetest_main 40 company_files company_queries =
       Done (Ok (writerows rows)) ∧
     newonetest_main 40 (listing company_files) (readlines company_queries) =
       Done (Ok rows) ∧
     read_csv (writerows rows) = Ok rows).
Proof.
  destruct (reports_read_back 40 company_files company_queries) as [Hf Hn];
    [apply (bool_decide_unpack _); reflexivity..|].
  split; [exact Hf|]. apply Hn. apply (bool_decide_unpack _). reflexivity.
Defined.

Lemma load_relations_raises_witness :
  ∃ f, f ∈ [("EMP.csv", "")] ∧ endswith f.1 ".csv" = true ∧
       (StopIteration = StopIteration ∧ read_csv f.2 = Ok [] ∨
        StopIteration = field_limit_error ∧ ¬ short f.2).
Proof.
  apply (load_relations_raises init [("EMP.csv", "")] StopIteration).
  reflexivity.
Defined.

Lemma load_relations_reads_witness : lookup company "EMP" = Some emp.
Proof.
  apply (load_relations_reads init [] "EMP"
           (text_of_lines unix ["id,name,salary"; "1,Al,50"; "2,Bo,90"])
           (attributes emp) (data emp)
           [("notes.txt", "not a relation");
            ("DEPT.csv", writerows (table_of dept))] company).
  - apply (file_record "id,name,salary" ["id"; "name"; "salary"]
             _ [["1"; "Al"; "50"]; ["2"; "Bo"; "90"]]).
    { apply (record_fields ["id"; "name"; "salary"]); [|done..].
      by repeat constructor. }
    apply (file_record "1,Al,50" ["1"; "Al"; "50"] _ [["2"; "Bo"; "90"]]).
    { apply (record_fields ["1"; "Al"; "50"]); [|done..].
      by repeat constructor. }
    apply (file_record "2,Bo,90" ["2"; "Bo"; "90"] "" []); [|constructor].
    apply (record_fields ["2"; "Bo"; "90"]); [|done..]. by repeat constructor.
  - apply (bool_decide_unpack _). reflexivity.
  - apply (bool_decide_unpack _). reflexivity.
  - reflexivity.
Defined.
