(* ===== verification/Disk.v ===== *)
(** * Disk: the two programs on the file system

    Files.v runs the programs on the text of their files.  Here they
    run on a file system, through the interface of PyOs.v, as the
    sources do: [load_relations] lists the directory and opens each CSV
    file under its joined path, [process_queries_from_file] opens the
    query file, and when every line is processed opens the report for
    writing.  The statements at the end of each source give the three
    paths.

    The lemmas show that a program on the file system is the program
    on text between what it reads and the one file it writes.  The
    theorems show which exceptions end a run and what was printed by
    then, that a run leaves every other file as it was and a report that
    reads back as the rows of the program on rows, and what a second
    run does on the file system the first has left.  The second run is
    another process, and CPython chooses the hashes of strings anew for
    every process: the two runs take two set orders.  newonetest.py
    writes the same report again; Fileread.py writes the same entries
    with the rows of every union in some order. *)

From S2P Require Import Prelude PyString PyOs PyFloat PySet Relation PyCsv.
From S2P Require Import CsvFormat PyStr Algebra Fileread Rows Newonetest.
From S2P Require Import Script Stdout Cells Files.

(** The paths in the statements at the end of the sources. *)
Definition data_directory : string := "Data".
Definition query_path : string := "C:\Project 1\RAqueries.txt".
Definition output_path : string := "C:\Project 1\RAoutput.csv".

Module Disk.
Section methods.
Context `{OsOps} `{FloatOps} `{SetOrder row} `{StrOps}.

(** One iteration of the loop of [load_relations]. *)
Definition load_file (fs : filesystem) (directory : string) (st : store)
    (filename : string) : res store :=
  if endswith filename ".csv" then
    let relation_name := slice 0 4 filename in
    file ← read_file fs (path_join directory filename);
    reader ← read_csv file;
    match reader with
    | [] => Raise StopIteration
    | attributes :: data =>
        Ok (store_set st relation_name (Relation attributes data))
    end
  else Ok st.

(** The loop of [load_relations] over the names of the listing. *)
Fixpoint load_files (fs : filesystem) (directory : string) (st : store)
    (filenames : list string) : res store :=
  match filenames with
  | [] => Ok st
  | filename :: filenames' =>
      st' ← load_file fs directory st filename;
      load_files fs directory st' filenames'
  end.

(** [load_relations]. *)
Definition load_relations (fs : filesystem) (st : store) (directory : string)
    : res store :=
  filenames ← listdir fs directory;
  load_files fs directory st filenames.

(** [process_queries_from_file] of Fileread.py: what is printed, and
    the file system with the report. *)
Definition process_queries_from_file (fuel : nat) (fs : filesystem)
    (st : store) (query_file output_file : string) : out filesystem :=
  match read_file fs query_file with
  | Raise e => silent (Done (Raise e))
  | Ok f =>
      let queries := readlines f in
      results ← Stdout.process_queries fuel st queries;
      silent (Done (write_file fs output_file (Text.write_results results)))
  end.

(** [process_queries_from_file] of newonetest.py. *)
Definition newonetest_process_queries_from_file (fuel : nat)
    (fs : filesystem) (st : store) (query_file output_file : string)
    : fueled filesystem :=
  match read_file fs query_file with
  | Raise e => Done (Raise e)
  | Ok f =>
      let queries := readlines f in
      results ← Newonetest.process_queries fuel st queries;
      Done (write_file fs output_file
              (Text.newonetest_write_results results))
  end.

(** The statements at the end of Fileread.py. *)
Definition fileread_main (fuel : nat) (fs : filesystem) : out filesystem :=
  let db := init in
  match load_relations fs db data_directory with
  | Ok db => process_queries_from_file fuel fs db query_path output_path
  | Raise e => silent (Done (Raise e))
  end.

(** The statements at the end of newonetest.py. *)
Definition newonetest_main (fuel : nat) (fs : filesystem)
    : fueled filesystem :=
  let db := Newonetest.init in
  match load_relations fs db data_directory with
  | Ok db =>
      newonetest_process_queries_from_file fuel fs db query_path output_path
  | Raise e => Done (Raise e)
  end.

End methods.
End Disk.

(** ** What a program reads *)

Section contents.
Context `{OsOps}.

(** The files of a directory a program opens, with their text: the
    files whose name ends in [.csv]; the other entries of the listing
    are not opened and stand with an empty text. *)
Fixpoint read_files (fs : filesystem) (directory : string)
    (filenames : list string) : res Files.directory :=
  match filenames with
  | [] => Ok []
  | filename :: filenames' =>
      text ← (if endswith filename ".csv"
              then read_file fs (path_join directory filename) else Ok "");
      dir ← read_files fs directory filenames';
      Ok ((filename, text) :: dir)
  end.

Definition contents (fs : filesystem) (directory : string)
    : res Files.directory :=
  filenames ← listdir fs directory;
  read_files fs directory filenames.

(** Why [load_relations] on the file system fails. *)
Inductive load_error (fs : filesystem) (directory : string) (e : exn)
    : Prop :=
| no_listing :
    listdir fs directory = Raise e → load_error fs directory e
| no_file filenames filename :
    listdir fs directory = Ok filenames → filename ∈ filenames →
    endswith filename ".csv" = true →
    read_file fs (path_join directory filename) = Raise e →
    load_error fs directory e
| no_relation filenames filename text :
    listdir fs directory = Ok filenames → filename ∈ filenames →
    endswith filename ".csv" = true →
    read_file fs (path_join directory filename) = Ok text →
    e = StopIteration ∧ read_csv text = Ok [] ∨
    e = field_limit_error ∧ ¬ short text →
    load_error fs directory e.

(** The output file is neither the query file nor a CSV file of the
    data directory. *)
Definition apart (fs : filesystem) : Prop :=
  ¬ same_file output_path query_path ∧
  ∀ filenames, listdir fs data_directory = Ok filenames →
    Forall (λ filename, endswith filename ".csv" = true →
              ¬ same_file output_path (path_join data_directory filename))
           filenames.

(** The output file can be written. *)
Definition writable (fs : filesystem) (path : string) : Prop :=
  ∀ text, ∃ fs', write_file fs path text = Ok fs'.

(** The last step of both programs: the report is written. *)
Definition written (fs : filesystem) (report : string) : fueled filesystem :=
  Done (write_file fs output_path report).

(** Every file but the output file has in [fs'] the text it has in
    [fs]. *)
Definition kept (fs fs' : filesystem) : Prop :=
  ∀ path text, ¬ same_file output_path path →
    read_file fs path = Ok text → read_file fs' path = Ok text.

(** Where a run fails before it reads a query: the loader, or the query
    file cannot be read. *)
Definition fails_before_queries (fs : filesystem) (e : exn) : Prop :=
  load_error fs data_directory e ∨ read_file fs query_path = Raise e.

End contents.

(** ** A file system for the database [company] *)

(** The directory [Data] with the files of the company, the query file,
    and a report left by an earlier run. *)
Definition company_fs : filesystem :=
  disk (Dir [(data_directory, Dir (prod_map id File <$> company_files));
             (query_path, File company_queries);
             (output_path, File "an older report")]).

(** The text of the files of the directory that are opened. *)
Definition opened (dir : Files.directory) : Files.directory :=
  (λ f, (f.1, if endswith f.1 ".csv" then f.2 else "")) <$> dir.

(** ** The loader on the file system *)

Section loader.
Context `{OsOps}.
Implicit Types (fs : filesystem) (st : store) (dir : Files.directory).
Implicit Types (directory filename : string) (filenames : list string).

Lemma load_file_text fs directory st filename :
  Disk.load_file fs directory st filename =
  if endswith filename ".csv" then
    text ← read_file fs (path_join directory filename);
    Text.load_file st filename text
  else Ok st.
Proof.
  unfold Disk.load_file, Text.load_file.
  by destruct (endswith filename ".csv").
Qed.

(** On files that are read the loader is the loader on their text. *)
Lemma load_files_text fs directory st filenames dir :
  read_files fs directory filenames = Ok dir →
  Disk.load_files fs directory st filenames = Text.load_relations st dir.
Proof.
  revert st dir. induction filenames as [|filename filenames IH];
    intros st dir Hdir; simplify_eq/=; [done|].
  rewrite load_file_text.
  destruct (endswith filename ".csv") eqn:Hcsv;
    [destruct (read_file _ _) as [text|]; [|done]|];
    simpl in *; destruct (read_files _ _ _) as [dir'|]; simplify_eq/=.
  - destruct (Text.load_file _ _ _); simpl; eauto.
  - unfold Text.load_file. rewrite Hcsv. simpl. eauto.
Qed.

Lemma load_relations_contents fs st directory dir :
  contents fs directory = Ok dir →
  Disk.load_relations fs st directory = Text.load_relations st dir.
Proof.
  unfold contents, Disk.load_relations.
  destruct (listdir fs directory); [|done]. apply load_files_text.
Qed.

(** What ends the loop of the loader. *)
Lemma load_files_Raise fs directory st filenames e :
  Disk.load_files fs directory st filenames = Raise e →
  ∃ filename, filename ∈ filenames ∧ endswith filename ".csv" = true ∧
    (read_file fs (path_join directory filename) = Raise e ∨
     ∃ text, read_file fs (path_join directory filename) = Ok text ∧
       (e = StopIteration ∧ read_csv text = Ok [] ∨
        e = field_limit_error ∧ ¬ short text)).
Proof.
  revert st. induction filenames as [|filename filenames IH]; intros st;
    [done|]. simpl.
  destruct (Disk.load_file _ _ _ _) as [st'|e'] eqn:Hf; simpl.
  { intros (f&?&?)%IH. exists f. by rewrite elem_of_cons; eauto. }
  intros [= ->]. exists filename. rewrite load_file_text in Hf.
  destruct (endswith filename ".csv"); [|done].
  split; [by left|]. split; [done|].
  destruct (read_file _ _) as [text|]; simplify_eq/=; [right|by left].
  exists text. split; [done|]. by apply load_file_Raise_text in Hf as [_ ?].
Qed.

Lemma load_relations_load_error fs st directory e :
  Disk.load_relations fs st directory = Raise e → load_error fs directory e.
Proof.
  unfold Disk.load_relations.
  destruct (listdir fs directory) as [filenames|] eqn:Hl; simpl;
    [|intros [= ->]; by apply no_listing].
  intros (filename&?&?&[?|(text&?&?)])%load_files_Raise;
    [by eapply no_file|by eapply no_relation].
Qed.

(** A loader that returns has read every CSV file of the listing. *)
Lemma load_files_Ok fs directory st filenames st' :
  Disk.load_files fs directory st filenames = Ok st' →
  ∃ dir, read_files fs directory filenames = Ok dir.
Proof.
  revert st. induction filenames as [|filename filenames IH]; intros st;
    [by eexists|]. simpl. rewrite load_file_text.
  destruct (endswith filename ".csv");
    [destruct (read_file _ _) as [text|]; [|done]|]; simpl;
    (destruct (Text.load_file _ _ _) as [st1|] || idtac); simpl; try done;
    intros [dir ->]%IH; by eexists.
Qed.

Lemma load_relations_Ok fs st directory st' :
  Disk.load_relations fs st directory = Ok st' →
  ∃ dir, contents fs directory = Ok dir ∧ Text.load_relations st dir = Ok st'.
Proof.
  intros Hst. assert (∃ dir, contents fs directory = Ok dir) as [dir Hdir].
  { unfold Disk.load_relations, contents in *.
    destruct (listdir fs directory); [|done]. by eapply load_files_Ok. }
  exists dir. by rewrite <-(load_relations_contents _ _ _ _ Hdir).
Qed.

End loader.

(** ** The programs on the file system and on text *)

Section programs.
Context `{OsOps} `{FloatOps} `{SetOrder row} `{StrOps}.
Implicit Types (fuel : nat) (fs : filesystem) (st : store).
Implicit Types (dir : Files.directory) (queries text : string).

Lemma process_queries_from_file_run fuel fs st query_file output_file text :
  read_file fs query_file = Ok text →
  Disk.process_queries_from_file fuel fs st query_file output_file =
  (report ← Run.process_queries_from_file fuel st text;
   silent (Done (write_file fs output_file report))).
Proof.
  intros Hq. unfold Disk.process_queries_from_file,
    Run.process_queries_from_file. rewrite Hq. cbv zeta.
  rewrite out_bind_assoc.
  by destruct (Stdout.process_queries _ _ _) as [l [[results|]|]].
Qed.

Lemma newonetest_process_queries_from_file_run fuel fs st query_file
    output_file text :
  read_file fs query_file = Ok text →
  Disk.newonetest_process_queries_from_file fuel fs st query_file
    output_file =
  (report ← Text.newonetest_process_queries_from_file fuel st text;
   Done (write_file fs output_file report)).
Proof.
  intros Hq. unfold Disk.newonetest_process_queries_from_file,
    Text.newonetest_process_queries_from_file. rewrite Hq. cbv zeta.
  by destruct (Newonetest.process_queries _ _ _) as [[results|]|].
Qed.

Lemma fileread_main_run fuel fs dir queries :
  contents fs data_directory = Ok dir → read_file fs query_path = Ok queries →
  Disk.fileread_main fuel fs =
  (report ← Run.fileread_main fuel dir queries; silent (written fs report)).
Proof.
  intros Hdir Hq. unfold Disk.fileread_main, Run.fileread_main. cbv zeta.
  rewrite (load_relations_contents _ _ _ _ Hdir).
  destruct (Text.load_relations init dir) as [db|]; [|done].
  by apply process_queries_from_file_run.
Qed.

Lemma newonetest_main_run fuel fs dir queries :
  contents fs data_directory = Ok dir → read_file fs query_path = Ok queries →
  Disk.newonetest_main fuel fs =
  (report ← Text.newonetest_main fuel dir queries; written fs report).
Proof.
  intros Hdir Hq. unfold Disk.newonetest_main, Text.newonetest_main.
  cbv zeta. rewrite (load_relations_contents _ _ _ _ Hdir).
  destruct (Text.load_relations Newonetest.init dir) as [db|]; [|done].
  by apply newonetest_process_queries_from_file_run.
Qed.

(** How a run of Fileread.py ends: before the first query, with nothing
    printed, or with the write of the report of the program on text,
    after what that program prints. *)
Lemma fileread_main_Done fuel fs prints r :
  Disk.fileread_main fuel fs = (prints, Done r) →
  (∃ e, r = Raise e ∧ prints = [] ∧ fails_before_queries fs e) ∨
  ∃ dir queries report,
    contents fs data_directory = Ok dir ∧ read_file fs query_path = Ok queries ∧
    Run.fileread_main fuel dir queries = (prints, Done (Ok report)) ∧
    write_file fs output_path report = r.
Proof.
  unfold Disk.fileread_main. cbv zeta.
  destruct (Disk.load_relations _ _ _) as [db|e] eqn:Hdb.
  2:{ intros [= <- <-]. left. exists e. split_and!; [done..|].
      left. by eapply load_relations_load_error. }
  apply load_relations_Ok in Hdb as (dir&Hdir&Hdb).
  destruct (read_file fs query_path) as [queries|e] eqn:Hq.
  2:{ unfold Disk.process_queries_from_file. rewrite Hq.
      intros [= <- <-]. left. exists e. split_and!; [done..|]. by right. }
  rewrite (process_queries_from_file_run _ _ _ _ _ _ Hq). intros Hrun.
  right. exists dir, queries. unfold Run.fileread_main. rewrite Hdb.
  pose proof (λ e, Fileread.process_queries_never_raises fuel db
                     (readlines queries) e) as Hnever. revert Hrun Hnever.
  unfold Run.process_queries_from_file. rewrite <-process_queries_returned.
  destruct (Stdout.process_queries _ _ _) as [l [[results|e]|]];
    [|intros _ Hn; by destruct (Hn e)|done].
  intros [= <- <-] _. eexists. split_and!; try done.
  rewrite out_bind_Ok. simpl. by rewrite !app_nil_r.
Qed.

Lemma newonetest_main_Done fuel fs r :
  Disk.newonetest_main fuel fs = Done r →
  (∃ e, r = Raise e ∧ fails_before_queries fs e) ∨
  ∃ dir queries report,
    contents fs data_directory = Ok dir ∧ read_file fs query_path = Ok queries ∧
    Text.newonetest_main fuel dir queries = Done (Ok report) ∧
    write_file fs output_path report = r.
Proof.
  unfold Disk.newonetest_main. cbv zeta.
  destruct (Disk.load_relations _ _ _) as [db|e] eqn:Hdb.
  2:{ intros [= <-]. left. exists e. split; [done|].
      left. by eapply load_relations_load_error. }
  apply load_relations_Ok in Hdb as (dir&Hdir&Hdb).
  destruct (read_file fs query_path) as [queries|e] eqn:Hq.
  2:{ unfold Disk.newonetest_process_queries_from_file. rewrite Hq.
      intros [= <-]. left. exists e. split; [done|]. by right. }
  rewrite (newonetest_process_queries_from_file_run _ _ _ _ _ _ Hq).
  intros Hrun. right. exists dir, queries.
  unfold Text.newonetest_main. rewrite Hdb.
  pose proof (λ e, Newonetest.process_queries_no_exception fuel db
                     (readlines queries) e) as Hnever. revert Hrun Hnever.
  unfold Text.newonetest_process_queries_from_file.
  destruct (Newonetest.process_queries _ _ _) as [[results|e]|];
    [|intros _ Hn; by destruct (Hn e)|done].
  intros [= <-] _. by eexists.
Qed.

(** C22: how the programs fail on the file system.  A run of Fileread.py
    that ends with an exception has either printed nothing, and then
    the data directory could not be listed, a CSV file of it could not
    be read, had no first row or a field beyond the limit of the csv
    module, or the query file could not be read; or it has processed
    and printed every query, and the exception is that of the write of
    the report.  newonetest.py fails in the same places.  No query ends
    a run. *)
Theorem main_raises_on_disk fuel fs e :
  (∀ prints, Disk.fileread_main fuel fs = (prints, Done (Raise e)) →
     prints = [] ∧ fails_before_queries fs e ∨
     ∃ dir queries report,
       contents fs data_directory = Ok dir ∧
       read_file fs query_path = Ok queries ∧
       Run.fileread_main fuel dir queries = (prints, Done (Ok report)) ∧
       write_file fs output_path report = Raise e) ∧
  (Disk.newonetest_main fuel fs = Done (Raise e) →
     fails_before_queries fs e ∨
     ∃ dir queries report,
       contents fs data_directory = Ok dir ∧
       read_file fs query_path = Ok queries ∧
       Text.newonetest_main fuel dir queries = Done (Ok report) ∧
       write_file fs output_path report = Raise e).
Proof.
  split.
  - intros prints [(e'&[= <-]&?&?)|?]%fileread_main_Done; eauto.
  - intros [(e'&[= <-]&?)|?]%newonetest_main_Done; eauto.
Qed.

End programs.

(** ** A run and the file system it leaves *)

Section laws.
Context `{OsOps} `{!OsLaws} `{FloatOps} `{SetOrder row} `{StrOps}.
Implicit Types (fuel : nat) (fs : filesystem) (st : store).
Implicit Types (dir : Files.directory) (queries text : string).

Lemma kept_write_file fs text fs' :
  write_file fs output_path text = Ok fs' → kept fs fs'.
Proof.
  intros Hw path text' Hpath Ht. exact (read_write_other _ _ _ _ _ _ Hw Hpath Ht).
Qed.

(** Writing a file that is no CSV file of the directory leaves what the
    loader reads. *)
Lemma read_files_write_file fs path text fs' directory filenames dir :
  write_file fs path text = Ok fs' →
  Forall (λ filename, endswith filename ".csv" = true →
            ¬ same_file path (path_join directory filename)) filenames →
  read_files fs directory filenames = Ok dir →
  read_files fs' directory filenames = Ok dir.
Proof.
  intros Hw Hall. revert dir.
  induction Hall as [|filename filenames Hf _ IH]; intros dir; [done|].
  simpl. destruct (endswith filename ".csv").
  - destruct (read_file fs _) as [t|] eqn:Ht; [|done].
    rewrite (read_write_other _ _ _ _ _ _ Hw (Hf eq_refl) Ht). simpl.
    destruct (read_files fs _ _); [|done]. by rewrite (IH _ eq_refl).
  - simpl. destruct (read_files fs _ _); [|done]. by rewrite (IH _ eq_refl).
Qed.

Lemma contents_write_file fs old text fs' dir :
  apart fs → read_file fs output_path = Ok old →
  write_file fs output_path text = Ok fs' →
  contents fs data_directory = Ok dir → contents fs' data_directory = Ok dir.
Proof.
  intros [_ Hdata] Hold Hw. unfold contents.
  destruct (listdir fs data_directory) as [filenames|] eqn:Hl; [|done].
  rewrite (listdir_write_file _ _ _ _ _ _ _ Hold Hw Hl). simpl.
  apply (read_files_write_file _ _ _ _ _ _ _ Hw). by apply Hdata.
Qed.

(** Under one set order, that is when both processes run with the same
    seed for the hashes of strings, a second run of Fileread.py prints
    the same, writes the same report and leaves the file system as it
    found it. *)
Lemma second_run_same_order fuel fs old prints fs' :
  apart fs → read_file fs output_path = Ok old →
  Disk.fileread_main fuel fs = (prints, Done (Ok fs')) →
  Disk.fileread_main fuel fs' = (prints, Done (Ok fs')).
Proof.
  intros Hapart Hold [(?&?&_)|(dir&queries&report&Hdir&Hq&Hrun&Hw)]
    %fileread_main_Done; [done|].
  rewrite (fileread_main_run _ _ dir queries), Hrun, out_bind_Ok.
  - unfold written. rewrite (write_file_again _ _ _ _ Hw). simpl.
    by rewrite app_nil_r.
  - by eapply contents_write_file.
  - eapply read_write_other; [done|apply Hapart|done].
Qed.

(** newonetest.py builds no set on the way to its report: its second
    run writes the same report, whatever the seed. *)
Lemma newonetest_second_run fuel fs old fs' :
  apart fs → read_file fs output_path = Ok old →
  Disk.newonetest_main fuel fs = Done (Ok fs') →
  Disk.newonetest_main fuel fs' = Done (Ok fs').
Proof.
  intros Hapart Hold [(?&?&_)|(dir&queries&report&Hdir&Hq&Hrun&Hw)]
    %newonetest_main_Done; [done|].
  rewrite (newonetest_main_run _ _ dir queries), Hrun.
  - unfold written. simpl. by rewrite (write_file_again _ _ _ _ Hw).
  - by eapply contents_write_file.
  - eapply read_write_other; [done|apply Hapart|done].
Qed.

(** A run of Fileread.py that ends has loaded the files, and has printed
    the lines and written the report of the entries of its loop. *)
Lemma fileread_main_entries `{!StrLaws} fuel fs prints fs' :
  Disk.fileread_main (S fuel) fs = (prints, Done (Ok fs')) →
  ∃ dir queries st results,
    contents fs data_directory = Ok dir ∧
    read_file fs query_path = Ok queries ∧
    Text.load_relations init dir = Ok st ∧
    Fileread.process_queries (S fuel) st (readlines queries) =
      Done (Ok results) ∧
    prints = results ≫= Stdout.entry_lines ∧
    write_file fs output_path (Text.write_results results) = Ok fs'.
Proof.
  intros [(?&?&_)|(dir&queries&report&Hdir&Hq&Hrun&Hw)]%fileread_main_Done;
    [done|].
  destruct (Text.load_relations init dir) as [st|e] eqn:Hst.
  2:{ unfold Run.fileread_main in Hrun. by rewrite Hst in Hrun. }
  destruct (run_entries fuel dir queries st Hst) as (results&Hr&Hrun').
  rewrite Hrun' in Hrun. injection Hrun as <- <-.
  by exists dir, queries, st, results.
Qed.

End laws.

(** ** A second run, in another process *)

Section two_runs.
Context `{OsOps} `{!OsLaws} `{FloatOps} {Heq : EqDecision row}.
Context (O1 O2 : SetOrder row) `{StrLaws}.
Implicit Types (fuel : nat) (fs : filesystem).

(** C23: a second run.  When the output file exists and is neither the
    query file nor a CSV file of the data directory, a run of
    Fileread.py that ends leaves a file system on which the program,
    run again in a process with any other order of its sets, loads the
    same relations and reads the same queries: when the output file can
    be written again it ends, the entries it prints and writes are
    those of the first run with the rows of the tables of unions
    permuted, the output file holds the new report, and every other
    file is as the first run left it.  newonetest.py, run again, writes
    the report of its first run and leaves the file system as it found
    it. *)
Theorem second_run fuel fs old :
  apart fs → read_file fs output_path = Ok old →
  (∀ prints fs',
     @Disk.fileread_main _ _ _ O1 _ (S fuel) fs = (prints, Done (Ok fs')) →
     writable fs' output_path →
     ∃ results1 results2 fs'',
       prints = results1 ≫= Stdout.entry_lines ∧
       read_file fs' output_path = Ok (Text.write_results results1) ∧
       Forall2 entry_perm results1 results2 ∧
       @Disk.fileread_main _ _ _ O2 _ (S fuel) fs' =
         (results2 ≫= Stdout.entry_lines, Done (Ok fs'')) ∧
       read_file fs'' output_path = Ok (Text.write_results results2) ∧
       kept fs' fs'') ∧
  (∀ fs', Disk.newonetest_main fuel fs = Done (Ok fs') →
     Disk.newonetest_main fuel fs' = Done (Ok fs')).
Proof.
  intros Hapart Hold. split; [|intros fs'; by eapply newonetest_second_run].
  intros prints fs'
    (dir&queries&st&results1&Hdir&Hq&Hst&Hr1&->&Hw)%fileread_main_entries Hwr.
  destruct (process_queries_orders O1 O2 fuel st (readlines queries))
    as (rs1&results2&Hrs1&Hr2&Hperm).
  rewrite Hr1 in Hrs1. injection Hrs1 as <-.
  destruct (Hwr (Text.write_results results2)) as [fs'' Hw2].
  assert (@Run.fileread_main _ _ O2 _ (S fuel) dir queries =
          (results2 ≫= Stdout.entry_lines,
           Done (Ok (Text.write_results results2)))) as Hrun2.
  { destruct (run_entries fuel dir queries st Hst) as (rs2&Hrs2&Hrun2).
    rewrite Hr2 in Hrs2. by injection Hrs2 as <-. }
  exists results1, results2, fs''. split_and!; [done| |done| | |].
  - by rewrite (read_write_file _ _ _ _ Hw).
  - rewrite (fileread_main_run _ _ dir queries), Hrun2, out_bind_Ok.
    + unfold written. simpl. by rewrite Hw2, app_nil_r.
    + by eapply contents_write_file.
    + eapply read_write_other; [done|apply Hapart|done].
  - by rewrite (read_write_file _ _ _ _ Hw2).
  - by eapply kept_write_file.
Qed.

End two_runs.

Section report.
Context `{OsOps} `{!OsLaws} `{FloatOps} `{SetOrder row} `{StrOps}.
Implicit Types (fuel : nat) (fs : filesystem) (st : store).
Implicit Types (dir : Files.directory) (queries text : string).

(** C20: the report on the file system.  When the data directory is
    listed, its CSV files are read, have a first row and are within
    the field limit of the csv module, the query file is read with
    lines within the limit, and the output file can be written,
    Fileread.py ends and leaves a file system in which the output file,
    read with [csv.reader], gives the rows of the report of the program
    on rows, and every other file has the text it had; so does
    newonetest.py with more fuel than the longest line has
    characters. *)
Theorem report_on_disk fuel fs dir queries :
  contents fs data_directory = Ok dir → short_files dir →
  has_headers (listing dir) →
  read_file fs query_path = Ok queries →
  Forall (λ line, short (strip line)) (readlines queries) →
  writable fs output_path →
  (∃ fs' rows,
     returned (Disk.fileread_main (S fuel) fs) = Done (Ok fs') ∧
     fileread_main (S fuel) (listing dir) (readlines queries) =
       Done (Ok rows) ∧
     (read_file fs' output_path ≫= read_csv) = Ok rows ∧ kept fs fs') ∧
  (Forall (λ line, String.length line < fuel) (readlines queries) →
   ∃ fs' rows,
     Disk.newonetest_main fuel fs = Done (Ok fs') ∧
     newonetest_main fuel (listing dir) (readlines queries) = Done (Ok rows) ∧
     (read_file fs' output_path ≫= read_csv) = Ok rows ∧ kept fs fs').
Proof.
  intros Hdir Hshort Hheaders Hq Hlines Hw. split; [|intros Hfuel].
  - destruct (fileread_reads_back fuel dir queries) as (rows&Ht&Hrows&Hread);
      [done..|].
    destruct (Hw (writerows rows)) as [fs' Hfs']. exists fs', rows.
    rewrite (fileread_main_run _ _ dir queries), returned_bind, run_returned,
      Ht by done.
    unfold written. simpl. rewrite Hfs'. split_and!; [done..| |].
    + by rewrite (read_write_file _ _ _ _ Hfs').
    + by eapply kept_write_file.
  - destruct (newonetest_reads_back fuel dir queries)
      as (rows&Ht&Hrows&Hread); [done..|].
    destruct (Hw (writerows rows)) as [fs' Hfs']. exists fs', rows.
    rewrite (newonetest_main_run _ _ dir queries), Ht by done.
    unfold written. simpl. rewrite Hfs'. split_and!; [done..| |].
    + by rewrite (read_write_file _ _ _ _ Hfs').
    + by eapply kept_write_file.
Qed.

End report.

(** ** The programs on the file system of the company *)

(** Fileread.py on the file system of the company: what it prints is
    what the program on text prints, and the one change is the report,
    the text of [company_report]. *)
Example company_run :
  Disk.fileread_main 1 company_fs =
  (printed (Run.fileread_main 1 company_files company_queries),
   Done (Ok (Dir
     [(data_directory, Dir (prod_map id File <$> company_files));
      (query_path, File company_queries);
      (output_path, File (text_of_lines dos
         ["X (EMP * DEPT)"; "id,name,salary,id,dname"; "1,Al,50,1,Eng";
          "2,Bo,90,1,Eng"; "";
          String QUOTE ("PROJ (EMP) {name, id}" +:+ String QUOTE "");
          "name,id"; "Al,1"; "Bo,2"; "";
          String QUOTE (String QUOTE ""); "";
          "SELE (EMP) {salary > 60}"; "id,name,salary"; "2,Bo,90"; ""]))]))).
Proof. reflexivity. Qed.

(** Without the directory [Data] nothing is printed or written; a
    directory in the place of the report ends the run after the last
    query. *)
Example company_failures :
  Disk.fileread_main 1 (disk (Dir [(query_path, File company_queries)])) =
    ([], Done (Raise (OSError 2 "No such file or directory" "Data"))) ∧
  Disk.newonetest_main 40
    (disk (Dir [(data_directory, Dir [("EMP.csv", Dir [])])])) =
    Done (Raise (OSError 21 "Is a directory" "Data/EMP.csv")) ∧
  Disk.fileread_main 1
    (disk (Dir [(data_directory, Dir []); (query_path, File "EMP");
                (output_path, Dir [])])) =
    (["Query: EMP"; "Result: None"],
     Done (Raise (OSError 21 "Is a directory" output_path))).
Proof. repeat split; reflexivity. Qed.

Lemma company_apart : apart company_fs.
Proof.
  split; [by intros [=]|]. intros filenames [= <-].
  repeat constructor; by intros _ [=].
Defined.

Lemma second_run_witness :
  (∀ prints fs',
     @Disk.fileread_main _ _ _ first_occurrence _ 41 company_fs =
       (prints, Done (Ok fs')) →
     writable fs' output_path →
     ∃ results1 results2 fs'',
       prints = results1 ≫= Stdout.entry_lines ∧
       read_file fs' output_path = Ok (Text.write_results results1) ∧
       Forall2 entry_perm results1 results2 ∧
       @Disk.fileread_main _ _ _ reverse_occurrence _ 41 fs' =
         (results2 ≫= Stdout.entry_lines, Done (Ok fs'')) ∧
       read_file fs'' output_path = Ok (Text.write_results results2) ∧
       kept fs' fs'') ∧
  (∀ fs', Disk.newonetest_main 40 company_fs = Done (Ok fs') →
     Disk.newonetest_main 40 fs' = Done (Ok fs')).
Proof.
  apply (second_run first_occurrence reverse_occurrence 40 company_fs
           "an older report"); [apply company_apart|reflexivity].
Defined.

(** The second run does change the report when the order of the sets
    changes: after a run under the order of first occurrence the output
    file has the rows of the union of [EMP] with itself in the order of
    the file, and a run under the reverse order on the file system the
    first left writes them in the other order. *)
Example second_run_reorders :
  let fs := disk (Dir [(data_directory, Dir [("EMP.csv",
           File (text_of_lines unix ["id,name,salary"; "1,Al,50"; "2,Bo,90"]))]);
                       (query_path, File "U (EMP U EMP)");
                       (output_path, File "")]) in
  ∃ fs' fs'',
    returned (@Disk.fileread_main _ _ _ first_occurrence _ 1 fs) =
      Done (Ok fs') ∧
    returned (@Disk.fileread_main _ _ _ reverse_occurrence _ 1 fs') =
      Done (Ok fs'') ∧
    read_file fs' output_path =
      Ok (text_of_lines dos ["U (EMP U EMP)"; "id,name,salary"; "1,Al,50";
                             "2,Bo,90"; ""]) ∧
    read_file fs'' output_path =
      Ok (text_of_lines dos ["U (EMP U EMP)"; "id,name,salary"; "2,Bo,90";
                             "1,Al,50"; ""]).
Proof. do 2 eexists. split_and!; reflexivity. Qed.

Lemma report_on_disk_witness :
  (∃ fs' rows,
     returned (Disk.fileread_main 41 company_fs) = Done (Ok fs') ∧
     fileread_main 41 (listing (opened company_files))
       (readlines company_queries) = Done (Ok rows) ∧
     (read_file fs' output_path ≫= read_csv) = Ok rows ∧
     kept company_fs fs') ∧
  (∃ fs' rows,
     Disk.newonetest_main 40 company_fs = Done (Ok fs') ∧
     newonetest_main 40 (listing (opened company_files))
       (readlines company_queries) = Done (Ok rows) ∧
     (read_file fs' output_path ≫= read_csv) = Ok rows ∧
     kept company_fs fs').
Proof.
  destruct (report_on_disk 40 company_fs (opened company_files)
              company_queries) as [Hf Hn];
    [reflexivity|apply (bool_decide_unpack _); reflexivity..| |].
  - intros text. by apply (posix_write_is_ok _ _ "").
  - split; [exact Hf|]. apply Hn. apply (bool_decide_unpack _). reflexivity.
Defined.

Lemma main_raises_on_disk_witness :
  @nil string = [] ∧ fails_before_queries (disk (Dir []))
              (OSError 2 "No such file or directory" "Data") ∨
  ∃ dir queries report,
    contents (disk (Dir [])) data_directory = Ok dir ∧
    read_file (disk (Dir [])) query_path = Ok queries ∧
    Run.fileread_main 1 dir queries = ([], Done (Ok report)) ∧
    write_file (disk (Dir [])) output_path report =
      Raise (OSError 2 "No such file or directory" "Data").
Proof.
  apply (main_raises_on_disk 1 (disk (Dir []))
           (OSError 2 "No such file or directory" "Data")).
  reflexivity.
Defined.
