(* ===== verification/Words.v ===== *)
(** * Words: splitting at white space and joining with separators

    The theory of [split_ws] ([s.split()]) and of [split] on texts that
    were joined with a separator.  A word is a non-empty text without
    white space; [split_ws] returns words, and gives back the words a
    text was joined from.  A list joined with [", "] or with [" AND "]
    splits at the separator into its elements up to white space, when
    the separator does not occur in them.  These are the round trips the
    parsers of conditions and of attribute lists rely on. *)

From S2P Require Import Prelude PyString.

(** ** Words *)

(** A text [s.split()] can return: not empty and without white space. *)
Definition word (w : string) : bool :=
  negb (bool_decide (w = "")) && all_chars (λ c, negb (isspace c)) w.

Lemma word_cons c w :
  word (String c w) = negb (isspace c) && all_chars (λ c, negb (isspace c)) w.
Proof. done. Qed.

Lemma word_nonempty w : word w = true → w ≠ "".
Proof. by destruct w. Qed.

Lemma word_nonblank w :
  word w = true → all_chars (λ c, negb (isspace c)) w = true.
Proof. by intros [_ ?]%andb_true_iff. Qed.

Lemma word_strip w : word w = true → strip w = w.
Proof. intros Hw. by apply strip_with_nonblank, word_nonblank. Qed.

(** ** [split_ws] *)

Lemma split_ws_space c s : isspace c = true → split_ws (String c s) = split_ws s.
Proof. simpl. by intros ->. Qed.

(** White space in front of a text is skipped. *)
Lemma split_ws_blank_app a s :
  all_chars isspace a = true → split_ws (a +:+ s) = split_ws s.
Proof.
  induction a as [|c a IH]; [done|]. simpl.
  intros [-> Ha]%andb_true_iff. by apply IH.
Qed.

(** A word followed by white space is the first piece. *)
Lemma split_ws_word_cons w c s :
  word w = true → isspace c = true →
  split_ws (w +:+ String c s) = w :: split_ws s.
Proof.
  intros Hw Hc. induction w as [|d w IH]; [done|].
  rewrite word_cons in Hw. apply andb_true_iff in Hw as [Hd%negb_true_iff Hw].
  simpl. rewrite Hd. destruct w as [|e w].
  - simpl. by rewrite Hc.
  - rewrite IH by done. simpl in Hw |- *.
    apply andb_true_iff in Hw as [He%negb_true_iff _]. by rewrite He.
Qed.

(** A word is its only piece. *)
Lemma split_ws_word w : word w = true → split_ws w = [w].
Proof.
  induction w as [|d w IH]; [done|]. rewrite word_cons.
  intros [Hd%negb_true_iff Hw]%andb_true_iff. simpl. rewrite Hd.
  destruct w as [|e w]; [done|]. rewrite IH by done. simpl in Hw |- *.
  apply andb_true_iff in Hw as [He%negb_true_iff _]. by rewrite He.
Qed.

(** Round trip: words joined with a space split into the words. *)
Lemma split_ws_join ws :
  Forall (λ w, word w = true) ws → split_ws (join " " ws) = ws.
Proof.
  induction 1 as [|w ws Hw Hws IH]; [done|].
  destruct ws as [|w' ws]; [by apply split_ws_word|].
  change (join " " (w :: w' :: ws)) with (w +:+ String " " (join " " (w' :: ws))).
  by rewrite split_ws_word_cons, IH.
Qed.

(** Every piece of [split_ws] is a word. *)
Lemma split_ws_words s : Forall (λ w, word w = true) (split_ws s).
Proof.
  induction s as [|c s IH]; [constructor|]. simpl.
  destruct (isspace c) eqn:Hc; [done|].
  destruct (starts_space s); [constructor; [by rewrite word_cons, Hc|done]|].
  destruct (split_ws s) as [|w ws]; [by repeat constructor; rewrite word_cons, Hc|].
  apply Forall_cons in IH as [Hw Hws]. constructor; [|done].
  rewrite word_cons, Hc. by apply word_nonblank.
Qed.

(** The three words of a condition. *)
Lemma split_ws_three a b c :
  word a = true → word b = true → word c = true →
  split_ws (a +:+ " " +:+ b +:+ " " +:+ c) = [a; b; c].
Proof. intros. apply (split_ws_join [a; b; c]). by repeat constructor. Qed.

(** ** A character that the separator lacks *)

Section foreign.
Context (sep : string) (c : ascii) (Hc : mem_char c sep = false).

(** A prefix cannot reach beyond a character it does not have. *)
Lemma starts_app_foreign a b : starts sep (a +:+ String c b) = starts sep a.
Proof using Hc.
  revert a. induction sep as [|x sep' IH]; intros a; [by destruct a|].
  simpl in Hc. apply orb_false_iff in Hc as [Hx Hsep'].
  destruct a as [|d a]; simpl.
  - apply bool_decide_eq_false in Hx.
    by rewrite bool_decide_eq_false_2 by congruence.
  - by rewrite IH.
Qed.

(** An occurrence lies on one side of such a character. *)
Lemma contains_app_foreign a b :
  sep ≠ "" → contains sep (a +:+ String c b) = contains sep a || contains sep b.
Proof using Hc.
  intros Hsep. induction a as [|d a IH].
  - change ("" +:+ String c b) with (String c b).
    rewrite contains_cons, contains_nil.
    by rewrite <-(starts_app_foreign "" b).
  - change (String d a +:+ String c b) with (String d (a +:+ String c b)).
    pose proof (starts_app_foreign (String d a) b) as Hs.
    change (String d a +:+ String c b) with (String d (a +:+ String c b)) in Hs.
    by rewrite !contains_cons, IH, Hs, orb_assoc.
Qed.

(** The first separator after a text that ends with such a character is
    the one written after it. *)
Lemma cut_app_foreign a b :
  sep ≠ "" → contains sep a = false →
  cut sep ((a +:+ String c "") +:+ sep +:+ b) = (a +:+ String c "", Some b).
Proof using Hc.
  intros Hsep Ha. apply cut_app. intros a1 a2 Heq Ha2.
  destruct (str_snoc_cases a2) as [->|(a2'&d&->)]; [done|].
  rewrite <-str_app_assoc in Heq. apply str_snoc_inj in Heq as [-> <-].
  rewrite str_app_assoc. change (String c "" +:+ sep +:+ b) with (String c (sep +:+ b)).
  rewrite starts_app_foreign. apply not_true_is_false.
  intros [t ->]%starts_spec. by rewrite contains_app in Ha.
Qed.

Lemma split_app_foreign a b :
  sep ≠ "" → contains sep a = false →
  split sep ((a +:+ String c "") +:+ sep +:+ b) =
  (a +:+ String c "") :: split sep b.
Proof using Hc. intros Hsep Ha. by rewrite split_unfold, cut_app_foreign. Qed.

End foreign.

(** ** Lists joined with a separator *)

(** The space that may stand before the first element of the rest of a
    joined list. *)
Definition lead (b : bool) : string := if b then " " else "".

Lemma strip_lead b s t :
  all_chars isspace t = true → strip (lead b +:+ s +:+ t) = strip s.
Proof. intros Ht. apply strip_with_pad; [by destruct b|done]. Qed.

Lemma strip_lead_only b s : strip (lead b +:+ s) = strip s.
Proof. rewrite <-(str_app_nil_r s) at 1. by apply strip_lead. Qed.

(** *** A separator between two spaces: [a SEP b SEP c] *)

Section joined_words.
Context (sep : string) (Hsep : sep ≠ "") (Hsp : mem_char " " sep = false).

Lemma contains_lead b s : contains sep (lead b +:+ s) = contains sep s.
Proof using Hsep Hsp.
  destruct b; [|done].
  pose proof (contains_app_foreign sep " " Hsp "" s Hsep) as Hs.
  rewrite contains_nil in Hs. unfold lead. by destruct sep.
Qed.

(** The separator does not occur in a list joined with another text when
    it occurs neither in that text nor in the elements. *)
Lemma contains_join_foreign glue ps :
  contains sep glue = false → Forall (λ p, contains sep p = false) ps →
  contains sep (join (" " +:+ glue +:+ " ") ps) = false.
Proof using Hsep Hsp.
  intros Hglue. induction 1 as [|p ps Hp _ IH]; [by destruct sep|].
  destruct ps as [|p' ps]; [done|].
  replace (join (" " +:+ glue +:+ " ") (p :: p' :: ps))
    with (p +:+ String " " (glue +:+ String " " (join (" " +:+ glue +:+ " ") (p' :: ps))))
    by (simpl join; by rewrite !str_app_assoc).
  by rewrite !(contains_app_foreign sep " " Hsp), Hp, Hglue, IH.
Qed.

(** Round trip: the elements of a list joined with the separator
    between spaces come back from [split], up to white space. *)
Lemma split_join_words b p ps :
  Forall (λ q, contains sep q = false) (p :: ps) →
  strip <$> split sep (lead b +:+ join (" " +:+ sep +:+ " ") (p :: ps)) =
  strip <$> (p :: ps).
Proof using Hsep Hsp.
  revert b p. induction ps as [|p' ps IH]; intros b p [Hp Hps]%Forall_cons.
  - simpl join. rewrite split_no_sep by (done || by rewrite contains_lead).
    simpl. by rewrite strip_lead_only.
  - replace (lead b +:+ join (" " +:+ sep +:+ " ") (p :: p' :: ps))
      with (((lead b +:+ p) +:+ String " " "") +:+ sep +:+
            (lead true +:+ join (" " +:+ sep +:+ " ") (p' :: ps)))
      by (simpl join; by rewrite !str_app_assoc).
    rewrite (split_app_foreign sep " " Hsp) by (done || by rewrite contains_lead).
    by rewrite fmap_cons, IH, str_app_assoc, strip_lead.
Qed.

Lemma contains_join_words p p' ps :
  contains sep (join (" " +:+ sep +:+ " ") (p :: p' :: ps)) = true.
Proof.
  replace (join (" " +:+ sep +:+ " ") (p :: p' :: ps))
    with ((p +:+ " ") +:+ sep +:+ " " +:+ join (" " +:+ sep +:+ " ") (p' :: ps))
    by (simpl join; by rewrite !str_app_assoc).
  apply contains_app.
Qed.

End joined_words.

(** *** A character followed by a space: [a, b, c] *)

Section joined_char.
Context (c : ascii) (Hc : c ≠ " "%char).

Lemma mem_char_lead b s : mem_char c (lead b +:+ s) = mem_char c s.
Proof using Hc. destruct b; [|done]. simpl. by rewrite bool_decide_eq_false_2. Qed.

(** Round trip: the elements of a list joined with the character and a
    space come back from [split], up to white space. *)
Lemma split_join_char b p ps :
  Forall (λ q, mem_char c q = false) (p :: ps) →
  strip <$> split (String c "") (lead b +:+ join (String c " ") (p :: ps)) =
  strip <$> (p :: ps).
Proof using Hc.
  revert b p. induction ps as [|p' ps IH]; intros b p [Hp Hps]%Forall_cons.
  - simpl join. rewrite split_char_id by (by rewrite mem_char_lead).
    simpl. by rewrite strip_lead_only.
  - replace (lead b +:+ join (String c " ") (p :: p' :: ps))
      with ((lead b +:+ p) +:+
            String c (lead true +:+ join (String c " ") (p' :: ps)))
      by (simpl join; by rewrite !str_app_assoc).
    rewrite split_char_fresh by (by rewrite mem_char_lead).
    by rewrite fmap_cons, IH, strip_lead_only.
Qed.

End joined_char.

(** ** Texts without white space at their ends *)

(** A text between two texts that [strip] leaves alone is left alone. *)
Lemma strip_app_trimmed a m b :
  a ≠ "" → b ≠ "" → strip a = a → strip b = b →
  strip (a +:+ m +:+ b) = a +:+ m +:+ b.
Proof.
  intros Ha Hb Hsa Hsb. unfold strip, strip_with.
  destruct a as [|c a]; [done|].
  rewrite lstrip_with_id
    by (intros ?? [= <- _]; by eapply (strip_with_head isspace), Hsa).
  apply rstrip_with_id. intros t d Heq.
  destruct (str_snoc_cases b) as [->|(b'&e&->)]; [done|].
  rewrite <-!str_app_assoc in Heq. apply str_snoc_inj in Heq as [_ <-].
  by eapply (strip_with_last isspace), Hsb.
Qed.

Lemma join_nonempty sep p ps : p ≠ "" → join sep (p :: ps) ≠ "".
Proof. destruct p, ps; naive_solver. Qed.

(** Joining texts that [strip] leaves alone gives such a text. *)
Lemma strip_join_trimmed sep ps :
  Forall (λ p, p ≠ "" ∧ strip p = p) ps → strip (join sep ps) = join sep ps.
Proof.
  induction 1 as [|p ps [Hp Hsp] Hps IH]; [done|].
  destruct ps as [|p' ps]; [done|].
  change (join sep (p :: p' :: ps)) with (p +:+ sep +:+ join sep (p' :: ps)).
  apply strip_app_trimmed; [done| |done..].
  apply Forall_cons in Hps as [[? _] _]. by apply join_nonempty.
Qed.

(** A character that is neither in the separator nor in the elements is
    not in the joined text. *)
Lemma mem_char_join c sep ps :
  mem_char c sep = false → Forall (λ p, mem_char c p = false) ps →
  mem_char c (join sep ps) = false.
Proof.
  intros Hsep. induction 1 as [|p ps Hp _ IH]; [done|].
  destruct ps as [|p' ps]; [done|].
  change (join sep (p :: p' :: ps)) with (p +:+ sep +:+ join sep (p' :: ps)).
  by rewrite !mem_char_app, Hp, Hsep, IH.
Qed.

Lemma all_chars_weaken (p q : ascii → bool) s :
  (∀ c, p c = true → q c = true) → all_chars p s = true → all_chars q s = true.
Proof.
  intros Hpq. induction s as [|c s IH]; [done|]. simpl.
  intros [Hc Hs]%andb_true_iff. by rewrite (Hpq c Hc), IH.
Qed.

Lemma fmap_strip_trimmed (texts : list string) :
  Forall (λ t, strip t = t) texts → strip <$> texts = texts.
Proof. induction 1; csimpl; congruence. Qed.

Lemma forallb_Forall {A} (f : A → bool) (l : list A) :
  forallb f l = true ↔ Forall (λ x, f x = true) l.
Proof.
  induction l as [|x l IH]; simpl; [by split; [constructor|]|].
  by rewrite andb_true_iff, Forall_cons, IH.
Qed.
