(* ===== verification/Syntax.v ===== *)
(** * Syntax: the query texts the methods are written for

    The methods cut their operands out of the text of the query with
    [split] and [strip].  This file writes down the texts they are meant
    for ([SELE (R) {condition}], [PROJ (R) {a, b}], [X (A * B)],
    [U (A U B)]) as functions of their parts and proves that the cutting
    gives the parts back, when the parts contain none of the delimiters.
    The operators of Fileread.v and Newonetest.v then evaluate a whole
    line of the query file to the result the specification describes. *)

From S2P Require Import Prelude PyString PyFloat PySet Relation Algebra.
From S2P Require Import Fileread Newonetest.

(** ** The texts *)

(** Free of the delimiters of operands and payloads. *)
Definition plain (s : string) : bool :=
  negb (mem_char "(" s || mem_char ")" s || mem_char "{" s || mem_char "}" s).

Definition sele (name condition : string) : string :=
  "SELE (" +:+ name +:+ ") {" +:+ condition +:+ "}".

Definition proj (name attrs : string) : string :=
  "PROJ (" +:+ name +:+ ") {" +:+ attrs +:+ "}".

Definition cross (l r : string) : string :=
  "X (" +:+ l +:+ " * " +:+ r +:+ ")".

(** The text [union] of Fileread.py is written for: the prefix [U] of
    the dispatch, and between the last [(] and the next [)] the two
    names around a [U].  The specification writes a union between its
    operands, [A U B]; that line has no prefix and Fileread.py answers
    [None] to it. *)
Definition union_of (l r : string) : string :=
  "U (" +:+ l +:+ " U " +:+ r +:+ ")".

(** The table of an outcome of Fileread.py, when it is one. *)
Definition table_of_outcome (o : Fileread.outcome) : option table :=
  match o with
  | Fileread.Result (PyList t) => Some t
  | _ => None
  end.

(** What the batch loop records for the result of a method. *)
Definition outcome_of (r : res table) : Fileread.outcome :=
  match r with
  | Ok t => Fileread.Result (PyList t)
  | Raise e => Fileread.Error e
  end.

(** ** Cutting the operand and the payload *)

Lemma plain_spec s :
  plain s = true ↔
  mem_char "(" s = false ∧ mem_char ")" s = false ∧
  mem_char "{" s = false ∧ mem_char "}" s = false.
Proof.
  unfold plain. rewrite negb_true_iff, !orb_false_iff. tauto.
Qed.

(** The operand is the text between the last [(] and the first [)] after
    it. *)
Lemma paren_operand_text op name rest :
  mem_char "(" name = false → mem_char ")" name = false →
  mem_char "(" rest = false →
  Fileread.paren_operand (op +:+ String "(" (name +:+ String ")" rest)) =
  strip name.
Proof.
  intros Hn1 Hn2 Hr. unfold Fileread.paren_operand.
  rewrite split_char_app, last_piece_app by (by apply split_nonempty).
  rewrite last_piece_id; [|done|].
  - by rewrite split_char_fresh.
  - rewrite contains_char, mem_char_app. simpl. by rewrite Hn1, Hr.
Qed.

(** The payload is the text between the first [{] and the first [}] after
    it. *)
Lemma brace_payload_text pre payload rest :
  mem_char "{" pre = false →
  mem_char "{" payload = false → mem_char "}" payload = false →
  mem_char "{" rest = false →
  Fileread.brace_payload (pre +:+ String "{" (payload +:+ String "}" rest)) =
  Ok (strip payload).
Proof.
  intros Hpre Hp1 Hp2 Hr. unfold Fileread.brace_payload.
  rewrite split_char_fresh by done. rewrite split_char_id.
  - simpl. by rewrite split_char_fresh.
  - rewrite mem_char_app. simpl. by rewrite Hp1, Hr.
Qed.

(** ** Names *)

(** A name: not empty, free of white space, of the delimiters and of the
    characters of [forbidden] (the operator the operand stands next to). *)
Definition is_name (forbidden : string) (s : string) : bool :=
  negb (bool_decide (s = "")) &&
  all_chars (λ c, negb (isspace c || mem_char c "(){}" || mem_char c forbidden)) s.

Lemma is_name_nonempty forbidden s : is_name forbidden s = true → s ≠ "".
Proof. intros [Hne _]%andb_true_iff ->. done. Qed.

Lemma is_name_mem forbidden s c :
  is_name forbidden s = true →
  isspace c || mem_char c "(){}" || mem_char c forbidden = true →
  mem_char c s = false.
Proof.
  intros [_ Hall]%andb_true_iff Hc.
  eapply all_chars_mem; [exact Hall|]. cbv beta. by rewrite Hc.
Qed.

Lemma is_name_nonblank forbidden s :
  is_name forbidden s = true → all_chars (λ c, negb (isspace c)) s = true.
Proof.
  intros [_ Hall]%andb_true_iff. induction s as [|c t IH]; [done|].
  cbn [all_chars] in *. apply andb_true_iff in Hall as [Hc Ht].
  rewrite IH by done. rewrite !negb_orb in Hc.
  by apply andb_true_iff in Hc as [[-> _]%andb_true_iff _].
Qed.

Lemma is_name_strip forbidden s : is_name forbidden s = true → strip s = s.
Proof. intros Hs. by eapply strip_with_nonblank, is_name_nonblank. Qed.

(** The two operands of a text [l sep r] between parentheses, for a
    separator of one character [c], come out of the cutting as written. *)
Lemma binary_operands op c forbidden l r :
  is_name forbidden l = true → is_name forbidden r = true →
  mem_char c forbidden = true → isspace c = false →
  mem_char c "()" = false →
  let query := op +:+ String "(" ((l +:+ String " " (String c (String " " r)))
                                  +:+ String ")" "") in
  ∃ l' r', split (String c "") (Fileread.paren_operand query) = [l'; r'] ∧
           strip l' = l ∧ strip r' = r.
Proof.
  intros Hl Hr Hc Hsp Hpar query. exists (l +:+ " "), (String " " r).
  assert (∀ d, isspace d || mem_char d "(){}" || mem_char d forbidden = true →
               mem_char d l = false ∧ mem_char d r = false) as Hmem.
  { intros d Hd. split; by eapply is_name_mem. }
  destruct (Hmem c) as [Hcl Hcr]; [by rewrite Hc, orb_true_r|].
  destruct (Hmem "("%char eq_refl) as [Hol Hor].
  destruct (Hmem ")"%char eq_refl) as [Hcl' Hcr'].
  unfold query. rewrite paren_operand_text.
  - change (l +:+ String " " (String c (String " " r)))
      with (l +:+ String " " (String c " ") +:+ r).
    unfold strip at 1.
    rewrite (strip_with_between isspace l (String " " (String c " ")) r);
      [|by eapply is_name_nonempty|by eapply is_name_nonempty
       |by eapply is_name_nonblank|by eapply is_name_nonblank].
    change (l +:+ String " " (String c " ") +:+ r)
      with (l +:+ " " +:+ String c (String " " r)).
    split_and!.
    + rewrite <-str_app_assoc. rewrite split_char_fresh.
      * rewrite split_char_id; [done|]. simpl.
        by rewrite Hcr, bool_decide_eq_false_2 by (by intros ->).
      * rewrite mem_char_app, Hcl. simpl.
        by rewrite bool_decide_eq_false_2 by (by intros ->).
    + rewrite <-(is_name_strip _ _ Hl) at 2.
      apply (strip_with_pad isspace "" l " "); done.
    + rewrite <-(is_name_strip _ _ Hr) at 2.
      rewrite <-(str_app_nil_r r) at 1. apply (strip_with_pad isspace " " r ""); done.
  - rewrite mem_char_app, Hol. simpl. rewrite Hor.
    simpl in Hpar. apply orb_false_iff in Hpar as [Hp _].
    by rewrite bool_decide_eq_false_2
      by (intros <-; by rewrite bool_decide_eq_true_2 in Hp).
  - rewrite mem_char_app, Hcl'. simpl. rewrite Hcr'.
    simpl in Hpar. apply orb_false_iff in Hpar as [_ Hp].
    apply orb_false_iff in Hp as [Hp _].
    by rewrite bool_decide_eq_false_2
      by (intros <-; by rewrite bool_decide_eq_true_2 in Hp).
  - done.
Qed.

(** ** The texts in the shape the cutting lemmas take *)

Lemma sele_brace_form op name condition :
  op +:+ name +:+ ") {" +:+ condition +:+ "}" =
  (op +:+ name +:+ ") ") +:+ String "{" (condition +:+ String "}" "").
Proof. by rewrite !str_app_assoc. Qed.

Lemma cross_form l r :
  cross l r =
  "X " +:+ String "(" ((l +:+ String " " (String "*" (String " " r)))
                       +:+ String ")" "").
Proof. unfold cross. simpl. by rewrite !str_app_assoc. Qed.

Lemma union_of_form l r :
  union_of l r =
  "U " +:+ String "(" ((l +:+ String " " (String "U" (String " " r)))
                       +:+ String ")" "").
Proof. unfold union_of. simpl. by rewrite !str_app_assoc. Qed.

Lemma cross_strip l r : strip (cross l r) = cross l r.
Proof.
  rewrite cross_form.
  exact (strip_fixed "X" (" (" +:+ l +:+ String " " (String "*" (String " " r)))
           ")" eq_refl eq_refl).
Qed.

Lemma union_of_strip l r : strip (union_of l r) = union_of l r.
Proof.
  rewrite union_of_form.
  exact (strip_fixed "U" (" (" +:+ l +:+ String " " (String "U" (String " " r)))
           ")" eq_refl eq_refl).
Qed.

Lemma sele_strip name condition : strip (sele name condition) = sele name condition.
Proof.
  unfold sele. rewrite <-(str_app_assoc name), <-(str_app_assoc _ condition).
  exact (strip_fixed "S" ("ELE (" +:+ (name +:+ ") {") +:+ condition) "}"
           eq_refl eq_refl).
Qed.

Lemma proj_strip name attrs : strip (proj name attrs) = proj name attrs.
Proof.
  unfold proj. rewrite <-(str_app_assoc name), <-(str_app_assoc _ attrs).
  exact (strip_fixed "P" ("ROJ (" +:+ (name +:+ ") {") +:+ attrs) "}"
           eq_refl eq_refl).
Qed.

Lemma table_of_outcome_of (r : res table) :
  table_of_outcome (outcome_of r) = ok_of r.
Proof. by destruct r. Qed.

(** The cutting of [op(name) {payload}]. *)
Lemma operand_payload_cut op name payload :
  mem_char "{" op = false → plain name = true → plain payload = true →
  let query := op +:+ String "(" (name +:+ ") {" +:+ payload +:+ "}") in
  Fileread.paren_operand query = strip name ∧
  Fileread.brace_payload query = Ok (strip payload).
Proof.
  intros Hop (Hn1&Hn2&Hn3&Hn4)%plain_spec (Hp1&Hp2&Hp3&Hp4)%plain_spec query.
  split.
  - apply (paren_operand_text op name (" {" +:+ payload +:+ "}"));
      [done..|]. by rewrite !mem_char_app, Hp1.
  - unfold query.
    change (op +:+ String "(" (name +:+ ") {" +:+ payload +:+ "}"))
      with (op +:+ "(" +:+ name +:+ ") {" +:+ payload +:+ "}").
    rewrite <-(str_app_assoc op), sele_brace_form.
    apply brace_payload_text; [|done..].
    by rewrite !mem_char_app, Hop, Hn3.
Qed.

(** ** Lines of the query file *)

Section lines.
Context `{FloatOps} `{SetOrder row}.
Implicit Types (st : store) (A B R : relation).

(** The dispatch on the prefix: what the batch loop records for a text
    is the outcome of the method of its operator. *)

Lemma sele_dispatch fuel st name payload :
  Fileread.process_query fuel st (sele name payload) =
  Done (Ok (sele name payload,
            outcome_of (Fileread.selection st (sele name payload)))).
Proof.
  unfold Fileread.process_query. rewrite sele_strip.
  rewrite (proj2 (startswith_spec (sele name payload) "SELE")) by (by eexists).
  by destruct (Fileread.selection _ _).
Qed.

Lemma proj_dispatch fuel st name attrs :
  Fileread.process_query fuel st (proj name attrs) =
  Done (Ok (proj name attrs,
            outcome_of (Fileread.projection st (proj name attrs)))).
Proof.
  unfold Fileread.process_query. rewrite proj_strip.
  rewrite (proj2 (startswith_spec (proj name attrs) "PROJ")) by (by eexists).
  change (proj name attrs)
    with (String "P" ("ROJ (" +:+ name +:+ ") {" +:+ attrs +:+ "}")) at 1.
  rewrite startswith_head_ne by done.
  by destruct (Fileread.projection _ _).
Qed.

Lemma cross_dispatch fuel st l r :
  Fileread.process_query fuel st (cross l r) =
  Done (Ok (cross l r, outcome_of (Fileread.crossproduct st (cross l r)))).
Proof.
  unfold Fileread.process_query. rewrite cross_strip.
  destruct (Fileread.crossproduct st (cross l r)) as [t|e];
    change (cross l r) with (String "X" (" (" +:+ l +:+ " * " +:+ r +:+ ")"));
    rewrite !startswith_head_ne by done; by rewrite startswith_head_eq.
Qed.

Lemma union_dispatch fuel st l r :
  Fileread.process_query fuel st (union_of l r) =
  Done (Ok (union_of l r, outcome_of (Fileread.union st (union_of l r)))).
Proof.
  unfold Fileread.process_query. rewrite union_of_strip.
  destruct (Fileread.union st (union_of l r)) as [t|e];
    change (union_of l r) with (String "U" (" (" +:+ l +:+ " U " +:+ r +:+ ")"));
    rewrite !startswith_head_ne by done; by rewrite startswith_head_eq.
Qed.

(** Cutting gives back what the text was written from: the operand
    and the payload of [SELE (name) {payload}] and of
    [PROJ (name) {payload}] are the stripped name and the stripped
    payload, when neither has a parenthesis or a brace. *)
Lemma sele_parse name payload :
  plain name = true → plain payload = true →
  Fileread.paren_operand (sele name payload) = strip name ∧
  Fileread.brace_payload (sele name payload) = Ok (strip payload) ∧
  Fileread.paren_operand (proj name payload) = strip name ∧
  Fileread.brace_payload (proj name payload) = Ok (strip payload).
Proof.
  intros Hname Hpayload.
  destruct (operand_payload_cut "SELE " name payload eq_refl Hname Hpayload).
  destruct (operand_payload_cut "PROJ " name payload eq_refl Hname Hpayload).
  done.
Qed.

(** The line [X (l * r)] of two stored relations is recorded by
    Fileread.py with the table of their cross product: the header of the
    left one followed by the header of the right one, then the product
    rows. *)
Lemma cross_line fuel st l r A B :
  is_name "*" l = true → is_name "*" r = true →
  lookup st l = Some A → lookup st r = Some B →
  Fileread.process_query fuel st (cross l r) =
  Done (Ok (cross l r, Fileread.Result (PyList (table_of (cross_op A B))))).
Proof.
  intros Hl Hr HA HB.
  destruct (binary_operands "X " "*" "*" l r Hl Hr eq_refl eq_refl eq_refl)
    as (l'&r'&Hs&Hl'&Hr').
  rewrite <-cross_form in Hs. rewrite cross_dispatch.
  rewrite (proj2 (Fileread.crossproduct_Ok st (cross l r)
                    (table_of (cross_op A B)))); [done|].
  exists l', r', A, B. by rewrite Hl', Hr'.
Qed.

(** The line [U (l U r)] of two stored relations with the same header
    is recorded by Fileread.py with that header and the rows of both
    relations without duplicates. *)
Lemma union_line fuel st l r A B :
  is_name "U" l = true → is_name "U" r = true →
  lookup st l = Some A → lookup st r = Some B →
  attributes A = attributes B →
  Fileread.process_query fuel st (union_of l r) =
  Done (Ok (union_of l r,
            Fileread.Result
              (PyList (attributes A :: set_list (data A ++ data B))))).
Proof.
  intros Hl Hr HA HB Hattr.
  destruct (binary_operands "U " "U" "U" l r Hl Hr eq_refl eq_refl eq_refl)
    as (l'&r'&Hs&Hl'&Hr').
  rewrite <-union_of_form in Hs. rewrite union_dispatch.
  rewrite (proj2 (Fileread.union_Ok st (union_of l r)
                    (attributes A :: set_list (data A ++ data B)))); [done|].
  exists l', r', A, B, (Relation (attributes A) (set_list (data A ++ data B))).
  rewrite Hl', Hr'. split_and!; [done..|by apply union_op_Ok|done].
Qed.

(** The line [SELE (name) {payload}] on a stored relation, when the
    conditions of the payload evaluate on every row, is recorded by
    Fileread.py with the header of the relation and the rows on which
    all conditions hold, in their order. *)
Lemma sele_line fuel st name payload R :
  is_name "" name = true → plain payload = true →
  lookup st name = Some R →
  (∀ x, x ∈ data R →
     ∃ b, Fileread.evaluate_conditions st x
            (Fileread.parse_conditions (strip payload)) = Ok b) →
  Fileread.process_query fuel st (sele name payload) =
  Done (Ok (sele name payload,
            Fileread.Result
              (PyList (attributes R :: Fileread.selected st (strip payload) R)))).
Proof.
  intros Hname Hpayload HR Hrows.
  assert (plain name = true) as Hplain.
  { apply plain_spec. split_and!; by eapply is_name_mem. }
  destruct (operand_payload_cut "SELE " name payload eq_refl Hplain Hpayload)
    as [Hop Hbp].
  change ("SELE " +:+ String "(" (name +:+ ") {" +:+ payload +:+ "}"))
    with (sele name payload) in Hop, Hbp.
  rewrite (is_name_strip _ _ Hname) in Hop. rewrite sele_dispatch.
  rewrite (proj2 (Fileread.selection_Ok st (sele name payload)
    (attributes R :: Fileread.selected st (strip payload) R))); [done|].
  exists (strip payload), R. by rewrite Hop.
Qed.

End lines.

(** ** The properties on the database [company] *)

Lemma sele_parse_witness :
  Fileread.paren_operand (sele " EMP " "salary > '60'") = strip " EMP " ∧
  Fileread.brace_payload (sele " EMP " "salary > '60'") = Ok (strip "salary > '60'") ∧
  Fileread.paren_operand (proj " EMP " "salary > '60'") = strip " EMP " ∧
  Fileread.brace_payload (proj " EMP " "salary > '60'") = Ok (strip "salary > '60'").
Proof. apply (sele_parse " EMP " "salary > '60'"); reflexivity. Defined.

Lemma cross_line_witness :
  Fileread.process_query 0 company (cross "EMP" "DEPT") =
  Done (Ok (cross "EMP" "DEPT",
            Fileread.Result (PyList (table_of (cross_op emp dept))))).
Proof. apply (cross_line 0 company "EMP" "DEPT" emp dept); reflexivity. Defined.

Lemma union_line_witness :
  Fileread.process_query 0 company (union_of "EMP" "EMP") =
  Done (Ok (union_of "EMP" "EMP",
            Fileread.Result
              (PyList (attributes emp :: set_list (data emp ++ data emp))))).
Proof. apply (union_line 0 company "EMP" "EMP" emp emp); reflexivity. Defined.

Lemma sele_line_witness :
  Fileread.process_query 0 company (sele "EMP" "salary > '60'") =
  Done (Ok (sele "EMP" "salary > '60'",
            Fileread.Result
              (PyList (attributes emp ::
                       Fileread.selected company (strip "salary > '60'") emp)))).
Proof.
  apply (sele_line 0 company "EMP" "salary > '60'" emp); [reflexivity..|].
  intros x Hx. apply (bool_decide_unpack _). revert x Hx.
  apply Forall_forall, (bool_decide_unpack _). reflexivity.
Defined.
