(* ===== verification/Expr.v ===== *)
(** * Expr: the query expressions of the specification and their texts

    The specification describes a query as an expression tree (Select,
    Project, CrossProduct, Union, Difference over references to stored
    relations) and gives each operator a meaning on relations.  The
    sources have no such tree: they cut the text of a line.  This file
    defines the tree, its evaluator [eval] on the operators of Algebra.v,
    and the text [text_of] of an expression in the notation the methods
    of Fileread.py are written for.  Conditions and attribute lists
    written as text come back from the parsers of the code (round trips),
    and on the flat expressions, an operator over stored relations or a
    projection over a product, the line of the query file is recorded by
    Fileread.py with the table of the relation [eval] gives, or with no
    table when [eval] fails. *)

From S2P Require Import Prelude PyString Words PyFloat PySet Relation Algebra.
From S2P Require Import Fileread Newonetest Syntax.

(** ** Expressions *)

(** The combinator written between the predicates of a condition. *)
Inductive combinator : Type := CAnd | COr.

Record condition : Type := Condition {
  cond_comb : combinator;
  cond_preds : list predicate;
}.

Inductive expr : Type :=
| RelationRef (name : string)
| Select (source : expr) (c : condition)
| Project (source : expr) (attrs : list string)
| CrossProduct (left right : expr)
| Union (left right : expr)
| Difference (left right : expr).

Section eval.
Context `{FloatOps} `{SetOrder row}.

(** The evaluator: every predicate of a condition must hold, whatever
    combinator was written. *)
Fixpoint eval (st : store) (e : expr) : spec relation :=
  match e with
  | RelationRef name => (lookup st name ?! UnknownRelation)%py
  | Select source c => R ← eval st source; select_op R (cond_preds c)
  | Project source attrs => R ← eval st source; project_op R attrs
  | CrossProduct l r => A ← eval st l; B ← eval st r; Ok (cross_op A B)
  | Union l r => A ← eval st l; B ← eval st r; union_op A B
  | Difference l r => A ← eval st l; B ← eval st r; diff_op A B
  end.

End eval.

(** ** Texts *)

Definition op_text (op : comparison_op) : string :=
  match op with OpGt => ">" | OpLt => "<" | OpEq => "=" end.

(** [attr op 'literal']. *)
Definition pred_text (p : predicate) : string :=
  pred_attr p +:+ " " +:+ op_text (pred_op p) +:+ " '" +:+ pred_lit p +:+ "'".

Definition comb_text (c : combinator) : string :=
  match c with CAnd => "AND" | COr => "OR" end.

(** [p1 AND p2 ...] or [p1 OR p2 ...]. *)
Definition cond_text (c : condition) : string :=
  join (" " +:+ comb_text (cond_comb c) +:+ " ") (pred_text <$> cond_preds c).

(** [a, b, c]. *)
Definition attrs_text (attrs : list string) : string := join ", " attrs.

Definition difference_of (l r : string) : string :=
  "- (" +:+ l +:+ ") - (" +:+ r +:+ ")".

(** The text of an expression; an operand that is an expression stands
    between the parentheses of its operator. *)
Fixpoint text_of (e : expr) : string :=
  match e with
  | RelationRef name => name
  | Select source c => sele (text_of source) (cond_text c)
  | Project source attrs => proj (text_of source) (attrs_text attrs)
  | CrossProduct l r => cross (text_of l) (text_of r)
  | Union l r => union_of (text_of l) (text_of r)
  | Difference l r => difference_of (text_of l) (text_of r)
  end.

(** ** Well-written parts *)

(** An attribute or a literal of a condition: free of white space, of
    the delimiters, of the quote and of the two combinators. *)
Definition token (s : string) : bool :=
  all_chars (λ c, negb (isspace c || mem_char c "(){}'")) s &&
  negb (contains "AND" s) && negb (contains "OR" s).

Definition pred_ok (p : predicate) : bool :=
  negb (bool_decide (pred_attr p = "")) && token (pred_attr p) &&
  token (pred_lit p).

Definition cond_ok (c : condition) : bool :=
  negb (bool_decide (cond_preds c = [])) && forallb pred_ok (cond_preds c).

Definition attrs_ok (attrs : list string) : bool :=
  negb (bool_decide (attrs = [])) && forallb (is_name ",") attrs.

(** The expressions Fileread.py is written for: one operator over stored
    relations, or a projection over the product of two, with
    well-written names, conditions and attribute lists. *)
Definition flat (e : expr) : bool :=
  match e with
  | Select (RelationRef name) c => is_name "" name && cond_ok c
  | Project (RelationRef name) attrs => is_name "*" name && attrs_ok attrs
  | Project (CrossProduct (RelationRef l) (RelationRef r)) attrs =>
      is_name "*" l && is_name "*" r && attrs_ok attrs
  | CrossProduct (RelationRef l) (RelationRef r) =>
      is_name "*" l && is_name "*" r
  | Union (RelationRef l) (RelationRef r) => is_name "U" l && is_name "U" r
  | _ => false
  end.

(** The expressions newonetest.py is written for: a selection by one
    predicate or a projection, over a stored relation, whose text has
    neither [U] nor [-] (the evaluator looks for the two characters before
    it looks at the prefix). *)
Definition simple (e : expr) : bool :=
  flat e &&
  match e with
  | Select _ c => bool_decide (length (cond_preds c) = 1)
  | Project (RelationRef _) _ => true
  | _ => false
  end &&
  negb (contains "U" (text_of e)) && negb (contains "-" (text_of e)).

(** ** Tokens *)

Lemma token_spec s :
  token s = true ↔
  all_chars (λ c, negb (isspace c || mem_char c "(){}'")) s = true ∧
  contains "AND" s = false ∧ contains "OR" s = false.
Proof. unfold token. rewrite !andb_true_iff, !negb_true_iff. tauto. Qed.

Lemma token_mem s c :
  token s = true → isspace c || mem_char c "(){}'" = true → mem_char c s = false.
Proof.
  intros [Hs _]%token_spec Hc. eapply all_chars_mem; [done|].
  cbv beta. by rewrite Hc.
Qed.

Lemma token_nonblank s :
  token s = true → all_chars (λ c, negb (isspace c)) s = true.
Proof.
  intros [Hs _]%token_spec. revert Hs.
  induction s as [|c s IH]; [done|]. simpl.
  intros [Hc Hs]%andb_true_iff. rewrite IH by done.
  by destruct (isspace c).
Qed.

Lemma token_word s : s ≠ "" → token s = true → word s = true.
Proof.
  intros Hs Ht. unfold word. rewrite token_nonblank by done.
  by rewrite bool_decide_eq_false_2.
Qed.

Lemma token_plain s : token s = true → plain s = true.
Proof. intros Ht. apply plain_spec. split_and!; by eapply token_mem. Qed.

(** ** The text of a predicate *)

Section pred_text.
Context (p : predicate) (Hp : pred_ok p = true).

Lemma pred_ok_spec :
  pred_attr p ≠ "" ∧ token (pred_attr p) = true ∧ token (pred_lit p) = true.
Proof using Hp.
  unfold pred_ok in Hp. apply andb_true_iff in Hp as [[Hne ?]%andb_true_iff ?].
  split_and!; [|done..]. by apply negb_true_iff, bool_decide_eq_false in Hne.
Qed.

Lemma quoted_word : word ("'" +:+ pred_lit p +:+ "'") = true.
Proof using Hp.
  destruct pred_ok_spec as (_&_&Hl%token_nonblank).
  change (word (String "'" (pred_lit p +:+ "'")) = true).
  by rewrite word_cons, all_chars_app, Hl.
Qed.

(** The three tokens of the condition come back from [split()]. *)
Lemma pred_text_words :
  split_ws (pred_text p) =
  [pred_attr p; op_text (pred_op p); "'" +:+ pred_lit p +:+ "'"].
Proof using Hp.
  destruct pred_ok_spec as (Hne&Ha&_).
  apply (split_ws_three (pred_attr p) (op_text (pred_op p))
           ("'" +:+ pred_lit p +:+ "'"));
    [by apply token_word|by destruct (pred_op p)|apply quoted_word].
Qed.

(** The literal comes back from [strip("'")]. *)
Lemma quoted_strip : strip_chars "'" ("'" +:+ pred_lit p +:+ "'") = pred_lit p.
Proof using Hp.
  destruct pred_ok_spec as (_&_&[Hl _]%token_spec).
  unfold strip_chars. rewrite strip_with_pad by done.
  apply strip_with_nonblank. eapply all_chars_weaken; [|exact Hl].
  intros c Hc. apply negb_true_iff. apply negb_true_iff in Hc.
  apply orb_false_iff in Hc as [_ Hc]. simpl in *.
  by do 4 (apply orb_false_iff in Hc as [_ Hc]).
Qed.

(** Round trip: the condition parser of the specification reads the
    predicate back from its text. *)
Lemma predicate_of_text : predicate_of (pred_text p) = Ok p.
Proof using Hp.
  apply predicate_of_Ok.
  exists (pred_attr p), (op_text (pred_op p)), ("'" +:+ pred_lit p +:+ "'"),
    (pred_op p).
  split_and!; [apply pred_text_words|by destruct (pred_op p)|].
  rewrite quoted_strip. by destruct p.
Qed.

Lemma pred_text_nonempty : pred_text p ≠ "".
Proof using Hp.
  destruct pred_ok_spec as (Hne&_). unfold pred_text.
  by destruct (pred_attr p).
Qed.

Lemma pred_text_strip : strip (pred_text p) = pred_text p.
Proof using Hp.
  destruct pred_ok_spec as (Hne&Ha&_).
  replace (pred_text p)
    with (pred_attr p +:+ (" " +:+ op_text (pred_op p) +:+ " '" +:+ pred_lit p)
          +:+ "'")
    by (unfold pred_text; by rewrite !str_app_assoc).
  apply strip_app_trimmed; [done..|by apply word_strip, token_word|done].
Qed.

(** A separator without space and quote occurs in the text only inside
    the attribute, the operator or the literal. *)
Lemma pred_text_contains sep :
  sep ≠ "" → mem_char " " sep = false → mem_char "'" sep = false →
  contains sep (pred_text p) =
  contains sep (pred_attr p) || contains sep (op_text (pred_op p)) ||
  contains sep (pred_lit p).
Proof.
  intros Hsep Hsp Hq.
  change (pred_text p)
    with (pred_attr p +:+ String " " (op_text (pred_op p) +:+
            String " " ("" +:+ String "'" (pred_lit p +:+ String "'" "")))).
  rewrite !(contains_app_foreign sep " " Hsp) by done.
  rewrite !(contains_app_foreign sep "'" Hq) by done.
  rewrite contains_nil. assert (starts sep "" = false) as -> by (by destruct sep).
  by rewrite !orb_false_r, orb_assoc.
Qed.

Lemma pred_text_no_comb c : contains (comb_text c) (pred_text p) = false.
Proof using Hp.
  destruct pred_ok_spec as (_&(_&Ha1&Ha2)%token_spec&(_&Hl1&Hl2)%token_spec).
  rewrite pred_text_contains by (by destruct c).
  destruct c; simpl comb_text; rewrite ?Ha1, ?Ha2, ?Hl1, ?Hl2;
    by destruct (pred_op p).
Qed.

Lemma pred_text_mem c :
  isspace c = false → mem_char c "(){}" = true → mem_char c (pred_text p) = false.
Proof using Hp.
  intros Hsp Hc. destruct pred_ok_spec as (_&Ha&Hl).
  assert (mem_char c "(){}'" = true) as Hc'.
  { simpl in *. repeat (apply orb_true_iff in Hc as [->|Hc]);
      rewrite ?orb_true_r; done. }
  unfold pred_text. rewrite !mem_char_app.
  rewrite (token_mem _ c Ha), (token_mem _ c Hl) by (by rewrite Hc', orb_true_r).
  simpl in Hc |- *. destruct (pred_op p); simpl;
    repeat (apply orb_true_iff in Hc as [Hc|Hc];
            [apply bool_decide_eq_true in Hc as ->; done|]); done.
Qed.

End pred_text.

(** ** The text of a condition *)

Section cond_text.
Context (c : condition) (Hc : cond_ok c = true).

Lemma cond_ok_spec :
  cond_preds c ≠ [] ∧ Forall (λ p, pred_ok p = true) (cond_preds c).
Proof using Hc.
  unfold cond_ok in Hc. apply andb_true_iff in Hc as [Hne Hall].
  split; [|by apply forallb_Forall].
  by apply negb_true_iff, bool_decide_eq_false in Hne.
Qed.

Lemma pred_texts_trimmed :
  Forall (λ t, t ≠ "" ∧ strip t = t) (pred_text <$> cond_preds c).
Proof using Hc.
  destruct cond_ok_spec as [_ Hall]. apply Forall_fmap.
  eapply Forall_impl; [done|]. intros p Hp.
  split; [by apply pred_text_nonempty|by apply pred_text_strip].
Qed.

Lemma pred_texts_no_comb comb :
  Forall (λ t, contains (comb_text comb) t = false) (pred_text <$> cond_preds c).
Proof using Hc.
  destruct cond_ok_spec as [_ Hall]. apply Forall_fmap.
  eapply Forall_impl; [done|]. intros p Hp. by apply pred_text_no_comb.
Qed.

(** Round trip: [parse_conditions] cuts the text of a condition into
    the texts of its predicates, whichever combinator joins them. *)
Lemma parse_conditions_text :
  Fileread.parse_conditions (cond_text c) = pred_text <$> cond_preds c.
Proof using Hc.
  pose proof pred_texts_trimmed as Htrim.
  pose proof (pred_texts_no_comb CAnd) as Hand.
  pose proof (pred_texts_no_comb COr) as Hor.
  destruct cond_ok_spec as [Hne _]. unfold cond_text, Fileread.parse_conditions.
  destruct (pred_text <$> cond_preds c) as [|t [|t' ts]] eqn:Hts;
    [by destruct (cond_preds c)|..].
  - apply Forall_cons in Hand as [Hand _], Hor as [Hor _]. simpl in *.
    by rewrite Hand, Hor.
  - trans (strip <$> t :: t' :: ts);
      [|apply fmap_strip_trimmed; eapply Forall_impl; [exact Htrim|];
        by intros ? [_ ?]].
    destruct (cond_comb c); simpl comb_text in *.
    + rewrite contains_join_words.
      exact (split_join_words "AND" ltac:(done) eq_refl false t (t' :: ts) Hand).
    + rewrite (contains_join_foreign "AND" ltac:(done) eq_refl "OR") by done.
      rewrite contains_join_words.
      exact (split_join_words "OR" ltac:(done) eq_refl false t (t' :: ts) Hor).
Qed.

(** Every piece of the text is read back as its predicate. *)
Lemma predicates_of_text :
  map_res predicate_of (Fileread.parse_conditions (cond_text c)) =
  Ok (cond_preds c).
Proof using Hc.
  rewrite parse_conditions_text. destruct cond_ok_spec as [_ Hall].
  apply map_res_Ok. apply Forall2_fmap_l, Forall_Forall2_diag.
  eapply Forall_impl; [done|]. intros p Hp. by apply predicate_of_text.
Qed.

Lemma cond_text_strip : strip (cond_text c) = cond_text c.
Proof using Hc. apply strip_join_trimmed, pred_texts_trimmed. Qed.

Lemma cond_text_plain : plain (cond_text c) = true.
Proof using Hc.
  destruct cond_ok_spec as [_ Hall].
  apply plain_spec. split_and!; (apply mem_char_join; [by destruct (cond_comb c)|]);
    apply Forall_fmap; (eapply Forall_impl; [exact Hall|]);
    intros p Hp; by apply pred_text_mem.
Qed.

End cond_text.

(** C33: round trip of conditions: the text of a well-written condition
    is cut by [parse_conditions] into the texts of its predicates,
    whether [AND] or [OR] joins them, and each of these is read back by
    [split()] and [strip("'")] as its attribute, its operator and its
    literal, that is, by the condition parser of the specification as
    the predicate it was written from. *)
Theorem condition_roundtrip c :
  cond_ok c = true →
  Fileread.parse_conditions (cond_text c) = pred_text <$> cond_preds c ∧
  Forall (λ p,
    split_ws (pred_text p) =
      [pred_attr p; op_text (pred_op p); "'" +:+ pred_lit p +:+ "'"] ∧
    strip_chars "'" ("'" +:+ pred_lit p +:+ "'") = pred_lit p ∧
    predicate_of (pred_text p) = Ok p) (cond_preds c).
Proof.
  intros Hc. split; [by apply parse_conditions_text|].
  destruct (cond_ok_spec c Hc) as [_ Hall].
  eapply Forall_impl; [exact Hall|]. intros p Hp.
  split_and!; [by apply pred_text_words|by apply quoted_strip
              |by apply predicate_of_text].
Qed.

(** ** The text of an attribute list *)

Section attrs_text.
Context (attrs : list string) (Hattrs : attrs_ok attrs = true).

Lemma attrs_ok_spec :
  attrs ≠ [] ∧ Forall (λ a, is_name "," a = true) attrs.
Proof using Hattrs.
  unfold attrs_ok in Hattrs. apply andb_true_iff in Hattrs as [Hne Hall].
  split; [|by apply forallb_Forall].
  by apply negb_true_iff, bool_decide_eq_false in Hne.
Qed.

(** Round trip: the attributes come back from [split(',')] and
    [strip]. *)
Lemma split_attrs_text : strip <$> split "," (attrs_text attrs) = attrs.
Proof using Hattrs.
  destruct attrs_ok_spec as [Hne Hall]. unfold attrs_text.
  destruct attrs as [|a l]; [done|].
  trans (strip <$> a :: l).
  - apply (split_join_char "," ltac:(done) false a l).
    eapply Forall_impl; [exact Hall|]. intros b Hb.
    exact (is_name_mem "," b "," Hb eq_refl).
  - apply fmap_strip_trimmed. eapply Forall_impl; [exact Hall|].
    intros ?. apply is_name_strip.
Qed.

Lemma attrs_text_strip : strip (attrs_text attrs) = attrs_text attrs.
Proof using Hattrs.
  destruct attrs_ok_spec as [_ Hall]. apply strip_join_trimmed.
  eapply Forall_impl; [exact Hall|]. intros a Ha.
  split; [exact (is_name_nonempty _ _ Ha)|exact (is_name_strip _ _ Ha)].
Qed.

Lemma attrs_text_plain : plain (attrs_text attrs) = true.
Proof using Hattrs.
  destruct attrs_ok_spec as [_ Hall].
  apply plain_spec. split_and!; (apply mem_char_join; [done|]);
    (eapply Forall_impl; [exact Hall|]); intros a Ha;
    by apply (is_name_mem _ _ _ Ha).
Qed.

End attrs_text.

(** ** The methods on the texts *)

(** The operand [l * r] of a product. *)
Definition star (l r : string) : string := l +:+ " * " +:+ r.

Section star.
Context (l r : string) (Hl : is_name "*" l = true) (Hr : is_name "*" r = true).

Lemma star_strip : strip (star l r) = star l r.
Proof using Hl Hr.
  apply strip_app_trimmed;
    [exact (is_name_nonempty _ _ Hl)|exact (is_name_nonempty _ _ Hr)
    |exact (is_name_strip _ _ Hl)|exact (is_name_strip _ _ Hr)].
Qed.

Lemma star_mem c : mem_char c "(){}" = true → mem_char c (star l r) = false.
Proof using Hl Hr.
  intros Hc. unfold star. rewrite !mem_char_app.
  rewrite (is_name_mem _ _ c Hl), (is_name_mem _ _ c Hr)
    by (by rewrite Hc, orb_true_r).
  simpl in Hc |- *.
  repeat (apply orb_true_iff in Hc as [Hc|Hc];
          [apply bool_decide_eq_true in Hc as ->; done|]). done.
Qed.

Lemma star_contains : contains "*" (star l r) = true.
Proof.
  replace (star l r) with ((l +:+ " ") +:+ "*" +:+ " " +:+ r)
    by (unfold star; by rewrite !str_app_assoc).
  apply contains_app.
Qed.

(** The operand of a product, alone or under a projection. *)
Lemma paren_operand_cross : Fileread.paren_operand (cross l r) = star l r.
Proof using Hl Hr.
  rewrite <-star_strip.
  replace (cross l r) with ("X " +:+ String "(" (star l r +:+ String ")" ""))
    by (unfold cross, star; simpl; by rewrite !str_app_assoc).
  apply paren_operand_text; [by apply star_mem..|done].
Qed.

Lemma paren_operand_proj_cross attrs :
  plain attrs = true →
  Fileread.paren_operand (proj (cross l r) attrs) = star l r.
Proof using Hl Hr.
  intros (Ha&_)%plain_spec. rewrite <-star_strip.
  replace (proj (cross l r) attrs)
    with ("PROJ (X " +:+ String "(" (star l r +:+ String ")" (") {" +:+ attrs +:+ "}")))
    by (unfold proj, cross, star; simpl; by rewrite !str_app_assoc).
  apply paren_operand_text; [by apply star_mem..|].
  by rewrite !mem_char_app, Ha.
Qed.

Lemma brace_payload_proj_cross attrs :
  plain attrs = true →
  Fileread.brace_payload (proj (cross l r) attrs) = Ok (strip attrs).
Proof using Hl Hr.
  intros (_&_&Ha1&Ha2)%plain_spec.
  replace (proj (cross l r) attrs)
    with (("PROJ (X (" +:+ star l r +:+ ")) ") +:+
          String "{" (attrs +:+ String "}" ""))
    by (unfold proj, cross, star; simpl; by rewrite !str_app_assoc).
  apply brace_payload_text; [|done..].
  by rewrite !mem_char_app, star_mem.
Qed.

End star.

(** The five shapes of a flat expression. *)
Lemma flat_inv e :
  flat e = true →
  (∃ name c, e = Select (RelationRef name) c ∧
             is_name "" name = true ∧ cond_ok c = true) ∨
  (∃ name attrs, e = Project (RelationRef name) attrs ∧
                 is_name "*" name = true ∧ attrs_ok attrs = true) ∨
  (∃ l r attrs, e = Project (CrossProduct (RelationRef l) (RelationRef r)) attrs ∧
                is_name "*" l = true ∧ is_name "*" r = true ∧
                attrs_ok attrs = true) ∨
  (∃ l r, e = CrossProduct (RelationRef l) (RelationRef r) ∧
          is_name "*" l = true ∧ is_name "*" r = true) ∨
  (∃ l r, e = Union (RelationRef l) (RelationRef r) ∧
          is_name "U" l = true ∧ is_name "U" r = true).
Proof.
  destruct e as [?|[name| | | | |] c|[name| | |[l| | | | |] [r| | | | |]| |] attrs
                |[l| | | | |] [r| | | | |]|[l| | | | |] [r| | | | |]|];
    try done; cbn [flat].
  - intros [??]%andb_true_iff. left. by eauto.
  - intros [??]%andb_true_iff. right; left. by eauto.
  - intros [[??]%andb_true_iff ?]%andb_true_iff. do 2 right; left. by eauto 7.
  - intros [??]%andb_true_iff. do 3 right; left. by eauto.
  - intros [??]%andb_true_iff. do 4 right. by eauto.
Qed.

(** ** The lines of the query file *)

(** The conditions under which Fileread.py resolves the attributes of a
    selection as the specification does: the relation has a row, and
    every attribute of the condition is found by [get_attribute_index]
    in the column it has in the relation. *)
Definition resolves (st : store) (e : expr) : Prop :=
  match e with
  | Select (RelationRef name) c =>
      ∀ R, lookup st name = Some R →
           data R ≠ [] ∧
           Forall (λ p, Fileread.find_attribute (values st) (pred_attr p) =
                        index_of (pred_attr p) (attributes R)) (cond_preds c)
  | _ => True
  end.

Section lines.
Context `{FloatOps} `{SetOrder row}.
Implicit Types (st : store) (fuel : nat) (l r name : string).

(** *** The binary operators on their operands *)

(** [crossproduct] on any text whose operand is [l * r]. *)
Lemma crossproduct_star st q l r :
  is_name "*" l = true → is_name "*" r = true →
  Fileread.paren_operand q = star l r →
  Fileread.crossproduct st q =
  A ← Fileread.get_relation_data st l;
  B ← Fileread.get_relation_data st r;
  Ok (table_of (cross_op A B)).
Proof.
  intros Hl Hr Hq.
  destruct (binary_operands "X " "*" "*" l r Hl Hr eq_refl eq_refl eq_refl)
    as (l'&r'&Hs&Hl'&Hr').
  rewrite <-cross_form, paren_operand_cross in Hs by done.
  unfold Fileread.crossproduct. rewrite Hq, Hs, Hl', Hr'.
  by destruct (Fileread.get_relation_data st l),
    (Fileread.get_relation_data st r).
Qed.

Lemma union_union_of st l r :
  is_name "U" l = true → is_name "U" r = true →
  Fileread.union st (union_of l r) =
  A ← Fileread.get_relation_data st l;
  B ← Fileread.get_relation_data st r;
  if bool_decide (attributes A ≠ attributes B)
  then Raise (ValueError
         "Union requires both relations to have the same attributes.")
  else Ok (attributes A :: set_list (data A ++ data B)).
Proof.
  intros Hl Hr.
  destruct (binary_operands "U " "U" "U" l r Hl Hr eq_refl eq_refl eq_refl)
    as (l'&r'&Hs&Hl'&Hr').
  rewrite <-union_of_form in Hs.
  unfold Fileread.union. rewrite Hs, Hl', Hr'.
  by destruct (Fileread.get_relation_data st l),
    (Fileread.get_relation_data st r).
Qed.

(** *** Each operator against the evaluator *)

Lemma cross_refines st l r :
  is_name "*" l = true → is_name "*" r = true →
  ok_of (Fileread.crossproduct st (cross l r)) =
  ok_of (table_of <$> eval st (CrossProduct (RelationRef l) (RelationRef r))).
Proof.
  intros Hl Hr. rewrite (crossproduct_star st _ l r Hl Hr)
    by (by apply paren_operand_cross).
  unfold Fileread.get_relation_data. simpl.
  by destruct (lookup st l), (lookup st r).
Qed.

Lemma union_refines st l r :
  is_name "U" l = true → is_name "U" r = true →
  ok_of (Fileread.union st (union_of l r)) =
  ok_of (table_of <$> eval st (Union (RelationRef l) (RelationRef r))).
Proof.
  intros Hl Hr. rewrite union_union_of by done.
  unfold Fileread.get_relation_data. simpl.
  destruct (lookup st l) as [A|], (lookup st r) as [B|]; simpl; try done.
  unfold union_op. by case_bool_decide.
Qed.

Lemma select_refines st name c :
  is_name "" name = true → cond_ok c = true →
  resolves st (Select (RelationRef name) c) →
  ok_of (Fileread.selection st (sele name (cond_text c))) =
  ok_of (table_of <$> eval st (Select (RelationRef name) c)).
Proof.
  intros Hname Hc Hres.
  assert (plain name = true) as Hplain.
  { apply plain_spec. split_and!; by apply (is_name_mem _ _ _ Hname). }
  destruct (operand_payload_cut "SELE " name (cond_text c) eq_refl Hplain
              (cond_text_plain c Hc)) as [Hop Hbp].
  change ("SELE " +:+ String "(" (name +:+ ") {" +:+ cond_text c +:+ "}"))
    with (sele name (cond_text c)) in Hop, Hbp.
  rewrite (is_name_strip _ _ Hname) in Hop.
  rewrite cond_text_strip in Hbp by done. simpl.
  destruct (lookup st name) as [R|] eqn:HR; simpl.
  - destruct (Hres R HR) as [Hne Hattrs].
    apply (Fileread.selection_ok_of st _ (cond_text c) R); rewrite ?Hop;
      [done..|by apply predicates_of_text|done|done].
  - rewrite (Fileread.selection_unknown_relation st _ (cond_text c));
      by rewrite ?Hop.
Qed.

(** The projection of a source that is known. *)
Lemma projection_of_source st q attrs ra d :
  attrs_ok attrs = true →
  Fileread.brace_payload q = Ok (attrs_text attrs) →
  Fileread.projection_source st (Fileread.paren_operand q) = Ok (ra, d) →
  ok_of (Fileread.projection st q) =
  ok_of (table_of <$> project_op (Relation ra d) attrs).
Proof.
  intros Hattrs Hbp Hsrc.
  rewrite (Fileread.projection_ok_of st q _ ra d Hbp Hsrc).
  by rewrite split_attrs_text.
Qed.

Lemma projection_no_source st q payload e :
  Fileread.brace_payload q = Ok payload →
  Fileread.projection_source st (Fileread.paren_operand q) = Raise e →
  Fileread.projection st q = Raise e.
Proof. unfold Fileread.projection. by intros -> ->. Qed.

Lemma project_refines st name attrs :
  is_name "*" name = true → attrs_ok attrs = true →
  ok_of (Fileread.projection st (proj name (attrs_text attrs))) =
  ok_of (table_of <$> eval st (Project (RelationRef name) attrs)).
Proof.
  intros Hname Hattrs.
  assert (plain name = true) as Hplain.
  { apply plain_spec. split_and!; by apply (is_name_mem _ _ _ Hname). }
  destruct (operand_payload_cut "PROJ " name (attrs_text attrs) eq_refl Hplain
              (attrs_text_plain attrs Hattrs)) as [Hop Hbp].
  change ("PROJ " +:+ String "(" (name +:+ ") {" +:+ attrs_text attrs +:+ "}"))
    with (proj name (attrs_text attrs)) in Hop, Hbp.
  rewrite (is_name_strip _ _ Hname) in Hop.
  rewrite attrs_text_strip in Hbp by done.
  assert (contains "*" name = false) as Hstar.
  { rewrite contains_char. by apply (is_name_mem _ _ _ Hname). }
  simpl. destruct (lookup st name) as [R|] eqn:HR; simpl.
  - rewrite (projection_of_source st _ attrs (attributes R) (data R)); [|done..|].
    + by destruct R.
    + rewrite Hop. apply Fileread.projection_source_relation; [done|].
      by rewrite (is_name_strip _ _ Hname).
  - erewrite projection_no_source; [done..|].
    unfold Fileread.projection_source.
    by rewrite Hop, Hstar, (is_name_strip _ _ Hname), HR.
Qed.

Lemma project_cross_refines st l r attrs :
  is_name "*" l = true → is_name "*" r = true → attrs_ok attrs = true →
  ok_of (Fileread.projection st (proj (cross l r) (attrs_text attrs))) =
  ok_of (table_of <$>
         eval st (Project (CrossProduct (RelationRef l) (RelationRef r)) attrs)).
Proof.
  intros Hl Hr Hattrs.
  pose proof (paren_operand_proj_cross l r Hl Hr _ (attrs_text_plain _ Hattrs))
    as Hop.
  pose proof (brace_payload_proj_cross l r Hl Hr _ (attrs_text_plain _ Hattrs))
    as Hbp.
  rewrite attrs_text_strip in Hbp by done.
  assert (Fileread.projection_source st (star l r) =
          A ← Fileread.get_relation_data st l;
          B ← Fileread.get_relation_data st r;
          Ok (attributes (cross_op A B), data (cross_op A B))) as Hsrc.
  { rewrite Fileread.projection_source_cross by apply star_contains.
    rewrite (crossproduct_star st _ l r Hl Hr)
      by (rewrite <-Hop; apply Fileread.paren_operand_idemp).
    by destruct (Fileread.get_relation_data st l),
      (Fileread.get_relation_data st r). }
  unfold Fileread.get_relation_data in Hsrc. simpl.
  destruct (lookup st l) as [A|], (lookup st r) as [B|]; simpl in *;
    try (erewrite projection_no_source; [done|done|by rewrite Hop]).
  by rewrite (projection_of_source st _ attrs _ _ Hattrs Hbp)
    by (by rewrite Hop).
Qed.

(** *** A law of the evaluator *)

(** Filter and project commute: over a source that evaluates to a
    well-formed relation, the projection of a selection is the selection
    of the projection when the attributes of the condition are among the
    projected ones. *)
Lemma eval_select_project_commute st e c attrs R :
  eval st e = Ok R → relation_wf R →
  Forall (λ p, pred_attr p ∈ attrs) (cond_preds c) →
  ok_of (eval st (Project (Select e c) attrs)) =
  ok_of (eval st (Select (Project e attrs) c)).
Proof.
  intros He HR Hc. simpl. rewrite He. simpl.
  by apply select_project_commute.
Qed.

(** *** newonetest.py on the simple expressions *)

(** A query without [U] and [-] that is not in parentheses goes to the
    method of its prefix. *)
Lemma execute_query_prefix fuel st q c t :
  q = String c t → c ≠ "("%char →
  contains "U" q = false → contains "-" q = false →
  Newonetest.execute_query (S fuel) st q =
  if startswith q "SELE" then Done (Newonetest.selection st q)
  else if startswith q "PROJ" then Done (Newonetest.projection st q)
  else if startswith q "X" then Done (Raise (AttributeError "crossproduct"))
  else mret [].
Proof.
  intros -> Hc HU Hm. rewrite Newonetest.execute_query_unfold.
  assert (Newonetest.unwrap (String c t) = String c t) as ->
    by (unfold Newonetest.unwrap; by rewrite startswith_head_ne).
  cbv zeta. by rewrite HU, Hm.
Qed.

Lemma select_rows_refine st name comb p :
  is_name "" name = true → pred_ok p = true →
  ok_of (Newonetest.selection st (sele name (pred_text p))) =
  ok_of (data <$> eval st (Select (RelationRef name) (Condition comb [p]))).
Proof.
  intros Hname Hp.
  assert (plain name = true) as Hplain.
  { apply plain_spec. split_and!; by apply (is_name_mem _ _ _ Hname). }
  assert (cond_ok (Condition comb [p]) = true) as Hc
    by (unfold cond_ok; simpl; by rewrite Hp).
  destruct (operand_payload_cut "SELE " name (pred_text p) eq_refl Hplain
              (cond_text_plain (Condition comb [p]) Hc)) as [Hop Hbp].
  change ("SELE " +:+ String "(" (name +:+ ") {" +:+ pred_text p +:+ "}"))
    with (sele name (pred_text p)) in Hop, Hbp.
  rewrite (is_name_strip _ _ Hname) in Hop.
  rewrite (pred_text_strip p Hp) in Hbp. simpl.
  destruct (lookup st name) as [R|] eqn:HR; simpl.
  - apply (Newonetest.selection_refines st _ (pred_text p) R p);
      rewrite ?Hop; [done..|by apply predicate_of_text].
  - unfold Newonetest.selection. by rewrite Hbp, Hop, HR.
Qed.

Lemma project_rows_refine st name attrs :
  is_name "*" name = true → attrs_ok attrs = true →
  ok_of (Newonetest.projection st (proj name (attrs_text attrs))) =
  ok_of (data <$> eval st (Project (RelationRef name) attrs)).
Proof.
  intros Hname Hattrs.
  assert (plain name = true) as Hplain.
  { apply plain_spec. split_and!; by apply (is_name_mem _ _ _ Hname). }
  destruct (operand_payload_cut "PROJ " name (attrs_text attrs) eq_refl Hplain
              (attrs_text_plain attrs Hattrs)) as [Hop Hbp].
  change ("PROJ " +:+ String "(" (name +:+ ") {" +:+ attrs_text attrs +:+ "}"))
    with (proj name (attrs_text attrs)) in Hop, Hbp.
  rewrite (is_name_strip _ _ Hname) in Hop.
  rewrite attrs_text_strip in Hbp by done. simpl.
  destruct (lookup st name) as [R|] eqn:HR; simpl.
  - rewrite (Newonetest.projection_refines_rows st _ _ R Hbp)
      by (by rewrite Hop).
    by rewrite split_attrs_text.
  - unfold Newonetest.projection. by rewrite Hbp, Hop, HR.
Qed.

(** C13: newonetest.py implements the evaluator of the specification on
    the simple expressions.  For a selection by one predicate or a
    projection over a stored relation, written with well-formed names and
    without the characters [U] and [-], [execute_query] on the text of
    the expression returns the rows, without the header, of the relation
    that [eval] gives, and raises when [eval] fails. *)
Theorem execute_query_refines fuel st e :
  simple e = true →
  ∃ v, Newonetest.execute_query (S fuel) st (text_of e) = Done v ∧
       ok_of v = ok_of (data <$> eval st e).
Proof.
  unfold simple. rewrite !andb_true_iff, !negb_true_iff.
  intros [[[Hflat Hone] HU] Hm].
  apply flat_inv in Hflat
    as [(name&c&->&Hname&Hc)|[(name&attrs&->&Hname&Hattrs)|
        [(?&?&?&->&_)|[(?&?&->&_)|(?&?&->&_)]]]]; try done.
  - destruct c as [comb [|p [|]]]; try done.
    exists (Newonetest.selection st (sele name (pred_text p))). split.
    + exact (execute_query_prefix fuel st (sele name (pred_text p)) "S" _
               eq_refl ltac:(done) HU Hm).
    + apply select_rows_refine; [done|].
      by apply andb_true_iff in Hc as [_ [? _]%andb_true_iff].
  - exists (Newonetest.projection st (proj name (attrs_text attrs))). split.
    + exact (execute_query_prefix fuel st (proj name (attrs_text attrs)) "P" _
               eq_refl ltac:(done) HU Hm).
    + by apply project_rows_refine.
Qed.

(** C6: Fileread.py implements the evaluator of the specification on the
    flat expressions.  For an operator over stored relations, or a
    projection over the product of two, written with well-formed names,
    conditions and attribute lists, the line with the text of the
    expression is recorded with the table of the relation that [eval]
    gives, and with no table when [eval] fails; for a selection under the
    condition that its attributes resolve in the store as in the
    relation. *)
Theorem process_query_refines fuel st e :
  flat e = true → resolves st e →
  ∃ o, Fileread.process_query fuel st (text_of e) = Done (Ok (text_of e, o)) ∧
       table_of_outcome o = ok_of (table_of <$> eval st e).
Proof.
  intros [(name&c&->&Hname&Hc)|[(name&attrs&->&Hname&Hattrs)|
          [(l&r&attrs&->&Hl&Hr&Hattrs)|[(l&r&->&Hl&Hr)|(l&r&->&Hl&Hr)]]]]%flat_inv
    Hres; eexists;
    (split; [by first [apply sele_dispatch|apply proj_dispatch
                      |apply cross_dispatch|apply union_dispatch]|]);
    rewrite table_of_outcome_of.
  - by apply select_refines.
  - by apply project_refines.
  - by apply project_cross_refines.
  - by apply cross_refines.
  - by apply union_refines.
Qed.

End lines.

(** ** The properties on the database [company] *)

Lemma condition_roundtrip_witness :
  Fileread.parse_conditions "salary > '40' OR name = 'Al'" =
    ["salary > '40'"; "name = 'Al'"] ∧
  Forall (λ p,
    split_ws (pred_text p) =
      [pred_attr p; op_text (pred_op p); "'" +:+ pred_lit p +:+ "'"] ∧
    strip_chars "'" ("'" +:+ pred_lit p +:+ "'") = pred_lit p ∧
    predicate_of (pred_text p) = Ok p)
    [Predicate "salary" OpGt "40"; Predicate "name" OpEq "Al"].
Proof.
  apply (condition_roundtrip
           (Condition COr [Predicate "salary" OpGt "40";
                           Predicate "name" OpEq "Al"])).
  reflexivity.
Defined.

Lemma execute_query_refines_witness :
  ∃ v, Newonetest.execute_query 1 company "SELE (EMP) {salary > '60'}" = Done v ∧
       ok_of v = Some [["2"; "Bo"; "90"]].
Proof.
  exact (execute_query_refines 0 company
           (Select (RelationRef "EMP") (Condition CAnd [Predicate "salary" OpGt "60"]))
           eq_refl).
Defined.

Lemma process_query_refines_witness :
  ∃ o, Fileread.process_query 1 company
         "SELE (EMP) {salary > '40' OR name = 'Al'}" =
       Done (Ok ("SELE (EMP) {salary > '40' OR name = 'Al'}", o)) ∧
       table_of_outcome o = Some [["id"; "name"; "salary"]; ["1"; "Al"; "50"]].
Proof.
  refine (process_query_refines 1 company
            (Select (RelationRef "EMP")
               (Condition COr [Predicate "salary" OpGt "40";
                               Predicate "name" OpEq "Al"])) eq_refl _).
  intros R [= <-]. split; [done|]. by repeat constructor.
Defined.
