(* ===== verification/Scenario.v ===== *)
(** * Scenario: the end-to-end scenario of the specification on both versions

    The queries of section 8 of the specification on the relations
    [EMP(id, name, salary)] and [DEPT(id, dname)], followed by one more
    line, evaluated by the batch loops of Fileread.py and newonetest.py
    and written to the report by the two programs run on the files of
    the relations and on the query file, with what Fileread.py prints on
    the way.  Floats are the decimal rationals of PyFloat.v, sets keep
    the order of first occurrence and texts are printed as CPython 3.11
    prints them; none of the results below depends on the first two. *)

From S2P Require Import Prelude PyString PyFloat PySet Relation PyCsv PyStr.
From S2P Require Import Algebra Fileread Newonetest Script Stdout Files.

Definition scenario : list string :=
  ["PROJ (SELE (EMP) {salary > '60'}) {name}";
   "X (EMP * DEPT)";
   "EMP U EMP";
   "SELE (GHOST) {x = 'y'}";
   "PROJ (EMP) {name}"].

(** The query file of the scenario. *)
Definition scenario_file : string := text_of_lines unix scenario.

(** The scenario on the two programs.  Fileread.py: the nested
    projection fails, because the payload is cut at the first brace; the
    cross product is the one expected; [EMP U EMP] does not start with
    [U] and gives [None]; the unknown relation is recorded and the line
    after it is processed.  In the report a failed line has its text and
    the blank row only: the message of the exception is printed, not
    written.  newonetest.py: the nested projection fails in the same way;
    the cross product raises AttributeError; [EMP U EMP] is a union of
    two texts that are no queries and gives no row; the unknown relation
    is recorded and the line after it is processed, its result without a
    header; the report has no row for a failed line beside its text and
    the blank row.  For each program: the entries, the rows of the
    report, and the run on the files [EMP.csv] and [DEPT.csv] and the
    query file, with what is printed and the text of the report. *)
Example scenario_end_to_end :
  (Fileread.process_queries 2 company scenario =
   Done (Ok
     [("PROJ (SELE (EMP) {salary > '60'}) {name}",
       Fileread.Error (ValueError
         "Attribute 'salary > '60'' not found in relation 'EMP'."));
      ("X (EMP * DEPT)",
       Fileread.Result (PyList [["id"; "name"; "salary"; "id"; "dname"];
                                ["1"; "Al"; "50"; "1"; "Eng"];
                                ["2"; "Bo"; "90"; "1"; "Eng"]]));
      ("EMP U EMP", Fileread.Result PyNone);
      ("SELE (GHOST) {x = 'y'}",
       Fileread.Error (ValueError "Relation 'GHOST' not found."));
      ("PROJ (EMP) {name}",
       Fileread.Result (PyList [["name"]; ["Al"]; ["Bo"]]))]) ∧
   fileread_main 2 company_dir scenario =
   Done (Ok
     [["PROJ (SELE (EMP) {salary > '60'}) {name}"]; [];
      ["X (EMP * DEPT)"];
      ["id"; "name"; "salary"; "id"; "dname"];
      ["1"; "Al"; "50"; "1"; "Eng"]; ["2"; "Bo"; "90"; "1"; "Eng"]; [];
      ["EMP U EMP"]; [];
      ["SELE (GHOST) {x = 'y'}"]; [];
      ["PROJ (EMP) {name}"]; ["name"]; ["Al"]; ["Bo"]; []]) ∧
   Run.fileread_main 2 company_files scenario_file =
   (["Error processing query 'PROJ (SELE (EMP) {salary > '60'}) {name}': Attribute 'salary > '60'' not found in relation 'EMP'.";
     "Query: X (EMP * DEPT)";
     "Result: [['id', 'name', 'salary', 'id', 'dname'], ['1', 'Al', '50', '1', 'Eng'], ['2', 'Bo', '90', '1', 'Eng']]";
     "Query: EMP U EMP"; "Result: None";
     "Error processing query 'SELE (GHOST) {x = 'y'}': Relation 'GHOST' not found.";
     "Query: PROJ (EMP) {name}"; "Result: [['name'], ['Al'], ['Bo']]"],
    Done (Ok (text_of_lines dos
      ["PROJ (SELE (EMP) {salary > '60'}) {name}"; "";
       "X (EMP * DEPT)"; "id,name,salary,id,dname";
       "1,Al,50,1,Eng"; "2,Bo,90,1,Eng"; "";
       "EMP U EMP"; "";
       "SELE (GHOST) {x = 'y'}"; "";
       "PROJ (EMP) {name}"; "name"; "Al"; "Bo"; ""])))) ∧
  (Newonetest.process_queries 42 company scenario =
   Done (Ok
     [("PROJ (SELE (EMP) {salary > '60'}) {name}",
       Newonetest.Error (ValueError
         "Attribute 'salary > '60'' not found in relation 'EMP'."));
      ("X (EMP * DEPT)", Newonetest.Error (AttributeError "crossproduct"));
      ("EMP U EMP", Newonetest.Result []);
      ("SELE (GHOST) {x = 'y'}",
       Newonetest.Error (ValueError "Relation 'GHOST' not found."));
      ("PROJ (EMP) {name}", Newonetest.Result [["Al"]; ["Bo"]])]) ∧
   newonetest_main 42 company_dir scenario =
   Done (Ok
     [["PROJ (SELE (EMP) {salary > '60'}) {name}"]; [];
      ["X (EMP * DEPT)"]; [];
      ["EMP U EMP"]; [];
      ["SELE (GHOST) {x = 'y'}"]; [];
      ["PROJ (EMP) {name}"]; ["Al"]; ["Bo"]; []]) ∧
   Text.newonetest_main 42 company_files scenario_file =
   Done (Ok (text_of_lines dos
     ["PROJ (SELE (EMP) {salary > '60'}) {name}"; "";
      "X (EMP * DEPT)"; "";
      "EMP U EMP"; "";
      "SELE (GHOST) {x = 'y'}"; "";
      "PROJ (EMP) {name}"; "Al"; "Bo"; ""]))).
Proof. repeat split; reflexivity. Qed.
